(* ===== verification/_CoqProject ===== *)
-Q . S2P
Prelude.v
GpuTypes.v
Alignment.v
DeletionQueue.v
FrameRing.v
Registry.v
DrawObjects.v
Texture.v
CommandBuffer.v
RenderPass.v
Descriptors.v
Semaphores.v
Draw.v
MainLoop.v
ShaderModule.v
Upload.v
Engine.v
