(* ===== verification/Prelude.v ===== *)
(** * A verification development for vulkan_start_point

    The repository is a small real-time renderer written against Vulkan
    ([src/src/vk_engine.cpp], [vk_texture.cpp], [vk_renderObjects.cpp] and
    their headers).  One control thread owns a [VulkanEngine] object whose
    fields hold every GPU handle.  [init] builds the device, swapchain,
    command pools, render pass, framebuffers, fences and semaphores,
    descriptor sets, pipelines, textures and meshes, and registers a
    destructor for each object with a [DeletionQueue]; [draw] runs one frame
    of a double-buffered ring ([FRAME_OVERLAP = 2]); [cleanup] drains the
    queue in reverse order and destroys the device and instance.

    The development is a shallow embedding: C++ functions are Rocq
    functions over explicit state, integers keep the width of the C++ type
    they model ([size_t] and [VkDeviceSize] as 64-bit, [uint32_t] and [int]
    as 32-bit, with wrap-around written out), maps ([std::unordered_map])
    are stdpp [gmap]s keyed by [string], pointers into those maps are the
    key (or [None] for [nullptr]), and GPU handles are opaque numbers.
    Every [VK_CHECK] failure is the [Err VkAbort] value of the [result]
    monad of this file; undefined behaviour (a null dereference, a write
    past a buffer) is an [Err] of its own kind.

    Files (in the order of [_CoqProject]):
    - [Prelude.v] (this file): the [vk_scope] notations, the [result]
      monad, machine-width helpers ([wrap], [to_uint32], [to_int32]), the
      [vk] hint database and shared list lemmas.
    - [GpuTypes.v]: the constants of [vk_engine.h], the handle records of
      [vk_types.h] and [vk_mesh.h], and the memory layout of the structs
      copied into GPU buffers ([vk_frameData.h], [vk_mesh.h]) under the C++
      rules of glm (alignment 4) and the GLSL [std140] / [std430] rules.
      Theorem: the engine's camera and scene structs have the offsets and
      size of their [std140] uniform blocks and its object and
      push-constant structs those of [std430], which is what its [memcpy]s
      into GPU memory rely on (via the lemma that any struct of [vec4]
      and [mat4] members has the same layout on both sides).
    - [Alignment.v]: [VulkanEngine::pad_uniform_buffer_size] on 64-bit
      [size_t] and the scene-buffer offsets of [init_descriptors] and
      [draw_objects].  Theorems: the mask equals the ceiling formula for
      power-of-two alignments, the result is aligned, at least the input
      and smaller than input plus alignment, alignment 1 and 0 are the
      identity, the two per-frame regions are disjoint and inside the
      buffer, and the padding wraps near [2^64].
    - [DeletionQueue.v]: the [DeletionQueue] struct of [vk_engine.h]
      ([push_function], [flush]) over any action type, with the
      LIFO theorem (each registered action runs once, the last first)
      and the generic theorem that destroying in reverse creation order never
      destroys an object another live object depends on.
    - [FrameRing.v]: [_frameNumber] as a wrapping 32-bit [int],
      [get_current_frame], and the frame loop of [VulkanEngine::draw] as a
      step relation interleaved with asynchronous GPU completions.
      Theorems: the slot alternates 0,1,0,1 even across the wrap of
      [_frameNumber], at most [FRAME_OVERLAP] submissions are in flight, and
      every CPU write of a frame's buffers (camera, object, its slice of
      the scene buffer) is disjoint from every region the GPU may still
      be reading (the invariant of section 5 of the spec), proved by rule
      induction on reachability.
    - [Registry.v]: [RenderObjectsSets] ([create_material],
      [get_material], [get_mesh]) over [gmap string], with the round trips
      of lookups after insertions.
    - [DrawObjects.v]: the command stream recorded by
      [VulkanEngine::draw_objects], its faults (null material or mesh after
      a non-null one; the object-buffer loop writes past the allocation
      exactly when there are more than [MAX_OBJECTS_NUM] objects), and a
      reference recording that rebinds everything for every object.
      Theorems: the batched recording refines the reference (every draw
      sees the same pipeline, descriptor sets, dynamic offset, vertex
      buffer and arguments), the number of pipeline binds equals the
      number of material transitions, one draw per object with a mesh.

    - [Texture.v]: [vkutil::adjustImageLayout], [generateMipmaps] and the
      command lists of both [load_image_from_file] overloads, replayed on
      an image tracked as the layout of each mip level ([exec_tcmds],
      with Vulkan's valid-usage rules of barriers, copies and blits).
      Theorems: the upload leaves every level of a fresh image in
      [SHADER_READ_ONLY_OPTIMAL] for any number of levels, every blit
      reads the full level [i-1] and writes the full level [i], the mip
      count reaches exactly a 1 x 1 level, and the [int] product of the
      staging size wraps above [2^31] bytes (a finding).
    - [CommandBuffer.v]: the command-buffer lifecycle (initial,
      recording inside or outside a render pass, executable, pending,
      invalid) against the interface [RecordScope], a class saying where
      each command may be recorded, implemented by the command types of
      [Texture.v], [DrawObjects.v] and [RenderPass.v]; the upload command
      pool as a [gmap] of buffers with [beginSigleTimeCommands],
      [endSigleTimeCommands], [copyBufferToImage] and [immediate_submit].
      Theorems: the mip-mapped upload submits exactly the two command
      lists of [Texture.load_image_cmds], frees both single-time buffers
      and leaves nothing pending; [immediate_submit] keeps the upload
      buffer reusable for any number of calls, and a fence-wait timeout
      makes its pool reset invalid (a finding).
    - [RenderPass.v]: the attachment, subpass and dependency descriptions
      of [init_default_renderpass], kept in the engine's member vectors,
      with the valid usage of [VkRenderPassCreateInfo] and the layout
      transitions of a render pass instance; [record_cmdbuffers].
      Theorems: the render pass is valid and leaves the swapchain image in
      [PRESENT_SRC_KHR] from any starting layout; and, composing with the
      frame ring, recording in any reachable state where [draw] has
      acquired an image resets a non-pending buffer, keeps every draw
      inside the render pass and ends with an executable buffer.
    - [Descriptors.v]: the descriptor model of [init_descriptors] and
      [init_scene]: the set layouts and their bindings, the pool counting
      its sets and descriptors, [vkAllocateDescriptorSets] (which yields
      [VK_NULL_HANDLE] on an exhausted pool), the writes of
      [vkUpdateDescriptorSets] with their valid usage against the device
      limits ([DeviceLimits]), the set layouts of the two pipeline layouts
      of [init_pipelines], and [draw_ok], the valid usage of the sets a
      recorded draw uses.  Theorems: on any device within the limits the
      Vulkan specification guarantees and a pool of at least five sets,
      every set is allocated and written and, composing with
      [DrawObjects.v] and [Alignment.v], every draw [draw_objects]
      records sees its pipeline layout's sets bound, compatible, fully
      written and with an aligned, in-bounds dynamic offset; with fewer
      sets the unchecked allocation makes a write to [VK_NULL_HANDLE]
      (a finding).
    - [Semaphores.v]: the present and render semaphores of the two frame
      slots and the calls of [draw] that use them, interleaved with the
      GPU executing submissions and the presentation engine executing
      acquire signals and present waits.  Theorems: every acquire finds
      its semaphore free and every submission waits on a signalled or
      signal-pending semaphore, by an invariant over all runs.
    - [Draw.v]: one call of [VulkanEngine::draw] as an executable
      function over the [VkResult]s the driver returns, with [VK_CHECK]
      written out ([if (err)] aborts on every nonzero code), composing the
      frame ring, [record_cmdbuffers] on the frame's command buffer and
      the command-buffer lifecycle; [run_frames] interleaves calls with
      GPU completions.  Theorems: the function implements the step
      relation of [FrameRing.v] (every state it reaches is reachable
      there, so its theorems apply) and never fails validation, its only
      error being the [abort()] of [VK_CHECK]; between frames it submits
      exactly when its five calls succeed, so [VK_SUBOPTIMAL_KHR], a
      success code, aborts the process (a finding).
    - [MainLoop.v]: [VulkanEngine::run], the event-polling loop, over a
      finite prefix of the event stream and any [draw]; theorem: it
      returns exactly after the iteration of the first [SDL_QUIT] (that
      frame still drawn) and never without one.
    - [ShaderModule.v]: [load_shader_module], the SPIR-V file read into
      a [std::vector<uint32_t>] and the valid usage of
      [VkShaderModuleCreateInfo].  Theorems: a well-formed module's bytes
      read back as its words (a round trip through coqutil's
      little-endian [le_split] / [le_combine]); a file whose size is not a
      multiple of 4 overflows the vector, and an empty or non-SPIR-V file
      reaches the driver (findings).
    - [Upload.v]: the bytes of the vertex upload of [upload_mesh]:
      buffer memory as byte lists, [memcpy] into the mapped staging
      buffer, [vkCmdCopyBuffer] with its valid usage, and the object
      representation of [struct Vertex].  Theorem: the vertex buffer read
      with the struct layout gives back exactly the mesh's vertices.
    - [Engine.v]: the GPU object model ([GpuObj] with the dependency
      relation of Vulkan), the [VulkanEngine] fields [init] writes, every
      [init_*] step, [load_mipmap_texture] (and [load_texture], its single-level
      variant that [init] does not call), [load_meshes], [init_scene],
      [init_imgui] and [cleanup] as state passing over the set of live
      objects and the deletion queue.  The collaborators' answers
      (swapchain image count, shader and asset loading, format features,
      allocation limit, the upload fence wait) are the [Platform] record.
      Theorems: for every platform on which [init] completes, [cleanup]
      destroys every object exactly once and never one another live object
      depends on; the texture and mesh upload protocols (staging buffers
      destroyed, destructors registered once); a missing texture file
      leaves a null image view in a descriptor, and an empty mesh aborts
      (findings against the spec).

    Bounds and fuel.  No definition needs fuel: every loop of the code
    ([flush], the mip loop, the draw loop, the frame-buffer and frame
    loops of [init], [run]) iterates over a list or a count fixed before
    it starts and is a structural [Fixpoint]; [run] is given the finite
    prefix of the event stream it reads, so a run without [SDL_QUIT] is
    reported as still running rather than cut off.  The frame loop is a
    step relation, and its theorems hold in every reachable state.
    Integer widths are those of the code; the alignment theorems assume a
    power-of-two [minUniformBufferOffsetAlignment] of at most [2^31], which
    Vulkan guarantees (it guarantees at most 256, the bound
    [Descriptors.limits_ok] uses together with the guaranteed minimum
    uniform and storage ranges).  The descriptor pool's [maxSets] comes
    from [vkinit::descriptor_pool_create_info], whose body is not in the
    repository, and is a parameter: five sets are enough and fewer fail.

    Not modelled: SDL windowing and ImGui (third-party I/O; [run] is
    modelled only as the polling loop around [draw]), the compilation of
    the GLSL sources to SPIR-V (the build runs [glslc]; only the loading of
    its output is modelled),
    OBJ and image decoding (the spec treats them as collaborators; their
    results are [Platform] inputs), floating-point matrix values and the
    clear colour (opaque values here), allocation or submission failures
    that throw in [vk_texture.cpp], the pipeline state description of
    [init_pipelines], and the vk-bootstrap wrapper.  Files of the
    repository absent from [src/] (vk_initializers, vk_pipelines,
    vk_mesh.cpp, vk_descriptor) are used only at their interface. *)

From stdpp Require Export base list gmap strings.
From Stdlib Require Export ZArith Lia.

Declare Scope vk_scope.
Delimit Scope vk_scope with vk.
Open Scope Z_scope.

(** ** Errors and the result monad *)

(** The ways an engine operation stops: [VkAbort] is the [abort()] of
    [VK_CHECK] (or an exception of [vk_texture.cpp]), the others are
    undefined behaviour of the C++ code. *)
Inductive vk_error :=
| VkAbort
| NullDeref
| OutOfBounds
| Validation.

#[export] Instance vk_error_eq_dec : EqDecision vk_error.
Proof. solve_decision. Defined.

Inductive result (A : Type) :=
| Ok (a : A)
| Err (e : vk_error).
Arguments Ok {A} a.
Arguments Err {A} e.

Definition rbind {A B} (m : result A) (k : A -> result B) : result B :=
  match m with Ok a => k a | Err e => Err e end.

Notation "'let!' x := m 'in' k" := (rbind m (fun x => k))
  (at level 10, x name, m at level 100, k at level 200) : vk_scope.
Notation "'let!' ' p := m 'in' k" := (rbind m (fun x => match x with p => k end))
  (at level 10, p pattern, m at level 100, k at level 200) : vk_scope.

Open Scope vk_scope.

Definition is_ok {A} (r : result A) : bool :=
  match r with Ok _ => true | Err _ => false end.

Lemma Ok_inj {A} (a b : A) : Ok a = Ok b -> a = b.
Proof. by intros [= ->]. Qed.

Lemma rbind_Ok {A B} (m : result A) (k : A -> result B) b :
  rbind m k = Ok b <-> exists a, m = Ok a /\ k a = Ok b.
Proof. destruct m; simpl; split; [eauto| by intros (?&?&?); simplify_eq | done | by intros (?&?&?)]. Qed.

(** ** Machine integers *)

(** [wrap w z] is the value a [w]-bit unsigned C++ variable holds after
    the assignment of [z]. *)
Definition wrap (w z : Z) : Z := z mod 2 ^ w.

Definition to_uint32 (z : Z) : Z := wrap 32 z.
Definition to_size_t (z : Z) : Z := wrap 64 z.

(** Two's complement reading of the low 32 bits: the value of an [int]. *)
Definition to_int32 (z : Z) : Z :=
  let u := wrap 32 z in if u <? 2 ^ 31 then u else u - 2 ^ 32.

Lemma wrap_range w z : 0 <= w -> 0 <= wrap w z < 2 ^ w.
Proof. intros. unfold wrap. apply Z.mod_pos_bound. apply Z.pow_pos_nonneg; lia. Qed.

Lemma wrap_small w z : 0 <= z < 2 ^ w -> wrap w z = z.
Proof. intros. unfold wrap. by apply Z.mod_small. Qed.

Lemma wrap_wrap w z : wrap w (wrap w z) = wrap w z.
Proof. unfold wrap. apply Zmod_mod. Qed.

Lemma to_int32_range z : - 2 ^ 31 <= to_int32 z < 2 ^ 31.
Proof.
  unfold to_int32. pose proof (wrap_range 32 z ltac:(lia)).
  destruct (Z.ltb_spec (wrap 32 z) (2 ^ 31)); lia.
Qed.

Lemma wrap_to_int32 z : wrap 32 (to_int32 z) = wrap 32 z.
Proof.
  unfold to_int32. destruct (_ <? _); [apply wrap_wrap|].
  unfold wrap. rewrite Zminus_mod, Z_mod_same_full, Z.sub_0_r. rewrite !Zmod_mod. done.
Qed.

Lemma to_int32_small z : - 2 ^ 31 <= z < 2 ^ 31 -> to_int32 z = z.
Proof.
  intros Hz. unfold to_int32, wrap.
  destruct (Z.leb_spec 0 z).
  - rewrite Z.mod_small by lia. destruct (Z.ltb_spec z (2 ^ 31)); lia.
  - replace (z mod 2 ^ 32) with (z + 2 ^ 32).
    + destruct (Z.ltb_spec (z + 2 ^ 32) (2 ^ 31)); lia.
    + apply (Z.mod_unique _ _ (-1)); lia.
Qed.

Lemma to_int32_wrap z : to_int32 (wrap 32 z) = to_int32 z.
Proof. unfold to_int32. by rewrite wrap_wrap. Qed.

(** ** Automation *)

Create HintDb vk.
Create Rewrite HintDb vk_rw.
#[export] Hint Constants Transparent : vk.
#[export] Hint Resolve wrap_range wrap_small to_int32_range : vk.
#[export] Hint Rewrite wrap_wrap wrap_to_int32 to_int32_wrap : vk_rw.

(** Unfold the machine-width helpers and let [lia] see the [mod] facts. *)
Ltac vk_width :=
  unfold to_uint32, to_size_t, to_int32, wrap in *;
  repeat match goal with
         | |- context [?a mod ?b] =>
             let H := fresh in
             assert (H : 0 < b) by (apply Z.pow_pos_nonneg; lia);
             pose proof (Z.mod_pos_bound a b H); clear H;
             generalize dependent (a mod b); intros
         end.

(** ** Shared list lemmas *)

Lemma fold_left_app_cons {A B} (f : A -> B -> A) l x a :
  fold_left f (l ++ [x]) a = f (fold_left f l a) x.
Proof. by rewrite fold_left_app. Qed.

Lemma rev_snoc {A} (l : list A) x : rev (l ++ [x]) = x :: rev l.
Proof. by rewrite rev_app_distr. Qed.

#[export] Hint Rewrite @fold_left_app_cons @rev_snoc : vk_rw.
