(* ===== verification/GpuTypes.v ===== *)
(** Data shared by every component: the constants of [vk_engine.h] and
    [vk_engine.cpp], the byte sizes of the structs the engine copies into
    GPU buffers ([vk_frameData.h], [vk_mesh.h]), and the handle records of
    [vk_types.h].  A GPU handle is an opaque number; a [glm] matrix is an
    opaque value of type [mat4] because no theorem looks inside it. *)

From S2P Require Import Prelude.

Module GpuTypes.

(** [constexpr unsigned int FRAME_OVERLAP = 2;] *)
Definition FRAME_OVERLAP : Z := 2.

(** [const size_t MAX_OBJECTS_NUM = 10000;] in [init_descriptors]. *)
Definition MAX_OBJECTS_NUM : Z := 10000.

(** ** Struct layouts *)

(** The member types of the structs the engine copies into GPU memory. *)
Inductive GlslType := Float | Vec2 | Vec3 | Vec4 | Mat4.

(** Under glm's default configuration (no
    [GLM_FORCE_DEFAULT_ALIGNED_GENTYPES]) a [vecN] or [mat4] is an array of
    [float]s: size [4 N], alignment 4. *)
Definition cxx_size (t : GlslType) : Z :=
  match t with Float => 4 | Vec2 => 8 | Vec3 => 12 | Vec4 => 16 | Mat4 => 64 end.
Definition cxx_align (t : GlslType) : Z := 4.

(** GLSL's [std140] (uniform blocks) and [std430] (storage blocks, push
    constants) base alignments: a [vec3] or [vec4] aligns to 16, a [mat4]
    is an array of four [vec4] columns. *)
Definition glsl_align (t : GlslType) : Z :=
  match t with Float => 4 | Vec2 => 8 | Vec3 | Vec4 | Mat4 => 16 end.

Definition align_up (off a : Z) : Z := (off + a - 1) / a * a.

(** The offsets of the members laid out from [off], each at the next
    multiple of its alignment, and the offset after the last one. *)
Fixpoint member_offsets (size align : GlslType -> Z) (off : Z) (fs : list GlslType) : list Z * Z :=
  match fs with
  | [] => ([], off)
  | t :: fs' =>
      let o := align_up off (align t) in
      let '(os, e) := member_offsets size align (o + size t) fs' in (o :: os, e)
  end.

(** A struct layout: the member offsets and the size, the end rounded up
    to the struct's alignment [struct_align]. *)
Definition struct_layout (size align : GlslType -> Z) (struct_align : Z) (fs : list GlslType)
  : list Z * Z :=
  let '(os, e) := member_offsets size align 0 fs in (os, align_up e struct_align).

Definition max_align (align : GlslType -> Z) (fs : list GlslType) : Z :=
  fold_right (fun t m => Z.max (align t) m) 1 fs.

(** The C++ layout ([offsetof], [sizeof]) of a struct. *)
Definition cxx_layout (fs : list GlslType) : list Z * Z :=
  struct_layout cxx_size cxx_align (max_align cxx_align fs) fs.

(** The [std140] layout of a block: the struct alignment is rounded up to
    16. *)
Definition std140_layout (fs : list GlslType) : list Z * Z :=
  struct_layout cxx_size glsl_align (align_up (max_align glsl_align fs) 16) fs.

(** The [std430] layout: no rounding of the struct alignment. *)
Definition std430_layout (fs : list GlslType) : list Z * Z :=
  struct_layout cxx_size glsl_align (max_align glsl_align fs) fs.

(** The members of the structs of [vk_frameData.h] (9-24) and
    [vk_mesh.h] (11-14, 24-31). *)
Definition GPUObjectData_fields : list GlslType := [Mat4].
Definition GPUCameraData_fields : list GlslType := [Mat4; Mat4; Mat4].
Definition GPUSceneData_fields : list GlslType := [Vec4; Vec4; Vec4; Vec4; Vec4].
Definition MeshPushConstants_fields : list GlslType := [Vec4; Mat4].
Definition Vertex_fields : list GlslType := [Vec3; Vec3; Vec3; Vec2].

(** [sizeof] of those structs, computed from their C++ layout. *)
Definition sizeof_GPUObjectData : Z := Eval vm_compute in (cxx_layout GPUObjectData_fields).2.
Definition sizeof_GPUCameraData : Z := Eval vm_compute in (cxx_layout GPUCameraData_fields).2.
Definition sizeof_GPUSceneData : Z := Eval vm_compute in (cxx_layout GPUSceneData_fields).2.
Definition sizeof_MeshPushConstants : Z := Eval vm_compute in (cxx_layout MeshPushConstants_fields).2.
Definition sizeof_Vertex : Z := Eval vm_compute in (cxx_layout Vertex_fields).2.

(** Opaque handles ([VkBuffer], [VkImage], [VmaAllocation], ...). *)
Definition handle := Z.

(** A 4x4 matrix is never inspected by the theorems: it is an opaque
    value compared only for equality. *)
Definition mat4 := Z.

(** [struct AllocatedBuffer] and [struct AllocatedImage] of [vk_types.h]. *)
Record AllocatedBuffer := mkAllocatedBuffer {
  _buffer : handle;
  _buffer_allocation : handle
}.

Record AllocatedImage := mkAllocatedImage {
  _image : handle;
  _image_allocation : handle
}.

(** [struct Texture]. *)
Record Texture := mkTexture {
  image : AllocatedImage;
  imageView : handle
}.

#[export] Instance AllocatedBuffer_eq_dec : EqDecision AllocatedBuffer.
Proof. solve_decision. Defined.

(** A [float] is held as its IEEE-754 bit pattern (a 32-bit value); the
    engine only copies vertices, it never computes with them. *)
Definition float32 := Z.
Definition vec2 := (float32 * float32)%type.
Definition vec3 := (float32 * float32 * float32)%type.

(** [struct Vertex] of [vk_mesh.h]. *)
Record Vertex := mkVertex {
  position : vec3;
  normal : vec3;
  color : vec3;
  uv : vec2
}.

(** [struct Mesh] of [vk_mesh.h]: the CPU-side vertices and the GPU
    vertex buffer they are uploaded to. *)
Record Mesh := mkMesh {
  _vertices : list Vertex;
  _vertexBuffer : AllocatedBuffer
}.

(** ** Layout lemmas *)

Lemma align_up_id off a : 0 < a -> off mod a = 0 -> align_up off a = off.
Proof.
  intros Ha Hm. unfold align_up.
  assert (Hoff : off = a * (off / a)) by (rewrite (Z.div_mod off a) at 1; lia).
  replace (off + a - 1) with (off / a * a + (a - 1)) by lia.
  rewrite Z.div_add_l, (Z.div_small (a - 1) a) by lia. lia.
Qed.

Lemma mod16_mod off d : (d | 16) -> off mod 16 = 0 -> off mod d = 0.
Proof.
  intros Hd Hm. apply Z.mod_divide; [intros ->; by destruct Hd as [? ?]; lia|].
  apply Z.mod_divide in Hm; [|lia]. by apply (Z.divide_trans _ 16).
Qed.

(** Vectors of four components and matrices: the members whose C++ and
    GLSL layouts agree. *)
Definition vec4_like (t : GlslType) : Prop := t = Vec4 \/ t = Mat4.

Lemma member_offsets_vec4 fs off :
  Forall vec4_like fs -> off mod 16 = 0 ->
  member_offsets cxx_size cxx_align off fs = member_offsets cxx_size glsl_align off fs /\
  (member_offsets cxx_size cxx_align off fs).2 mod 16 = 0.
Proof.
  intros Hfs. revert off. induction Hfs as [|t fs Ht _ IH]; intros off Hoff; [done|].
  assert (Hend : (off + cxx_size t) mod 16 = 0).
  { destruct Ht as [-> | ->]; simpl; rewrite Zplus_mod, Hoff; reflexivity. }
  assert (Hg : glsl_align t = 16) by (by destruct Ht as [-> | ->]).
  simpl. rewrite Hg, (align_up_id off (cxx_align t)), (align_up_id off 16);
    unfold cxx_align; try lia; try (apply mod16_mod; [exists 4; lia|done]).
  destruct (IH _ Hend) as [IH1 IH2]. rewrite <- IH1.
  destruct (member_offsets _ _ _ fs) as [os e]. simpl in *. by split.
Qed.

Lemma max_align_vec4 fs :
  Forall vec4_like fs -> fs <> [] ->
  max_align cxx_align fs = 4 /\ max_align glsl_align fs = 16.
Proof.
  induction 1 as [|t fs Ht _ IH]; [done|]. intros _.
  destruct fs as [|t' fs'].
  - by destruct Ht as [-> | ->].
  - destruct (IH ltac:(discriminate)) as [H1 H2].
    change (max_align ?al (t :: ?l)) with (Z.max (al t) (max_align al l)).
    rewrite H1, H2. by destruct Ht as [-> | ->].
Qed.

(** For any struct whose members are all [vec4]s and [mat4]s the C++
    offsets and [sizeof] under glm's default alignment are the [std140]
    and the [std430] ones. *)
Lemma vec4_layouts_agree fs :
  Forall vec4_like fs ->
  std140_layout fs = cxx_layout fs /\ std430_layout fs = cxx_layout fs.
Proof.
  intros Hfs. destruct fs as [|t fs']; [done|].
  destruct (max_align_vec4 _ Hfs ltac:(discriminate)) as [Hc Hg].
  destruct (member_offsets_vec4 _ 0 Hfs eq_refl) as [Heq Hend].
  unfold std140_layout, std430_layout, cxx_layout, struct_layout.
  rewrite Hc, Hg, <- Heq. change (align_up 16 16) with 16.
  destruct (member_offsets _ _ _ _) as [os e]. simpl in Hend.
  rewrite !align_up_id; try lia; try (apply mod16_mod; [exists 4; lia|done]); done.
Qed.

(** C16. The structs the engine copies into GPU memory are read by its
    shaders at the offsets it writes them: [GPUCameraData] and
    [GPUSceneData], bound as uniform blocks, have in C++ the member
    offsets and size of their [std140] block; [GPUObjectData], the
    element of the object storage buffer, and [MeshPushConstants], the
    push-constant block, have those of [std430].  So no member is read
    at a shifted offset and the storage-buffer stride is [sizeof]. *)
Theorem shader_struct_layouts :
  std140_layout GPUCameraData_fields = cxx_layout GPUCameraData_fields /\
  std140_layout GPUSceneData_fields = cxx_layout GPUSceneData_fields /\
  std430_layout GPUObjectData_fields = cxx_layout GPUObjectData_fields /\
  std430_layout MeshPushConstants_fields = cxx_layout MeshPushConstants_fields.
Proof.
  assert (Hv : forall fs, Forall vec4_like fs -> std140_layout fs = cxx_layout fs /\ std430_layout fs = cxx_layout fs)
    by apply vec4_layouts_agree.
  split_and!; apply Hv; repeat constructor; solve [left; reflexivity | right; reflexivity].
Qed.

End GpuTypes.
Export GpuTypes.
