(* ===== verification/Alignment.v ===== *)
(** [VulkanEngine::pad_uniform_buffer_size] ([vk_engine.cpp] 1349-1358)
    on 64-bit [size_t], and the layout of the shared scene-parameter
    buffer: its size in [init_descriptors] (877) and the per-frame write
    offset and dynamic offset of [draw_objects] (1231-1235, 1265). *)

From S2P Require Import Prelude GpuTypes.

Module Alignment.

(** [~x] on a [size_t]: complement of the low 64 bits. *)
Definition size_not (x : Z) : Z := Z.lxor x (Z.ones 64).

(** [pad_uniform_buffer_size]: [minUboAlignment] is
    [_gpuProperties.limits.minUniformBufferOffsetAlignment]; the sum
    [alignedSize + minUboAlignment - 1] is computed in [size_t]. *)
Definition pad_uniform_buffer_size (minUboAlignment originalSize : Z) : Z :=
  let alignedSize := originalSize in
  if 0 <? minUboAlignment then
    Z.land (to_size_t (alignedSize + minUboAlignment - 1))
           (size_not (minUboAlignment - 1))
  else alignedSize.

(** The spec's formula [((S + A - 1) / A) * A] (section 8). *)
Definition pad_spec (A S : Z) : Z := ((S + A - 1) / A) * A.

(** [sceneParamBufferSize = FRAME_OVERLAP * pad(sizeof(GPUSceneData))]. *)
Definition sceneParamBufferSize (minUboAlignment : Z) : Z :=
  to_size_t (FRAME_OVERLAP
             * pad_uniform_buffer_size minUboAlignment sizeof_GPUSceneData).

(** [sceneData += pad_uniform_buffer_size(sizeof(GPUSceneData)) * frameIndex]:
    the byte offset of the frame's scene parameters in the mapped buffer. *)
Definition scene_write_offset (minUboAlignment frameIndex : Z) : Z :=
  to_size_t (pad_uniform_buffer_size minUboAlignment sizeof_GPUSceneData
             * frameIndex).

(** [uint32_t uniform_offset = pad_uniform_buffer_size(...) * frameIndex]:
    the dynamic offset handed to [vkCmdBindDescriptorSets], truncated to
    32 bits. *)
Definition uniform_offset (minUboAlignment frameIndex : Z) : Z :=
  to_uint32 (pad_uniform_buffer_size minUboAlignment sizeof_GPUSceneData
             * frameIndex).

(** Power-of-two alignments below [2^64] (what Vulkan guarantees for
    [minUniformBufferOffsetAlignment]). *)
Definition pow2_alignment (A : Z) : Prop := exists k, 0 <= k < 64 /\ A = 2 ^ k.

(** ** Bit-level lemmas *)

Lemma land_size_not x m :
  0 <= x < 2 ^ 64 -> 0 <= m -> Z.land x (size_not m) = Z.ldiff x m.
Proof.
  intros Hx Hm. unfold size_not. apply Z.bits_inj'. intros n Hn.
  rewrite Z.land_spec, Z.lxor_spec, Z.ldiff_spec, Z.testbit_ones by lia.
  destruct (Z.ltb_spec n 64).
  - rewrite (proj2 (Z.leb_le 0 n)) by lia. simpl. by rewrite xorb_true_r.
  - rewrite (Z.bits_above_log2 x n); [done | lia |].
    destruct (Z.eq_dec x 0) as [->|]; [simpl; lia|].
    apply Z.log2_lt_pow2; [lia|].
    apply Z.lt_le_trans with (2 ^ 64); [lia | apply Z.pow_le_mono_r; lia].
Qed.

Lemma ldiff_pow2_pred x k :
  0 <= k -> Z.ldiff x (2 ^ k - 1) = (x / 2 ^ k) * 2 ^ k.
Proof.
  intros Hk. replace (2 ^ k - 1) with (Z.ones k) by (rewrite Z.ones_equiv; lia).
  rewrite Z.ldiff_ones_r, Z.shiftl_mul_pow2, Z.shiftr_div_pow2 by lia. done.
Qed.

(** The core equation: for [A = 2^k] the mask rounds the wrapped sum
    down to a multiple of [A]. *)
Lemma pad_pow2_eq k S :
  0 <= k < 64 -> 0 <= S < 2 ^ 64 ->
  pad_uniform_buffer_size (2 ^ k) S
  = (to_size_t (S + 2 ^ k - 1) / 2 ^ k) * 2 ^ k.
Proof.
  intros Hk HS. unfold pad_uniform_buffer_size.
  assert (Hpos : 0 < 2 ^ k) by (apply Z.pow_pos_nonneg; lia).
  rewrite (proj2 (Z.ltb_lt 0 _)) by lia.
  rewrite land_size_not by (try apply wrap_range; lia).
  apply ldiff_pow2_pred; lia.
Qed.

Lemma pow2_lt_64 k : 0 <= k < 64 -> 0 < 2 ^ k <= 2 ^ 63.
Proof.
  intros Hk. split; [apply Z.pow_pos_nonneg; lia|].
  apply Z.pow_le_mono_r; lia.
Qed.

#[export] Hint Resolve pow2_lt_64 : vk.

Lemma pow2_alignment_pos A : pow2_alignment A -> 0 < A <= 2 ^ 63.
Proof. intros (k & Hk & ->). by apply pow2_lt_64. Qed.

(** Quotient/remainder facts of [x / A * A], shared by the bound proofs. *)
Lemma div_mul_bounds x A : 0 < A -> x - A < x / A * A <= x.
Proof.
  intros HA. pose proof (Z.div_mod x A ltac:(lia)).
  pose proof (Z.mod_pos_bound x A HA). lia.
Qed.

Lemma pad_no_overflow A S :
  pow2_alignment A -> 0 <= S -> S + A - 1 < 2 ^ 64 ->
  pad_uniform_buffer_size A S = (S + A - 1) / A * A.
Proof.
  intros HA HS Hov. pose proof (pow2_alignment_pos A HA).
  destruct HA as (k & Hk & ->).
  rewrite pad_pow2_eq by lia. unfold to_size_t. rewrite wrap_small by lia. done.
Qed.

(** ** Properties of the padding *)

(** C32. For a power-of-two alignment and a sum that does not overflow
    [size_t], the mask of [pad_uniform_buffer_size] computes the spec's
    ceiling formula [((S + A - 1) / A) * A]. *)
Theorem pad_matches_spec A S :
  pow2_alignment A -> 0 <= S -> S + A - 1 < 2 ^ 64 ->
  pad_uniform_buffer_size A S = pad_spec A S.
Proof. apply pad_no_overflow. Qed.

(** For a power-of-two alignment the padded size is always a multiple
    of the alignment, even when the sum wraps. *)
Lemma pad_pow2_aligned A S :
  pow2_alignment A -> 0 <= S < 2 ^ 64 ->
  pad_uniform_buffer_size A S mod A = 0.
Proof.
  intros HA HS. pose proof (pow2_alignment_pos A HA).
  destruct HA as (k & Hk & ->). rewrite pad_pow2_eq by lia.
  apply Z.mod_mul. lia.
Qed.

(** Without overflow the padded size is at least the original size
    and less than the original size plus the alignment. *)
Lemma pad_pow2_bounds A S :
  pow2_alignment A -> 0 <= S -> S + A - 1 < 2 ^ 64 ->
  S <= pad_uniform_buffer_size A S < S + A.
Proof.
  intros HA HS Hov. pose proof (pow2_alignment_pos A HA).
  rewrite pad_no_overflow by done.
  pose proof (div_mul_bounds (S + A - 1) A ltac:(lia)). lia.
Qed.

(** Alignment 1 leaves every [size_t] unchanged, and a zero alignment
    (the [minUboAlignment > 0] guard) returns the size as it is. *)
Theorem pad_identity S :
  0 <= S < 2 ^ 64 ->
  pad_uniform_buffer_size 1 S = S /\ pad_uniform_buffer_size 0 S = S.
Proof.
  intros HS. split; [|done].
  change 1 with (2 ^ 0). rewrite pad_pow2_eq by lia.
  unfold to_size_t. rewrite wrap_small by lia. rewrite Z.pow_0_r, Z.div_1_r. lia.
Qed.

(** C36. When [S + A - 1] overflows [size_t] the padded size wraps to 0:
    the function has no overflow check. *)
Theorem pad_overflow_wraps_to_zero A S :
  pow2_alignment A -> 0 <= S < 2 ^ 64 -> 2 ^ 64 <= S + A - 1 ->
  pad_uniform_buffer_size A S = 0.
Proof.
  intros HA HS Hov. pose proof (pow2_alignment_pos A HA).
  destruct HA as (k & Hk & ->). rewrite pad_pow2_eq by lia.
  unfold to_size_t, wrap.
  assert (Hw : (S + 2 ^ k - 1) mod 2 ^ 64 = S + 2 ^ k - 1 - 2 ^ 64)
    by (symmetry; apply Z.mod_unique with 1; lia).
  rewrite Hw, Z.div_small by lia. lia.
Qed.

(** ** Layout of the scene-parameter ring buffer *)

(** A half-open byte range [lo, hi) of a buffer. *)
Definition range := (Z * Z)%type.
Definition disjoint_range (a b : range) : Prop := a.2 <= b.1 \/ b.2 <= a.1.

Definition scene_region (minUboAlignment frameIndex : Z) : range :=
  (scene_write_offset minUboAlignment frameIndex,
   scene_write_offset minUboAlignment frameIndex + sizeof_GPUSceneData).

Lemma scene_pad_bounds A :
  pow2_alignment A -> A <= 2 ^ 31 ->
  sizeof_GPUSceneData <= pad_uniform_buffer_size A sizeof_GPUSceneData
    < sizeof_GPUSceneData + A /\
  pad_uniform_buffer_size A sizeof_GPUSceneData mod A = 0.
Proof.
  intros HA Hle. pose proof (pow2_alignment_pos A HA).
  split; [apply pad_pow2_bounds | apply pad_pow2_aligned]; try done; unfold sizeof_GPUSceneData; lia.
Qed.

Lemma scene_offsets_eq A i :
  pow2_alignment A -> A <= 2 ^ 31 -> 0 <= i < FRAME_OVERLAP ->
  scene_write_offset A i = pad_uniform_buffer_size A sizeof_GPUSceneData * i /\
  uniform_offset A i = pad_uniform_buffer_size A sizeof_GPUSceneData * i.
Proof.
  intros HA Hle Hi. destruct (scene_pad_bounds A HA Hle) as [Hb _].
  unfold scene_write_offset, uniform_offset, to_size_t, to_uint32, FRAME_OVERLAP in *.
  unfold sizeof_GPUSceneData in *.
  split; apply wrap_small; nia.
Qed.

Lemma scene_layout_facts A i j :
  pow2_alignment A -> A <= 2 ^ 31 ->
  0 <= i < FRAME_OVERLAP -> 0 <= j < FRAME_OVERLAP -> i <> j ->
  disjoint_range (scene_region A i) (scene_region A j) /\
  0 <= scene_write_offset A i /\
  scene_write_offset A i + sizeof_GPUSceneData <= sceneParamBufferSize A /\
  uniform_offset A i = scene_write_offset A i /\
  uniform_offset A i mod A = 0.
Proof.
  intros HA Hle Hi Hj Hij. pose proof (pow2_alignment_pos A HA).
  destruct (scene_pad_bounds A HA Hle) as [Hb Hm].
  destruct (scene_offsets_eq A i HA Hle Hi) as [Ei Ui].
  destruct (scene_offsets_eq A j HA Hle Hj) as [Ej _].
  unfold disjoint_range, scene_region, sceneParamBufferSize. simpl.
  rewrite Ei, Ej, Ui. unfold to_size_t. rewrite wrap_small.
  2: { unfold FRAME_OVERLAP, sizeof_GPUSceneData in *; lia. }
  rewrite <- Z.mul_mod_idemp_l, Hm, Z.mul_0_l, Z.mod_0_l by lia.
  unfold FRAME_OVERLAP, sizeof_GPUSceneData in *. nia.
Qed.

(** C15. For a power-of-two [minUniformBufferOffsetAlignment] of at most
    [2^31], the two frames' slices of the scene buffer are disjoint and lie
    inside the buffer allocated by [init_descriptors], and the 32-bit
    dynamic offset bound in [draw_objects] equals the byte offset the CPU
    writes at and is a multiple of the alignment. *)
Theorem scene_layout_ok A i j :
  pow2_alignment A -> A <= 2 ^ 31 ->
  0 <= i < FRAME_OVERLAP -> 0 <= j < FRAME_OVERLAP -> i <> j ->
  disjoint_range (scene_region A i) (scene_region A j) /\
  0 <= scene_write_offset A i /\
  scene_write_offset A i + sizeof_GPUSceneData <= sceneParamBufferSize A /\
  uniform_offset A i = scene_write_offset A i /\
  uniform_offset A i mod A = 0.
Proof. apply scene_layout_facts. Qed.

(** ** Witnesses at the alignment of common GPUs (256 bytes) *)

Lemma pow2_256 : pow2_alignment 256.
Proof. exists 8. split; [lia | reflexivity]. Qed.

Lemma pad_matches_spec_witness :
  pad_uniform_buffer_size 256 sizeof_GPUSceneData = pad_spec 256 sizeof_GPUSceneData.
Proof. apply pad_matches_spec; [apply pow2_256 | unfold sizeof_GPUSceneData; lia..]. Defined.


Lemma pad_identity_witness :
  pad_uniform_buffer_size 1 80 = 80 /\ pad_uniform_buffer_size 0 80 = 80.
Proof. apply pad_identity; lia. Defined.

Lemma pad_overflow_wraps_to_zero_witness :
  pad_uniform_buffer_size 256 (2 ^ 64 - 1) = 0.
Proof. apply pad_overflow_wraps_to_zero; [apply pow2_256 | lia | lia]. Defined.

Lemma scene_layout_ok_witness :
  disjoint_range (scene_region 256 0) (scene_region 256 1) /\
  0 <= scene_write_offset 256 0 /\
  scene_write_offset 256 0 + sizeof_GPUSceneData <= sceneParamBufferSize 256 /\
  uniform_offset 256 0 = scene_write_offset 256 0 /\
  uniform_offset 256 0 mod 256 = 0.
Proof.
  apply scene_layout_ok; [apply pow2_256 | lia | unfold FRAME_OVERLAP; lia..].
Defined.

End Alignment.
