(* ===== verification/DeletionQueue.v ===== *)
(** The [DeletionQueue] struct of [vk_engine.h] (30-46): a
    [std::deque<std::function<void()>>] that [push_function] appends to
    and [flush] runs from the back to the front before clearing it.
    The queue is generic over the type of its actions and over the world
    they act on.  [Section Teardown] then gives the GPU-object reading of
    an action: destroying handles, which the Vulkan valid-usage rules allow
    only when no live object still depends on the destroyed one; its
    theorem shows that reverse-of-creation order always satisfies them. *)

From S2P Require Import Prelude.

#[local] Set Warnings "-clear-no-such-hyp".

Module DeletionQueue.

Section Queue.
Context {Action : Type}.

(** [struct DeletionQueue { std::deque<std::function<void()>> deletors; }] *)
Record DeletionQueue := mkDeletionQueue { deletors : list Action }.

Definition empty_queue : DeletionQueue := mkDeletionQueue [].

(** [deletors.push_back(function)] *)
Definition push_function (function : Action) (q : DeletionQueue) : DeletionQueue :=
  mkDeletionQueue (deletors q ++ [function]).

Context {World : Type} (call : Action -> World -> World).

(** [flush]: a loop from [deletors.rbegin()] to [deletors.rend()] that
    calls each stored function, followed by [deletors.clear()]. *)
Definition flush (q : DeletionQueue) (w : World) : World * DeletionQueue :=
  (fold_left (fun w f => call f w) (rev (deletors q)) w, mkDeletionQueue []).

(** Flushing a queue whose last registration is [f] runs [f] first and
    then flushes the rest. *)
Lemma flush_push_lifo (q : DeletionQueue) f w :
  (flush (push_function f q) w).1 = (flush q (call f w)).1.
Proof. unfold flush, push_function. simpl. by rewrite rev_snoc. Qed.

(** Flush is last-in first-out: after registering [fs] in order on an
    empty queue, [flush] runs each action exactly once, from the last
    registered to the first. *)
Lemma flush_runs_reversed (fs : list Action) w :
  (flush (fold_left (fun q f => push_function f q) fs empty_queue) w).1
  = fold_left (fun w f => call f w) (rev fs) w.
Proof.
  assert (Hq : forall q, deletors (fold_left (fun q f => push_function f q) fs q)
                         = deletors q ++ fs).
  { induction fs as [|f fs IH]; intros q; simpl; [by rewrite app_nil_r|].
    rewrite IH. simpl. by rewrite <- app_assoc. }
  unfold flush. by rewrite Hq.
Qed.

End Queue.

(** A logging world: each action appends its own name. *)
Definition log_call {A} (f : A) (log : list A) : list A := log ++ [f].

Arguments DeletionQueue : clear implicits.

Section Teardown.
(** GPU objects and the relation "[depends d r]: [d] must be destroyed
    before [r]" (an image view before its image, a framebuffer before
    its views and render pass, every allocation before the allocator). *)
Context {R : Type} {EqR : EqDecision R} {CntR : Countable R}
  (depends : R -> R -> bool).

(** [vkDestroy*] of one object: the object must be live and no live
    object may depend on it (otherwise the Vulkan valid-usage rules are
    broken, reported as [Validation]). *)
Definition destroy (r : R) (live : gset R) : result (gset R) :=
  if decide (r ∈ live /\ forall d, d ∈ live -> depends d r = false)
  then Ok (live ∖ {[r]}) else Err Validation.

Fixpoint destroy_all (rs : list R) (live : gset R) : result (gset R) :=
  match rs with
  | [] => Ok live
  | r :: rs' => let! live' := destroy r live in destroy_all rs' live'
  end.

(** A deletion-queue action that destroys one object; once a destroy has
    failed the world stays failed. *)
Definition destroy_call (r : R) (w : result (gset R)) : result (gset R) :=
  rbind w (destroy r).

(** A deletor that destroys several objects in order. *)
Definition destroy_group (rs : list R) (w : result (gset R)) : result (gset R) :=
  rbind w (destroy_all rs).

(** An order in which the objects of [L] can be destroyed one by one:
    no object occurs twice, and nothing destroyed at or after an object
    depends on it. *)
Definition teardown_order (L : list R) : Prop :=
  NoDup L /\
  forall i j x d, L !! i = Some x -> L !! j = Some d -> (i <= j)%nat -> depends d x = false.

(** Its executable check, for concrete lists. *)
Fixpoint teardown_orderb (L : list R) : bool :=
  match L with
  | [] => true
  | x :: L' => bool_decide (x ∉ L') && forallb (fun d => negb (depends d x)) (x :: L') &&
               teardown_orderb L'
  end.

(** A creation sequence is valid when each object is new and every
    object it depends on is already live. *)
Fixpoint creates_ok (live : gset R) (rs : list R) : Prop :=
  match rs with
  | [] => True
  | r :: rs' =>
      (r ∉ live) /\ (forall d, depends r d = true -> d ∈ live) /\
      creates_ok ({[r]} ∪ live) rs'
  end.

Lemma destroy_all_app rs1 rs2 live :
  destroy_all (rs1 ++ rs2) live = rbind (destroy_all rs1 live) (destroy_all rs2).
Proof.
  revert live. induction rs1 as [|r rs1 IH]; intros live; simpl; [done|].
  destruct (destroy r live); simpl; [apply IH | done].
Qed.

Lemma creates_ok_fresh live rs x : creates_ok live rs -> x ∈ rs -> x ∉ live.
Proof.
  revert live. induction rs as [|r rs IH]; intros live Hc Hx; [set_solver|].
  destruct Hc as (Hr & _ & Hc). apply elem_of_cons in Hx as [->|Hx]; [done|].
  specialize (IH _ Hc Hx). set_solver.
Qed.

(** Destroying the objects of a valid creation sequence in reverse order
    breaks no dependency. *)
Lemma reverse_destroy_ok (live : gset R) (rs : list R) :
  creates_ok live rs ->
  (forall b x, b ∈ live -> x ∈ rs -> depends b x = false) ->
  destroy_all (rev rs) (list_to_set rs ∪ live) = Ok live.
Proof.
  revert live. induction rs as [|r rs IH]; intros live Hc Hb; simpl.
  { f_equal. set_solver. }
  destruct Hc as (Hr & Hdeps & Hc).
  rewrite destroy_all_app.
  replace ({[r]} ∪ list_to_set rs ∪ live) with (list_to_set rs ∪ ({[r]} ∪ live))
    by set_solver.
  rewrite IH; [simpl | done |].
  - unfold destroy. case_decide as Hdec.
    { simpl. f_equal. clear -Hr. set_solver. }
    exfalso. apply Hdec.
    split; [set_solver|]. intros d Hd.
      apply elem_of_union in Hd as [Hd%elem_of_singleton | Hd].
    + subst d. destruct (depends r r) eqn:E; [|done]. by apply Hdeps in E.
    + apply Hb; set_solver.
  - intros b x Hbin Hx. apply elem_of_union in Hbin as [->%elem_of_singleton | Hbin].
    + destruct (depends r x) eqn:E; [|done]. apply Hdeps in E.
      apply (creates_ok_fresh _ _ x Hc) in Hx. clear -E Hx. set_solver.
    + apply Hb; set_solver.
Qed.

Lemma fold_destroy_call rs live :
  fold_left (fun w f => destroy_call f w) rs (Ok live) = destroy_all rs live.
Proof.
  revert live. induction rs as [|r rs IH]; intros live; simpl; [done|].
  change (destroy_call r (Ok live)) with (destroy r live).
  destruct (destroy r live) as [l'|e]; simpl; [apply IH|].
  clear IH. induction rs; simpl; done.
Qed.

(** C5. Registering the destructor of each object right after creating it
    and flushing the queue at shutdown destroys everything in an order
    that breaks no dependency, and leaves exactly the objects that were live
    before the first registration, provided none of those depends on a
    registered object. *)
Theorem flush_teardown_ok (live : gset R) (rs : list R) :
  creates_ok live rs ->
  (forall b x, b ∈ live -> x ∈ rs -> depends b x = false) ->
  (flush destroy_call (fold_left (fun q r => push_function r q) rs empty_queue)
     (Ok (list_to_set rs ∪ live))).1 = Ok live.
Proof.
  intros Hc Hb. rewrite flush_runs_reversed, fold_destroy_call.
  by apply reverse_destroy_ok.
Qed.
Lemma fold_destroy_group Ds live :
  fold_left (fun w d => destroy_group d w) Ds (Ok live) = destroy_all (concat Ds) live.
Proof.
  revert live. induction Ds as [|d Ds IH]; intros live; simpl; [done|].
  rewrite destroy_all_app. change (destroy_group d (Ok live)) with (destroy_all d live).
  destruct (destroy_all d live) as [l'|e]; simpl; [apply IH|].
  clear IH. induction Ds; simpl; done.
Qed.

Lemma teardown_order_cons x L :
  x ∉ L -> (forall d, d ∈ x :: L -> depends d x = false) -> teardown_order L ->
  teardown_order (x :: L).
Proof.
  intros Hx Hd [Hnd HL]. split; [by constructor|].
  intros [|i] [|j] y d Hy Hdj Hij; simpl in *; try lia.
  - simplify_eq. apply Hd. by apply list_elem_of_here.
  - simplify_eq. apply Hd. apply list_elem_of_further. by eapply list_elem_of_lookup_2.
  - eapply HL; eauto. lia.
Qed.

Lemma teardown_orderb_sound L : teardown_orderb L = true -> teardown_order L.
Proof.
  induction L as [|x L IH]; cbn [teardown_orderb]; intros H.
  - split; [constructor|]. intros i j x d Hi. by rewrite lookup_nil in Hi.
  - apply andb_prop in H as [H HL]. apply andb_prop in H as [Hx Hall].
    apply teardown_order_cons; [by apply bool_decide_eq_true in Hx| |by apply IH].
    intros d Hd. rewrite forallb_forall in Hall.
    apply negb_true_iff, Hall. by apply list_elem_of_In.
Qed.

Lemma teardown_order_app L1 L2 :
  teardown_order L1 -> teardown_order L2 -> (forall x, x ∈ L1 -> x ∉ L2) ->
  (forall x d, x ∈ L1 -> d ∈ L2 -> depends d x = false) -> teardown_order (L1 ++ L2).
Proof.
  intros [Hnd1 H1] [Hnd2 H2] Hdisj Hcross. split.
  { apply NoDup_app. split_and!; [done| |done]. intros x Hx1 Hx2. by apply (Hdisj x). }
  intros i j x d Hi Hj Hij.
  destruct (decide (i < length L1)%nat) as [Hi1|Hi1];
    [rewrite lookup_app_l in Hi by done | rewrite lookup_app_r in Hi by lia];
  (destruct (decide (j < length L1)%nat) as [Hj1|Hj1];
    [rewrite lookup_app_l in Hj by done | rewrite lookup_app_r in Hj by lia]).
  - eapply H1; eauto.
  - apply Hcross; eapply list_elem_of_lookup_2; eauto.
  - lia.
  - eapply H2; eauto. lia.
Qed.

Lemma destroy_all_teardown L : teardown_order L -> destroy_all L (list_to_set L) = Ok ∅.
Proof.
  induction L as [|x L IH]; intros [Hnd HL]; simpl; [done|].
  apply NoDup_cons in Hnd as [Hx Hnd].
  unfold destroy. case_decide as Hdec.
  - simpl. replace (({[x]} ∪ list_to_set L) ∖ {[x]} : gset R) with (list_to_set L : gset R).
    + apply IH. split; [done|]. intros i j y d Hi Hj Hij.
      apply (HL (S i) (S j)); simpl; auto with lia.
    + apply set_eq. intros y. rewrite elem_of_difference, elem_of_union, elem_of_singleton,
        elem_of_list_to_set. split; [|tauto]. intros Hy. split; [tauto|]. intros ->. done.
  - exfalso. apply Hdec. split; [set_solver|]. intros d Hd.
    apply elem_of_union in Hd as [->%elem_of_singleton|Hd%elem_of_list_to_set].
    + by apply (HL 0%nat 0%nat x x).
    + apply list_elem_of_lookup_1 in Hd as [j Hj]. by apply (HL 0%nat (S j) x d); [..|lia].
Qed.
End Teardown.

(** ** Witnesses *)

(** Registering [A], [B], [C] (here 1, 2, 3) and flushing calls [C], [B], [A]. *)
Example flush_log_example :
  (flush log_call (fold_left (fun q f => push_function f q) [1; 2; 3] empty_queue) []).1
  = [3; 2; 1].
Proof. reflexivity. Qed.

(** Objects numbered in creation order, each depending on all earlier ones. *)
Definition chain_depends (d r : nat) : bool := Nat.ltb r d.

Lemma flush_teardown_ok_witness :
  (flush (destroy_call chain_depends)
     (fold_left (fun q r => push_function r q) [1; 2; 3]%nat empty_queue)
     (Ok (list_to_set [1; 2; 3]%nat ∪ {[0%nat]}))).1 = Ok {[0%nat]}.
Proof.
  apply flush_teardown_ok.
  - simpl. unfold chain_depends.
    repeat split; try (clear; set_solver);
      intros d Hd; apply Nat.ltb_lt in Hd;
      (destruct d as [|[|[|]]]; try lia; clear; set_solver).
  - intros b x Hb Hx. apply elem_of_singleton in Hb as ->.
    unfold chain_depends. apply Nat.ltb_ge. apply Nat.le_0_l.
Defined.

End DeletionQueue.
