(* ===== verification/FrameRing.v ===== *)
(** The frame ring and the frame loop of [VulkanEngine::draw]
    ([vk_engine.cpp] 132-194) with [get_current_frame] (1312-1314) and
    the per-frame data of [vk_frameData.h].

    [_frameNumber] is an [int]; [get_current_frame] indexes
    [_frames[_frameNumber % FRAME_OVERLAP]], where the [int] is converted
    to [unsigned int] because [FRAME_OVERLAP] is unsigned.  [_frameNumber++]
    overflows at [2^31 - 1]; the model takes the two's complement wrap that
    compilers produce.

    One call of [draw] is a sequence of CPU steps ([Phase]); the GPU
    finishes submitted work asynchronously ([gpu_complete]), signalling
    the fence the work was submitted with.  Every [VK_CHECK] may abort, the
    two waits with a timeout of one second. *)

From Stdlib Require Import Znumtheory.
From S2P Require Import Prelude GpuTypes Alignment.

#[local] Set Warnings "-clear-no-such-hyp".

Module FrameRing.
Import Alignment.

(** [get_current_frame()] and [int frameIndex = _frameNumber % FRAME_OVERLAP]:
    the unsigned value of the [int] modulo 2. *)
Definition frame_slot (frameNumber : Z) : nat :=
  Z.to_nat (to_uint32 frameNumber mod FRAME_OVERLAP).

(** [_frameNumber++] on an [int]. *)
Definition next_frame_number (frameNumber : Z) : Z := to_int32 (frameNumber + 1).

Inductive fence_state := Signaled | Unsignaled.

#[export] Instance fence_state_eq_dec : EqDecision fence_state.
Proof. solve_decision. Defined.

(** A submission the GPU has not finished: the slot whose command buffer,
    camera buffer, object buffer and fence it uses, and the dynamic offset
    it reads the scene parameters at. *)
Record GpuWork := mkGpuWork {
  work_slot : nat;
  work_scene_offset : Z
}.

(** Where [draw] is: [Idle] between frames, then after the fence wait
    (137), the fence reset (138), the image acquisition (142-147), the
    recording of [record_cmdbuffers] (149), the queue submission (174);
    [Aborted] is the state after [abort()]. *)
Inductive Phase :=
| Idle
| Waited
| FenceReset
| Acquired (imageIndex : Z)
| Recorded (imageIndex : Z)
| Submitted (imageIndex : Z)
| Aborted.

Record FrameState := mkFrameState {
  frameNumber : Z;
  renderFences : list fence_state;  (** [_frames[i]._renderFence], length 2 *)
  pending : list GpuWork;
  phase : Phase
}.

(** After [init_sync_structures]: both fences created with
    [VK_FENCE_CREATE_SIGNALED_BIT], nothing in flight, frame 0. *)
Definition init_frame_state : FrameState :=
  mkFrameState 0 [Signaled; Signaled] [] Idle.

Definition cur_slot (s : FrameState) : nat := frame_slot (frameNumber s).

Definition set_phase (p : Phase) (s : FrameState) : FrameState :=
  mkFrameState (frameNumber s) (renderFences s) (pending s) p.

Definition set_fence (i : nat) (f : fence_state) (s : FrameState) : FrameState :=
  mkFrameState (frameNumber s) (<[i := f]> (renderFences s)) (pending s) (phase s).

(** The GPU-visible buffers the frame loop touches. *)
Inductive buffer_id :=
| CameraBuffer (slot : nat)
| ObjectBuffer (slot : nat)
| SceneParameterBuffer.

#[export] Instance buffer_id_eq_dec : EqDecision buffer_id.
Proof. solve_decision. Defined.

Definition access := (buffer_id * range)%type.

Definition conflict (a b : access) : Prop :=
  a.1 = b.1 /\ ~ disjoint_range a.2 b.2.

Section Loop.
(** [minUniformBufferOffsetAlignment], the number of swapchain images
    and the number of renderables (fixed while the loop runs). *)
Context (minUboAlignment imageCount objectCount : Z).

(** The writes of [draw_objects] for the current slot: the camera
    buffer (1221-1223), the frame's slice of the scene buffer
    (1228-1237) and one [GPUObjectData] per renderable (1240-1248). *)
Definition cpu_writes (slot : nat) : list access :=
  [(CameraBuffer slot, (0, sizeof_GPUCameraData));
   (SceneParameterBuffer, scene_region minUboAlignment (Z.of_nat slot));
   (ObjectBuffer slot, (0, sizeof_GPUObjectData * objectCount))].

(** What a submission reads: set 0 binding 0 (camera), set 0 binding 1
    at the dynamic offset (scene), set 1 (objects). *)
Definition gpu_reads (w : GpuWork) : list access :=
  [(CameraBuffer (work_slot w), (0, sizeof_GPUCameraData));
   (SceneParameterBuffer,
      (work_scene_offset w, work_scene_offset w + sizeof_GPUSceneData));
   (ObjectBuffer (work_slot w), (0, sizeof_GPUObjectData * objectCount))].

Inductive cpu_step : FrameState -> FrameState -> Prop :=
(** [vkWaitForFences(..., &get_current_frame()._renderFence, true, 1s)] *)
| step_wait s :
    phase s = Idle -> renderFences s !! cur_slot s = Some Signaled ->
    cpu_step s (set_phase Waited s)
(** [vkResetFences] *)
| step_reset s :
    phase s = Waited ->
    cpu_step s (set_phase FenceReset (set_fence (cur_slot s) Unsignaled s))
(** [vkAcquireNextImageKHR(..., 1s, _presentSemaphore, ...)] *)
| step_acquire s img :
    phase s = FenceReset -> 0 <= img < imageCount ->
    cpu_step s (set_phase (Acquired img) s)
(** [record_cmdbuffers(get_current_frame()._mainCommandBuffer, img)] *)
| step_record s img :
    phase s = Acquired img ->
    cpu_step s (set_phase (Recorded img) s)
(** [vkQueueSubmit(_graphicsQueue, 1, &submit, _renderFence)] *)
| step_submit s img :
    phase s = Recorded img ->
    cpu_step s (mkFrameState (frameNumber s) (renderFences s)
                  (mkGpuWork (cur_slot s)
                     (uniform_offset minUboAlignment (Z.of_nat (cur_slot s)))
                   :: pending s)
                  (Submitted img))
(** [vkQueuePresentKHR] and [_frameNumber++] *)
| step_present s img :
    phase s = Submitted img ->
    cpu_step s (mkFrameState (next_frame_number (frameNumber s))
                  (renderFences s) (pending s) Idle)
(** any [VK_CHECK] failure, a wait timeout included *)
| step_abort s :
    phase s <> Idle -> phase s <> Aborted ->
    cpu_step s (set_phase Aborted s)
| step_wait_timeout s :
    phase s = Idle -> renderFences s !! cur_slot s = Some Unsignaled ->
    cpu_step s (set_phase Aborted s).

(** The GPU finishes one submitted batch, in any order, and signals the
    fence of its slot. *)
Inductive gpu_step : FrameState -> FrameState -> Prop :=
| gpu_complete s w before after :
    pending s = before ++ w :: after ->
    gpu_step s (mkFrameState (frameNumber s)
                  (<[work_slot w := Signaled]> (renderFences s))
                  (before ++ after) (phase s)).

Inductive step (s s' : FrameState) : Prop :=
| step_cpu : cpu_step s s' -> step s s'
| step_gpu : gpu_step s s' -> step s s'.

Inductive reachable : FrameState -> Prop :=
| reach_init : reachable init_frame_state
| reach_step s s' : reachable s -> step s s' -> reachable s'.
End Loop.

(** An executable reading of the CPU side of one [draw] call, for running
    the loop on concrete inputs: the next CPU state when nothing fails and
    [vkAcquireNextImageKHR] returns [img], or [None] when the fence wait
    would block. *)
Definition draw_step (minUboAlignment img : Z) (s : FrameState) : option FrameState :=
  match phase s with
  | Idle =>
      match renderFences s !! cur_slot s with
      | Some Signaled => Some (set_phase Waited s)
      | _ => None
      end
  | Waited => Some (set_phase FenceReset (set_fence (cur_slot s) Unsignaled s))
  | FenceReset => Some (set_phase (Acquired img) s)
  | Acquired i => Some (set_phase (Recorded i) s)
  | Recorded i =>
      Some (mkFrameState (frameNumber s) (renderFences s)
              (mkGpuWork (cur_slot s)
                 (uniform_offset minUboAlignment (Z.of_nat (cur_slot s))) :: pending s)
              (Submitted i))
  | Submitted _ =>
      Some (mkFrameState (next_frame_number (frameNumber s)) (renderFences s) (pending s) Idle)
  | Aborted => None
  end.

Fixpoint draw_steps (minUboAlignment img : Z) (k : nat) (s : FrameState) : option FrameState :=
  match k with
  | O => Some s
  | S k' => match draw_step minUboAlignment img s with
            | Some s' => draw_steps minUboAlignment img k' s'
            | None => None
            end
  end.

Lemma draw_step_sound A n img s s' :
  0 <= img < n -> draw_step A img s = Some s' -> cpu_step A n s s'.
Proof.
  intros Himg Hs. unfold draw_step in Hs.
  destruct (phase s) eqn:Hp; try discriminate.
  - destruct (renderFences s !! cur_slot s) as [[]|] eqn:Hf; try discriminate.
    injection Hs as <-. by apply step_wait.
  - injection Hs as <-. by apply step_reset.
  - injection Hs as <-. by apply step_acquire.
  - injection Hs as <-. by apply step_record.
  - injection Hs as <-. by eapply step_submit.
  - injection Hs as <-. by eapply step_present.
Qed.

Lemma draw_steps_reachable A n img k s s' :
  0 <= img < n -> reachable A n s -> draw_steps A img k s = Some s' -> reachable A n s'.
Proof.
  intros Himg. revert s. induction k as [|k IH]; intros s Hr Hs; simpl in Hs.
  - by injection Hs as <-.
  - destruct (draw_step A img s) as [s1|] eqn:E; [|done].
    apply (IH s1); [|done]. eapply reach_step; [done|]. left. by eapply draw_step_sound.
Qed.

(** ** The slot index *)

Lemma frame_slot_mod2 f : frame_slot f = Z.to_nat (f mod 2).
Proof.
  unfold frame_slot, to_uint32, wrap, FRAME_OVERLAP.
  f_equal. apply Z.mod_mod_divide. by exists (2 ^ 31).
Qed.

Lemma frame_slot_lt f : (frame_slot f < 2)%nat.
Proof.
  rewrite frame_slot_mod2. pose proof (Z.mod_pos_bound f 2 ltac:(lia)). lia.
Qed.

#[export] Hint Resolve frame_slot_lt : vk.

Section Invariant.
Context (minUboAlignment imageCount objectCount : Z).

Definition cpu_owns (p : Phase) : Prop :=
  match p with Waited | FenceReset | Acquired _ | Recorded _ => True | _ => False end.

Definition after_reset (p : Phase) : Prop :=
  match p with FenceReset | Acquired _ | Recorded _ => True | _ => False end.

(** Phases in which the current fence may be unsignalled with no work
    in flight that will signal it. *)
Definition fence_held (p : Phase) : Prop :=
  match p with FenceReset | Acquired _ | Recorded _ | Aborted => True | _ => False end.

(** The frame-ring invariant: pending work holds its slot's fence
    unsignalled, reads the scene parameters at its slot's offset, at most
    one submission per slot is in flight, and from the fence wait to the
    submission no in-flight work uses the current slot. *)
Record frame_inv (s : FrameState) : Prop := {
  inv_fences_len : length (renderFences s) = 2%nat;
  inv_pending_slot : forall w, w ∈ pending s ->
    (work_slot w < 2)%nat /\ renderFences s !! work_slot w = Some Unsignaled /\
    work_scene_offset w = uniform_offset minUboAlignment (Z.of_nat (work_slot w));
  inv_pending_nodup : NoDup (work_slot <$> pending s);
  inv_owned : cpu_owns (phase s) -> forall w, w ∈ pending s -> work_slot w <> cur_slot s;
  inv_reset : after_reset (phase s) -> renderFences s !! cur_slot s = Some Unsignaled;
  inv_unsignaled : forall i, renderFences s !! i = Some Unsignaled ->
    (exists w, w ∈ pending s /\ work_slot w = i) \/ (i = cur_slot s /\ fence_held (phase s))
}.

Lemma frame_inv_init : frame_inv init_frame_state.
Proof.
  split; simpl; try done; [|constructor|].
  - intros w Hw. by apply not_elem_of_nil in Hw.
  - intros [|[|i]] Hi; simpl in Hi; done.
Qed.

(** Changing only the phase keeps everything but the phase clauses. *)
Lemma frame_inv_set_phase s p :
  frame_inv s ->
  (cpu_owns p -> forall w, w ∈ pending s -> work_slot w <> cur_slot s) ->
  (after_reset p -> renderFences s !! cur_slot s = Some Unsignaled) ->
  (fence_held (phase s) -> fence_held p) ->
  frame_inv (set_phase p s).
Proof.
  intros [] Ho Hr Hh. split; try done. simpl.
  intros i Hi. destruct (inv_unsignaled0 i Hi) as [?|[? ?]]; [by left|right; auto].
Qed.

Lemma cpu_step_inv s s' :
  cpu_step minUboAlignment imageCount s s' -> frame_inv s -> frame_inv s'.
Proof.
  intros Hs Hinv. destruct Hs as [s Hp Hf|s Hp|s img Hp _|s img Hp|s img Hp|s img Hp|s Hp _|s Hp _];
    pose proof Hinv as [Hlen Hpend Hnd Hown Hres Huns]; rewrite ?Hp in Hown, Hres, Huns.
  - apply frame_inv_set_phase; [done| |done|by rewrite Hp]. intros _ w Hw Heq.
    destruct (Hpend w Hw) as (_ & Hu & _). congruence.
  - split; simpl; rewrite ?length_insert; try done.
    + intros w Hw. destruct (Hpend w Hw) as (Hlt & Hu & Ho). split_and!; [done| |done].
      rewrite list_lookup_insert_ne; [done|]. apply not_eq_sym. by apply Hown.
    + intros _. apply list_lookup_insert_eq. pose proof (frame_slot_lt (frameNumber s)).
      unfold cur_slot. lia.
    + intros i Hi. destruct (decide (i = cur_slot s)) as [->|Hne]; [by right|].
      rewrite list_lookup_insert_ne in Hi by done.
      destruct (Huns i Hi) as [?|[? []]]. by left.
  - apply frame_inv_set_phase; [done|by apply Hown|by apply Hres|by rewrite Hp].
  - apply frame_inv_set_phase; [done|by apply Hown|by apply Hres|by rewrite Hp].
  - split; simpl; try done.
    + intros w [->|Hw]%elem_of_cons; [|by apply Hpend].
      simpl. split_and!; [apply frame_slot_lt|by apply Hres|done].
    + constructor; [|done]. intros Hin. apply list_elem_of_fmap_1 in Hin as (w & Heq & Hw).
      by apply (Hown I w Hw).
    + intros i Hi. left. destruct (decide (i = cur_slot s)) as [->|Hne].
      * eexists. split; [apply list_elem_of_here|done].
      * destruct (Huns i Hi) as [(w & Hw & <-)|[? _]]; [|done].
        exists w. split; [by apply list_elem_of_further|done].
  - split; simpl; try done.
    intros i Hi. destruct (Huns i Hi) as [?|[_ []]]. by left.
  - apply frame_inv_set_phase; done.
  - apply frame_inv_set_phase; done.
Qed.

Lemma gpu_step_inv : forall s s', gpu_step s s' -> frame_inv s -> frame_inv s'.
Proof.
  intros ? ? [s w before after Hpend'] [Hlen Hpend Hnd Hown Hres Huns].
  assert (Hw : w ∈ pending s) by (rewrite Hpend'; set_solver).
  assert (Hother : forall w', w' ∈ before ++ after -> work_slot w' <> work_slot w).
  { rewrite Hpend', fmap_app in Hnd. simpl in Hnd.
    apply NoDup_app in Hnd as (_ & Hdisj & Hnd2). apply NoDup_cons in Hnd2 as [Hnotin _].
    intros w' Hw' Heq. apply elem_of_app in Hw' as [Hb|Ha].
    - apply (Hdisj (work_slot w')); [by apply list_elem_of_fmap_2|]. rewrite Heq. set_solver.
    - apply Hnotin. rewrite <- Heq. by apply list_elem_of_fmap_2. }
  split; simpl; rewrite ?length_insert; try done.
  - intros w' Hw'. destruct (Hpend w') as (Hlt & Hu & Ho); [rewrite Hpend'; set_solver|].
    rewrite list_lookup_insert_ne; [done|]. by apply not_eq_sym, Hother.
  - rewrite Hpend', !fmap_app in Hnd. simpl in Hnd. rewrite fmap_app.
    apply NoDup_app in Hnd as (H1 & H2 & H3). apply NoDup_cons in H3 as [_ H3].
    apply NoDup_app. split_and!; [done| |done]. intros x Hx1 Hx2. apply (H2 x Hx1). set_solver.
  - intros Ho w' Hw'. apply Hown; [done|]. rewrite Hpend'. set_solver.
  - intros Hr. change (cur_slot _) with (cur_slot s).
    rewrite list_lookup_insert_ne; [by apply Hres|].
    apply Hown; [by destruct (phase s)|done].
  - intros i Hi. destruct (decide (i = work_slot w)) as [->|Hne].
    { by rewrite list_lookup_insert_eq in Hi by (destruct (Hpend w Hw); lia). }
    rewrite list_lookup_insert_ne in Hi by done.
    destruct (Huns i Hi) as [(w' & Hw' & <-)|?]; [left|by right].
    exists w'. split; [|done]. rewrite Hpend' in Hw'.
    apply elem_of_app in Hw' as [?|[->|?]%elem_of_cons]; [set_solver|done|set_solver].
Qed.

Lemma reachable_inv s : reachable minUboAlignment imageCount s -> frame_inv s.
Proof.
  induction 1 as [|s s' _ IH Hs]; [apply frame_inv_init|].
  destruct Hs as [Hs|Hs]; [by eapply cpu_step_inv|by eapply gpu_step_inv].
Qed.
End Invariant.

(** The image index a frame holds was returned by [vkAcquireNextImageKHR]:
    it names a swapchain image. *)
Definition image_index_ok (imageCount : Z) (p : Phase) : Prop :=
  match p with
  | Acquired i | Recorded i | Submitted i => 0 <= i < imageCount
  | _ => True
  end.

Lemma reachable_image_index A n s : reachable A n s -> image_index_ok n (phase s).
Proof.
  induction 1 as [|s s' _ IH Hs]; [done|].
  destruct Hs as [Hs|Hs]; [|by destruct Hs].
  destruct Hs as [? Hp|? Hp|? ? Hp ?|? ? Hp|? ? Hp|? ? Hp|? Hp|? Hp]; simpl;
    rewrite ?Hp in IH; simpl in *; auto.
Qed.

(** ** Properties of the frame loop *)

Lemma slots_le_2 (l : list nat) : NoDup l -> (forall x, x ∈ l -> (x < 2)%nat) -> (length l <= 2)%nat.
Proof.
  intros Hnd Hlt. change 2%nat with (length [0%nat; 1%nat]).
  apply NoDup_incl_length; [by apply NoDup_ListNoDup|]. intros x Hx%list_elem_of_In.
  specialize (Hlt x Hx). simpl. lia.
Qed.

(** C8. At most [FRAME_OVERLAP] command buffers are in flight in every
    reachable state of the loop: the fence wait is the only back-pressure,
    and it suffices. *)
Theorem frames_in_flight_bounded A n s :
  reachable A n s -> (length (pending s) <= Z.to_nat FRAME_OVERLAP)%nat.
Proof.
  intros Hr. destruct (reachable_inv A n s Hr) as [_ Hpend Hnd _ _ _].
  rewrite <- (length_fmap work_slot). apply slots_le_2; [done|].
  intros x (w & -> & Hw)%list_elem_of_fmap_1. by apply Hpend.
Qed.

Lemma disjoint_slots_no_conflict A objectCount (i j : nat) w :
  pow2_alignment A -> A <= 2 ^ 31 -> (i < 2)%nat -> (j < 2)%nat -> i <> j ->
  work_slot w = j -> work_scene_offset w = uniform_offset A (Z.of_nat j) ->
  forall a b, a ∈ cpu_writes A objectCount i -> b ∈ gpu_reads objectCount w -> ~ conflict a b.
Proof.
  intros HA HA31 Hi Hj Hij Hs Ho a b Ha Hb [Hbuf Hover].
  destruct (scene_layout_facts A (Z.of_nat i) (Z.of_nat j) HA HA31) as (Hdis & _ & _ & Heq & _);
    try (unfold FRAME_OVERLAP; lia).
  destruct (scene_layout_facts A (Z.of_nat j) (Z.of_nat i) HA HA31) as (_ & _ & _ & Heqj & _);
    try (unfold FRAME_OVERLAP; lia).
  unfold cpu_writes, gpu_reads in *. rewrite Hs, Ho in Hb.
  repeat (apply elem_of_cons in Ha as [->|Ha]; [|]); [..|by apply not_elem_of_nil in Ha];
  repeat (apply elem_of_cons in Hb as [->|Hb]; [|]); try (by apply not_elem_of_nil in Hb);
  simpl in Hbuf; try congruence.
  apply Hover. rewrite Heqj. exact Hdis.
Qed.

(** C2. No data race between the CPU and the GPU: in every reachable
    state where [draw] has acquired an image and is about to record, every
    byte range the CPU writes for the current frame (its camera buffer,
    its slice of the scene buffer, its object buffer) is disjoint from
    every range that any submission still in flight reads. *)
Theorem record_no_data_race A n objectCount s img :
  pow2_alignment A -> A <= 2 ^ 31 ->
  reachable A n s -> phase s = Acquired img ->
  forall w a b, w ∈ pending s ->
  a ∈ cpu_writes A objectCount (cur_slot s) -> b ∈ gpu_reads objectCount w ->
  ~ conflict a b.
Proof.
  intros HA HA31 Hr Hp w a b Hw Ha Hb.
  destruct (reachable_inv A n s Hr) as [_ Hpend _ Hown _ _].
  destruct (Hpend w Hw) as (Hlt & _ & Ho).
  eapply (disjoint_slots_no_conflict A objectCount (cur_slot s) (work_slot w) w); try done.
  - apply frame_slot_lt.
  - apply not_eq_sym, Hown; [by rewrite Hp|done].
Qed.

(** C31. The current slot alternates on every frame, including across the
    wrap-around of the [int] frame counter: [_frameNumber++] changes
    [_frameNumber % FRAME_OVERLAP] from 0 to 1 and from 1 to 0. *)
Theorem frame_slot_alternates f :
  frame_slot (next_frame_number f) = (1 - frame_slot f)%nat.
Proof.
  rewrite !frame_slot_mod2. unfold next_frame_number.
  assert (Hm : to_int32 (f + 1) mod 2 = (f + 1) mod 2).
  { unfold to_int32, wrap. change (2 ^ 32) with (2 * 2 ^ 31).
    destruct (_ <? _); [|rewrite Zminus_mod, (Z.mul_comm 2), Z_mod_mult, Z.sub_0_r, Zmod_mod];
      rewrite Z.mod_mod_divide; try done; by exists (2 ^ 31). }
  rewrite Hm, Z.add_mod by lia.
  pose proof (Z.mod_pos_bound f 2 ltac:(lia)).
  assert (f mod 2 = 0 \/ f mod 2 = 1) as [-> | ->] by lia; reflexivity.
Qed.

(** The slots used by [k] consecutive frames starting at frame [f]. *)
Fixpoint slots_from (f : Z) (k : nat) : list nat :=
  match k with
  | O => []
  | S k' => frame_slot f :: slots_from (next_frame_number f) k'
  end.

Example slots_first_six : slots_from 0 6 = [0; 1; 0; 1; 0; 1]%nat.
Proof. reflexivity. Qed.

Example slots_across_int_wrap :
  slots_from (2 ^ 31 - 2) 4 = [0; 1; 0; 1]%nat /\
  next_frame_number (2 ^ 31 - 1) = - 2 ^ 31.
Proof. split; reflexivity. Qed.

(** C30. The fence wait never waits for work that does not exist: in every
    reachable state between frames, the current slot's fence is signalled
    or some in-flight submission of that slot will signal it when the GPU
    completes it, after which the wait step is enabled. *)
Theorem fence_wait_progress A n s :
  reachable A n s -> phase s = Idle ->
  exists s', (s' = s \/ gpu_step s s') /\
             cpu_step A n s' (set_phase Waited s').
Proof.
  intros Hr Hp. destruct (reachable_inv A n s Hr) as [Hlen Hpend _ _ _ Huns].
  assert (Hcur : is_Some (renderFences s !! cur_slot s)).
  { apply lookup_lt_is_Some. rewrite Hlen. apply frame_slot_lt. }
  destruct Hcur as [[] Hf].
  - exists s. split; [by left|]. by apply step_wait.
  - destruct (Huns _ Hf) as [(w & Hw & Hws)|[_ Hh]]; [|by rewrite Hp in Hh].
    apply list_elem_of_split in Hw as (before & after & Hsplit).
    eexists. split; [right; by eapply gpu_complete|].
    apply step_wait; [done|]. simpl. rewrite Hws.
    apply list_lookup_insert_eq. rewrite Hlen. apply frame_slot_lt.
Qed.

(** ** Witnesses on a concrete run (alignment 256, three swapchain images) *)

(** Frame 0 complete, frame 1 has acquired its image; frame 0's work is
    still in flight. *)
Definition frame1_acquired : FrameState :=
  Eval vm_compute in default init_frame_state (draw_steps 256 1 9 init_frame_state).

(** Frames 0 and 1 submitted and presented, nothing completed yet. *)
Definition two_frames_in_flight : FrameState :=
  Eval vm_compute in default init_frame_state (draw_steps 256 1 12 init_frame_state).

Lemma frame1_acquired_reachable : reachable 256 3 frame1_acquired.
Proof. eapply (draw_steps_reachable _ _ 1 9); [lia | constructor | reflexivity]. Qed.

Lemma two_frames_reachable : reachable 256 3 two_frames_in_flight.
Proof. eapply (draw_steps_reachable _ _ 1 12); [lia | constructor | reflexivity]. Qed.

Lemma frames_in_flight_bounded_witness :
  (length (pending two_frames_in_flight) <= Z.to_nat FRAME_OVERLAP)%nat.
Proof. apply (frames_in_flight_bounded 256 3). apply two_frames_reachable. Defined.

Lemma record_no_data_race_witness :
  ~ conflict (SceneParameterBuffer, scene_region 256 1)
             (SceneParameterBuffer, (uniform_offset 256 0, uniform_offset 256 0 + sizeof_GPUSceneData)).
Proof.
  apply (record_no_data_race 256 3 1 frame1_acquired 1 pow2_256 ltac:(lia)
           frame1_acquired_reachable eq_refl (mkGpuWork 0 (uniform_offset 256 0)));
    vm_compute; repeat (first [apply list_elem_of_here | apply list_elem_of_further]).
Defined.

Lemma fence_wait_progress_witness :
  exists s', (s' = two_frames_in_flight \/ gpu_step two_frames_in_flight s') /\
             cpu_step 256 3 s' (set_phase Waited s').
Proof. apply (fence_wait_progress 256 3); [apply two_frames_reachable | reflexivity]. Defined.

End FrameRing.
