(* ===== verification/Registry.v ===== *)
(** [RenderObjectsSets] of [vk_renderObjects.h] and
    [vk_renderObjects.cpp]: the material and mesh tables
    ([std::unordered_map<std::string, ...>]) and the list of renderables.

    A [Material*] or [Mesh*] into a table is modelled by the key it points
    at ([Some name]), [nullptr] by [None]: pointers into an
    [unordered_map] stay valid while the element exists, and a write
    through the pointer is a write of the table entry. *)

From S2P Require Import Prelude GpuTypes.

Module Registry.

(** [struct Material]: [textureSet] defaults to [VK_NULL_HANDLE] ([None]). *)
Record Material := mkMaterial {
  textureSet : option handle;
  pipeline : handle;
  pipelineLayout : handle
}.

(** [struct RenderObject]: two non-owning pointers and a transform. *)
Record RenderObject := mkRenderObject {
  mesh : option string;
  material : option string;
  transformMatrix : mat4
}.

Record RenderObjectsSets := mkRenderObjectsSets {
  _renderables : list RenderObject;
  _materials : gmap string Material;
  _meshes : gmap string Mesh
}.

Definition empty_sets : RenderObjectsSets := mkRenderObjectsSets [] ∅ ∅.

(** [create_material]: [Material mat; mat.pipeline = ...; _materials[name] = mat;
    return &_materials[name];] *)
Definition create_material (pipeline pipelineLayout : handle) (name : string)
    (sets : RenderObjectsSets) : RenderObjectsSets * option string :=
  let mat := mkMaterial None pipeline pipelineLayout in
  (mkRenderObjectsSets (_renderables sets) (<[name := mat]> (_materials sets)) (_meshes sets),
   Some name).

(** [get_material]: [nullptr] when [_materials.find(name)] is [end()]. *)
Definition get_material (name : string) (sets : RenderObjectsSets) : option string :=
  match _materials sets !! name with
  | Some _ => Some name
  | None => None
  end.

(** [get_mesh]. *)
Definition get_mesh (name : string) (sets : RenderObjectsSets) : option string :=
  match _meshes sets !! name with
  | Some _ => Some name
  | None => None
  end.

(** Dereferencing a pointer: [None] for [nullptr] (undefined behaviour). *)
Definition deref_material (sets : RenderObjectsSets) (p : option string) : option Material :=
  p ≫= fun name => _materials sets !! name.

Definition deref_mesh (sets : RenderObjectsSets) (p : option string) : option Mesh :=
  p ≫= fun name => _meshes sets !! name.

#[global] Arguments deref_material : simpl never.
#[global] Arguments deref_mesh : simpl never.

(** [_objectsSet._meshes["empire"] = mesh] in [load_meshes]. *)
Definition set_mesh (name : string) (m : Mesh) (sets : RenderObjectsSets) : RenderObjectsSets :=
  mkRenderObjectsSets (_renderables sets) (_materials sets) (<[name := m]> (_meshes sets)).

(** [_renderables.push_back(obj)] in [init_scene]. *)
Definition push_renderable (o : RenderObject) (sets : RenderObjectsSets) : RenderObjectsSets :=
  mkRenderObjectsSets (_renderables sets ++ [o]) (_materials sets) (_meshes sets).

(** [texturedMat->textureSet = set] through the pointer of [get_material]. *)
Definition set_texture (p : option string) (set : handle) (sets : RenderObjectsSets)
    : option RenderObjectsSets :=
  match p with
  | None => None
  | Some name =>
      match _materials sets !! name with
      | None => None
      | Some m =>
          Some (mkRenderObjectsSets (_renderables sets)
                  (<[name := mkMaterial (Some set) (pipeline m) (pipelineLayout m)]> (_materials sets))
                  (_meshes sets))
      end
  end.

(** ** Properties of the tables *)

(** Round trip: after [create_material p l name], [get_material name]
    returns a non-null pointer, and it points at a material with that
    pipeline and layout and no texture set. *)
Theorem create_get_material p l name sets :
  let sets' := (create_material p l name sets).1 in
  get_material name sets' = Some name /\
  deref_material sets' (get_material name sets') = Some (mkMaterial None p l) /\
  (create_material p l name sets).2 = get_material name sets'.
Proof.
  simpl. unfold get_material, deref_material. simpl.
  by repeat (rewrite lookup_insert_eq; simpl).
Qed.

(** [create_material] leaves every other material, every mesh and
    the renderables untouched. *)
Theorem create_material_other p l name name' sets :
  name <> name' ->
  get_material name' (create_material p l name sets).1 = get_material name' sets /\
  deref_material (create_material p l name sets).1 (Some name')
    = deref_material sets (Some name') /\
  _meshes (create_material p l name sets).1 = _meshes sets /\
  _renderables (create_material p l name sets).1 = _renderables sets.
Proof.
  intros Hne. unfold get_material, deref_material. simpl.
  by rewrite lookup_insert_ne.
Qed.

(** Lookup of a name that was never inserted returns [nullptr], and
    [get_mesh] after [_meshes[name] = m] returns a pointer to [m]. *)
Theorem get_absent_and_mesh_roundtrip name m sets :
  _materials sets !! name = None ->
  get_material name sets = None /\
  get_mesh name (set_mesh name m sets) = Some name /\
  deref_mesh (set_mesh name m sets) (get_mesh name (set_mesh name m sets)) = Some m.
Proof.
  intros Hn. unfold get_material, get_mesh, deref_mesh. rewrite Hn. simpl.
  by repeat (rewrite lookup_insert_eq; simpl).
Qed.

(** ** Witnesses *)

Definition textured_sets : RenderObjectsSets :=
  mkRenderObjectsSets [] {[ "texturedmesh" := mkMaterial None 7 8 ]} ∅.

Lemma create_material_other_witness :
  get_material "other" (create_material 1 2 "texturedmesh" textured_sets).1
  = get_material "other" textured_sets /\
  deref_material (create_material 1 2 "texturedmesh" textured_sets).1 (Some "other")
  = deref_material textured_sets (Some "other") /\
  _meshes (create_material 1 2 "texturedmesh" textured_sets).1 = _meshes textured_sets /\
  _renderables (create_material 1 2 "texturedmesh" textured_sets).1 = _renderables textured_sets.
Proof. apply create_material_other. discriminate. Defined.

Lemma get_absent_and_mesh_roundtrip_witness :
  get_material "empire" textured_sets = None /\
  get_mesh "empire" (set_mesh "empire" (mkMesh [] (mkAllocatedBuffer 3 4)) textured_sets)
  = Some "empire" /\
  deref_mesh (set_mesh "empire" (mkMesh [] (mkAllocatedBuffer 3 4)) textured_sets)
    (get_mesh "empire" (set_mesh "empire" (mkMesh [] (mkAllocatedBuffer 3 4)) textured_sets))
  = Some (mkMesh [] (mkAllocatedBuffer 3 4)).
Proof. apply get_absent_and_mesh_roundtrip. reflexivity. Defined.

End Registry.
