(* ===== verification/DrawObjects.v ===== *)
(** [VulkanEngine::draw_objects] ([vk_engine.cpp] 1197-1310): the writes
    of the object storage buffer and the command stream recorded for the
    renderables, with the state caching of [lastMesh] and [lastMaterial].

    Commands are values of [Cmd]; the command buffer is the list of
    commands in recording order.  A dereference of a null (or dangling)
    [Material*]/[Mesh*] is [Err NullDeref]; the store of an object-buffer
    entry that does not fit in the allocation of [init_descriptors] is a
    write past the buffer, [Err OutOfBounds].
    The matrices, computed from the clock and the window extent, are
    inputs of the model ([env_model], [env_mesh_matrix]). *)

From S2P Require Import Prelude GpuTypes Alignment FrameRing Registry.

Module DrawObjects.
Import Alignment Registry.

(** The commands [draw_objects] records. *)
Inductive Cmd :=
| CmdBindPipeline (pipeline : handle)
| CmdBindDescriptorSets (layout : handle) (firstSet : nat) (set : handle) (dynamicOffsets : list Z)
| CmdPushConstants (layout : handle) (offset size : Z) (constants : mat4)
| CmdBindVertexBuffers (buffer : handle) (offset : Z)
| CmdDraw (vertexCount instanceCount firstVertex firstInstance : Z).

#[export] Instance Cmd_eq_dec : EqDecision Cmd.
Proof. solve_decision. Defined.

(** [get_current_frame().globalDescriptor] and [.objectDescriptor]. *)
Record FrameDescriptors := mkFrameDescriptors {
  globalDescriptor : handle;
  objectDescriptor : handle
}.

(** What [draw_objects] reads from the engine. *)
Record DrawEnv := mkDrawEnv {
  env_sets : RenderObjectsSets;
  env_frame : FrameDescriptors;
  env_frameNumber : Z;
  env_minUboAlignment : Z;
  env_model : mat4;         (** [model]: the rotation computed from [time] *)
  env_mesh_matrix : mat4    (** [projection * view * model] *)
}.

(** [int frameIndex = _frameNumber % FRAME_OVERLAP]. *)
Definition frameIndex (env : DrawEnv) : Z := Z.of_nat (FrameRing.frame_slot (env_frameNumber env)).

Record LoopState := mkLoopState {
  lastMesh : option string;
  lastMaterial : option string;
  cmds : list Cmd
}.

Definition emit (cs : list Cmd) (st : LoopState) : LoopState :=
  mkLoopState (lastMesh st) (lastMaterial st) (cmds st ++ cs).

(** The binds of a material change (1262-1279): pipeline, set 0 with the
    dynamic scene offset, set 1, and set 2 when the material has a texture. *)
Definition material_cmds (fd : FrameDescriptors) (uniform : Z) (mat : Material) : list Cmd :=
  [CmdBindPipeline (pipeline mat);
   CmdBindDescriptorSets (pipelineLayout mat) 0 (globalDescriptor fd) [uniform];
   CmdBindDescriptorSets (pipelineLayout mat) 1 (objectDescriptor fd) []] ++
  match textureSet mat with
  | Some t => [CmdBindDescriptorSets (pipelineLayout mat) 2 t []]
  | None => []
  end.

#[global] Arguments material_cmds : simpl never.

Section Loop.
Context (env : DrawEnv).

Definition uniform_off : Z := uniform_offset (env_minUboAlignment env) (frameIndex env).

(** [if (object.material != lastMaterial) { ... }] *)
Definition bind_material (object : RenderObject) (st : LoopState) : result LoopState :=
  if decide (material object = lastMaterial st) then Ok st else
  match deref_material (env_sets env) (material object) with
  | None => Err NullDeref
  | Some mat =>
      Ok (mkLoopState (lastMesh st) (material object)
            (cmds st ++ material_cmds (env_frame env) uniform_off mat))
  end.

(** [if (object.material) vkCmdPushConstants(...)] *)
Definition push_constants (object : RenderObject) (st : LoopState) : result LoopState :=
  match material object with
  | None => Ok st
  | Some _ =>
      match deref_material (env_sets env) (material object) with
      | None => Err NullDeref
      | Some mat =>
          Ok (emit [CmdPushConstants (pipelineLayout mat) 0 sizeof_MeshPushConstants
                      (env_mesh_matrix env)] st)
      end
  end.

(** [if (object.mesh != lastMesh) { vkCmdBindVertexBuffers(...); lastMesh = object.mesh; }] *)
Definition bind_mesh (object : RenderObject) (st : LoopState) : result LoopState :=
  if decide (mesh object = lastMesh st) then Ok st else
  match deref_mesh (env_sets env) (mesh object) with
  | None => Err NullDeref
  | Some m =>
      Ok (mkLoopState (mesh object) (lastMaterial st)
            (cmds st ++ [CmdBindVertexBuffers (_buffer (_vertexBuffer m)) 0]))
  end.

(** [if (object.mesh) vkCmdDraw(cmd, object.mesh->_vertices.size(), 1, 0, i)]:
    the vertex count is narrowed to [uint32_t]. *)
Definition draw_mesh (i : Z) (object : RenderObject) (st : LoopState) : result LoopState :=
  match mesh object with
  | None => Ok st
  | Some _ =>
      match deref_mesh (env_sets env) (mesh object) with
      | None => Err NullDeref
      | Some m =>
          Ok (emit [CmdDraw (to_uint32 (Z.of_nat (length (_vertices m)))) 1 0 (to_uint32 i)] st)
      end
  end.

(** One iteration of the second loop (1252-1309). *)
Definition draw_one (i : Z) (object : RenderObject) (st : LoopState) : result LoopState :=
  let! st1 := bind_material object st in
  let! st2 := push_constants object st1 in
  let! st3 := bind_mesh object st2 in
  draw_mesh i object st3.

Fixpoint draw_loop (i : Z) (objects : list RenderObject) (st : LoopState) : result LoopState :=
  match objects with
  | [] => Ok st
  | o :: objects' => let! st' := draw_one i o st in draw_loop (i + 1) objects' st'
  end.
End Loop.

Record DrawOutput := mkDrawOutput {
  out_sceneOffset : Z;          (** where the scene parameters were copied *)
  out_objectData : list mat4;   (** [objectSSBO[0 .. count-1].modelMatrix] *)
  out_cmds : list Cmd
}.

(** The bytes of each frame's object buffer: [init_descriptors] allocates
    [sizeof(GPUObjectData) * MAX_OBJECTS_NUM] (886-889). *)
Definition objectBufferSize : Z := sizeof_GPUObjectData * MAX_OBJECTS_NUM.

(** The first loop of [draw_objects] (1239-1247):
    [objectSSBO[i].modelMatrix = model] for [i] from [i0], [n] times, each
    a store of [sizeof(GPUObjectData)] bytes at byte
    [i * sizeof(GPUObjectData)] of the mapped object buffer; a store that
    does not fit in the allocation writes past it.  [ssbo] is the list of
    entries [0 .. i-1] written so far. *)
Fixpoint write_objects (model : mat4) (i : Z) (n : nat) (ssbo : list mat4) : result (list mat4) :=
  match n with
  | O => Ok ssbo
  | S n' =>
      if (i + 1) * sizeof_GPUObjectData <=? objectBufferSize
      then write_objects model (i + 1) n' (ssbo ++ [model])
      else Err OutOfBounds
  end.

(** [draw_objects(cmd, first, count)] with [count] the [int] conversion
    of [_renderables.size()] made by [record_cmdbuffers]: the camera and
    scene copies, the object-buffer loop, then the recording loop. *)
Definition draw_objects (env : DrawEnv) (first : list RenderObject) : result DrawOutput :=
  let count := to_int32 (Z.of_nat (length first)) in
  let! objectData := write_objects (env_model env) 0 (Z.to_nat count) [] in
  let! st := draw_loop env 0 (firstn (Z.to_nat count) first) (mkLoopState None None []) in
  Ok (mkDrawOutput (scene_write_offset (env_minUboAlignment env) (frameIndex env))
                   objectData (cmds st)).

(** ** The state a draw sees *)

(** The command-buffer binding state: bound pipeline, descriptor sets
    0..2 (layout, set, dynamic offsets), vertex buffer, push constants. *)
Record BindState := mkBindState {
  bs_pipeline : option handle;
  bs_sets : list (option (handle * handle * list Z));
  bs_vertexBuffer : option handle;
  bs_push : option (handle * mat4)
}.

Definition init_bind_state : BindState := mkBindState None [None; None; None] None None.

(** A draw as the GPU executes it: the binding state and the arguments. *)
Definition DrawObs := (BindState * (Z * Z * Z * Z))%type.

Definition exec_cmd (acc : BindState * list DrawObs) (c : Cmd) : BindState * list DrawObs :=
  let (bs, obs) := acc in
  match c with
  | CmdBindPipeline p => (mkBindState (Some p) (bs_sets bs) (bs_vertexBuffer bs) (bs_push bs), obs)
  | CmdBindDescriptorSets l n set offs =>
      (mkBindState (bs_pipeline bs) (<[n := Some (l, set, offs)]> (bs_sets bs))
                   (bs_vertexBuffer bs) (bs_push bs), obs)
  | CmdPushConstants l _ _ m => (mkBindState (bs_pipeline bs) (bs_sets bs) (bs_vertexBuffer bs) (Some (l, m)), obs)
  | CmdBindVertexBuffers b _ => (mkBindState (bs_pipeline bs) (bs_sets bs) (Some b) (bs_push bs), obs)
  | CmdDraw a b c d => (bs, obs ++ [(bs, (a, b, c, d))])
  end.

Definition exec_cmds (cs : list Cmd) (acc : BindState * list DrawObs) : BindState * list DrawObs :=
  fold_left exec_cmd cs acc.

(** The draws a command stream performs. *)
Definition observe (cs : list Cmd) : list DrawObs := (exec_cmds cs (init_bind_state, [])).2.

(** ** Reference recording: every object rebinds everything *)

Definition reference_one (env : DrawEnv) (i : Z) (o : RenderObject) : result (list Cmd) :=
  match deref_material (env_sets env) (material o), deref_mesh (env_sets env) (mesh o) with
  | Some mat, Some m =>
      Ok (material_cmds (env_frame env) (uniform_off env) mat ++
          [CmdPushConstants (pipelineLayout mat) 0 sizeof_MeshPushConstants (env_mesh_matrix env);
           CmdBindVertexBuffers (_buffer (_vertexBuffer m)) 0;
           CmdDraw (to_uint32 (Z.of_nat (length (_vertices m)))) 1 0 (to_uint32 i)])
  | _, _ => Err NullDeref
  end.

Fixpoint reference_loop (env : DrawEnv) (i : Z) (objects : list RenderObject) : result (list Cmd) :=
  match objects with
  | [] => Ok []
  | o :: objects' =>
      let! c := reference_one env i o in
      let! cs := reference_loop env (i + 1) objects' in
      Ok (c ++ cs)
  end.

(** Number of [vkCmdBindPipeline] calls in a command stream. *)
Definition is_bind_pipeline (c : Cmd) : bool :=
  match c with CmdBindPipeline _ => true | _ => false end.

Fixpoint count_pipeline_binds (cs : list Cmd) : nat :=
  match cs with
  | [] => O
  | c :: cs' => ((if is_bind_pipeline c then 1 else 0) + count_pipeline_binds cs')%nat
  end.

(** Number of positions where the material pointer differs from the
    previous one (the first compared with [nullptr]). *)
Fixpoint material_transitions (last : option string) (objects : list RenderObject) : nat :=
  match objects with
  | [] => O
  | o :: objects' =>
      ((if decide (material o = last) then 0 else 1) + material_transitions (material o) objects')%nat
  end.

(** ** A concrete scene: the one [init_scene] builds *)

Definition empire_vertices : list Vertex :=
  [mkVertex (0, 0, 0) (0, 0, 0) (0, 0, 0) (0, 0);
   mkVertex (1, 0, 0) (0, 0, 0) (0, 0, 0) (0, 0);
   mkVertex (0, 1, 0) (0, 0, 0) (0, 0, 0) (0, 0)].

Definition example_sets : RenderObjectsSets :=
  mkRenderObjectsSets
    [mkRenderObject (Some "empire") (Some "texturedmesh") 0]
    {[ "texturedmesh" := mkMaterial (Some 30) 10 11 ]}
    {[ "empire" := mkMesh empire_vertices (mkAllocatedBuffer 20 21) ]}.

Definition example_env : DrawEnv :=
  mkDrawEnv example_sets (mkFrameDescriptors 40 41) 0 256 50 51.

(** One renderable with a three-vertex mesh: one draw of three vertices
    and one instance, after the binds of its material and mesh. *)
Example draw_objects_example :
  draw_objects example_env (_renderables example_sets) =
  Ok (mkDrawOutput 0 [50]
        [CmdBindPipeline 10; CmdBindDescriptorSets 11 0 40 [0];
         CmdBindDescriptorSets 11 1 41 []; CmdBindDescriptorSets 11 2 30 [];
         CmdPushConstants 11 0 80 51; CmdBindVertexBuffers 20 0; CmdDraw 3 1 0 0]).
Proof. vm_compute. reflexivity. Qed.

(** ** The batched recording refines the reference *)

Section Refinement.
Context (env : DrawEnv).

Definition valid_object (o : RenderObject) : Prop :=
  is_Some (deref_material (env_sets env) (material o)) /\
  is_Some (deref_mesh (env_sets env) (mesh o)).

(** The binding state shows the binds of [mat]. *)
Definition reflects (mat : Material) (bs : BindState) : Prop :=
  bs_pipeline bs = Some (pipeline mat) /\
  bs_sets bs !! 0%nat = Some (Some (pipelineLayout mat, globalDescriptor (env_frame env), [uniform_off env])) /\
  bs_sets bs !! 1%nat = Some (Some (pipelineLayout mat, objectDescriptor (env_frame env), [])) /\
  (forall t, textureSet mat = Some t -> bs_sets bs !! 2%nat = Some (Some (pipelineLayout mat, t, []))).

(** What the cache of the loop promises about the binding state. *)
Definition cached (st : LoopState) (bs : BindState) : Prop :=
  length (bs_sets bs) = 3%nat /\
  (forall mat, deref_material (env_sets env) (lastMaterial st) = Some mat -> reflects mat bs) /\
  (forall m, deref_mesh (env_sets env) (lastMesh st) = Some m ->
             bs_vertexBuffer bs = Some (_buffer (_vertexBuffer m))).

Lemma exec_cmds_app cs1 cs2 acc :
  exec_cmds (cs1 ++ cs2) acc = exec_cmds cs2 (exec_cmds cs1 acc).
Proof. apply fold_left_app. Qed.

Lemma exec_material_cmds mat bs obs :
  length (bs_sets bs) = 3%nat ->
  let acc := exec_cmds (material_cmds (env_frame env) (uniform_off env) mat) (bs, obs) in
  acc.2 = obs /\ reflects mat acc.1 /\ length (bs_sets acc.1) = 3%nat /\
  bs_vertexBuffer acc.1 = bs_vertexBuffer bs /\ bs_push acc.1 = bs_push bs.
Proof.
  intros Hlen. destruct bs as [p sets vb pc]. simpl in Hlen.
  destruct sets as [|s0 [|s1 [|s2 [|]]]]; try done.
  unfold material_cmds, reflects. destruct (textureSet mat) as [t|] eqn:Ht;
    simpl; split_and!; try done; intros t' Ht'; congruence.
Qed.

Lemma exec_material_cmds_idem mat bs obs :
  length (bs_sets bs) = 3%nat -> reflects mat bs ->
  exec_cmds (material_cmds (env_frame env) (uniform_off env) mat) (bs, obs) = (bs, obs).
Proof.
  intros Hlen (Hp & H0 & H1 & H2). destruct bs as [p sets vb pc]. simpl in *.
  destruct sets as [|s0 [|s1 [|s2 [|]]]]; try done. simpl in *. subst.
  injection H0 as ->. injection H1 as ->.
  unfold material_cmds. destruct (textureSet mat) as [t|] eqn:Ht; simpl; [|done].
  by injection (H2 t eq_refl) as ->.
Qed.
Lemma exec_skip cs rest acc :
  exec_cmds cs acc = acc -> exec_cmds (cs ++ rest) acc = exec_cmds rest acc.
Proof. intros H. by rewrite exec_cmds_app, H. Qed.

(** The state after the push constants and vertex buffer of a draw. *)
Definition tail_state (bs : BindState) (lay b : handle) : BindState :=
  mkBindState (bs_pipeline bs) (bs_sets bs) (Some b) (Some (lay, env_mesh_matrix env)).

Lemma exec_tail lay b a1 a2 a3 a4 bs obs :
  exec_cmds [CmdPushConstants lay 0 sizeof_MeshPushConstants (env_mesh_matrix env);
             CmdBindVertexBuffers b 0; CmdDraw a1 a2 a3 a4] (bs, obs)
  = (tail_state bs lay b, obs ++ [(tail_state bs lay b, (a1, a2, a3, a4))]).
Proof. by destruct bs. Qed.

Lemma exec_tail_cached lay b a1 a2 a3 a4 bs obs :
  bs_vertexBuffer bs = Some b ->
  exec_cmds [CmdPushConstants lay 0 sizeof_MeshPushConstants (env_mesh_matrix env);
             CmdDraw a1 a2 a3 a4] (bs, obs)
  = (tail_state bs lay b, obs ++ [(tail_state bs lay b, (a1, a2, a3, a4))]).
Proof. destruct bs; simpl. by intros ->. Qed.

Lemma reflects_tail mat bs lay b : reflects mat bs -> reflects mat (tail_state bs lay b).
Proof. done. Qed.

Lemma cached_ext st st' bs :
  lastMaterial st = lastMaterial st' -> lastMesh st = lastMesh st' ->
  cached st bs -> cached st' bs.
Proof. unfold cached. by intros <- <-. Qed.

(** Executing the binds of [mat] and then a draw leaves a state the cache
    of [mat] and [m] describes. *)
Lemma exec_object_cached mat m k h bs obs a1 a2 a3 a4 :
  deref_material (env_sets env) (Some k) = Some mat ->
  deref_mesh (env_sets env) (Some h) = Some m ->
  length (bs_sets bs) = 3%nat ->
  cached (mkLoopState (Some h) (Some k) [])
    (exec_cmds (material_cmds (env_frame env) (uniform_off env) mat ++
       [CmdPushConstants (pipelineLayout mat) 0 sizeof_MeshPushConstants (env_mesh_matrix env);
        CmdBindVertexBuffers (_buffer (_vertexBuffer m)) 0; CmdDraw a1 a2 a3 a4]) (bs, obs)).1.
Proof.
  intros Hmat Hm Hlen. rewrite exec_cmds_app.
  destruct (exec_material_cmds mat bs obs Hlen) as (_ & Hr & Hlen' & _ & _).
  destruct (exec_cmds _ (bs, obs)) as [bs1 obs1]. simpl in *.
  destruct bs1 as [p1 s1 v1 c1]. unfold cached; cbn [lastMaterial lastMesh].
  split_and!; [done| rewrite Hmat; by intros ? [= <-] | rewrite Hm; by intros ? [= <-]].
Qed.

(** One iteration of the batched loop does what the reference does for
    that object, from any binding state the cache describes. *)
Lemma draw_one_sim i o st st' :
  valid_object o -> draw_one env i o st = Ok st' ->
  exists delta R, cmds st' = cmds st ++ delta /\ reference_one env i o = Ok R /\
    forall bs obs, cached st bs ->
      exec_cmds delta (bs, obs) = exec_cmds R (bs, obs) /\
      cached st' (exec_cmds R (bs, obs)).1.
Proof.
  intros [[mat Hmat] [m Hm]] Hdraw.
  unfold reference_one. rewrite Hmat, Hm.
  destruct (material o) as [k|] eqn:Ek; [|discriminate].
  destruct (mesh o) as [h|] eqn:Eh; [|discriminate].
  unfold draw_one, bind_material, push_constants, bind_mesh, draw_mesh in Hdraw.
  rewrite ?Ek, ?Eh in Hdraw.
  set (M := material_cmds (env_frame env) (uniform_off env) mat).
  set (D := CmdDraw (to_uint32 (Z.of_nat (length (_vertices m)))) 1 0 (to_uint32 i)).
  set (P := CmdPushConstants (pipelineLayout mat) 0 sizeof_MeshPushConstants (env_mesh_matrix env)).
  set (V := CmdBindVertexBuffers (_buffer (_vertexBuffer m)) 0).
  rewrite ?Hmat, ?Hm in Hdraw. revert Hdraw.
  destruct (decide (Some k = lastMaterial st)) as [Emat|Emat]; simpl;
    destruct (decide (Some h = lastMesh st)) as [Emesh|Emesh]; simpl;
    intros Hdraw; injection Hdraw as <-; simpl.
  all: eexists _, (M ++ [P; V; D]); split; [rewrite <- ?app_assoc; reflexivity|];
    split; [done|]; intros bs obs Hc; pose proof Hc as (Hlen & Hcm & Hcv).
  all: split; [|eapply cached_ext; [..|apply (exec_object_cached mat m k h); done];
                simpl; congruence].
  all: rewrite <- ?Emat in Hcm; rewrite <- ?Emesh in Hcv; cbn [app].
  - rewrite (exec_skip M [P; V; D]) by (apply exec_material_cmds_idem; auto).
    unfold P, D. rewrite (exec_tail_cached _ (_buffer (_vertexBuffer m))) by auto.
    unfold V. by rewrite exec_tail.
  - by rewrite (exec_skip M [P; V; D]) by (apply exec_material_cmds_idem; auto).
  - rewrite !(exec_cmds_app M).
    destruct (exec_material_cmds mat bs obs Hlen) as (_ & _ & _ & Hvb & _). fold M in Hvb.
    destruct (exec_cmds M (bs, obs)) as [bs1 obs1]. cbn [fst] in Hvb.
    unfold P, D. rewrite (exec_tail_cached _ (_buffer (_vertexBuffer m))).
    + unfold V. by rewrite exec_tail.
    + rewrite Hvb. auto.
  - done.
Qed.

Lemma draw_one_ok i o st : valid_object o -> exists st', draw_one env i o st = Ok st'.
Proof.
  intros [[mat Hmat] [m Hm]].
  unfold draw_one, bind_material, push_constants, bind_mesh, draw_mesh.
  destruct (material o) as [k|]; [|discriminate]. destruct (mesh o) as [h|]; [|discriminate].
  rewrite ?Hmat, ?Hm.
  destruct (decide (Some k = lastMaterial st)); simpl;
    destruct (decide (Some h = _)); simpl; eauto.
Qed.

Lemma draw_loop_ok i objs st :
  Forall valid_object objs -> exists st', draw_loop env i objs st = Ok st'.
Proof.
  revert i st. induction objs as [|o objs IH]; intros i st Hv; simpl; [eauto|].
  apply Forall_cons in Hv as [Ho Hv].
  destruct (draw_one_ok i o st Ho) as [st1 ->]. simpl. by apply IH.
Qed.

Lemma draw_loop_sim i objs st st' :
  Forall valid_object objs -> draw_loop env i objs st = Ok st' ->
  exists delta R, cmds st' = cmds st ++ delta /\ reference_loop env i objs = Ok R /\
    forall bs obs, cached st bs -> exec_cmds delta (bs, obs) = exec_cmds R (bs, obs).
Proof.
  revert i st. induction objs as [|o objs IH]; intros i st Hv Hl; simpl in Hl.
  { injection Hl as <-. exists [], []. by rewrite app_nil_r. }
  apply Forall_cons in Hv as [Ho Hv].
  destruct (draw_one env i o st) as [st1|] eqn:E1; simpl in Hl; [|discriminate].
  destruct (draw_one_sim i o st st1 Ho E1) as (d1 & R1 & Hc1 & HR1 & Hs1).
  destruct (IH (i + 1) st1 Hv Hl) as (d2 & R2 & Hc2 & HR2 & Hs2).
  exists (d1 ++ d2), (R1 ++ R2). split; [by rewrite Hc2, Hc1, app_assoc|].
  simpl. rewrite HR1, HR2. split; [done|].
  intros bs obs Hc. rewrite !exec_cmds_app. destruct (Hs1 bs obs Hc) as [-> Hc'].
  destruct (exec_cmds R1 (bs, obs)) as [bs1 obs1]. by apply Hs2.
Qed.

(** What the [n]-th draw must see for object [o]: the binds of its
    material, its mesh's vertex buffer, the push constants through its
    material's layout, and [vkCmdDraw(vertices, 1, 0, n)]. *)
Definition draw_matches (n : Z) (o : RenderObject) (ob : DrawObs) : Prop :=
  exists mat m,
    deref_material (env_sets env) (material o) = Some mat /\
    deref_mesh (env_sets env) (mesh o) = Some m /\
    reflects mat ob.1 /\
    bs_vertexBuffer ob.1 = Some (_buffer (_vertexBuffer m)) /\
    bs_push ob.1 = Some (pipelineLayout mat, env_mesh_matrix env) /\
    ob.2 = (to_uint32 (Z.of_nat (length (_vertices m))), 1, 0, to_uint32 n).

Lemma exec_reference_loop i objs R :
  reference_loop env i objs = Ok R ->
  forall bs obs, length (bs_sets bs) = 3%nat ->
  exists obs', (exec_cmds R (bs, obs)).2 = obs ++ obs' /\
    length (bs_sets (exec_cmds R (bs, obs)).1) = 3%nat /\
    length obs' = length objs /\
    forall n o ob, objs !! n = Some o -> obs' !! n = Some ob -> draw_matches (i + Z.of_nat n) o ob.
Proof.
  revert i R. induction objs as [|o objs IH]; intros i R HR bs obs Hlen; simpl in HR.
  { injection HR as <-. exists []. rewrite app_nil_r. by split_and!. }
  unfold reference_one in HR.
  destruct (deref_material _ (material o)) as [mat|] eqn:Hmat; [|discriminate].
  destruct (deref_mesh _ (mesh o)) as [m|] eqn:Hm; [|discriminate]. cbn [rbind] in HR.
  destruct (reference_loop env (i + 1) objs) as [R2|] eqn:HR2; [|discriminate].
  cbn [rbind] in HR. apply Ok_inj in HR. subst R. rewrite <- app_assoc, exec_cmds_app.
  destruct (exec_material_cmds mat bs obs Hlen) as (Hobs & Hr & Hlen1 & _ & _).
  destruct (exec_cmds (material_cmds _ _ mat) (bs, obs)) as [bs1 obs1].
  cbn [fst snd] in Hobs, Hr, Hlen1. subst obs1.
  rewrite exec_cmds_app, exec_tail.
  set (bs2 := tail_state bs1 _ _).
  destruct (IH (i + 1) R2 HR2 bs2 (obs ++ [(bs2, (to_uint32 (Z.of_nat (length (_vertices m))), 1, 0, to_uint32 i))]) Hlen1)
    as (obs' & Hobs' & Hlen2 & Hl' & Hm').
  eexists. rewrite Hobs', <- app_assoc. split_and!; [done|done|simpl; by rewrite Hl'|].
  intros [|n] o' ob Ho' Hob; simpl in Ho', Hob.
  - injection Ho' as <-. injection Hob as <-. exists mat, m. rewrite Z.add_0_r.
    split_and!; try done; by apply reflects_tail.
  - specialize (Hm' n o' ob Ho' Hob). by replace (i + Z.of_nat (S n)) with (i + 1 + Z.of_nat n) by lia.
Qed.

(** The commands one iteration appends for a valid object. *)
Lemma draw_one_shape i o st :
  valid_object o ->
  exists mat m,
    deref_material (env_sets env) (material o) = Some mat /\
    deref_mesh (env_sets env) (mesh o) = Some m /\
    draw_one env i o st =
    Ok (mkLoopState (mesh o) (material o)
          (cmds st ++
           (if decide (material o = lastMaterial st) then []
            else material_cmds (env_frame env) (uniform_off env) mat) ++
           [CmdPushConstants (pipelineLayout mat) 0 sizeof_MeshPushConstants (env_mesh_matrix env)] ++
           (if decide (mesh o = lastMesh st) then []
            else [CmdBindVertexBuffers (_buffer (_vertexBuffer m)) 0]) ++
           [CmdDraw (to_uint32 (Z.of_nat (length (_vertices m)))) 1 0 (to_uint32 i)])).
Proof.
  intros [[mat Hmat] [m Hm]]. exists mat, m. split_and!; [done|done|].
  unfold draw_one, bind_material, push_constants, bind_mesh, draw_mesh.
  destruct (material o) as [k|]; [|discriminate]. destruct (mesh o) as [h|]; [|discriminate].
  rewrite ?Hmat, ?Hm.
  destruct (decide (Some k = lastMaterial st)) as [E1|E1]; simpl;
    destruct (decide (Some h = lastMesh st)) as [E2|E2]; simpl;
    unfold emit; simpl; rewrite ?E1, ?E2, <- ?app_assoc; try done.
Qed.

Lemma count_pipeline_binds_app cs1 cs2 :
  count_pipeline_binds (cs1 ++ cs2) = (count_pipeline_binds cs1 + count_pipeline_binds cs2)%nat.
Proof. induction cs1 as [|c cs1 IH]; simpl; [done|]. rewrite IH. lia. Qed.

Lemma count_material_cmds fd u mat : count_pipeline_binds (material_cmds fd u mat) = 1%nat.
Proof. unfold material_cmds. by destruct (textureSet mat). Qed.

Lemma draw_loop_binds i objs st st' :
  Forall valid_object objs -> draw_loop env i objs st = Ok st' ->
  count_pipeline_binds (cmds st') =
    (count_pipeline_binds (cmds st) + material_transitions (lastMaterial st) objs)%nat.
Proof.
  revert i st. induction objs as [|o objs IH]; intros i st Hv Hl; simpl in Hl.
  { injection Hl as <-. simpl. lia. }
  apply Forall_cons in Hv as [Ho Hv].
  destruct (draw_one_shape i o st Ho) as (mat & m & _ & _ & E). rewrite E in Hl. simpl in Hl.
  rewrite (IH _ _ Hv Hl). simpl. rewrite !count_pipeline_binds_app.
  destruct (decide (material o = lastMaterial st)); destruct (decide (mesh o = lastMesh st));
    rewrite ?count_material_cmds; simpl; lia.
Qed.

End Refinement.

Lemma count_small (objs : list RenderObject) :
  Z.of_nat (length objs) < 2 ^ 31 ->
  to_int32 (Z.of_nat (length objs)) = Z.of_nat (length objs).
Proof.
  intros H. unfold to_int32. rewrite wrap_small by lia.
  destruct (Z.ltb_spec (Z.of_nat (length objs)) (2 ^ 31)); lia.
Qed.

(** The object-buffer loop stores every entry while they fit ... *)
Lemma write_objects_fit model i n ssbo :
  0 <= i -> i + Z.of_nat n <= MAX_OBJECTS_NUM ->
  write_objects model i n ssbo = Ok (ssbo ++ repeat model n).
Proof.
  revert i ssbo. induction n as [|n IH]; intros i ssbo Hi Hn; simpl; [by rewrite app_nil_r|].
  rewrite (proj2 (Z.leb_le _ _)) by (unfold objectBufferSize, sizeof_GPUObjectData, MAX_OBJECTS_NUM in *; lia).
  rewrite IH by lia. by rewrite <- app_assoc.
Qed.

(** ... and the store of entry [MAX_OBJECTS_NUM] is past the buffer. *)
Lemma write_objects_past model i n ssbo :
  0 <= i <= MAX_OBJECTS_NUM -> MAX_OBJECTS_NUM < i + Z.of_nat n ->
  write_objects model i n ssbo = Err OutOfBounds.
Proof.
  revert i ssbo. induction n as [|n IH]; intros i ssbo Hi Hn; simpl; [lia|].
  destruct (Z.leb_spec ((i + 1) * sizeof_GPUObjectData) objectBufferSize) as [Hle|]; [|done].
  apply IH; unfold objectBufferSize, sizeof_GPUObjectData, MAX_OBJECTS_NUM in *; lia.
Qed.

(** [draw_objects] on at most [MAX_OBJECTS_NUM] renderables: every
    entry of the object buffer is written, then the recording loop runs
    over all of them. *)
Lemma draw_objects_fit env objs :
  Z.of_nat (length objs) <= MAX_OBJECTS_NUM ->
  draw_objects env objs =
    let! st := draw_loop env 0 objs (mkLoopState None None []) in
    Ok (mkDrawOutput (scene_write_offset (env_minUboAlignment env) (frameIndex env))
                     (repeat (env_model env) (length objs)) (cmds st)).
Proof.
  intros H. unfold draw_objects. rewrite count_small by (unfold MAX_OBJECTS_NUM in *; lia).
  rewrite Nat2Z.id, firstn_all, write_objects_fit by lia. done.
Qed.

Lemma draw_objects_sim env objs :
  Z.of_nat (length objs) <= MAX_OBJECTS_NUM -> Forall (valid_object env) objs ->
  exists out R, draw_objects env objs = Ok out /\ reference_loop env 0 objs = Ok R /\
                observe (out_cmds out) = observe R.
Proof.
  intros Hlen Hv. rewrite draw_objects_fit by done.
  destruct (draw_loop_ok env 0 objs (mkLoopState None None []) Hv) as [st Hst].
  rewrite Hst. simpl.
  destruct (draw_loop_sim env 0 objs _ st Hv Hst) as (d & R & Hc & HR & Hs).
  eexists _, R. split; [done|]. split; [done|]. simpl in Hc. subst.
  unfold observe. rewrite Hs; [done|]. split_and!; [done|by intros ? ?|by intros ? ?].
Qed.

(** C3. The state caching of [draw_objects] is an optimisation only: when
    every renderable points at a material and a mesh of the tables and
    there are at most [MAX_OBJECTS_NUM] of them, the recording succeeds and
    its draws see exactly the pipeline, descriptor sets, dynamic offset,
    push constants, vertex buffer and arguments that a recording which
    rebinds everything before every draw produces. *)
Theorem draw_objects_refines_reference env objs :
  Z.of_nat (length objs) <= MAX_OBJECTS_NUM -> Forall (valid_object env) objs ->
  exists out R, draw_objects env objs = Ok out /\ reference_loop env 0 objs = Ok R /\
                observe (out_cmds out) = observe R.
Proof. apply draw_objects_sim. Qed.

Lemma draw_objects_observe env objs :
  Z.of_nat (length objs) <= MAX_OBJECTS_NUM -> Forall (valid_object env) objs ->
  exists out, draw_objects env objs = Ok out /\
    length (observe (out_cmds out)) = length objs /\
    forall n o ob, objs !! n = Some o -> observe (out_cmds out) !! n = Some ob ->
      draw_matches env (Z.of_nat n) o ob.
Proof.
  intros Hlen Hv.
  destruct (draw_objects_sim env objs Hlen Hv) as (out & R & Hout & HR & Hobs).
  exists out. split; [done|]. rewrite Hobs. unfold observe.
  destruct (exec_reference_loop env 0 objs R HR init_bind_state [] eq_refl)
    as (obs' & -> & _ & Hl & Hm). simpl. split; [done|].
  intros n o ob Ho Hob. specialize (Hm n o ob Ho Hob). done.
Qed.

(** C13. Functional behaviour of [draw_objects]: for valid renderables (at
    most [MAX_OBJECTS_NUM]) there is exactly one draw per renderable, in
    order, and the [n]-th draw sees the pipeline and descriptor sets of
    the [n]-th renderable's material (set 0 at the frame's dynamic scene
    offset, set 2 its texture when it has one), its mesh's vertex buffer,
    the push constants through its layout, and draws all its vertices as
    one instance with [firstInstance = n]. *)
Theorem draw_objects_draws env objs :
  Z.of_nat (length objs) <= MAX_OBJECTS_NUM -> Forall (valid_object env) objs ->
  exists out, draw_objects env objs = Ok out /\
    length (observe (out_cmds out)) = length objs /\
    forall n o ob, objs !! n = Some o -> observe (out_cmds out) !! n = Some ob ->
      draw_matches env (Z.of_nat n) o ob.
Proof. apply draw_objects_observe. Qed.

Lemma draw_objects_loop env objs out :
  Z.of_nat (length objs) <= MAX_OBJECTS_NUM ->
  draw_objects env objs = Ok out ->
  exists st, draw_loop env 0 objs (mkLoopState None None []) = Ok st /\ out_cmds out = cmds st /\
             out_objectData out = repeat (env_model env) (length objs).
Proof.
  intros Hlen. rewrite draw_objects_fit by done.
  destruct (draw_loop env 0 objs _) as [st|]; [|done]. intros [= <-]. by exists st.
Qed.

(** C14. Draw batching: for valid renderables the number of
    [vkCmdBindPipeline] calls (each followed by the descriptor-set binds)
    is the number of material transitions in the list, not its length. *)
Theorem pipeline_binds_eq_transitions env objs out :
  Z.of_nat (length objs) <= MAX_OBJECTS_NUM -> Forall (valid_object env) objs ->
  draw_objects env objs = Ok out ->
  count_pipeline_binds (out_cmds out) = material_transitions None objs.
Proof.
  intros Hlen Hv Hd. destruct (draw_objects_loop env objs out Hlen Hd) as (st & Hst & -> & _).
  by rewrite (draw_loop_binds env 0 objs _ st Hv Hst).
Qed.

Lemma draw_one_null env i o st :
  lastMaterial st <> None -> lastMesh st <> None ->
  is_Some (deref_material (env_sets env) (lastMaterial st)) ->
  material o = None \/ (material o = lastMaterial st /\ mesh o = None) ->
  draw_one env i o st = Err NullDeref.
Proof.
  intros Hlm Hlh [mat Hmat] Hnull. unfold draw_one, bind_material, push_constants, bind_mesh, draw_mesh.
  destruct (lastMaterial st) as [k|] eqn:Ek; [|done].
  destruct (lastMesh st) as [h|] eqn:Eh; [|done].
  destruct Hnull as [Hn|[Hs Hn]].
  - rewrite Hn. destruct (decide (None = Some k)); [done|]. reflexivity.
  - rewrite Hs. destruct (decide (Some k = Some k)) as [_|]; [|done]. simpl.
    rewrite Hmat. simpl. rewrite Hn, Eh. destruct (decide (None = Some h)); [done|]. reflexivity.
Qed.

(** C33. A renderable whose material pointer is null after one whose
    material is not, or whose mesh pointer is null after one with a mesh and
    the same material, makes [draw_objects] dereference [nullptr]: the
    comparison with [lastMaterial] / [lastMesh] is the only guard. *)
Theorem null_after_nonnull_faults env o1 o2 rest :
  Z.of_nat (length (o1 :: o2 :: rest)) <= MAX_OBJECTS_NUM ->
  valid_object env o1 ->
  material o2 = None \/ (material o2 = material o1 /\ mesh o2 = None) ->
  draw_objects env (o1 :: o2 :: rest) = Err NullDeref.
Proof.
  intros Hlen Ho1 Hnull. rewrite draw_objects_fit by done.
  destruct (draw_one_shape env 0 o1 (mkLoopState None None []) Ho1) as (mat & m & Hmat & Hm & E).
  simpl. rewrite E. simpl.
  by rewrite (draw_one_null env 1 o2 (mkLoopState (mesh o1) (material o1) _))
    by (destruct Ho1 as [[? H1] [? H2]]; destruct (material o1), (mesh o1); done).
Qed.

(** The recording loop fails only on a null (or dangling) pointer. *)
Lemma draw_loop_err env i objs st e : draw_loop env i objs st = Err e -> e = NullDeref.
Proof.
  revert i st. induction objs as [|o objs IH]; intros i st; simpl; [done|].
  destruct (draw_one env i o st) as [st'|e'] eqn:Hd; simpl; [apply IH|].
  intros [= <-]. revert Hd.
  unfold draw_one, bind_material, push_constants, bind_mesh, draw_mesh.
  repeat (case_match; simpl); congruence.
Qed.

Lemma write_objects_Ok model i n ssbo l :
  write_objects model i n ssbo = Ok l -> l = ssbo ++ repeat model n.
Proof.
  revert i ssbo. induction n as [|n IH]; intros i ssbo; simpl; [intros [= <-]; by rewrite app_nil_r|].
  case_match; [|done]. intros ->%IH. by rewrite <- app_assoc.
Qed.

(** C34. The object buffer [init_descriptors] allocates holds exactly
    [MAX_OBJECTS_NUM] entries and the loop that fills it has no bound:
    for fewer than [2^31] renderables (so that the [int] count is
    exact), [draw_objects] writes past the object buffer exactly when
    there are more than [MAX_OBJECTS_NUM] of them, at the store of entry
    [MAX_OBJECTS_NUM]; with at most that many it never writes out of
    bounds. *)
Theorem object_buffer_overflow_exact env objs :
  Z.of_nat (length objs) < 2 ^ 31 ->
  draw_objects env objs = Err OutOfBounds <-> MAX_OBJECTS_NUM < Z.of_nat (length objs).
Proof.
  intros H. split.
  - intros Hd. destruct (Z.lt_ge_cases MAX_OBJECTS_NUM (Z.of_nat (length objs))) as [|Hle]; [done|].
    rewrite draw_objects_fit in Hd by done.
    destruct (draw_loop env 0 objs _) eqn:Hl; [done|]. injection Hd as ->.
    by apply draw_loop_err in Hl.
  - intros Hgt. unfold draw_objects. rewrite count_small by done.
    rewrite write_objects_past by (unfold MAX_OBJECTS_NUM in *; lia). done.
Qed.

Lemma draw_one_ext env i o o' st :
  mesh o = mesh o' -> material o = material o' -> draw_one env i o st = draw_one env i o' st.
Proof.
  intros Hm Hmat. unfold draw_one, bind_material, push_constants, bind_mesh, draw_mesh.
  by rewrite Hm, Hmat.
Qed.

Lemma draw_loop_ext env i objs objs' st :
  (fun o => (mesh o, material o)) <$> objs = (fun o => (mesh o, material o)) <$> objs' ->
  draw_loop env i objs st = draw_loop env i objs' st.
Proof.
  revert i objs' st. induction objs as [|o objs IH]; intros i [|o' objs'] st Heq; try done.
  simpl in Heq. injection Heq as Hm Hmat Hrest. simpl.
  rewrite (draw_one_ext env i o o') by done.
  destruct (draw_one env i o' st); simpl; [by apply IH|done].
Qed.

(** C35. The per-object [transformMatrix] never reaches the GPU: the
    recorded commands and the object storage buffer depend only on the
    mesh and material pointers, and every [objectSSBO[i].modelMatrix] is
    the same time-based [model] matrix. *)
Theorem draw_objects_ignores_transforms env objs objs' :
  (fun o => (mesh o, material o)) <$> objs = (fun o => (mesh o, material o)) <$> objs' ->
  draw_objects env objs = draw_objects env objs' /\
  (forall out, draw_objects env objs = Ok out ->
     out_objectData out = repeat (env_model env) (Z.to_nat (to_int32 (Z.of_nat (length objs))))).
Proof.
  intros Heq. assert (Hlen : length objs = length objs').
  { by rewrite <- (length_fmap (fun o => (mesh o, material o)) objs), Heq, length_fmap. }
  split.
  - unfold draw_objects. rewrite Hlen. destruct (write_objects _ _ _ _); [|done]. simpl.
    rewrite (draw_loop_ext env 0 _ (firstn (Z.to_nat (to_int32 (Z.of_nat (length objs')))) objs')); [done|].
    rewrite !fmap_take, Heq. by rewrite ?Hlen.
  - unfold draw_objects. destruct (write_objects _ _ _ _) as [l|] eqn:Hw; [|done]. simpl.
    apply write_objects_Ok in Hw as ->.
    destruct (draw_loop _ _ _ _); [|done]. by intros ? [= <-].
Qed.

(** ** Witnesses *)

Ltac solve_valid :=
  repeat (constructor; [split; eexists; reflexivity|]); constructor.

Lemma draw_objects_refines_reference_witness :
  exists out R, draw_objects example_env (_renderables example_sets) = Ok out /\
    reference_loop example_env 0 (_renderables example_sets) = Ok R /\
    observe (out_cmds out) = observe R.
Proof. apply draw_objects_refines_reference; [vm_compute; discriminate | unfold example_sets; simpl; solve_valid]. Defined.

Lemma draw_objects_draws_witness :
  exists out, draw_objects example_env (_renderables example_sets) = Ok out /\
    length (observe (out_cmds out)) = length (_renderables example_sets) /\
    forall n o ob, _renderables example_sets !! n = Some o -> observe (out_cmds out) !! n = Some ob ->
      draw_matches example_env (Z.of_nat n) o ob.
Proof. apply draw_objects_draws; [vm_compute; discriminate | unfold example_sets; simpl; solve_valid]. Defined.

(** The spec's batching example: 100 renderables, two materials in two
    contiguous runs. *)
Definition batch_sets : RenderObjectsSets :=
  mkRenderObjectsSets []
    {[ "A" := mkMaterial (Some 30) 10 11; "B" := mkMaterial None 12 13 ]}
    {[ "empire" := mkMesh empire_vertices (mkAllocatedBuffer 20 21) ]}.

Definition batch_env : DrawEnv := mkDrawEnv batch_sets (mkFrameDescriptors 40 41) 7 256 50 51.

Definition batch_objects : list RenderObject :=
  replicate 50 (mkRenderObject (Some "empire") (Some "A") 0) ++
  replicate 50 (mkRenderObject (Some "empire") (Some "B") 0).

Definition batch_output : DrawOutput :=
  Eval vm_compute in
    match draw_objects batch_env batch_objects with Ok o => o | Err _ => mkDrawOutput 0 [] [] end.

Example batch_two_binds :
  material_transitions None batch_objects = 2%nat /\
  count_pipeline_binds (out_cmds batch_output) = 2%nat /\
  length (observe (out_cmds batch_output)) = 100%nat.
Proof. vm_compute. auto. Qed.

Lemma pipeline_binds_eq_transitions_witness :
  count_pipeline_binds (out_cmds batch_output) = material_transitions None batch_objects.
Proof.
  apply (pipeline_binds_eq_transitions batch_env); [vm_compute; discriminate | | vm_compute; reflexivity].
  unfold batch_objects. simpl. solve_valid.
Defined.

Lemma null_after_nonnull_faults_witness :
  draw_objects example_env
    [mkRenderObject (Some "empire") (Some "texturedmesh") 0; mkRenderObject (Some "empire") None 0]
  = Err NullDeref.
Proof.
  apply null_after_nonnull_faults; [vm_compute; discriminate | split; eexists; reflexivity | by left].
Defined.

Lemma object_buffer_overflow_exact_witness :
  draw_objects example_env
    (replicate (Z.to_nat 10001) (mkRenderObject (Some "empire") (Some "texturedmesh") 0))
  = Err OutOfBounds.
Proof.
  apply object_buffer_overflow_exact; rewrite length_replicate, Z2Nat.id by lia;
    unfold MAX_OBJECTS_NUM; lia.
Defined.

Lemma draw_objects_ignores_transforms_witness :
  draw_objects example_env [mkRenderObject (Some "empire") (Some "texturedmesh") 0]
  = draw_objects example_env [mkRenderObject (Some "empire") (Some "texturedmesh") 99] /\
  (forall out, draw_objects example_env [mkRenderObject (Some "empire") (Some "texturedmesh") 0] = Ok out ->
     out_objectData out = repeat (env_model example_env)
       (Z.to_nat (to_int32 (Z.of_nat (length [mkRenderObject (Some "empire") (Some "texturedmesh") 0]))))).
Proof. apply draw_objects_ignores_transforms. reflexivity. Defined.

End DrawObjects.
