(* ===== verification/Texture.v ===== *)
(** Image layouts, layout-transition barriers and the mip chain of
    [vk_texture.cpp]: [vkutil::adjustImageLayout] (9-68),
    [vkutil::generateMipmaps] (129-216) and the pure parts of
    [vkutil::load_image_from_file] (218-396): the byte size of the pixel
    data, the mip count and the command sequence recorded into the two
    single-time command buffers.  An image is tracked as the list of the
    layouts of its mip levels; [exec_tcmds] replays recorded commands on it
    with the Vulkan valid-usage rules of barriers, copies and blits
    (current layout, level range, blit regions inside the levels). *)

From S2P Require Import Prelude.

Module Texture.

Inductive ImageLayout :=
| UNDEFINED
| TRANSFER_DST_OPTIMAL
| TRANSFER_SRC_OPTIMAL
| SHADER_READ_ONLY_OPTIMAL
| DEPTH_STENCIL_ATTACHMENT_OPTIMAL
| COLOR_ATTACHMENT_OPTIMAL
| PRESENT_SRC_KHR.

#[global] Instance ImageLayout_eq_dec : EqDecision ImageLayout.
Proof. solve_decision. Defined.

(** [VkAccessFlagBits] and [VkPipelineStageFlagBits] used by the file. *)
Definition VK_ACCESS_SHADER_READ_BIT : Z := 32.
Definition VK_ACCESS_DEPTH_STENCIL_ATTACHMENT_READ_BIT : Z := 512.
Definition VK_ACCESS_DEPTH_STENCIL_ATTACHMENT_WRITE_BIT : Z := 1024.
Definition VK_ACCESS_TRANSFER_READ_BIT : Z := 2048.
Definition VK_ACCESS_TRANSFER_WRITE_BIT : Z := 4096.
Definition VK_PIPELINE_STAGE_TOP_OF_PIPE_BIT : Z := 1.
Definition VK_PIPELINE_STAGE_FRAGMENT_SHADER_BIT : Z := 128.
Definition VK_PIPELINE_STAGE_EARLY_FRAGMENT_TESTS_BIT : Z := 256.
Definition VK_PIPELINE_STAGE_TRANSFER_BIT : Z := 4096.
(** [VK_FORMAT_FEATURE_SAMPLED_IMAGE_FILTER_LINEAR_BIT = 0x1000] *)
Definition VK_FORMAT_FEATURE_SAMPLED_IMAGE_FILTER_LINEAR_BIT : Z := 4096.

(** The fields of [VkImageMemoryBarrier] the file sets (the subresource
    range is always the colour aspect of array layer 0). *)
Record ImageMemoryBarrier := mkBarrier {
  oldLayout : ImageLayout;
  newLayout : ImageLayout;
  srcAccessMask : Z;
  dstAccessMask : Z;
  baseMipLevel : Z;
  levelCount : Z
}.

(** [VkExtent3D]; blit regions are kept as their far corner
    [srcOffsets[1]] / [dstOffsets[1]], the near corner being [{0,0,0}]. *)
Record Extent3D := mkExtent3D { width : Z; height : Z; depth : Z }.

(** The commands of the file: [vkCmdPipelineBarrier] with one image
    barrier, [vkCmdCopyBufferToImage] into mip level 0 and [vkCmdBlitImage]
    between two levels of the same image. *)
Inductive TCmd :=
| CmdPipelineBarrier (srcStage dstStage : Z) (b : ImageMemoryBarrier)
| CmdCopyBufferToImage (dstLayout : ImageLayout) (extent : Extent3D)
| CmdBlitImage (srcLayout : ImageLayout) (srcLevel : Z) (srcCorner : Z * Z)
               (dstLayout : ImageLayout) (dstLevel : Z) (dstCorner : Z * Z).

(** [vkutil::adjustImageLayout] (9-68): the barrier from [oldLayout] to
    [newLayout] over mip levels [0, levelCount), with the access masks and
    stages of the four branches. *)
Definition adjustImageLayout (old new : ImageLayout) (levelCount : Z) : TCmd :=
  let mk src dst ss ds := CmdPipelineBarrier ss ds (mkBarrier old new src dst 0 levelCount) in
  match old, new with
  | UNDEFINED, TRANSFER_DST_OPTIMAL =>
      mk 0 VK_ACCESS_TRANSFER_WRITE_BIT
         VK_PIPELINE_STAGE_TOP_OF_PIPE_BIT VK_PIPELINE_STAGE_TRANSFER_BIT
  | TRANSFER_DST_OPTIMAL, SHADER_READ_ONLY_OPTIMAL =>
      mk VK_ACCESS_TRANSFER_WRITE_BIT VK_ACCESS_SHADER_READ_BIT
         VK_PIPELINE_STAGE_TRANSFER_BIT VK_PIPELINE_STAGE_FRAGMENT_SHADER_BIT
  | UNDEFINED, DEPTH_STENCIL_ATTACHMENT_OPTIMAL =>
      mk 0 (Z.lor VK_ACCESS_DEPTH_STENCIL_ATTACHMENT_READ_BIT
                  VK_ACCESS_DEPTH_STENCIL_ATTACHMENT_WRITE_BIT)
         VK_PIPELINE_STAGE_TOP_OF_PIPE_BIT VK_PIPELINE_STAGE_EARLY_FRAGMENT_TESTS_BIT
  | _, _ =>
      mk VK_ACCESS_TRANSFER_WRITE_BIT VK_ACCESS_SHADER_READ_BIT
         VK_PIPELINE_STAGE_TRANSFER_BIT VK_PIPELINE_STAGE_FRAGMENT_SHADER_BIT
  end.

(** [if (mipWidth > 1) mipWidth /= 2;] on an [int32_t]. *)
Definition halve (x : Z) : Z := if 1 <? x then Z.quot x 2 else x.

(** [mipWidth > 1 ? mipWidth / 2 : 1], the far corner of a blit target. *)
Definition next_corner (x : Z) : Z := if 1 <? x then Z.quot x 2 else 1.

(** One iteration of the loop of [generateMipmaps] (154-199) for level
    [i]: level [i-1] to [TRANSFER_SRC], blit [i-1] into [i], level [i-1]
    to [SHADER_READ_ONLY]. *)
Definition mip_iteration (i mipWidth mipHeight : Z) : list TCmd :=
  [CmdPipelineBarrier VK_PIPELINE_STAGE_TRANSFER_BIT VK_PIPELINE_STAGE_TRANSFER_BIT
     (mkBarrier TRANSFER_DST_OPTIMAL TRANSFER_SRC_OPTIMAL
        VK_ACCESS_TRANSFER_WRITE_BIT VK_ACCESS_TRANSFER_READ_BIT (i - 1) 1);
   CmdBlitImage TRANSFER_SRC_OPTIMAL (i - 1) (mipWidth, mipHeight)
                TRANSFER_DST_OPTIMAL i (next_corner mipWidth, next_corner mipHeight);
   CmdPipelineBarrier VK_PIPELINE_STAGE_TRANSFER_BIT VK_PIPELINE_STAGE_FRAGMENT_SHADER_BIT
     (mkBarrier TRANSFER_SRC_OPTIMAL SHADER_READ_ONLY_OPTIMAL
        VK_ACCESS_TRANSFER_READ_BIT VK_ACCESS_SHADER_READ_BIT (i - 1) 1)].

(** [for (uint32_t i = 1; i < miplevels; i++)], run for [k] iterations
    starting at [i]. *)
Fixpoint mip_loop (k : nat) (i mipWidth mipHeight : Z) : list TCmd :=
  match k with
  | O => []
  | S k' => mip_iteration i mipWidth mipHeight ++
            mip_loop k' (i + 1) (halve mipWidth) (halve mipHeight)
  end.

(** The [VkImageCreateInfo] fields [generateMipmaps] reads. *)
Record ImageCreateInfo := mkImageCreateInfo {
  extent : Extent3D;
  mipLevels : Z;
  format : Z
}.

(** [vkutil::generateMipmaps] (129-216): the format must support linear
    filtering (otherwise a [std::runtime_error] escapes [init] and the
    process terminates); then the loop and the final barrier of the last
    level, [miplevels - 1] computed in [uint32_t]. *)
Definition generateMipmaps (optimalTilingFeatures : Z) (imageInfo : ImageCreateInfo)
  : result (list TCmd) :=
  if negb (Z.testbit optimalTilingFeatures 12) then Err VkAbort else
  let miplevels := mipLevels imageInfo in
  let mipWidth := to_int32 (width (extent imageInfo)) in
  let mipHeight := to_int32 (height (extent imageInfo)) in
  Ok (mip_loop (Z.to_nat (miplevels - 1)) 1 mipWidth mipHeight ++
      [CmdPipelineBarrier VK_PIPELINE_STAGE_TRANSFER_BIT VK_PIPELINE_STAGE_FRAGMENT_SHADER_BIT
         (mkBarrier TRANSFER_DST_OPTIMAL SHADER_READ_ONLY_OPTIMAL
            VK_ACCESS_TRANSFER_WRITE_BIT VK_ACCESS_SHADER_READ_BIT
            (to_uint32 (miplevels - 1)) 1)]).

(** [VkDeviceSize imageSize = texWidth * texHeight * 4;]: the product is
    computed in [int] and then converted to the 64-bit [VkDeviceSize]. *)
Definition image_size (texWidth texHeight : Z) : Z :=
  wrap 64 (to_int32 (texWidth * texHeight * 4)).

(** [static_cast<uint32_t>(std::floor(std::log2(std::max(texHeight, texWidth)))) + 1] *)
Definition mip_count (texWidth texHeight : Z) : Z :=
  Z.log2 (Z.max texHeight texWidth) + 1.

(** [vkinit::image_create_info(imageExtent, mipLevels, VK_FORMAT_R8G8B8A8_SRGB, ...)]
    with [imageExtent = {texWidth, texHeight, 1}] (349-361). *)
Definition VK_FORMAT_R8G8B8A8_SRGB : Z := 43.

Definition texture_image_info (texWidth texHeight miplevels : Z) : ImageCreateInfo :=
  mkImageCreateInfo (mkExtent3D (to_uint32 texWidth) (to_uint32 texHeight) 1)
                    miplevels VK_FORMAT_R8G8B8A8_SRGB.

(** The commands recorded by the mip-mapped [load_image_from_file]
    (374-388), one list per single-time command buffer: the transition of
    all levels to [TRANSFER_DST] and the copy into level 0 (submitted by
    [copyBufferToImage]), then the command buffer of [generateMipmaps]. *)
Definition load_image_cmds (optimalTilingFeatures texWidth texHeight : Z)
  : result (list (list TCmd)) :=
  let miplevels := mip_count texWidth texHeight in
  let info := texture_image_info texWidth texHeight miplevels in
  let! mips := generateMipmaps optimalTilingFeatures info in
  Ok [[adjustImageLayout UNDEFINED TRANSFER_DST_OPTIMAL miplevels;
       CmdCopyBufferToImage TRANSFER_DST_OPTIMAL (extent info)];
      mips].

(** The commands of the single-level [load_image_from_file] (273-309),
    recorded inside [immediate_submit]. *)
Definition load_image_cmds_single (texWidth texHeight : Z) : list TCmd :=
  let ext := mkExtent3D (to_uint32 texWidth) (to_uint32 texHeight) 1 in
  [adjustImageLayout UNDEFINED TRANSFER_DST_OPTIMAL 1;
   CmdCopyBufferToImage TRANSFER_DST_OPTIMAL ext;
   adjustImageLayout TRANSFER_DST_OPTIMAL SHADER_READ_ONLY_OPTIMAL 1].

(** ** Replaying commands on an image *)

(** An image: its level-0 extent and the layout of each mip level. *)
Record ImageState := mkImageState {
  img_width : Z;
  img_height : Z;
  layouts : list ImageLayout
}.

(** The extent of mip level [l]: [max(1, w >> l)] (Vulkan's rule). *)
Definition mip_extent (w l : Z) : Z := Z.max 1 (Z.shiftr w l).

(** Set levels [base .. base + count - 1] from [old] to [new]; a level
    outside the image, or one whose layout is not [old] (unless [old] is
    [UNDEFINED], which discards the contents), is a validation error. *)
Fixpoint transition (old new : ImageLayout) (base : Z) (count : nat)
    (ls : list ImageLayout) : result (list ImageLayout) :=
  match count with
  | O => Ok ls
  | S c =>
      match ls !! Z.to_nat base with
      | Some cur =>
          if (0 <=? base) && (bool_decide (old = UNDEFINED) || bool_decide (cur = old))
          then transition old new (base + 1) c (<[Z.to_nat base := new]> ls)
          else Err Validation
      | None => Err Validation
      end
  end.

Definition layout_at (s : ImageState) (l : Z) : option ImageLayout :=
  if 0 <=? l then layouts s !! Z.to_nat l else None.

Definition exec_tcmd (s : ImageState) (c : TCmd) : result ImageState :=
  match c with
  | CmdPipelineBarrier _ _ b =>
      if 0 <? levelCount b then
        let! ls := transition (oldLayout b) (newLayout b) (baseMipLevel b)
                              (Z.to_nat (levelCount b)) (layouts s) in
        Ok (mkImageState (img_width s) (img_height s) ls)
      else Err Validation
  | CmdCopyBufferToImage lay ext =>
      if bool_decide (lay = TRANSFER_DST_OPTIMAL /\ layout_at s 0 = Some TRANSFER_DST_OPTIMAL
                      /\ width ext = img_width s /\ height ext = img_height s)
      then Ok s else Err Validation
  | CmdBlitImage sl si (sw, sh) dl di (dw, dh) =>
      if bool_decide (sl = TRANSFER_SRC_OPTIMAL /\ layout_at s si = Some TRANSFER_SRC_OPTIMAL
                      /\ dl = TRANSFER_DST_OPTIMAL /\ layout_at s di = Some TRANSFER_DST_OPTIMAL
                      /\ 0 < sw <= mip_extent (img_width s) si
                      /\ 0 < sh <= mip_extent (img_height s) si
                      /\ 0 < dw <= mip_extent (img_width s) di
                      /\ 0 < dh <= mip_extent (img_height s) di)
      then Ok s else Err Validation
  end.

Fixpoint exec_tcmds (cs : list TCmd) (s : ImageState) : result ImageState :=
  match cs with
  | [] => Ok s
  | c :: cs' => let! s' := exec_tcmd s c in exec_tcmds cs' s'
  end.

(** A freshly created image of [n] levels. *)
Definition fresh_image (w h : Z) (n : nat) : ImageState :=
  mkImageState w h (replicate n UNDEFINED).

(** ** Lemmas on layouts and extents *)

Lemma lookup_mid {A} j (a x : A) l : (replicate j a ++ x :: l) !! j = Some x.
Proof. rewrite lookup_app_r; rewrite length_replicate; [by rewrite Nat.sub_diag|lia]. Qed.

Lemma lookup_mid_S {A} j (a x y : A) l : (replicate j a ++ x :: y :: l) !! S j = Some y.
Proof. rewrite lookup_app_r; rewrite length_replicate; [by rewrite Nat.sub_succ_l, Nat.sub_diag|lia]. Qed.

Lemma insert_mid {A} j (a x y : A) l :
  <[j := y]> (replicate j a ++ x :: l) = replicate j a ++ y :: l.
Proof. pose proof (insert_app_r (replicate j a) (x :: l) 0 y) as H. by rewrite length_replicate, Nat.add_0_r in H. Qed.

Lemma replicate_shift {A} j (a : A) l : replicate j a ++ a :: l = replicate (S j) a ++ l.
Proof. by rewrite replicate_S_end, <- app_assoc. Qed.

Lemma exec_tcmds_app cs1 cs2 s :
  exec_tcmds (cs1 ++ cs2) s = rbind (exec_tcmds cs1 s) (exec_tcmds cs2).
Proof.
  revert s. induction cs1 as [|c cs IH]; intros s; simpl; [done|].
  destruct (exec_tcmd s c); simpl; [apply IH|done].
Qed.

(** A barrier over one level whose layout is [old]. *)
Lemma transition_one old new j x l :
  x = old -> transition old new (Z.of_nat j) 1 (replicate j SHADER_READ_ONLY_OPTIMAL ++ x :: l)
  = Ok (replicate j SHADER_READ_ONLY_OPTIMAL ++ new :: l).
Proof.
  intros ->. simpl. rewrite Nat2Z.id, lookup_mid, insert_mid.
  rewrite (proj2 (Z.leb_le 0 (Z.of_nat j))) by lia.
  by rewrite (bool_decide_eq_true_2 (old = old)), orb_true_r.
Qed.

(** A barrier from [UNDEFINED] over [c] levels starting at [b]. *)
Lemma transition_undefined new b c r x :
  transition UNDEFINED new (Z.of_nat b) c (replicate b new ++ replicate (c + r) x)
  = Ok (replicate (b + c) new ++ replicate r x).
Proof.
  revert b. induction c as [|c IH]; intros b; simpl; [by rewrite Nat.add_0_r|].
  rewrite Nat2Z.id, lookup_mid, insert_mid, replicate_shift.
  rewrite (proj2 (Z.leb_le 0 (Z.of_nat b))) by lia.
  rewrite <- Nat.add_succ_comm, <- IH. simpl. do 2 f_equal. lia.
Qed.

Lemma mip_extent_pos w l : 0 < mip_extent w l.
Proof. unfold mip_extent. lia. Qed.

(** Halving the extent of a level gives the extent of the next level,
    both for [if (mipWidth > 1) mipWidth /= 2] and for the blit corner. *)
Lemma halve_mip_extent w k :
  0 <= w -> 0 <= k ->
  halve (mip_extent w k) = mip_extent w (k + 1) /\
  next_corner (mip_extent w k) = mip_extent w (k + 1).
Proof.
  intros Hw Hk. unfold halve, next_corner, mip_extent.
  rewrite !Z.shiftr_div_pow2, Z.pow_add_r, <- Z.div_div by lia.
  assert (0 <= w / 2 ^ k) by (apply Z.div_pos; lia).
  destruct (Z.ltb_spec 1 (Z.max 1 (w / 2 ^ k))) as [Hlt|Hge].
  - rewrite Z.max_r in * by lia. rewrite Z.quot_div_nonneg, Z.pow_1_r by lia.
    assert (1 <= w / 2 ^ k / 2) by (apply Z.div_le_lower_bound; lia). lia.
  - assert (w / 2 ^ k / 2 ^ 1 = 0) as -> by (apply Z.div_small; lia). lia.
Qed.

Lemma mip_extent_0 w : 1 <= w -> mip_extent w 0 = w.
Proof. intros. unfold mip_extent. rewrite Z.shiftr_0_r. lia. Qed.

Lemma layout_at_nat s j : layout_at s (Z.of_nat j) = layouts s !! j.
Proof. unfold layout_at. rewrite Nat2Z.id. by destruct (Z.leb_spec 0 (Z.of_nat j)); [|lia]. Qed.

(** One iteration of the loop on an image whose levels below [j] are
    already [SHADER_READ_ONLY] and whose levels [j] and [j+1] are
    [TRANSFER_DST]. *)
Lemma mip_iteration_exec j w h l :
  1 <= w -> 1 <= h ->
  exec_tcmds (mip_iteration (Z.of_nat j + 1) (mip_extent w (Z.of_nat j)) (mip_extent h (Z.of_nat j)))
    (mkImageState w h (replicate j SHADER_READ_ONLY_OPTIMAL ++
                       TRANSFER_DST_OPTIMAL :: TRANSFER_DST_OPTIMAL :: l))
  = Ok (mkImageState w h (replicate (S j) SHADER_READ_ONLY_OPTIMAL ++ TRANSFER_DST_OPTIMAL :: l)).
Proof.
  intros Hw Hh. unfold mip_iteration.
  replace (Z.of_nat j + 1 - 1) with (Z.of_nat j) by lia.
  destruct (halve_mip_extent w (Z.of_nat j)) as [_ Hcw]; [lia|lia|].
  destruct (halve_mip_extent h (Z.of_nat j)) as [_ Hch]; [lia|lia|].
  pose proof (mip_extent_pos w (Z.of_nat j)). pose proof (mip_extent_pos h (Z.of_nat j)).
  pose proof (mip_extent_pos w (Z.of_nat j + 1)). pose proof (mip_extent_pos h (Z.of_nat j + 1)).
  cbn [exec_tcmds exec_tcmd levelCount oldLayout newLayout baseMipLevel layouts img_width img_height].
  rewrite transition_one by done. change (0 <? 1) with true. cbn [rbind img_width img_height].
  rewrite bool_decide_eq_true_2; cycle 1.
  { rewrite Hcw, Hch, !layout_at_nat. replace (Z.of_nat j + 1) with (Z.of_nat (S j)) by lia.
    rewrite layout_at_nat. cbn [layouts]. rewrite lookup_mid, lookup_mid_S.
    replace (Z.of_nat (S j)) with (Z.of_nat j + 1) by lia. split_and!; done || lia. }
  cbn [rbind layouts]. rewrite transition_one by done. cbn [rbind].
  by rewrite replicate_shift.
Qed.

Lemma mip_loop_exec k j rest w h :
  1 <= w -> 1 <= h -> (k <= rest)%nat ->
  exec_tcmds (mip_loop k (Z.of_nat j + 1) (mip_extent w (Z.of_nat j)) (mip_extent h (Z.of_nat j)))
    (mkImageState w h (replicate j SHADER_READ_ONLY_OPTIMAL ++ replicate (S rest) TRANSFER_DST_OPTIMAL))
  = Ok (mkImageState w h (replicate (j + k) SHADER_READ_ONLY_OPTIMAL ++
                          replicate (S rest - k) TRANSFER_DST_OPTIMAL)).
Proof.
  intros Hw Hh. revert j rest. induction k as [|k IH]; intros j rest Hk.
  { simpl. by rewrite Nat.add_0_r. }
  destruct rest as [|rest]; [lia|].
  cbn [mip_loop]. rewrite exec_tcmds_app. cbn [replicate].
  rewrite mip_iteration_exec by done. cbn [rbind].
  destruct (halve_mip_extent w (Z.of_nat j)) as [-> _]; [lia|lia|].
  destruct (halve_mip_extent h (Z.of_nat j)) as [-> _]; [lia|lia|].
  replace (Z.of_nat j + 1 + 1) with (Z.of_nat (S j) + 1) by lia.
  replace (Z.of_nat j + 1) with (Z.of_nat (S j)) by lia.
  rewrite Nat.add_succ_r. apply (IH (S j) rest). lia.
Qed.

Lemma generateMipmaps_exec feat w h L :
  Z.testbit feat 12 = true -> 1 <= w < 2 ^ 31 -> 1 <= h < 2 ^ 31 -> 1 <= L < 2 ^ 32 ->
  exists cs, generateMipmaps feat (texture_image_info w h L) = Ok cs /\
  exec_tcmds cs (mkImageState w h (replicate (Z.to_nat L) TRANSFER_DST_OPTIMAL))
  = Ok (mkImageState w h (replicate (Z.to_nat L) SHADER_READ_ONLY_OPTIMAL)).
Proof.
  intros Hf Hw Hh HL. unfold generateMipmaps. rewrite Hf. eexists. split; [reflexivity|].
  cbn [texture_image_info extent width height mipLevels].
  unfold to_uint32. rewrite !to_int32_wrap, !to_int32_small by lia.
  rewrite exec_tcmds_app.
  replace (Z.to_nat L) with (S (Z.to_nat (L - 1))) by lia.
  pose proof (mip_loop_exec (Z.to_nat (L - 1)) 0 (Z.to_nat (L - 1)) w h) as Hl.
  change (Z.of_nat 0) with 0 in Hl. rewrite !mip_extent_0 in Hl by lia.
  change (0 + 1) with 1 in Hl. cbn [replicate app Nat.add] in Hl.
  cbn [replicate]. rewrite Hl by lia; clear Hl. cbn [rbind].
  replace (S (Z.to_nat (L - 1)) - Z.to_nat (L - 1))%nat with 1%nat by lia.
  cbn [exec_tcmds exec_tcmd levelCount oldLayout newLayout baseMipLevel layouts].
  change (0 <? 1) with true. cbn iota.
  rewrite wrap_small by lia. replace (L - 1) with (Z.of_nat (Z.to_nat (L - 1))) at 1 by lia.
  change (Z.to_nat 1) with 1%nat. cbn [replicate].
  rewrite transition_one by done. simpl. by rewrite <- replicate_S_end.
Qed.

(** C23. [generateMipmaps] is valid and complete: for a texture of
    [w] x [h] texels ([1 <= w, h < 2^31]) with [L >= 1] mip levels, all in
    [TRANSFER_DST_OPTIMAL] after the copy, the recorded barriers and blits
    all satisfy the layout, level-range and region rules, and leave every
    level in [SHADER_READ_ONLY_OPTIMAL]. *)
Theorem generateMipmaps_layouts feat w h L :
  Z.testbit feat 12 = true -> 1 <= w < 2 ^ 31 -> 1 <= h < 2 ^ 31 -> 1 <= L < 2 ^ 32 ->
  exists cs, generateMipmaps feat (texture_image_info w h L) = Ok cs /\
  exec_tcmds cs (mkImageState w h (replicate (Z.to_nat L) TRANSFER_DST_OPTIMAL))
  = Ok (mkImageState w h (replicate (Z.to_nat L) SHADER_READ_ONLY_OPTIMAL)).
Proof. apply generateMipmaps_exec. Qed.

Lemma mip_count_range w h : 1 <= w < 2 ^ 31 -> 1 <= h < 2 ^ 31 ->
  1 <= mip_count w h <= 31.
Proof.
  intros Hw Hh. unfold mip_count.
  assert (Z.log2 (Z.max h w) < 31).
  { apply Z.log2_lt_pow2; lia. }
  pose proof (Z.log2_nonneg (Z.max h w)). lia.
Qed.

Lemma load_image_exec feat w h :
  Z.testbit feat 12 = true -> 1 <= w < 2 ^ 31 -> 1 <= h < 2 ^ 31 ->
  exists bufs, load_image_cmds feat w h = Ok bufs /\
  exec_tcmds (concat bufs) (fresh_image w h (Z.to_nat (mip_count w h)))
  = Ok (mkImageState w h (replicate (Z.to_nat (mip_count w h)) SHADER_READ_ONLY_OPTIMAL)).
Proof.
  intros Hf Hw Hh. pose proof (mip_count_range w h Hw Hh) as HL.
  destruct (generateMipmaps_exec feat w h (mip_count w h)) as (cs & Hg & He); try done; [lia|].
  unfold load_image_cmds. rewrite Hg. eexists. split; [reflexivity|].
  cbn [concat]. rewrite app_nil_r. cbn [app exec_tcmds exec_tcmd adjustImageLayout levelCount
    oldLayout newLayout baseMipLevel fresh_image layouts].
  rewrite (proj2 (Z.ltb_lt 0 (mip_count w h))) by lia.
  pose proof (transition_undefined TRANSFER_DST_OPTIMAL 0 (Z.to_nat (mip_count w h)) 0 UNDEFINED) as Ht.
  rewrite Nat.add_0_r in Ht. change (Z.of_nat 0) with 0 in Ht. cbn [replicate app Nat.add] in Ht.
  rewrite Ht. cbn [rbind].
  rewrite bool_decide_eq_true_2.
  - cbn [rbind]. rewrite app_nil_r. exact He.
  - unfold layout_at, fresh_image.
    cbn [layouts img_width img_height texture_image_info extent width height].
    unfold to_uint32. rewrite !wrap_small, app_nil_r by lia. split_and!; try done.
    destruct (Z.to_nat (mip_count w h)) eqn:E; [lia|done].
Qed.

(** C17. The mip-mapped [load_image_from_file] leaves the texture ready
    for sampling: on a fresh image of [mip_count w h] levels, the two
    single-time command buffers (transition of all levels, copy of the
    pixels into level 0, then [generateMipmaps]) are valid and leave
    every level in [SHADER_READ_ONLY_OPTIMAL], the layout [init_scene]
    declares in the texture descriptor. *)
Theorem load_image_layouts feat w h :
  Z.testbit feat 12 = true -> 1 <= w < 2 ^ 31 -> 1 <= h < 2 ^ 31 ->
  exists bufs, load_image_cmds feat w h = Ok bufs /\
  exec_tcmds (concat bufs) (fresh_image w h (Z.to_nat (mip_count w h)))
  = Ok (mkImageState w h (replicate (Z.to_nat (mip_count w h)) SHADER_READ_ONLY_OPTIMAL)).
Proof. apply load_image_exec. Qed.

(** Every blit of the loop copies the whole of level [i-1] onto the
    whole of level [i]. *)
Lemma mip_loop_blits k j w h c :
  1 <= w -> 1 <= h -> c ∈ mip_loop k (Z.of_nat j + 1) (mip_extent w (Z.of_nat j)) (mip_extent h (Z.of_nat j)) ->
  forall sl si sw sh dl di dw dh, c = CmdBlitImage sl si (sw, sh) dl di (dw, dh) ->
  Z.of_nat j <= si /\ di = si + 1 /\ di <= Z.of_nat j + Z.of_nat k /\
  sw = mip_extent w si /\ sh = mip_extent h si /\ dw = mip_extent w di /\ dh = mip_extent h di.
Proof.
  intros Hw Hh. revert j. induction k as [|k IH]; intros j Hc; [by apply not_elem_of_nil in Hc|].
  cbn [mip_loop] in Hc. apply elem_of_app in Hc as [Hc|Hc].
  - intros sl si sw sh dl di dw dh ->. unfold mip_iteration in Hc.
    repeat (apply elem_of_cons in Hc as [Hc|Hc]; [try discriminate Hc|]);
      [|by apply not_elem_of_nil in Hc].
    injection Hc as Hsl Hsi Hsw Hsh Hdl Hdi Hdw Hdh. subst.
    destruct (halve_mip_extent w (Z.of_nat j)) as [_ ->]; [lia|lia|].
    destruct (halve_mip_extent h (Z.of_nat j)) as [_ ->]; [lia|lia|].
    replace (Z.of_nat j + 1 - 1) with (Z.of_nat j) by lia. split_and!; done || lia.
  - destruct (halve_mip_extent w (Z.of_nat j)) as [Hw' _]; [lia|lia|].
    destruct (halve_mip_extent h (Z.of_nat j)) as [Hh' _]; [lia|lia|].
    rewrite Hw', Hh' in Hc. replace (Z.of_nat j + 1 + 1) with (Z.of_nat (S j) + 1) in Hc by lia.
    replace (Z.of_nat j + 1) with (Z.of_nat (S j)) in Hc by lia.
    intros sl si sw sh dl di dw dh Heq. destruct (IH (S j) Hc sl si sw sh dl di dw dh Heq) as (? & ? & ? & ?).
    split_and!; try done; lia.
Qed.

(** The mip chain is built level by level from full-size regions:
    every blit recorded by [generateMipmaps] reads the whole extent of a
    level [i - 1] and writes the whole extent of level [i], with
    [1 <= i < L]. *)
Theorem generateMipmaps_blit_regions feat w h L cs :
  1 <= w < 2 ^ 31 -> 1 <= h < 2 ^ 31 -> 1 <= L ->
  generateMipmaps feat (texture_image_info w h L) = Ok cs ->
  forall sl si sw sh dl di dw dh, CmdBlitImage sl si (sw, sh) dl di (dw, dh) ∈ cs ->
  1 <= di < L /\ si = di - 1 /\
  sw = mip_extent w si /\ sh = mip_extent h si /\ dw = mip_extent w di /\ dh = mip_extent h di.
Proof.
  intros Hw Hh HL Hg sl si sw sh dl di dw dh Hc. unfold generateMipmaps in Hg.
  destruct (negb _); [discriminate|]. apply Ok_inj in Hg as <-.
  cbn [texture_image_info extent width height mipLevels] in Hc.
  unfold to_uint32 in Hc. rewrite !to_int32_wrap, !to_int32_small in Hc by lia.
  apply elem_of_app in Hc as [Hc|Hc].
  - rewrite <- (mip_extent_0 w), <- (mip_extent_0 h) in Hc by lia.
    destruct (mip_loop_blits (Z.to_nat (L - 1)) 0 w h _ ltac:(lia) ltac:(lia) Hc
                sl si sw sh dl di dw dh eq_refl)
      as (? & ? & ? & ?). split_and!; try done; lia.
  - apply list_elem_of_singleton in Hc. discriminate.
Qed.

(** The mip count [floor(log2(max(h, w))) + 1] is exactly the length
    of the full chain: the last level is 1 x 1 and, when there are at
    least two levels, the level before it is not. *)
Theorem mip_count_complete w h :
  1 <= w -> 1 <= h ->
  let L := mip_count w h in
  mip_extent w (L - 1) = 1 /\ mip_extent h (L - 1) = 1 /\
  (2 <= L -> 1 < mip_extent w (L - 2) \/ 1 < mip_extent h (L - 2)).
Proof.
  intros Hw Hh L. subst L. unfold mip_count, mip_extent.
  assert (Hm : 0 < Z.max h w) by lia.
  destruct (Z.log2_spec _ Hm) as [Hlo Hhi]. pose proof (Z.log2_nonneg (Z.max h w)).
  remember (Z.log2 (Z.max h w)) as k eqn:Hk.
  replace (k + 1 - 1) with k by lia. rewrite !Z.shiftr_div_pow2 by lia.
  assert (Hpk : 0 < 2 ^ k) by (apply Z.pow_pos_nonneg; lia).
  rewrite Z.pow_succ_r in Hhi by lia.
  assert (w / 2 ^ k < 2) by (apply Z.div_lt_upper_bound; lia).
  assert (h / 2 ^ k < 2) by (apply Z.div_lt_upper_bound; lia).
  split_and!; [lia|lia|]. intros H2.
  replace (k + 1 - 2) with (k - 1) by lia. rewrite !Z.shiftr_div_pow2 by lia.
  assert (Hk2 : 2 ^ k = 2 * 2 ^ (k - 1)) by (rewrite <- Z.pow_succ_r by lia; f_equal; lia).
  assert (Hm2 : 2 <= Z.max h w / 2 ^ (k - 1))
    by (apply Z.div_le_lower_bound; [apply Z.pow_pos_nonneg|]; lia).
  destruct (Z.max_spec h w) as [[_ E]|[_ E]]; rewrite E in Hm2; lia.
Qed.

Lemma image_size_value w h :
  0 <= w < 2 ^ 31 -> 0 <= h < 2 ^ 31 ->
  image_size w h = w * h * 4 <-> w * h * 4 < 2 ^ 31.
Proof.
  intros Hw Hh. unfold image_size. assert (Hp : 0 <= w * h * 4) by nia.
  split; intros Hs.
  - destruct (Z.ltb_spec (w * h * 4) (2 ^ 31)) as [|Hge]; [done|exfalso].
    pose proof (to_int32_range (w * h * 4)) as Hr.
    destruct (Z.leb_spec 0 (to_int32 (w * h * 4))).
    + rewrite wrap_small in Hs by lia. lia.
    + unfold wrap in Hs. rewrite <- (Z.mod_unique _ _ (-1) (to_int32 (w * h * 4) + 2 ^ 64)) in Hs
        by lia.
      assert (w * h * 4 <= 4 * (2 ^ 31 - 1) * (2 ^ 31 - 1)) by nia. lia.
  - rewrite to_int32_small, wrap_small by lia. done.
Qed.

(** C29. [texWidth * texHeight * 4] is computed in [int]: the size of the
    staging buffer equals the byte size of the pixel data exactly when that
    size is below [2^31]; above it the product wraps and the 64-bit
    [VkDeviceSize] receives a different value. *)
Theorem image_size_exact w h :
  0 <= w < 2 ^ 31 -> 0 <= h < 2 ^ 31 ->
  image_size w h = w * h * 4 <-> w * h * 4 < 2 ^ 31.
Proof. apply image_size_value. Qed.

(** The single-level [load_image_from_file] (218-318) also leaves its one
    level in [SHADER_READ_ONLY_OPTIMAL]. *)
Lemma load_image_single_layouts w h :
  0 <= w < 2 ^ 32 -> 0 <= h < 2 ^ 32 ->
  exec_tcmds (load_image_cmds_single w h) (fresh_image w h 1)
  = Ok (mkImageState w h [SHADER_READ_ONLY_OPTIMAL]).
Proof.
  intros Hw Hh. unfold load_image_cmds_single, to_uint32. rewrite !wrap_small by lia.
  simpl. rewrite bool_decide_eq_true_2 by (split_and!; done). reflexivity.
Qed.

(** ** Witnesses *)

Lemma generateMipmaps_layouts_witness :
  exists cs, generateMipmaps 4096 (texture_image_info 300 200 9) = Ok cs /\
  exec_tcmds cs (mkImageState 300 200 (replicate 9 TRANSFER_DST_OPTIMAL))
  = Ok (mkImageState 300 200 (replicate 9 SHADER_READ_ONLY_OPTIMAL)).
Proof. apply (generateMipmaps_layouts 4096 300 200 9); (reflexivity || lia). Defined.

Lemma load_image_layouts_witness :
  exists bufs, load_image_cmds 4096 1024 3 = Ok bufs /\
  exec_tcmds (concat bufs) (fresh_image 1024 3 (Z.to_nat (mip_count 1024 3)))
  = Ok (mkImageState 1024 3 (replicate (Z.to_nat (mip_count 1024 3)) SHADER_READ_ONLY_OPTIMAL)).
Proof. apply (load_image_layouts 4096 1024 3); (reflexivity || lia). Defined.

Definition small_mips : list TCmd :=
  Eval vm_compute in default [] (match generateMipmaps 4096 (texture_image_info 4 2 3) with
                                 | Ok cs => Some cs | Err _ => None end).

Lemma generateMipmaps_blit_regions_witness :
  1 <= 1 < 3 /\ 0 = 1 - 1 /\ 4 = mip_extent 4 0 /\ 2 = mip_extent 2 0 /\
  2 = mip_extent 4 1 /\ 1 = mip_extent 2 1.
Proof.
  apply (generateMipmaps_blit_regions 4096 4 2 3 small_mips ltac:(lia) ltac:(lia) ltac:(lia)
           eq_refl TRANSFER_SRC_OPTIMAL 0 4 2 TRANSFER_DST_OPTIMAL 1 2 1).
  vm_compute. repeat (first [apply list_elem_of_here | apply list_elem_of_further]).
Defined.

Lemma mip_count_complete_witness :
  mip_extent 300 (mip_count 300 200 - 1) = 1 /\ mip_extent 200 (mip_count 300 200 - 1) = 1 /\
  (2 <= mip_count 300 200 ->
   1 < mip_extent 300 (mip_count 300 200 - 2) \/ 1 < mip_extent 200 (mip_count 300 200 - 2)).
Proof. apply (mip_count_complete 300 200); lia. Defined.

(** A 32768 x 16384 RGBA texture (2 GiB of pixels) gets a staging buffer
    of [2^64 - 2^31] bytes. *)
Lemma image_size_exact_witness :
  image_size 32768 16384 <> 32768 * 16384 * 4 /\ image_size 32768 16384 = 2 ^ 64 - 2 ^ 31.
Proof.
  split; [|reflexivity]. intros E.
  apply (image_size_exact 32768 16384 ltac:(lia) ltac:(lia)) in E. lia.
Defined.

End Texture.
