(* ===== verification/CommandBuffer.v ===== *)
(** Command buffers: the Vulkan command-buffer lifecycle (initial,
    recording, executable, pending, invalid) with the render-pass scope of
    each recorded command, and the single-time command buffers of
    [vk_texture.cpp]: [vkutil::beginSigleTimeCommands] (91-107),
    [vkutil::endSigleTimeCommands] (109-128), [vkutil::copyBufferToImage]
    (70-90) and the command-buffer side of [vkutil::generateMipmaps]
    (129-216), composed as the mip-mapped [load_image_from_file] composes
    them (372-390).

    Which commands may be recorded where is an interface, the class
    [RecordScope]: the command types of the other components
    ([Texture.TCmd] here, [DrawObjects.Cmd] and the render-pass commands
    in [RenderPass.v]) are instances of it, and the lifecycle lemmas are
    proved once against it.  A misuse of the lifecycle is [Err Validation]. *)

From S2P Require Import Prelude Texture.

Module CommandBuffer.
Import Texture.

(** The render-pass scope of a [vkCmd*] command ("Render Pass Scope" in
    the reference pages of the commands). *)
Inductive Scope :=
| Both              (** binds, push constants *)
| Inside            (** draws *)
| Outside           (** copies, blits, barriers without a self-dependency *)
| BeginsRenderPass  (** [vkCmdBeginRenderPass] *)
| EndsRenderPass.   (** [vkCmdEndRenderPass] *)

Class RecordScope (C : Type) := cmd_scope : C -> Scope.

(** The transfer commands of [vk_texture.cpp] are recorded outside any
    render pass: copies and blits must be, and the render pass of the
    engine declares no subpass self-dependency a barrier would need. *)
#[export] Instance TCmd_scope : RecordScope TCmd := fun _ => Outside.

(** The lifecycle states of a command buffer; [Recording] knows whether a
    render pass instance is open. *)
Inductive CBState :=
| Initial
| Recording (inRenderPass : bool)
| Executable
| Pending
| Invalid.

#[export] Instance CBState_eq_dec : EqDecision CBState.
Proof. solve_decision. Defined.

Section Lifecycle.
Context `{RecordScope C}.

(** [vkCmd*] on a buffer in state [s]. *)
Definition cb_record (s : CBState) (c : C) : result CBState :=
  match s with
  | Recording rp =>
      match cmd_scope c, rp with
      | Both, _ | Inside, true | Outside, false => Ok s
      | BeginsRenderPass, false => Ok (Recording true)
      | EndsRenderPass, true => Ok (Recording false)
      | _, _ => Err Validation
      end
  | _ => Err Validation
  end.

Fixpoint cb_record_all (cs : list C) (s : CBState) : result CBState :=
  match cs with
  | [] => Ok s
  | c :: cs' => let! s' := cb_record s c in cb_record_all cs' s'
  end.

Lemma cb_record_all_app cs1 cs2 s :
  cb_record_all (cs1 ++ cs2) s = let! s' := cb_record_all cs1 s in cb_record_all cs2 s'.
Proof.
  revert s. induction cs1 as [|c cs IH]; intros s; simpl; [done|].
  destruct (cb_record s c); simpl; [apply IH|done].
Qed.

(** A command that may be recorded inside a render pass instance. *)
Definition in_pass (c : C) : Prop := cmd_scope c = Both \/ cmd_scope c = Inside.

Lemma cb_record_all_in_pass cs :
  Forall in_pass cs -> cb_record_all cs (Recording true) = Ok (Recording true).
Proof. induction 1 as [|c cs [Hc|Hc] _ IH]; simpl; rewrite ?Hc; [done|exact IH|exact IH]. Qed.
End Lifecycle.

(** [vkBeginCommandBuffer]: from [Initial], or, when the pool was created
    with [VK_COMMAND_POOL_CREATE_RESET_COMMAND_BUFFER_BIT], from
    [Executable] or [Invalid] through an implicit reset. *)
Definition cb_begin (resettable : bool) (s : CBState) : result CBState :=
  match s with
  | Initial => Ok (Recording false)
  | Executable | Invalid => if resettable then Ok (Recording false) else Err Validation
  | _ => Err Validation
  end.

(** [vkEndCommandBuffer]: no render pass instance may be open. *)
Definition cb_end (s : CBState) : result CBState :=
  match s with Recording false => Ok Executable | _ => Err Validation end.

(** [vkResetCommandBuffer]: the pool must allow it and the buffer must
    not be pending. *)
Definition cb_reset (resettable : bool) (s : CBState) : result CBState :=
  match s with
  | Pending | Recording _ => Err Validation
  | _ => if resettable then Ok Initial else Err Validation
  end.

(** [vkQueueSubmit] (without [SIMULTANEOUS_USE]). *)
Definition cb_submit (s : CBState) : result CBState :=
  match s with Executable => Ok Pending | _ => Err Validation end.

(** The GPU finishes a pending buffer; one recorded with
    [VK_COMMAND_BUFFER_USAGE_ONE_TIME_SUBMIT_BIT] becomes invalid. *)
Definition cb_complete (oneTime : bool) (s : CBState) : CBState :=
  match s with Pending => if oneTime then Invalid else Executable | _ => s end.

(** ** The upload command pool *)

(** [_uploadContext._commandPool] (created with flags 0 in
    [init_commands]) with the command buffers allocated from it, each with
    its state, whether it was begun as one-time-submit and the commands
    recorded into it; [submitted] is what the graphics queue has been
    given, in order. *)
Record CmdBuf := mkCmdBuf {
  cb_state : CBState;
  cb_oneTime : bool;
  cb_cmds : list TCmd
}.

Record UploadPool := mkUploadPool {
  buffers : gmap Z CmdBuf;
  next_cb : Z;
  submitted : list (list TCmd)
}.

Definition set_buffers (bs : gmap Z CmdBuf) (p : UploadPool) : UploadPool :=
  mkUploadPool bs (next_cb p) (submitted p).

Definition update_cb (cb : Z) (f : CmdBuf -> result CmdBuf) (p : UploadPool) : result UploadPool :=
  match buffers p !! cb with
  | Some b => let! b' := f b in Ok (set_buffers (<[cb := b']> (buffers p)) p)
  | None => Err Validation
  end.

Definition with_state (s : CBState) (b : CmdBuf) : CmdBuf :=
  mkCmdBuf s (cb_oneTime b) (cb_cmds b).

(** [vkAllocateCommandBuffers] of one primary buffer. *)
Definition allocate (p : UploadPool) : Z * UploadPool :=
  (next_cb p, mkUploadPool (<[next_cb p := mkCmdBuf Initial false []]> (buffers p))
                           (next_cb p + 1) (submitted p)).

(** [vkutil::beginSigleTimeCommands] (91-107): allocate, then begin with
    [VK_COMMAND_BUFFER_USAGE_ONE_TIME_SUBMIT_BIT]. *)
Definition beginSigleTimeCommands (p : UploadPool) : result (Z * UploadPool) :=
  let '(cb, p1) := allocate p in
  let! p2 := update_cb cb (fun b => let! s := cb_begin false (cb_state b) in
                                    Ok (mkCmdBuf s true [])) p1 in
  Ok (cb, p2).

(** Recording [cs] into [cb]. *)
Definition record (cb : Z) (cs : list TCmd) (p : UploadPool) : result UploadPool :=
  update_cb cb (fun b => let! s := cb_record_all cs (cb_state b) in
                         Ok (mkCmdBuf s (cb_oneTime b) (cb_cmds b ++ cs))) p.

(** [vkQueueWaitIdle]: every pending buffer completes. *)
Definition wait_idle (p : UploadPool) : UploadPool :=
  set_buffers ((fun b => with_state (cb_complete (cb_oneTime b) (cb_state b)) b) <$> buffers p) p.

(** [vkFreeCommandBuffers]: a pending buffer may not be freed. *)
Definition free_cb (cb : Z) (p : UploadPool) : result UploadPool :=
  match buffers p !! cb with
  | Some b => if bool_decide (cb_state b = Pending) then Err Validation
              else Ok (set_buffers (delete cb (buffers p)) p)
  | None => Err Validation
  end.

(** [vkEndCommandBuffer]. *)
Definition end_cb (cb : Z) (p : UploadPool) : result UploadPool :=
  update_cb cb (fun b => let! s := cb_end (cb_state b) in Ok (with_state s b)) p.

(** [vkQueueSubmit] of one buffer: the queue is given its commands. *)
Definition submit_cb (cb : Z) (p : UploadPool) : result UploadPool :=
  match buffers p !! cb with
  | Some b =>
      let! s := cb_submit (cb_state b) in
      Ok (mkUploadPool (<[cb := with_state s b]> (buffers p)) (next_cb p) (submitted p ++ [cb_cmds b]))
  | None => Err Validation
  end.

(** [vkutil::endSigleTimeCommands] (109-128): end, submit, wait for the
    queue to be idle, free. *)
Definition endSigleTimeCommands (cb : Z) (p : UploadPool) : result UploadPool :=
  let! p1 := end_cb cb p in
  let! p2 := submit_cb cb p1 in
  free_cb cb (wait_idle p2).

(** [vkutil::copyBufferToImage] (70-90): the copy into level 0, then
    [endSigleTimeCommands] on the caller's buffer. *)
Definition copyBufferToImage (cb : Z) (ext : Extent3D) (p : UploadPool) : result UploadPool :=
  let! p1 := record cb [CmdCopyBufferToImage TRANSFER_DST_OPTIMAL ext] p in
  endSigleTimeCommands cb p1.

(** [vkutil::generateMipmaps] (129-216) on the pool: the format check
    comes before the allocation of its single-time buffer. *)
Definition generateMipmaps_submit (features : Z) (info : ImageCreateInfo) (p : UploadPool)
  : result UploadPool :=
  let! cs := generateMipmaps features info in
  let! '(cb, p1) := beginSigleTimeCommands p in
  let! p2 := record cb cs p1 in
  endSigleTimeCommands cb p2.

(** The submissions of the mip-mapped [load_image_from_file] (372-390):
    one single-time buffer with the transition of every level and the
    copy, then the buffer of [generateMipmaps]. *)
Definition upload_mipmapped_image (features texWidth texHeight : Z) (p : UploadPool)
  : result UploadPool :=
  let miplevels := mip_count texWidth texHeight in
  let info := texture_image_info texWidth texHeight miplevels in
  let! '(cb, p1) := beginSigleTimeCommands p in
  let! p2 := record cb [adjustImageLayout UNDEFINED TRANSFER_DST_OPTIMAL miplevels] p1 in
  let! p3 := copyBufferToImage cb (extent info) p2 in
  generateMipmaps_submit features info p3.

(** ** [VulkanEngine::immediate_submit] ([vk_engine.cpp] 1360-1378) *)

(** No buffer of the pool is pending. *)
Definition idle (bs : gmap Z CmdBuf) : Prop := map_Forall (fun _ b => cb_state b <> Pending) bs.

(** [vkWaitForFences] on the fence of the submission of [cb] returning
    before its timeout: that submission has completed. *)
Definition complete_cb (cb : Z) (p : UploadPool) : UploadPool :=
  set_buffers (alter (fun b => with_state (cb_complete (cb_oneTime b) (cb_state b)) b) cb (buffers p)) p.

(** [vkResetFences] then [vkResetCommandPool]: neither the fence nor any
    buffer of the pool may still be in use by the queue; every buffer
    returns to the initial state, its commands discarded. *)
Definition reset_pool (p : UploadPool) : result UploadPool :=
  if bool_decide (idle (buffers p))
  then Ok (set_buffers ((fun b => mkCmdBuf Initial (cb_oneTime b) []) <$> buffers p) p)
  else Err Validation.

(** [immediate_submit(function)] on [_uploadContext._commandBuffer]
    [cmd]: begin (flags 0), the commands [function] records, end, submit
    with the upload fence, wait for the fence ([waitOk] is whether the wait
    of 9999999999 ns returned before its timeout; its result is not
    checked), reset the fence and the pool. *)
Definition immediate_submit (waitOk : bool) (cmd : Z) (cs : list TCmd) (p : UploadPool)
  : result UploadPool :=
  let! p1 := update_cb cmd (fun b => let! s := cb_begin false (cb_state b) in
                                     Ok (mkCmdBuf s false [])) p in
  let! p2 := record cmd cs p1 in
  let! p3 := end_cb cmd p2 in
  let! p4 := submit_cb cmd p3 in
  reset_pool (if waitOk then complete_cb cmd p4 else p4).

(** Successive calls of [immediate_submit] whose fence waits succeed, as
    [upload_mesh] and the single-level [load_image_from_file] make them. *)
Fixpoint immediate_submits (cmd : Z) (css : list (list TCmd)) (p : UploadPool) : result UploadPool :=
  match css with
  | [] => Ok p
  | cs :: css' => let! p' := immediate_submit true cmd cs p in immediate_submits cmd css' p'
  end.

(** ** The single-time protocol *)

(** The pool is idle and [next_cb] is above every allocated buffer. *)
Definition pool_idle (p : UploadPool) : Prop :=
  idle (buffers p) /\ forall cb, is_Some (buffers p !! cb) -> cb < next_cb p.

Lemma tcmds_outside (cs : list TCmd) : cb_record_all cs (Recording false) = Ok (Recording false).
Proof. induction cs as [|c cs IH]; [done|exact IH]. Qed.

Lemma wait_idle_buffers bs :
  idle bs ->
  (fun b => with_state (cb_complete (cb_oneTime b) (cb_state b)) b) <$> bs = bs.
Proof.
  intros Hidle. apply map_eq. intros cb. rewrite lookup_fmap.
  destruct (bs !! cb) as [[s o cs]|] eqn:E; simpl; [|done].
  f_equal. specialize (Hidle cb _ E). simpl in Hidle. by destruct s.
Qed.

Lemma beginSigleTimeCommands_ok p :
  pool_idle p ->
  beginSigleTimeCommands p =
    Ok (next_cb p, mkUploadPool (<[next_cb p := mkCmdBuf (Recording false) true []]> (buffers p))
                                (next_cb p + 1) (submitted p)).
Proof.
  intros _. unfold beginSigleTimeCommands, allocate, update_cb, set_buffers. simpl.
  rewrite lookup_insert_eq. simpl. by rewrite insert_insert_eq.
Qed.

Lemma record_ok cb cs0 cs p :
  buffers p !! cb = Some (mkCmdBuf (Recording false) true cs0) ->
  record cb cs p = Ok (set_buffers (<[cb := mkCmdBuf (Recording false) true (cs0 ++ cs)]> (buffers p)) p).
Proof. intros E. unfold record, update_cb. rewrite E. simpl. by rewrite tcmds_outside. Qed.

Lemma endSigleTimeCommands_ok cb cs bs n sub :
  idle bs -> bs !! cb = None ->
  endSigleTimeCommands cb (mkUploadPool (<[cb := mkCmdBuf (Recording false) true cs]> bs) n sub) =
    Ok (mkUploadPool bs n (sub ++ [cs])).
Proof.
  intros Hidle Hcb. unfold endSigleTimeCommands, end_cb, submit_cb, update_cb, set_buffers, free_cb, wait_idle. simpl.
  repeat (rewrite ?lookup_insert_eq, ?insert_insert_eq; simpl).
  rewrite fmap_insert, lookup_insert_eq, wait_idle_buffers by done. simpl.
  by rewrite delete_insert_id.
Qed.

Lemma fresh_none p : pool_idle p -> buffers p !! next_cb p = None.
Proof.
  intros [_ Hf]. destruct (buffers p !! next_cb p) eqn:E; [|done].
  specialize (Hf _ (ltac:(by rewrite E))). lia.
Qed.

(** One recording step into the buffer just allocated or recorded into. *)
Ltac record_step :=
  erewrite record_ok; [|simpl; apply lookup_insert_eq]; unfold set_buffers; simpl;
  rewrite ?insert_insert_eq.

(** A fresh single-time buffer, one recording, then its end: the queue
    gets the recorded commands and the pool is left as it was. *)
Lemma single_time_ok cs p :
  pool_idle p ->
  (let! '(cb, p1) := beginSigleTimeCommands p in
   let! p2 := record cb cs p1 in
   endSigleTimeCommands cb p2)
  = Ok (mkUploadPool (buffers p) (next_cb p + 1) (submitted p ++ [cs])).
Proof.
  intros Hp. rewrite beginSigleTimeCommands_ok by done. simpl. record_step.
  apply endSigleTimeCommands_ok; [apply Hp|by apply fresh_none].
Qed.

Lemma single_time_pool_idle p cs :
  pool_idle p -> pool_idle (mkUploadPool (buffers p) (next_cb p + 1) (submitted p ++ cs)).
Proof. intros [Hi Hf]. split; [done|]. intros cb Hcb. specialize (Hf cb Hcb). simpl. lia. Qed.

(** C10. The texture upload of the mip-mapped [load_image_from_file]
    drives its two single-time command buffers through a valid lifecycle
    (allocate, begin, record outside any render pass, end, submit, wait
    for the queue, free) on an idle upload pool: it submits exactly the two
    batches of [Texture.load_image_cmds], in order, frees both buffers (the
    pool keeps the buffers it had, none leaks) and leaves nothing pending;
    when the format has no linear filtering it aborts like
    [generateMipmaps], after the first submission. *)
Theorem upload_mipmapped_image_submits features w h p :
  pool_idle p ->
  upload_mipmapped_image features w h p =
    let! batches := load_image_cmds features w h in
    Ok (mkUploadPool (buffers p) (next_cb p + 2) (submitted p ++ batches)).
Proof.
  intros Hp. unfold upload_mipmapped_image, copyBufferToImage, load_image_cmds, generateMipmaps_submit.
  rewrite beginSigleTimeCommands_ok by done. simpl. do 2 record_step.
  rewrite endSigleTimeCommands_ok by (apply Hp || by apply fresh_none). simpl.
  destruct (generateMipmaps _ _) as [cs|e]; simpl; [|done].
  rewrite single_time_ok by (by apply single_time_pool_idle). simpl.
  by rewrite <- app_assoc, <- Z.add_assoc.
Qed.

(** ** The upload buffer of [immediate_submit] *)

(** [_uploadContext._commandBuffer] is ready for [immediate_submit]:
    initial and empty, nothing of the pool pending. *)
Definition upload_ready (cmd : Z) (p : UploadPool) : Prop :=
  idle (buffers p) /\ exists o, buffers p !! cmd = Some (mkCmdBuf Initial o []).

Definition reset_buffers (bs : gmap Z CmdBuf) : gmap Z CmdBuf :=
  (fun b => mkCmdBuf Initial (cb_oneTime b) []) <$> bs.

Lemma reset_buffers_idle bs : idle (reset_buffers bs).
Proof.
  intros i b Hb. unfold reset_buffers in Hb. rewrite lookup_fmap in Hb.
  destruct (bs !! i); simpl in Hb; [|done]. by injection Hb as <-.
Qed.

(** The state of the upload buffer between its submission and the fence
    wait, the pool's other buffers untouched. *)
Lemma immediate_submit_unfold waitOk cmd cs p o :
  buffers p !! cmd = Some (mkCmdBuf Initial o []) ->
  immediate_submit waitOk cmd cs p =
    reset_pool (mkUploadPool
      (<[cmd := mkCmdBuf (if waitOk then Executable else Pending) false cs]> (buffers p))
      (next_cb p) (submitted p ++ [cs])).
Proof.
  intros Hcmd. unfold immediate_submit, record, end_cb, submit_cb, update_cb, set_buffers.
  rewrite Hcmd. simpl. repeat (rewrite ?lookup_insert_eq, ?insert_insert_eq; simpl).
  rewrite tcmds_outside. simpl. repeat (rewrite ?lookup_insert_eq, ?insert_insert_eq; simpl).
  destruct waitOk; [|done]. unfold complete_cb, set_buffers. simpl.
  by rewrite alter_insert_eq.
Qed.

Lemma immediate_submit_ok cmd cs p :
  upload_ready cmd p ->
  exists p', immediate_submit true cmd cs p = Ok p' /\ upload_ready cmd p' /\
             submitted p' = submitted p ++ [cs].
Proof.
  intros [Hidle [o Hcmd]]. rewrite (immediate_submit_unfold _ _ _ _ _ Hcmd).
  unfold reset_pool. rewrite bool_decide_eq_true_2.
  - eexists. split; [reflexivity|]. split; [|done]. split; [apply reset_buffers_idle|].
    exists false. simpl. by rewrite lookup_fmap, lookup_insert_eq.
  - apply map_Forall_insert_2; [discriminate|done].
Qed.

Lemma immediate_submit_timeout cmd cs p :
  upload_ready cmd p -> immediate_submit false cmd cs p = Err Validation.
Proof.
  intros [_ [o Hcmd]]. rewrite (immediate_submit_unfold _ _ _ _ _ Hcmd).
  unfold reset_pool. rewrite bool_decide_eq_false_2; [done|].
  intros Hidle. exact (Hidle cmd (mkCmdBuf Pending false cs) (lookup_insert_eq _ _ _) eq_refl).
Qed.

(** C11. [immediate_submit] keeps the upload command buffer usable: on a
    pool where it is initial and nothing is pending, any number of calls
    whose fence waits return in time succeed, submit their command lists
    in order and leave the buffer initial again (the pool reset restores
    the invariant).  When the fence wait times out, the unchecked
    [vkResetFences] and [vkResetCommandPool] reset a pool whose buffer is
    still pending, which is invalid usage. *)
Theorem immediate_submits_ok cmd css cs p :
  upload_ready cmd p ->
  (exists p', immediate_submits cmd css p = Ok p' /\ upload_ready cmd p' /\
              submitted p' = submitted p ++ css) /\
  immediate_submit false cmd cs p = Err Validation.
Proof.
  intros Hp. split; [|by apply immediate_submit_timeout].
  revert p Hp. induction css as [|c css IH]; intros p Hp.
  - exists p. by rewrite app_nil_r.
  - destruct (immediate_submit_ok cmd c p Hp) as (p1 & E1 & Hp1 & Hs1).
    destruct (IH p1 Hp1) as (p2 & E2 & Hp2 & Hs2).
    exists p2. simpl. rewrite E1. simpl. split; [done|]. split; [done|].
    by rewrite Hs2, Hs1, <- app_assoc.
Qed.

(** The upload pool after [init_commands]: [_uploadContext._commandBuffer]
    allocated, nothing submitted. *)
Definition upload_pool0 : UploadPool :=
  mkUploadPool {[0 := mkCmdBuf Initial false []]} 1 [].

Lemma upload_pool0_idle : pool_idle upload_pool0.
Proof.
  split.
  - apply map_Forall_singleton. discriminate.
  - intros cb [b Hb]. simpl in Hb. apply lookup_singleton_Some in Hb as [<- _]. simpl. lia.
Qed.

Lemma upload_mipmapped_image_submits_witness :
  upload_mipmapped_image 4096 1024 512 upload_pool0 =
    let! batches := load_image_cmds 4096 1024 512 in
    Ok (mkUploadPool (buffers upload_pool0) 3 (submitted upload_pool0 ++ batches)).
Proof. apply (upload_mipmapped_image_submits 4096 1024 512 upload_pool0 upload_pool0_idle). Defined.

Lemma upload_pool0_ready : upload_ready 0 upload_pool0.
Proof. split; [apply upload_pool0_idle|]. by exists false. Qed.

Lemma immediate_submits_ok_witness :
  (exists p', immediate_submits 0 [load_image_cmds_single 512 512; []] upload_pool0 = Ok p' /\
              upload_ready 0 p' /\
              submitted p' = submitted upload_pool0 ++ [load_image_cmds_single 512 512; []]) /\
  immediate_submit false 0 (load_image_cmds_single 512 512) upload_pool0 = Err Validation.
Proof. apply immediate_submits_ok, upload_pool0_ready. Defined.

End CommandBuffer.
