(* ===== verification/RenderPass.v ===== *)
(** The render pass of [VulkanEngine::init_default_renderpass]
    ([vk_engine.cpp] 472-590) and the per-frame recording of
    [VulkanEngine::record_cmdbuffers] (666-736).

    The attachment, subpass and dependency descriptions are pushed into
    the member vectors [_attachments], [_subpassDescription] and
    [_subpassDependency] of the engine ([vk_engine.h] 107-111), and the
    create info points at those vectors: the model keeps them as engine
    state ([RenderPassMembers]).  A render pass instance is given the
    semantics of the Vulkan specification: the attachments' layouts are
    checked against [initialLayout], moved to the subpass's reference
    layouts, then to [finalLayout].

    [record_cmdbuffers] runs on the frame's command buffer with the
    lifecycle of [CommandBuffer.v]; its commands are those of
    [DrawObjects.draw_objects] between the render-pass begin and end. *)

From S2P Require Import Prelude GpuTypes FrameRing Registry DrawObjects Texture CommandBuffer.

Module RenderPass.
Import Registry Texture CommandBuffer DrawObjects.

Inductive AttachmentLoadOp := LOAD_OP_LOAD | LOAD_OP_CLEAR | LOAD_OP_DONT_CARE.
Inductive AttachmentStoreOp := STORE_OP_STORE | STORE_OP_DONT_CARE.

#[export] Instance AttachmentLoadOp_eq_dec : EqDecision AttachmentLoadOp.
Proof. solve_decision. Defined.

Definition VK_SAMPLE_COUNT_1_BIT : Z := 1.
Definition VK_PIPELINE_BIND_POINT_GRAPHICS : Z := 0.
(** [VK_SUBPASS_EXTERNAL] is [(~0U)]. *)
Definition VK_SUBPASS_EXTERNAL : Z := 2 ^ 32 - 1.
Definition VK_PIPELINE_STAGE_LATE_FRAGMENT_TESTS_BIT : Z := 512.
Definition VK_PIPELINE_STAGE_COLOR_ATTACHMENT_OUTPUT_BIT : Z := 1024.
Definition VK_ACCESS_COLOR_ATTACHMENT_WRITE_BIT : Z := 256.
(** [VK_FORMAT_D16_UNORM] .. [VK_FORMAT_D32_SFLOAT_S8_UINT]: the depth
    and stencil formats. *)
Definition VK_FORMAT_D32_SFLOAT : Z := 126.
Definition is_depth_format (f : Z) : bool := (124 <=? f) && (f <=? 130).
#[global] Arguments is_depth_format : simpl never.

(** [VkAttachmentDescription] (the [flags] are zero-initialised). *)
Record AttachmentDescription := mkAttachment {
  att_format : Z;
  samples : Z;
  loadOp : AttachmentLoadOp;
  storeOp : AttachmentStoreOp;
  stencilLoadOp : AttachmentLoadOp;
  stencilStoreOp : AttachmentStoreOp;
  initialLayout : ImageLayout;
  finalLayout : ImageLayout
}.

Record AttachmentReference := mkRef {
  attachment : Z;
  ref_layout : ImageLayout
}.

Record SubpassDescription := mkSubpass {
  pipelineBindPoint : Z;
  pColorAttachments : list AttachmentReference;
  pDepthStencilAttachment : option AttachmentReference
}.

Record SubpassDependency := mkDependency {
  srcSubpass : Z;
  dstSubpass : Z;
  srcStageMask : Z;
  srcAccessMask : Z;
  dstStageMask : Z;
  dstAccessMask : Z
}.

(** The member vectors of [VulkanEngine] the create info points into. *)
Record RenderPassMembers := mkMembers {
  _attachments : list AttachmentDescription;
  _subpassDescription : list SubpassDescription;
  _subpassDependency : list SubpassDependency
}.

Definition no_members : RenderPassMembers := mkMembers [] [] [].

(** [VkRenderPassCreateInfo]: the counts are the [size()] of the vectors
    narrowed to [uint32_t]. *)
Record RenderPassCreateInfo := mkRenderPassInfo {
  attachmentCount : Z;
  pAttachments : list AttachmentDescription;
  subpassCount : Z;
  pSubpasses : list SubpassDescription;
  dependencyCount : Z;
  pDependencies : list SubpassDependency
}.

(** [init_default_renderpass] (472-590) up to [vkCreateRenderPass]: the
    updated members and the create info passed to the driver. *)
Definition init_default_renderpass (swapchainImageFormat depthFormat : Z) (m : RenderPassMembers)
  : RenderPassMembers * RenderPassCreateInfo :=
  let color_attachment :=
    mkAttachment swapchainImageFormat VK_SAMPLE_COUNT_1_BIT LOAD_OP_CLEAR STORE_OP_STORE
                 LOAD_OP_DONT_CARE STORE_OP_DONT_CARE UNDEFINED PRESENT_SRC_KHR in
  let color_attachment_ref := mkRef 0 COLOR_ATTACHMENT_OPTIMAL in
  let depth_attachment :=
    mkAttachment depthFormat VK_SAMPLE_COUNT_1_BIT LOAD_OP_CLEAR STORE_OP_STORE
                 LOAD_OP_CLEAR STORE_OP_DONT_CARE UNDEFINED DEPTH_STENCIL_ATTACHMENT_OPTIMAL in
  let depth_attachment_ref := mkRef 1 DEPTH_STENCIL_ATTACHMENT_OPTIMAL in
  let subpass := mkSubpass VK_PIPELINE_BIND_POINT_GRAPHICS [color_attachment_ref]
                           (Some depth_attachment_ref) in
  let dependency :=
    mkDependency VK_SUBPASS_EXTERNAL 0 VK_PIPELINE_STAGE_COLOR_ATTACHMENT_OUTPUT_BIT 0
                 VK_PIPELINE_STAGE_COLOR_ATTACHMENT_OUTPUT_BIT VK_ACCESS_COLOR_ATTACHMENT_WRITE_BIT in
  let fragment_tests :=
    Z.lor VK_PIPELINE_STAGE_EARLY_FRAGMENT_TESTS_BIT VK_PIPELINE_STAGE_LATE_FRAGMENT_TESTS_BIT in
  let depth_dependency :=
    mkDependency VK_SUBPASS_EXTERNAL 0 fragment_tests 0 fragment_tests
                 VK_ACCESS_DEPTH_STENCIL_ATTACHMENT_WRITE_BIT in
  let atts := _attachments m ++ [color_attachment; depth_attachment] in
  let subs := _subpassDescription m ++ [subpass] in
  let deps := _subpassDependency m ++ [dependency; depth_dependency] in
  (mkMembers atts subs deps,
   mkRenderPassInfo (to_uint32 (Z.of_nat (length atts))) atts
                    (to_uint32 (Z.of_nat (length subs))) subs
                    (to_uint32 (Z.of_nat (length deps))) deps).

(** ** Valid usage of the create info *)

Definition color_layout_ok (l : ImageLayout) : bool := bool_decide (l = COLOR_ATTACHMENT_OPTIMAL).
Definition depth_layout_ok (l : ImageLayout) : bool := bool_decide (l = DEPTH_STENCIL_ATTACHMENT_OPTIMAL).

(** A reference names an attachment of the create info, with a layout
    and a format fitting its use. *)
Definition ref_ok (info : RenderPassCreateInfo) (depth : bool) (r : AttachmentReference) : bool :=
  (0 <=? attachment r) && (attachment r <? attachmentCount info) &&
  match pAttachments info !! Z.to_nat (attachment r) with
  | Some a => if depth then depth_layout_ok (ref_layout r) && is_depth_format (att_format a)
              else color_layout_ok (ref_layout r) && negb (is_depth_format (att_format a))
  | None => false
  end.

Definition subpass_ok (info : RenderPassCreateInfo) (s : SubpassDescription) : bool :=
  forallb (ref_ok info false) (pColorAttachments s) &&
  match pDepthStencilAttachment s with Some r => ref_ok info true r | None => true end.

Definition subpass_index_ok (info : RenderPassCreateInfo) (i : Z) : bool :=
  bool_decide (i = VK_SUBPASS_EXTERNAL) || ((0 <=? i) && (i <? subpassCount info)).

Definition dependency_ok (info : RenderPassCreateInfo) (d : SubpassDependency) : bool :=
  subpass_index_ok info (srcSubpass d) && subpass_index_ok info (dstSubpass d) &&
  negb (bool_decide (srcSubpass d = VK_SUBPASS_EXTERNAL /\ dstSubpass d = VK_SUBPASS_EXTERNAL)).

(** The valid-usage rules of [VkRenderPassCreateInfo] the engine's render
    pass exercises: counts match the arrays, at least one subpass, every
    reference in range with a fitting layout and format, no attachment
    ending [UNDEFINED], every dependency between existing subpasses. *)
Definition valid_render_pass (info : RenderPassCreateInfo) : bool :=
  bool_decide (attachmentCount info = Z.of_nat (length (pAttachments info))) &&
  bool_decide (subpassCount info = Z.of_nat (length (pSubpasses info))) &&
  bool_decide (dependencyCount info = Z.of_nat (length (pDependencies info))) &&
  (0 <? subpassCount info) &&
  forallb (fun a => negb (bool_decide (finalLayout a = UNDEFINED))) (pAttachments info) &&
  forallb (subpass_ok info) (pSubpasses info) &&
  forallb (dependency_ok info) (pDependencies info).

(** ** A render pass instance *)

(** Begin: each attachment is in its [initialLayout], unless that is
    [UNDEFINED] (contents discarded). *)
Definition begin_layouts (info : RenderPassCreateInfo) (ls : list ImageLayout) : result unit :=
  if bool_decide (length ls = length (pAttachments info)) &&
     forallb (fun '(a, l) => bool_decide (initialLayout a = UNDEFINED) || bool_decide (l = initialLayout a))
             (zip (pAttachments info) ls)
  then Ok tt else Err Validation.

(** The subpass moves its attachments to the reference layouts. *)
Definition subpass_layouts (s : SubpassDescription) (ls : list ImageLayout) : list ImageLayout :=
  let refs := pColorAttachments s ++ from_option (fun r => [r]) [] (pDepthStencilAttachment s) in
  fold_left (fun ls r => <[Z.to_nat (attachment r) := ref_layout r]> ls) refs ls.

(** A render pass instance with one subpass on attachments in layouts
    [ls] (the framebuffer's image views, in order): the layouts during the
    subpass and after [vkCmdEndRenderPass]. *)
Definition run_render_pass (info : RenderPassCreateInfo) (ls : list ImageLayout)
  : result (list ImageLayout * list ImageLayout) :=
  let! _ := begin_layouts info ls in
  match pSubpasses info with
  | [s] => Ok (subpass_layouts s ls, finalLayout <$> pAttachments info)
  | _ => Err Validation
  end.

(** ** [record_cmdbuffers] *)

(** [draw_objects] records binds and push constants, allowed anywhere,
    and draws, allowed only inside a render pass. *)
#[export] Instance Cmd_scope : RecordScope Cmd :=
  fun c => match c with CmdDraw _ _ _ _ => Inside | _ => Both end.

(** The commands of [record_cmdbuffers]: the render-pass begin with the
    framebuffer of the acquired image, the window extent and the number
    of clear values, the commands of [draw_objects], the ImGui draw data
    (binds and draws of its own) and the render-pass end. *)
Inductive RCmd :=
| CmdBeginRenderPass (renderPass framebuffer : handle) (extent : Z * Z) (clearValueCount : Z)
| CmdObjects (c : Cmd)
| CmdImGuiRenderDrawData
| CmdEndRenderPass.

#[export] Instance RCmd_scope : RecordScope RCmd :=
  fun c => match c with
           | CmdBeginRenderPass _ _ _ _ => BeginsRenderPass
           | CmdObjects c => cmd_scope c
           | CmdImGuiRenderDrawData => Inside
           | CmdEndRenderPass => EndsRenderPass
           end.

(** What [record_cmdbuffers] reads from the engine. *)
Record RecordEnv := mkRecordEnv {
  _renderPass : handle;
  _framebuffers : list handle;
  _windowExtent : Z * Z;
  draw_env : DrawEnv   (** its [env_sets] is [_objectsSet] *)
}.

(** [VkClearValue _clearValue[]{clearValue, depthClear}]. *)
Definition clear_value_count : Z := 2.

(** [record_cmdbuffers(cmd, imageIndex)] (666-736) on a command buffer in
    state [s] from a pool created with
    [VK_COMMAND_POOL_CREATE_RESET_COMMAND_BUFFER_BIT]: reset, begin
    (one-time submit), [_framebuffers[imageIndex]] (out of range is
    undefined behaviour), the render pass with [draw_objects] and ImGui
    inside, end.  Returns the buffer's state, the output of
    [draw_objects] and the recorded commands. *)
Definition record_cmdbuffers (env : RecordEnv) (imageIndex : Z) (s : CBState)
  : result (CBState * DrawOutput * list RCmd) :=
  let! s1 := cb_reset true s in
  let! s2 := cb_begin true s1 in
  match _framebuffers env !! Z.to_nat imageIndex with
  | None => Err OutOfBounds
  | Some fb =>
      let! out := draw_objects (draw_env env) (_renderables (env_sets (draw_env env))) in
      let cs := [CmdBeginRenderPass (_renderPass env) fb (_windowExtent env) clear_value_count] ++
                (CmdObjects <$> out_cmds out) ++ [CmdImGuiRenderDrawData; CmdEndRenderPass] in
      let! s3 := cb_record_all cs s2 in
      let! s4 := cb_end s3 in
      Ok (s4, out, cs)
  end.

(** The number of clear values a render pass instance needs: one past
    the last attachment whose colour/depth or stencil aspect is loaded
    with [LOAD_OP_CLEAR]. *)
Definition is_cleared (a : AttachmentDescription) : bool :=
  bool_decide (loadOp a = LOAD_OP_CLEAR) || bool_decide (stencilLoadOp a = LOAD_OP_CLEAR).

Fixpoint clears_from (i : Z) (atts : list AttachmentDescription) : Z :=
  match atts with
  | [] => 0
  | a :: atts' => if is_cleared a then Z.max (i + 1) (clears_from (i + 1) atts')
                  else clears_from (i + 1) atts'
  end.

Definition clears_needed (info : RenderPassCreateInfo) : Z := clears_from 0 (pAttachments info).

(** C12. The render pass [init_default_renderpass] builds on a fresh engine
    (its member vectors empty), for any colour format of the swapchain and
    the depth format [VK_FORMAT_D32_SFLOAT] of [init_swapchain], is valid;
    and an instance of it on a framebuffer of two views, whatever layouts
    the swapchain image and the depth image are in when it begins, renders
    into [COLOR_ATTACHMENT_OPTIMAL] / [DEPTH_STENCIL_ATTACHMENT_OPTIMAL] and
    leaves the swapchain image in [PRESENT_SRC_KHR], the layout
    [vkQueuePresentKHR] requires; the two clear values [record_cmdbuffers]
    passes cover both cleared attachments. *)
Theorem default_renderpass_presentable fmt ls :
  is_depth_format fmt = false -> length ls = 2%nat ->
  let info := (init_default_renderpass fmt VK_FORMAT_D32_SFLOAT no_members).2 in
  valid_render_pass info = true /\ clears_needed info <= clear_value_count /\
  run_render_pass info ls =
    Ok ([COLOR_ATTACHMENT_OPTIMAL; DEPTH_STENCIL_ATTACHMENT_OPTIMAL],
        [PRESENT_SRC_KHR; DEPTH_STENCIL_ATTACHMENT_OPTIMAL]).
Proof.
  intros Hfmt Hls. destruct ls as [|a [|b [|]]]; try discriminate. split; [|split].
  - unfold valid_render_pass, subpass_ok, ref_ok. simpl. by rewrite Hfmt.
  - vm_compute. discriminate.
  - reflexivity.
Qed.

(** A command buffer is not left half recorded between frames. *)
Definition cb_settled (s : CBState) : Prop :=
  match s with Recording _ => False | _ => True end.

Lemma objects_in_pass (cs : list Cmd) : Forall in_pass (CmdObjects <$> cs).
Proof. apply Forall_fmap, Forall_forall. intros [] _; unfold in_pass; simpl; auto. Qed.

(** [record_cmdbuffers] on a settled buffer that is not pending, with the
    framebuffer of the image present and [draw_objects] succeeding. *)
Lemma record_cmdbuffers_exec env img cbs out fb :
  _framebuffers env !! Z.to_nat img = Some fb ->
  draw_objects (draw_env env) (_renderables (env_sets (draw_env env))) = Ok out ->
  cb_settled cbs -> cbs <> Pending ->
  record_cmdbuffers env img cbs =
    Ok (Executable, out,
        [CmdBeginRenderPass (_renderPass env) fb (_windowExtent env) clear_value_count] ++
        (CmdObjects <$> out_cmds out) ++ [CmdImGuiRenderDrawData; CmdEndRenderPass]).
Proof.
  intros Hfb Hdraw Hset Hnp. unfold record_cmdbuffers.
  destruct cbs; try contradiction; simpl; rewrite Hfb, Hdraw; simpl;
    by rewrite cb_record_all_app, (cb_record_all_in_pass _ (objects_in_pass _)).
Qed.

(** C6. Recording a frame is valid in every reachable state of the frame
    loop: once [draw] has acquired image [img], the frame's command buffer
    is not pending (the fence wait guarantees it), so
    [vkResetCommandBuffer] is allowed; [_framebuffers[img]] exists (one
    framebuffer per swapchain image); every draw of [draw_objects] and of
    ImGui lies inside the render pass, which is closed before
    [vkEndCommandBuffer]; the buffer ends executable, holding exactly the
    render-pass begin, the commands of [draw_objects], the ImGui draw data
    and the render-pass end. *)
Theorem record_cmdbuffers_valid A n s img env out cbs :
  FrameRing.reachable A n s -> FrameRing.phase s = FrameRing.Acquired img ->
  length (_framebuffers env) = Z.to_nat n ->
  draw_objects (draw_env env) (_renderables (env_sets (draw_env env))) = Ok out ->
  cb_settled cbs ->
  (cbs = Pending -> exists w, w ∈ FrameRing.pending s /\ FrameRing.work_slot w = FrameRing.cur_slot s) ->
  exists fb, _framebuffers env !! Z.to_nat img = Some fb /\
    record_cmdbuffers env img cbs =
      Ok (Executable, out,
          [CmdBeginRenderPass (_renderPass env) fb (_windowExtent env) clear_value_count] ++
          (CmdObjects <$> out_cmds out) ++ [CmdImGuiRenderDrawData; CmdEndRenderPass]).
Proof.
  intros Hr Hp Hfb Hdraw Hset Hpend.
  pose proof (FrameRing.reachable_image_index A n s Hr) as Himg. rewrite Hp in Himg. simpl in Himg.
  destruct (lookup_lt_is_Some_2 (_framebuffers env) (Z.to_nat img)) as [fb Hfb']; [lia|].
  exists fb. split; [done|]. apply record_cmdbuffers_exec; [done..|].
  intros Hc. destruct (Hpend Hc) as (w & Hw & Hs).
  apply (FrameRing.inv_owned _ _ (FrameRing.reachable_inv A n s Hr)) with w; [by rewrite Hp|done|done].
Qed.

(** ** Witnesses *)

(** [VK_FORMAT_B8G8R8A8_SRGB], the format vk-bootstrap's default
    selection prefers. *)
Definition VK_FORMAT_B8G8R8A8_SRGB : Z := 50.

Lemma default_renderpass_presentable_witness :
  let info := (init_default_renderpass VK_FORMAT_B8G8R8A8_SRGB VK_FORMAT_D32_SFLOAT no_members).2 in
  valid_render_pass info = true /\ clears_needed info <= clear_value_count /\
  run_render_pass info [PRESENT_SRC_KHR; UNDEFINED] =
    Ok ([COLOR_ATTACHMENT_OPTIMAL; DEPTH_STENCIL_ATTACHMENT_OPTIMAL],
        [PRESENT_SRC_KHR; DEPTH_STENCIL_ATTACHMENT_OPTIMAL]).
Proof. apply default_renderpass_presentable; reflexivity. Defined.

(** Three swapchain images, the scene of [DrawObjects.example_env]. *)
Definition example_record_env : RecordEnv :=
  mkRecordEnv 5 [60; 61; 62] (1200, 800) example_env.

Definition example_draw_output : DrawOutput :=
  mkDrawOutput 0 [50]
    [CmdBindPipeline 10; CmdBindDescriptorSets 11 0 40 [0];
     CmdBindDescriptorSets 11 1 41 []; CmdBindDescriptorSets 11 2 30 [];
     CmdPushConstants 11 0 80 51; CmdBindVertexBuffers 20 0; CmdDraw 3 1 0 0].

Lemma record_cmdbuffers_valid_witness :
  exists fb, _framebuffers example_record_env !! Z.to_nat 1 = Some fb /\
    record_cmdbuffers example_record_env 1 Invalid =
      Ok (Executable, example_draw_output,
          [CmdBeginRenderPass 5 fb (1200, 800) clear_value_count] ++
          (CmdObjects <$> out_cmds example_draw_output) ++ [CmdImGuiRenderDrawData; CmdEndRenderPass]).
Proof.
  apply (record_cmdbuffers_valid 256 3 FrameRing.frame1_acquired 1);
    [apply FrameRing.frame1_acquired_reachable | vm_compute; reflexivity | reflexivity
    | vm_compute; reflexivity | exact I | discriminate].
Defined.

End RenderPass.
