(* ===== verification/Descriptors.v ===== *)
(** The descriptor model of the engine: the three set layouts and the
    pool of [VulkanEngine::init_descriptors] ([vk_engine.cpp] 777-870),
    the per-frame allocation and writes of its loop (896-962), the
    texture set of [init_scene] (1168-1194), the set layouts of the two
    pipeline layouts of [init_pipelines] (1002-1045), and the valid
    usage of [vkAllocateDescriptorSets], [vkUpdateDescriptorSets] and of
    the sets a draw uses.

    A descriptor set is its layout and the descriptors written to it so
    far, keyed by binding; the pool counts the descriptors and sets it has
    left.  [vkAllocateDescriptorSets] returns [VK_NULL_HANDLE] (0) when
    the pool is exhausted, which the code never checks; a write that
    breaks the valid usage of [VkWriteDescriptorSet] is [Err Validation].
    The limits of the device are the [DeviceLimits] record. *)

From S2P Require Import Prelude GpuTypes Alignment FrameRing Registry DrawObjects Texture.

Module Descriptors.
Import Alignment Registry DrawObjects Texture.

(** [VkDescriptorType], the four types the engine uses. *)
Inductive VkDescriptorType :=
| VK_DESCRIPTOR_TYPE_UNIFORM_BUFFER
| VK_DESCRIPTOR_TYPE_UNIFORM_BUFFER_DYNAMIC
| VK_DESCRIPTOR_TYPE_STORAGE_BUFFER
| VK_DESCRIPTOR_TYPE_COMBINED_IMAGE_SAMPLER.

#[export] Instance VkDescriptorType_eq_dec : EqDecision VkDescriptorType.
Proof. solve_decision. Defined.

Definition all_descriptor_types : list VkDescriptorType :=
  [VK_DESCRIPTOR_TYPE_UNIFORM_BUFFER; VK_DESCRIPTOR_TYPE_UNIFORM_BUFFER_DYNAMIC;
   VK_DESCRIPTOR_TYPE_STORAGE_BUFFER; VK_DESCRIPTOR_TYPE_COMBINED_IMAGE_SAMPLER].

Definition is_dynamic (t : VkDescriptorType) : bool :=
  bool_decide (t = VK_DESCRIPTOR_TYPE_UNIFORM_BUFFER_DYNAMIC).

Definition is_uniform (t : VkDescriptorType) : bool :=
  bool_decide (t = VK_DESCRIPTOR_TYPE_UNIFORM_BUFFER) || is_dynamic t.

Definition VK_SHADER_STAGE_VERTEX_BIT : Z := 1.
Definition VK_SHADER_STAGE_FRAGMENT_BIT : Z := 16.

(** [VkDescriptorSetLayoutBinding]. *)
Record LayoutBinding := mkLayoutBinding {
  binding : Z;
  descriptorType : VkDescriptorType;
  descriptorCount : Z;
  stageFlags : Z
}.

#[export] Instance LayoutBinding_eq_dec : EqDecision LayoutBinding.
Proof. solve_decision. Defined.

(** [vkinit::descriptorset_layout_binding]: one descriptor. *)
Definition descriptorset_layout_binding (type : VkDescriptorType) (stages binding : Z) : LayoutBinding :=
  mkLayoutBinding binding type 1 stages.

(** The four bindings of [init_descriptors]. *)
Definition camBufferBinding : LayoutBinding :=
  descriptorset_layout_binding VK_DESCRIPTOR_TYPE_UNIFORM_BUFFER VK_SHADER_STAGE_VERTEX_BIT 0.
Definition sceneBufferBinding : LayoutBinding :=
  descriptorset_layout_binding VK_DESCRIPTOR_TYPE_UNIFORM_BUFFER_DYNAMIC
    (Z.lor VK_SHADER_STAGE_VERTEX_BIT VK_SHADER_STAGE_FRAGMENT_BIT) 1.
Definition objectBufferBinding : LayoutBinding :=
  descriptorset_layout_binding VK_DESCRIPTOR_TYPE_STORAGE_BUFFER VK_SHADER_STAGE_VERTEX_BIT 0.
Definition textureBinding : LayoutBinding :=
  descriptorset_layout_binding VK_DESCRIPTOR_TYPE_COMBINED_IMAGE_SAMPLER VK_SHADER_STAGE_FRAGMENT_BIT 0.

(** [_globalSetLayout], [_objectSetLayout], [_singleTextureSetLayout]. *)
Definition globalLayoutBindSet : list LayoutBinding := [camBufferBinding; sceneBufferBinding].
Definition objectLayoutBindSet : list LayoutBinding := [objectBufferBinding].
Definition textureLayoutBindSet : list LayoutBinding := [textureBinding].

(** The set layouts of [_meshPipelineLayout] ([descpSetLayouts]) and of
    the textured pipeline layout, after [descpSetLayouts.push_back]. *)
Definition mesh_set_layouts : list (list LayoutBinding) := [globalLayoutBindSet; objectLayoutBindSet].
Definition texture_set_layouts : list (list LayoutBinding) := mesh_set_layouts ++ [textureLayoutBindSet].

(** The sum of [f] over a list, in [Z]. *)
Definition sumZ {A} (f : A -> Z) (l : list A) : Z := fold_right (fun x acc => f x + acc) 0 l.

(** The [sizes] of the descriptor pool. *)
Definition pool_sizes : list (VkDescriptorType * Z) :=
  [(VK_DESCRIPTOR_TYPE_UNIFORM_BUFFER, 10); (VK_DESCRIPTOR_TYPE_UNIFORM_BUFFER_DYNAMIC, 10);
   (VK_DESCRIPTOR_TYPE_STORAGE_BUFFER, 10); (VK_DESCRIPTOR_TYPE_COMBINED_IMAGE_SAMPLER, 10)].

(** The limits of [VkPhysicalDeviceLimits] the writes and binds depend on. *)
Record DeviceLimits := mkDeviceLimits {
  minUniformBufferOffsetAlignment : Z;
  maxUniformBufferRange : Z;
  maxStorageBufferRange : Z
}.

(** What the Vulkan specification guarantees of every device: the
    alignment is a power of two of at most 256, uniform ranges up to
    16384 bytes and storage ranges up to [2^27] bytes are supported. *)
Definition limits_ok (lim : DeviceLimits) : Prop :=
  pow2_alignment (minUniformBufferOffsetAlignment lim) /\
  minUniformBufferOffsetAlignment lim <= 256 /\
  16384 <= maxUniformBufferRange lim /\ 2 ^ 27 <= maxStorageBufferRange lim.

(** [VkDescriptorBufferInfo] and [VkDescriptorImageInfo]. *)
Inductive DescriptorInfo :=
| BufferInfo (buffer : handle) (offset range : Z)
| ImageInfo (sampler imageView : handle) (imageLayout : ImageLayout).

(** [vkinit::descriptor_buffer_info(buffer, uint32_t offset, uint32_t range)]. *)
Definition descriptor_buffer_info (buffer : handle) (offset range : Z) : DescriptorInfo :=
  BufferInfo buffer (to_uint32 offset) (to_uint32 range).

Record DescriptorSet := mkDescriptorSet {
  set_layout : list LayoutBinding;
  set_writes : gmap Z DescriptorInfo
}.

Record DescriptorPool := mkDescriptorPool {
  pool_free : VkDescriptorType -> Z;
  sets_left : Z
}.

(** [vkCreateDescriptorPool] on the sizes and the [maxSets] of
    [vkinit::descriptor_pool_create_info]. *)
Definition create_descriptor_pool (sizes : list (VkDescriptorType * Z)) (maxSets : Z) : DescriptorPool :=
  mkDescriptorPool (fun t => sumZ snd (filter (fun s => s.1 = t) sizes)) maxSets.

(** The sets allocated so far and the sizes of the buffers they may point at. *)
Record DescriptorState := mkDescriptorState {
  ds_pool : DescriptorPool;
  ds_sets : gmap handle DescriptorSet;
  ds_next : handle;
  ds_buffers : gmap handle Z
}.

Definition VK_NULL_HANDLE : handle := 0.

Definition count_type (t : VkDescriptorType) (layout : list LayoutBinding) : Z :=
  sumZ descriptorCount (filter (fun b => descriptorType b = t) layout).

(** [vkAllocateDescriptorSets] of one set: [VK_NULL_HANDLE] and no change
    when the pool has no set or not enough descriptors left. *)
Definition vkAllocateDescriptorSets (layout : list LayoutBinding) (st : DescriptorState)
  : handle * DescriptorState :=
  let p := ds_pool st in
  if (0 <? sets_left p) && forallb (fun t => count_type t layout <=? pool_free p t) all_descriptor_types
  then (ds_next st,
        mkDescriptorState
          (mkDescriptorPool (fun t => pool_free p t - count_type t layout) (sets_left p - 1))
          (<[ds_next st := mkDescriptorSet layout ∅]> (ds_sets st))
          (ds_next st + 1) (ds_buffers st))
  else (VK_NULL_HANDLE, st).

(** [VkWriteDescriptorSet] of one descriptor. *)
Record WriteDescriptorSet := mkWriteDescriptorSet {
  dstSet : handle;
  dstBinding : Z;
  wType : VkDescriptorType;
  wInfo : DescriptorInfo
}.

(** [vkinit::write_descriptor_buffer] and [vkinit::write_descriptor_image]. *)
Definition write_descriptor_buffer (type : VkDescriptorType) (dst : handle) (info : DescriptorInfo) (b : Z)
  : WriteDescriptorSet := mkWriteDescriptorSet dst b type info.
Definition write_descriptor_image (type : VkDescriptorType) (dst : handle) (info : DescriptorInfo) (b : Z)
  : WriteDescriptorSet := mkWriteDescriptorSet dst b type info.

Definition find_binding (b : Z) (layout : list LayoutBinding) : option LayoutBinding :=
  head (filter (fun lb => binding lb = b) layout).

(** The valid usage of one write ([VUID-VkWriteDescriptorSet-*]): the
    set is allocated and has the binding, with the write's type; a
    buffer is a live buffer, the range is not empty, lies inside it and
    within the device's range limit for its type, and a uniform offset is
    aligned; an image descriptor names a sampler and a view. *)
Definition write_ok (lim : DeviceLimits) (st : DescriptorState) (w : WriteDescriptorSet) : bool :=
  match ds_sets st !! dstSet w with
  | None => false
  | Some s =>
      match find_binding (dstBinding w) (set_layout s) with
      | None => false
      | Some lb =>
          bool_decide (descriptorType lb = wType w) &&
          match wInfo w with
          | BufferInfo buf off range =>
              bool_decide (wType w <> VK_DESCRIPTOR_TYPE_COMBINED_IMAGE_SAMPLER) &&
              match ds_buffers st !! buf with
              | None => false
              | Some size =>
                  (0 <? range) && (off + range <=? size) &&
                  (if is_uniform (wType w)
                   then (range <=? maxUniformBufferRange lim) &&
                        (off mod minUniformBufferOffsetAlignment lim =? 0)
                   else range <=? maxStorageBufferRange lim)
              end
          | ImageInfo smp view _ =>
              bool_decide (wType w = VK_DESCRIPTOR_TYPE_COMBINED_IMAGE_SAMPLER) &&
              bool_decide (smp <> VK_NULL_HANDLE) && bool_decide (view <> VK_NULL_HANDLE)
          end
      end
  end.

(** A write stores its descriptor at its binding. *)
Definition apply_write (st : DescriptorState) (w : WriteDescriptorSet) : DescriptorState :=
  match ds_sets st !! dstSet w with
  | None => st
  | Some s =>
      mkDescriptorState (ds_pool st)
        (<[dstSet w := mkDescriptorSet (set_layout s) (<[dstBinding w := wInfo w]> (set_writes s))]> (ds_sets st))
        (ds_next st) (ds_buffers st)
  end.

(** [vkUpdateDescriptorSets(device, n, writes, 0, nullptr)]. *)
Fixpoint vkUpdateDescriptorSets (lim : DeviceLimits) (ws : list WriteDescriptorSet) (st : DescriptorState)
  : result DescriptorState :=
  match ws with
  | [] => Ok st
  | w :: ws' => if write_ok lim st w then vkUpdateDescriptorSets lim ws' (apply_write st w) else Err Validation
  end.

(** One iteration of the frame loop of [init_descriptors] (896-961):
    [fb] is the frame's [(objectBuffer, cameraBuffer)], [sceneBuf] the
    shared [_sceneParameterBuffer]. *)
Definition init_frame_descriptors (lim : DeviceLimits) (sceneBuf : handle) (fb : handle * handle)
    (st : DescriptorState) : result (FrameDescriptors * DescriptorState) :=
  let cameraBuffer := descriptor_buffer_info fb.2 0 sizeof_GPUCameraData in
  let sceneBuffer := descriptor_buffer_info sceneBuf 0 sizeof_GPUSceneData in
  let objectBuffer := descriptor_buffer_info fb.1 0 (sizeof_GPUObjectData * MAX_OBJECTS_NUM) in
  let '(globalDescriptor, st) := vkAllocateDescriptorSets globalLayoutBindSet st in
  let '(objectDescriptor, st) := vkAllocateDescriptorSets objectLayoutBindSet st in
  let setWrites :=
    [write_descriptor_buffer VK_DESCRIPTOR_TYPE_UNIFORM_BUFFER globalDescriptor cameraBuffer 0;
     write_descriptor_buffer VK_DESCRIPTOR_TYPE_UNIFORM_BUFFER_DYNAMIC globalDescriptor sceneBuffer 1;
     write_descriptor_buffer VK_DESCRIPTOR_TYPE_STORAGE_BUFFER objectDescriptor objectBuffer 0] in
  let! st := vkUpdateDescriptorSets lim setWrites st in
  Ok (mkFrameDescriptors globalDescriptor objectDescriptor, st).

(** [for (size_t i = 0; i < FRAME_OVERLAP; i++)] over the frames' buffers. *)
Fixpoint init_frames_descriptors (lim : DeviceLimits) (sceneBuf : handle) (fbs : list (handle * handle))
    (st : DescriptorState) : result (list FrameDescriptors * DescriptorState) :=
  match fbs with
  | [] => Ok ([], st)
  | fb :: fbs' =>
      let! '(fd, st) := init_frame_descriptors lim sceneBuf fb st in
      let! '(fds, st) := init_frames_descriptors lim sceneBuf fbs' st in
      Ok (fd :: fds, st)
  end.

(** The texture set of [init_scene] (1168-1194): allocated from
    [_descriptorPool] with [_singleTextureSetLayout] and pointed at the
    sampler and the view of ["empire_diffuse"]. *)
Definition init_texture_set (lim : DeviceLimits) (blockySampler imageView : handle) (st : DescriptorState)
  : result (handle * DescriptorState) :=
  let '(textureSet, st) := vkAllocateDescriptorSets textureLayoutBindSet st in
  let imageBufferInfo := ImageInfo blockySampler imageView SHADER_READ_ONLY_OPTIMAL in
  let! st := vkUpdateDescriptorSets lim
               [write_descriptor_image VK_DESCRIPTOR_TYPE_COMBINED_IMAGE_SAMPLER textureSet imageBufferInfo 0] st in
  Ok (textureSet, st).

(** Every descriptor set [init] allocates, in the order of [init]: the
    pool and the frames' sets in [init_descriptors], the texture set in
    [init_scene]; [buffers] are the sizes of the buffers [create_buffer]
    made. *)
Definition init_descriptor_sets (lim : DeviceLimits) (maxSets : Z) (buffers : gmap handle Z)
    (sceneBuf : handle) (fbs : list (handle * handle)) (blockySampler imageView : handle)
  : result (list FrameDescriptors * handle * DescriptorState) :=
  let st := mkDescriptorState (create_descriptor_pool pool_sizes maxSets) ∅ 1 buffers in
  let! '(fds, st) := init_frames_descriptors lim sceneBuf fbs st in
  let! '(textureSet, st) := init_texture_set lim blockySampler imageView st in
  Ok (fds, textureSet, st).

(** ** The sets a draw uses *)

(** The pipelines and pipeline layouts [init_pipelines] created: the
    layout of each pipeline, and the set layouts of each pipeline layout. *)
Record PipelineTables := mkPipelineTables {
  pl_pipelines : gmap handle handle;
  pl_layouts : gmap handle (list (list LayoutBinding))
}.

Definition dynamic_bindings (layout : list LayoutBinding) : list LayoutBinding :=
  filter (fun lb => is_dynamic (descriptorType lb) = true) layout.

(** A dynamic offset is aligned and keeps the descriptor's range inside
    its buffer ([VUID-vkCmdBindDescriptorSets-pDynamicOffsets-01971],
    [-01979]). *)
Definition dynamic_ok (lim : DeviceLimits) (st : DescriptorState) (s : DescriptorSet)
    (lb : LayoutBinding) (off : Z) : bool :=
  match set_writes s !! binding lb with
  | Some (BufferInfo buf o r) =>
      match ds_buffers st !! buf with
      | Some size => (off mod minUniformBufferOffsetAlignment lim =? 0) && (o + off + r <=? size)
      | None => false
      end
  | _ => false
  end.

(** Set [k] of a draw whose pipeline layout has the set layouts [sl]: it
    was bound through a layout compatible for set [k], the set has the
    layout [sl] expects there, every binding of it has been written, and
    one valid dynamic offset was given per dynamic binding. *)
Definition bound_set_ok (lim : DeviceLimits) (pl : PipelineTables) (st : DescriptorState)
    (sl : list (list LayoutBinding)) (k : nat) (b : option (option (handle * handle * list Z))) : bool :=
  match b with
  | Some (Some (L', set, offs)) =>
      match pl_layouts pl !! L', ds_sets st !! set with
      | Some sl', Some s =>
          bool_decide (take (S k) sl' = take (S k) sl) &&
          bool_decide (sl !! k = Some (set_layout s)) &&
          forallb (fun lb => bool_decide (is_Some (set_writes s !! binding lb))) (set_layout s) &&
          (length offs =? length (dynamic_bindings (set_layout s)))%nat &&
          forallb (fun p => dynamic_ok lim st s p.1 p.2) (zip (dynamic_bindings (set_layout s)) offs)
      | _, _ => false
      end
  | _ => false
  end.

(** A draw is valid for its descriptors when the bound pipeline's layout
    is known and every set of that layout is bound validly. *)
Definition draw_ok (lim : DeviceLimits) (pl : PipelineTables) (st : DescriptorState) (ob : DrawObs) : bool :=
  match bs_pipeline ob.1 ≫= fun p => pl_pipelines pl !! p with
  | None => false
  | Some L =>
      match pl_layouts pl !! L with
      | None => false
      | Some sl => forallb (fun k => bound_set_ok lim pl st sl k (bs_sets ob.1 !! k)) (seq 0 (length sl))
      end
  end.

(** The materials of the registry, as [init_pipelines] and [init_scene]
    register them: each pipeline has its material's layout, whose sets are
    those of the textured layout when the material has a texture set (the
    one [init_scene] wrote) and of the mesh layout otherwise. *)
Definition materials_ok (pl : PipelineTables) (tex : handle) (sets : RenderObjectsSets) : Prop :=
  map_Forall (fun _ mat =>
    pl_pipelines pl !! pipeline mat = Some (pipelineLayout mat) /\
    match textureSet mat with
    | Some t => t = tex /\ pl_layouts pl !! pipelineLayout mat = Some texture_set_layouts
    | None => pl_layouts pl !! pipelineLayout mat = Some mesh_set_layouts
    end) (_materials sets).

(** The buffers [create_buffer] made in [init_descriptors]: the scene
    buffer and each frame's object and camera buffers, with their sizes. *)
Definition buffers_ok (lim : DeviceLimits) (buffers : gmap handle Z) (sceneBuf : handle)
    (fbs : list (handle * handle)) : Prop :=
  buffers !! sceneBuf = Some (sceneParamBufferSize (minUniformBufferOffsetAlignment lim)) /\
  Forall (fun fb => buffers !! fb.1 = Some (sizeof_GPUObjectData * MAX_OBJECTS_NUM) /\
                    buffers !! fb.2 = Some sizeof_GPUCameraData) fbs.

(** The sets [init_descriptors] and [init_scene] write. *)
Definition global_set (sceneBuf : handle) (fb : handle * handle) : DescriptorSet :=
  mkDescriptorSet globalLayoutBindSet
    (<[1 := BufferInfo sceneBuf 0 sizeof_GPUSceneData]> (<[0 := BufferInfo fb.2 0 sizeof_GPUCameraData]> ∅)).
Definition object_set (fb : handle * handle) : DescriptorSet :=
  mkDescriptorSet objectLayoutBindSet
    (<[0 := BufferInfo fb.1 0 (sizeof_GPUObjectData * MAX_OBJECTS_NUM)]> ∅).
Definition texture_set (smp view : handle) : DescriptorSet :=
  mkDescriptorSet textureLayoutBindSet (<[0 := ImageInfo smp view SHADER_READ_ONLY_OPTIMAL]> ∅).

(** A device at the common limits (256-byte uniform alignment, 64 KiB
    uniform ranges, the minimum storage range) and the buffers of
    [init_descriptors] at handles 10 (scene) and 11-14 (frames). *)
Definition example_limits : DeviceLimits := mkDeviceLimits 256 65536 (2 ^ 27).

Definition example_buffers : gmap handle Z :=
  {[10 := sceneParamBufferSize 256; 11 := sizeof_GPUObjectData * MAX_OBJECTS_NUM;
    12 := sizeof_GPUCameraData; 13 := sizeof_GPUObjectData * MAX_OBJECTS_NUM;
    14 := sizeof_GPUCameraData]}.

(** ** Lemmas *)

Lemma alloc_spec layout st :
  0 < sets_left (ds_pool st) ->
  Forall (fun t => count_type t layout <= pool_free (ds_pool st) t) all_descriptor_types ->
  vkAllocateDescriptorSets layout st =
    (ds_next st,
     mkDescriptorState
       (mkDescriptorPool (fun t => pool_free (ds_pool st) t - count_type t layout) (sets_left (ds_pool st) - 1))
       (<[ds_next st := mkDescriptorSet layout ∅]> (ds_sets st)) (ds_next st + 1) (ds_buffers st)).
Proof.
  intros Hs Hf. unfold vkAllocateDescriptorSets.
  replace (forallb _ _) with true; [by rewrite (proj2 (Z.ltb_lt _ _) Hs)|].
  symmetry. apply forallb_forall. intros t Ht%list_elem_of_In. apply Z.leb_le.
  by eapply Forall_forall in Hf.
Qed.

Lemma descriptor_ranges :
  to_uint32 0 = 0 /\ to_uint32 sizeof_GPUCameraData = sizeof_GPUCameraData /\
  to_uint32 sizeof_GPUSceneData = sizeof_GPUSceneData /\
  to_uint32 (sizeof_GPUObjectData * MAX_OBJECTS_NUM) = sizeof_GPUObjectData * MAX_OBJECTS_NUM.
Proof. vm_compute. done. Qed.

Lemma alloc_exhausted layout st :
  sets_left (ds_pool st) <= 0 -> vkAllocateDescriptorSets layout st = (VK_NULL_HANDLE, st).
Proof. intros Hs. unfold vkAllocateDescriptorSets. by rewrite (proj2 (Z.ltb_ge _ _) Hs). Qed.

(** The pool has the descriptors of [layout] when it has those of a list
    of layouts that includes it. *)
Ltac pool_le Hf :=
  eapply Forall_impl; [exact Hf|]; intros [] ?; unfold count_type in *; simpl in *; lia.

(** Run the checks of [vkUpdateDescriptorSets] on the writes of
    [init_descriptors]: set and buffer lookups, then the ranges. *)
Ltac eval_writes :=
  unfold vkUpdateDescriptorSets, write_ok, apply_write; simpl;
  repeat (simpl; first [rewrite lookup_insert_eq | rewrite lookup_insert_ne by lia
    | match goal with H : ds_buffers _ !! _ = Some _ |- _ => rewrite H end
    | match goal with H : ds_sets _ !! _ = None |- _ => rewrite H end]);
  unfold descriptor_buffer_info;
  rewrite ?(proj1 descriptor_ranges), ?(proj1 (proj2 descriptor_ranges)),
    ?(proj1 (proj2 (proj2 descriptor_ranges))), ?(proj2 (proj2 (proj2 descriptor_ranges)));
  rewrite ?Z.add_0_l, ?Z.leb_refl;
  unfold sizeof_GPUCameraData, sizeof_GPUSceneData, sizeof_GPUObjectData, MAX_OBJECTS_NUM in *;
  repeat rewrite (proj2 (Z.leb_le _ _)) by lia; simpl.


Lemma scene_buffer_fits A :
  pow2_alignment A -> A <= 2 ^ 31 -> sizeof_GPUSceneData <= sceneParamBufferSize A.
Proof.
  intros HA Hle. destruct (scene_layout_facts A 0 1 HA Hle) as (_ & _ & H & _);
    [unfold FRAME_OVERLAP; lia..|].
  unfold scene_write_offset in H. rewrite Z.mul_0_r in H. exact H.
Qed.

Lemma init_frame_descriptors_spec lim sceneBuf fb st :
  limits_ok lim ->
  2 <= sets_left (ds_pool st) ->
  Forall (fun t => count_type t globalLayoutBindSet + count_type t objectLayoutBindSet <= pool_free (ds_pool st) t)
    all_descriptor_types ->
  buffers_ok lim (ds_buffers st) sceneBuf [fb] ->
  exists pool', init_frame_descriptors lim sceneBuf fb st =
    Ok (mkFrameDescriptors (ds_next st) (ds_next st + 1),
        mkDescriptorState pool'
          (<[ds_next st + 1 := object_set fb]> (<[ds_next st := global_set sceneBuf fb]> (ds_sets st)))
          (ds_next st + 2) (ds_buffers st)) /\
    sets_left pool' = sets_left (ds_pool st) - 2 /\
    forall t, pool_free pool' t = pool_free (ds_pool st) t - count_type t globalLayoutBindSet - count_type t objectLayoutBindSet.
Proof.
  intros (HA & HA256 & Hub & Hsb) Hs Hf (Hscene & Hfb).
  inversion_clear Hfb as [|? ? [Hobj Hcam] _]. destruct fb as [ob cb]. simpl in Hobj, Hcam.
  pose proof (scene_buffer_fits _ HA ltac:(lia)).
  unfold init_frame_descriptors. rewrite alloc_spec by (lia || pool_le Hf). simpl.
  rewrite alloc_spec by (simpl; lia || pool_le Hf). simpl.
  set (n := ds_next st). eval_writes.
  eexists. split.
  { rewrite insert_insert_eq, (insert_insert_ne _ n (n + 1)), !insert_insert_eq by lia.
    by replace (n + 1 + 1) with (n + 2) by lia. }
  split; [simpl; lia | done].
Qed.

Lemma init_texture_set_spec lim smp view st :
  1 <= sets_left (ds_pool st) ->
  Forall (fun t => count_type t textureLayoutBindSet <= pool_free (ds_pool st) t) all_descriptor_types ->
  smp <> VK_NULL_HANDLE -> view <> VK_NULL_HANDLE ->
  exists pool', init_texture_set lim smp view st =
    Ok (ds_next st, mkDescriptorState pool' (<[ds_next st := texture_set smp view]> (ds_sets st))
                      (ds_next st + 1) (ds_buffers st)) /\
    sets_left pool' = sets_left (ds_pool st) - 1 /\
    forall t, pool_free pool' t = pool_free (ds_pool st) t - count_type t textureLayoutBindSet.
Proof.
  intros Hs Hf Hsmp Hview. unfold init_texture_set. rewrite alloc_spec by (done || lia).
  unfold vkUpdateDescriptorSets, write_ok, apply_write. simpl. rewrite lookup_insert_eq. simpl.
  rewrite !bool_decide_eq_true_2 by done. simpl. rewrite insert_insert_eq.
  eexists. split; [reflexivity|]. split; [done|]. done.
Qed.

Lemma frame_descriptors_exhausted lim sceneBuf fb st :
  sets_left (ds_pool st) <= 0 -> ds_sets st !! VK_NULL_HANDLE = None ->
  init_frame_descriptors lim sceneBuf fb st = Err Validation.
Proof.
  intros Hs H0. unfold init_frame_descriptors. rewrite !alloc_exhausted by done.
  unfold vkUpdateDescriptorSets, write_ok. simpl. by rewrite H0.
Qed.

Lemma frame_descriptors_one_set lim sceneBuf fb st :
  limits_ok lim -> sets_left (ds_pool st) = 1 ->
  Forall (fun t => count_type t globalLayoutBindSet <= pool_free (ds_pool st) t) all_descriptor_types ->
  buffers_ok lim (ds_buffers st) sceneBuf [fb] ->
  1 <= ds_next st -> ds_sets st !! VK_NULL_HANDLE = None ->
  init_frame_descriptors lim sceneBuf fb st = Err Validation.
Proof.
  intros (HA & HA256 & Hub & Hsb) Hs Hf (Hscene & Hfb) Hn H0.
  inversion_clear Hfb as [|? ? [Hobj Hcam] _]. destruct fb as [ob cb]. simpl in Hobj, Hcam.
  pose proof (scene_buffer_fits _ HA ltac:(lia)). unfold VK_NULL_HANDLE in *.
  unfold init_frame_descriptors. rewrite alloc_spec by (lia || pool_le Hf). simpl.
  rewrite alloc_exhausted by (simpl; lia). unfold VK_NULL_HANDLE. eval_writes. done.
Qed.

Lemma texture_set_exhausted lim smp view st :
  sets_left (ds_pool st) <= 0 -> ds_sets st !! VK_NULL_HANDLE = None ->
  init_texture_set lim smp view st = Err Validation.
Proof.
  intros Hs H0. unfold init_texture_set. rewrite alloc_exhausted by done.
  unfold vkUpdateDescriptorSets, write_ok. simpl. by rewrite H0.
Qed.

Ltac pool_fits := apply Forall_forall; intros [] _; rewrite ?Forall_forall;
  repeat match goal with H : forall t : VkDescriptorType, _ |- _ => rewrite H end;
  unfold count_type; simpl; lia.

(** The side conditions of the frame and texture lemmas. *)
Ltac pool_side :=
  first [done | simpl in *; lia | simpl in *; pool_fits | split; [done|by constructor]
        | unfold VK_NULL_HANDLE; simpl; by rewrite ?lookup_insert_ne by lia].

(** One iteration of the frame loop on a pool with room for it, by the
    evaluation lemma [spec] of [init_frame_descriptors]. *)
Ltac frame_step spec f :=
  match goal with |- context [init_frame_descriptors ?lim ?sb f ?st] =>
    destruct (spec lim sb f st) as (? & -> & ? & ?);
    [done|simpl in *; lia|simpl in *; pool_fits|split; [done|by constructor]|] end;
  cbn [rbind ds_next ds_buffers ds_sets ds_pool].

(** [init_descriptors] and [init_scene] on a device that honours the
    limits of the specification, with the buffers of [init_descriptors]
    and a pool of at least five sets: sets 1-4 are the frames' global and
    object sets, set 5 the texture set, each with every binding written;
    the pool is left with [maxSets - 5] sets and 8, 8, 8 and 9 descriptors. *)
Lemma init_descriptor_sets_eval lim maxSets buffers sceneBuf f0 f1 smp view :
  limits_ok lim -> 5 <= maxSets -> smp <> VK_NULL_HANDLE -> view <> VK_NULL_HANDLE ->
  buffers_ok lim buffers sceneBuf [f0; f1] ->
  exists pool, init_descriptor_sets lim maxSets buffers sceneBuf [f0; f1] smp view =
    Ok ([mkFrameDescriptors 1 2; mkFrameDescriptors 3 4], 5,
        mkDescriptorState pool
          (<[5 := texture_set smp view]> (<[4 := object_set f1]> (<[3 := global_set sceneBuf f1]>
             (<[2 := object_set f0]> (<[1 := global_set sceneBuf f0]> ∅))))) 6 buffers) /\
    sets_left pool = maxSets - 5 /\
    forall t, pool_free pool t = 10 - 2 * count_type t globalLayoutBindSet
                                 - 2 * count_type t objectLayoutBindSet - count_type t textureLayoutBindSet.
Proof.
  intros Hlim Hmax Hsmp Hview (Hscene & Hfb).
  apply Forall_cons in Hfb as [H0 Hfb]. apply Forall_cons in Hfb as [H1 _].
  unfold init_descriptor_sets. cbn [init_frames_descriptors].
  frame_step init_frame_descriptors_spec f0. frame_step init_frame_descriptors_spec f1.
  match goal with |- context [init_texture_set _ _ _ ?st] =>
    destruct (init_texture_set_spec lim smp view st) as (p3 & -> & S3 & F3);
    [simpl in *; lia|simpl in *; pool_fits|done|done|] end.
  exists p3. split; [reflexivity|]. simpl in *. split; [lia|].
  intros t. rewrite F3. repeat match goal with H : forall t, pool_free _ t = _ |- _ => rewrite H end.
  unfold count_type. destruct t; simpl; lia.
Qed.

Lemma bound_set_ok_intro lim pl st sl k L set offs s :
  pl_layouts pl !! L = Some sl -> ds_sets st !! set = Some s -> sl !! k = Some (set_layout s) ->
  Forall (fun lb => is_Some (set_writes s !! binding lb)) (set_layout s) ->
  length offs = length (dynamic_bindings (set_layout s)) ->
  Forall (fun p => dynamic_ok lim st s p.1 p.2 = true) (zip (dynamic_bindings (set_layout s)) offs) ->
  bound_set_ok lim pl st sl k (Some (Some (L, set, offs))) = true.
Proof.
  intros HL Hs Hk Hw Hlen Hd.
  assert (H1 : forallb (fun lb => bool_decide (is_Some (set_writes s !! binding lb))) (set_layout s) = true).
  { apply (proj2 (forallb_forall _ _)). intros lb Hlb%list_elem_of_In. apply bool_decide_eq_true_2.
    by eapply Forall_forall in Hw. }
  assert (H2 : forallb (fun p => dynamic_ok lim st s p.1 p.2) (zip (dynamic_bindings (set_layout s)) offs) = true).
  { apply (proj2 (forallb_forall _ _)). intros p Hp%list_elem_of_In. by eapply Forall_forall in Hd. }
  unfold bound_set_ok. rewrite HL, Hs, !bool_decide_eq_true_2 by done.
  by rewrite Hlen, Nat.eqb_refl, H1, H2.
Qed.

(** The dynamic offset [draw_objects] binds for the scene buffer. *)
Lemma scene_dynamic_ok lim st sceneBuf fb env :
  limits_ok lim -> env_minUboAlignment env = minUniformBufferOffsetAlignment lim ->
  ds_buffers st !! sceneBuf = Some (sceneParamBufferSize (minUniformBufferOffsetAlignment lim)) ->
  dynamic_ok lim st (global_set sceneBuf fb) sceneBufferBinding (uniform_off env) = true.
Proof.
  intros (HA & HA256 & _) Henv Hbuf. unfold dynamic_ok, global_set. simpl.
  rewrite lookup_insert_eq, Hbuf. unfold uniform_off. rewrite Henv.
  set (A := minUniformBufferOffsetAlignment lim).
  pose proof (FrameRing.frame_slot_lt (env_frameNumber env)) as Hi. unfold frameIndex.
  set (i := FrameRing.frame_slot (env_frameNumber env)) in *.
  destruct (scene_layout_facts A (Z.of_nat i) (1 - Z.of_nat i)) as (_ & Hpos & Hle & Heq & Hmod);
    [done|lia|unfold FRAME_OVERLAP; lia..|].
  rewrite Hmod, Heq. simpl. apply Z.leb_le. unfold sizeof_GPUSceneData in *. lia.
Qed.

(** Every binding of the written sets holds a descriptor. *)
Definition complete (s : DescriptorSet) : Prop :=
  Forall (fun lb => is_Some (set_writes s !! binding lb)) (set_layout s).

Lemma written_sets_complete sceneBuf fb smp view :
  complete (global_set sceneBuf fb) /\ complete (object_set fb) /\ complete (texture_set smp view).
Proof.
  unfold complete, global_set, object_set, texture_set.
  split_and!; repeat constructor; simpl; rewrite ?lookup_insert_ne by lia; by rewrite lookup_insert_eq.
Qed.

(** A draw that sees the binds of a registered material uses valid sets. *)
Lemma draw_ok_reflects lim pl st env mat bs args sceneBuf fb tex smp view :
  limits_ok lim -> env_minUboAlignment env = minUniformBufferOffsetAlignment lim ->
  ds_sets st !! globalDescriptor (env_frame env) = Some (global_set sceneBuf fb) ->
  ds_sets st !! objectDescriptor (env_frame env) = Some (object_set fb) ->
  ds_sets st !! tex = Some (texture_set smp view) ->
  ds_buffers st !! sceneBuf = Some (sceneParamBufferSize (minUniformBufferOffsetAlignment lim)) ->
  pl_pipelines pl !! pipeline mat = Some (pipelineLayout mat) ->
  match textureSet mat with
  | Some t => t = tex /\ pl_layouts pl !! pipelineLayout mat = Some texture_set_layouts
  | None => pl_layouts pl !! pipelineLayout mat = Some mesh_set_layouts
  end ->
  reflects env mat bs -> draw_ok lim pl st (bs, args) = true.
Proof.
  intros Hlim Henv Hg Ho Ht Hbuf Hp Hl (Hbp & H0 & H1 & H2).
  destruct (written_sets_complete sceneBuf fb smp view) as (Cg & Co & Ct).
  pose proof (scene_dynamic_ok lim st sceneBuf fb env Hlim Henv Hbuf) as Hd.
  unfold draw_ok. simpl. rewrite Hbp. simpl. rewrite Hp.
  destruct (textureSet mat) as [t|] eqn:Hts; [destruct Hl as [-> Hl]|]; rewrite Hl; simpl;
    rewrite H0, H1; [rewrite (H2 tex eq_refl)|];
    repeat (apply andb_true_intro; split); try done;
    (eapply bound_set_ok_intro; [exact Hl|eassumption|reflexivity|done|reflexivity|by repeat constructor]).
Qed.

Lemma materials_ok_deref pl tex sets p mat :
  materials_ok pl tex sets -> deref_material sets p = Some mat ->
  pl_pipelines pl !! pipeline mat = Some (pipelineLayout mat) /\
  match textureSet mat with
  | Some t => t = tex /\ pl_layouts pl !! pipelineLayout mat = Some texture_set_layouts
  | None => pl_layouts pl !! pipelineLayout mat = Some mesh_set_layouts
  end.
Proof.
  intros Hm Hd. unfold deref_material in Hd. destruct p as [name|]; [|discriminate].
  simpl in Hd. exact (Hm name mat Hd).
Qed.

(** C7. The descriptor model is sound for every frame [draw] records: on
    a device with the limits the Vulkan specification guarantees and a
    pool of at least five sets, [init_descriptors] and [init_scene]
    allocate and write every set without a validation error, a global
    and an object set for each of the [FRAME_OVERLAP] frames; then for any
    frame number, every draw [draw_objects] records for valid renderables
    (whose materials are registered as [init_pipelines] and [init_scene]
    register them) has every set of its pipeline layout bound, compatible,
    completely written, and given one dynamic offset that is aligned and
    keeps the scene range inside [_sceneParameterBuffer]. *)
Theorem descriptors_valid_for_draws lim maxSets buffers sceneBuf f0 f1 smp view :
  limits_ok lim -> 5 <= maxSets -> smp <> VK_NULL_HANDLE -> view <> VK_NULL_HANDLE ->
  buffers_ok lim buffers sceneBuf [f0; f1] ->
  exists fds tex st,
    init_descriptor_sets lim maxSets buffers sceneBuf [f0; f1] smp view = Ok (fds, tex, st) /\
    Z.of_nat (length fds) = FRAME_OVERLAP /\
    forall pl env objs out,
      env_minUboAlignment env = minUniformBufferOffsetAlignment lim ->
      fds !! FrameRing.frame_slot (env_frameNumber env) = Some (env_frame env) ->
      materials_ok pl tex (env_sets env) ->
      Z.of_nat (length objs) <= MAX_OBJECTS_NUM -> Forall (valid_object env) objs ->
      draw_objects env objs = Ok out ->
      Forall (fun ob => draw_ok lim pl st ob = true) (observe (out_cmds out)).
Proof.
  intros Hlim Hmax Hsmp Hview Hbuf.
  destruct (init_descriptor_sets_eval lim maxSets buffers sceneBuf f0 f1 smp view Hlim Hmax Hsmp Hview Hbuf)
    as (pool & Heval & _ & _).
  eexists _, _, _. split; [exact Heval|]. split; [reflexivity|].
  intros pl env objs out Henv Hfd Hmat Hlen Hv Hout.
  destruct (draw_objects_observe env objs Hlen Hv) as (out' & Hout' & Hl & Hm).
  rewrite Hout in Hout'. injection Hout' as <-.
  apply Forall_lookup_2. intros n [bs args] Hob.
  destruct (lookup_lt_is_Some_2 objs n) as [o Ho]; [rewrite <- Hl; by apply lookup_lt_Some in Hob|].
  destruct (Hm n o _ Ho Hob) as (mat & m & Hdm & _ & Hr & _).
  destruct (materials_ok_deref pl _ _ _ mat Hmat Hdm) as [Hp Hlay].
  destruct Hbuf as [Hscene _].
  pose proof (FrameRing.frame_slot_lt (env_frameNumber env)) as Hslot.
  destruct (FrameRing.frame_slot (env_frameNumber env)) as [|[|]] eqn:Hs; [..|lia];
    simpl in Hfd; injection Hfd as Hfd;
    eapply draw_ok_reflects; try eassumption; rewrite <- ?Hfd; simpl;
    by rewrite ?lookup_insert_ne, ?lookup_insert_eq by lia.
Qed.

(** C27. [init_descriptors] and [init_scene] ignore the result of
    [vkAllocateDescriptorSets]: with a pool of fewer than the five sets
    they allocate, the first allocation that fails leaves
    [VK_NULL_HANDLE] in the frame or the material, and the following
    [vkUpdateDescriptorSets] writes to it, a validation error instead of
    a reported failure. *)
Theorem small_pool_invalid_write lim maxSets buffers sceneBuf f0 f1 smp view :
  limits_ok lim -> maxSets < 5 -> buffers_ok lim buffers sceneBuf [f0; f1] ->
  init_descriptor_sets lim maxSets buffers sceneBuf [f0; f1] smp view = Err Validation.
Proof.
  intros Hlim Hmax (Hscene & Hfb).
  apply Forall_cons in Hfb as [H0 Hfb]. apply Forall_cons in Hfb as [H1 _].
  unfold init_descriptor_sets. cbn [init_frames_descriptors].
  destruct (Z.le_gt_cases maxSets 0).
  { by rewrite frame_descriptors_exhausted. }
  assert (maxSets = 1 \/ maxSets = 2 \/ maxSets = 3 \/ maxSets = 4) as [-> | [-> | [-> | ->]]] by lia.
  - by rewrite frame_descriptors_one_set by pool_side.
  - frame_step init_frame_descriptors_spec f0. by rewrite frame_descriptors_exhausted by pool_side.
  - frame_step init_frame_descriptors_spec f0. by rewrite frame_descriptors_one_set by pool_side.
  - frame_step init_frame_descriptors_spec f0. frame_step init_frame_descriptors_spec f1. by rewrite texture_set_exhausted by pool_side.
Qed.

(** ** Witnesses *)

Lemma example_limits_ok : limits_ok example_limits.
Proof. split; [apply pow2_256|]. unfold example_limits; simpl. lia. Qed.

Lemma example_buffers_ok : buffers_ok example_limits example_buffers 10 [(11, 12); (13, 14)].
Proof. split; [reflexivity|]. repeat constructor. Qed.

Lemma descriptors_valid_for_draws_witness :
  exists fds tex st,
    init_descriptor_sets example_limits 5 example_buffers 10 [(11, 12); (13, 14)] 20 21 = Ok (fds, tex, st) /\
    Z.of_nat (length fds) = FRAME_OVERLAP /\
    forall pl env objs out,
      env_minUboAlignment env = minUniformBufferOffsetAlignment example_limits ->
      fds !! FrameRing.frame_slot (env_frameNumber env) = Some (env_frame env) ->
      materials_ok pl tex (env_sets env) ->
      Z.of_nat (length objs) <= MAX_OBJECTS_NUM -> Forall (valid_object env) objs ->
      draw_objects env objs = Ok out ->
      Forall (fun ob => draw_ok example_limits pl st ob = true) (observe (out_cmds out)).
Proof.
  apply descriptors_valid_for_draws;
    [exact example_limits_ok | lia | discriminate | discriminate | exact example_buffers_ok].
Defined.

Lemma small_pool_invalid_write_witness :
  init_descriptor_sets example_limits 4 example_buffers 10 [(11, 12); (13, 14)] 20 21 = Err Validation.
Proof. apply small_pool_invalid_write; [exact example_limits_ok | lia | exact example_buffers_ok]. Defined.

End Descriptors.
