(* ===== verification/Semaphores.v ===== *)
(** The semaphores of the frame loop of [VulkanEngine::draw]
    ([vk_engine.cpp] 132-194): each frame slot has a [_presentSemaphore],
    signalled by [vkAcquireNextImageKHR] and waited on by the submission,
    and a [_renderSemaphore], signalled by the submission and waited on by
    [vkQueuePresentKHR] ([vk_frameData.h] 34).

    A binary semaphore is whether it is signalled and whether a signal and
    a wait operation are pending.  The CPU side is the sequence of calls
    of [draw] ([Event]s [WaitFence] to [Present]); the asynchronous side
    is the GPU executing the oldest submission ([GpuExec]) and the
    presentation engine executing the signal of an acquire ([PeSignal])
    or the wait of a present ([PeWait]), at any time.  A run is a list of
    events, executed by [run]; an event that is not enabled (a wait that
    would block) stops the run.  A fence wait that times out aborts, which
    [FrameRing.v] models; here every wait eventually succeeds. *)

From S2P Require Import Prelude FrameRing.

Module Semaphores.
Import FrameRing.

(** A binary [VkSemaphore]. *)
Record Sem := mkSem {
  signaled : bool;
  signal_pending : bool;
  wait_pending : bool
}.

#[export] Instance Sem_eq_dec : EqDecision Sem.
Proof. solve_decision. Defined.

(** Created by [init_sync_structures]: unsignalled, nothing pending. *)
Definition sem0 : Sem := mkSem false false false.

(** Where [draw] is. *)
Inductive DrawPhase := DIdle | DWaited | DReset | DAcquired | DSubmitted.

#[export] Instance DrawPhase_eq_dec : EqDecision DrawPhase.
Proof. solve_decision. Defined.

Record SyncState := mkSyncState {
  sy_frameNumber : Z;
  sy_fences : list fence_state;       (** [_frames[i]._renderFence] *)
  presentSems : list Sem;             (** [_frames[i]._presentSemaphore] *)
  renderSems : list Sem;              (** [_frames[i]._renderSemaphore] *)
  sy_queue : list nat;                (** slots of the submissions not yet executed, oldest first *)
  sy_phase : DrawPhase
}.

Definition sync0 : SyncState :=
  mkSyncState 0 [Signaled; Signaled] [sem0; sem0] [sem0; sem0] [] DIdle.

Definition sy_slot (s : SyncState) : nat := frame_slot (sy_frameNumber s).

Inductive Event :=
| WaitFence | ResetFence | Acquire | Submit | Present
| GpuExec | PeSignal (i : nat) | PeWait (i : nat).

Definition set_sync (fn : Z) (fs : list fence_state) (ps rs : list Sem) (q : list nat) (ph : DrawPhase)
  : SyncState := mkSyncState fn fs ps rs q ph.

(** One event; [None] when it is not enabled. *)
Definition sync_step (ev : Event) (s : SyncState) : option SyncState :=
  let i := sy_slot s in
  let '(mkSyncState fn fs ps rs q ph) := s in
  match ev with
  | WaitFence =>
      (** [vkWaitForFences(... _renderFence ...)] *)
      if decide (ph = DIdle /\ fs !! i = Some Signaled) then Some (set_sync fn fs ps rs q DWaited) else None
  | ResetFence =>
      (** [vkResetFences] *)
      if decide (ph = DWaited) then Some (set_sync fn (<[i := Unsignaled]> fs) ps rs q DReset) else None
  | Acquire =>
      (** [vkAcquireNextImageKHR(..., _presentSemaphore, ...)]: a signal
          operation the presentation engine executes later. *)
      match ps !! i with
      | Some p => if decide (ph = DReset)
                  then Some (set_sync fn fs (<[i := mkSem (signaled p) true (wait_pending p)]> ps) rs q DAcquired)
                  else None
      | None => None
      end
  | Submit =>
      (** [vkQueueSubmit]: wait on [_presentSemaphore], signal
          [_renderSemaphore] and [_renderFence] when executed. *)
      match ps !! i, rs !! i with
      | Some p, Some r =>
          if decide (ph = DAcquired)
          then Some (set_sync fn fs (<[i := mkSem (signaled p) (signal_pending p) true]> ps)
                       (<[i := mkSem (signaled r) true (wait_pending r)]> rs) (q ++ [i]) DSubmitted)
          else None
      | _, _ => None
      end
  | Present =>
      (** [vkQueuePresentKHR] waiting on [_renderSemaphore], then [_frameNumber++]. *)
      match rs !! i with
      | Some r => if decide (ph = DSubmitted)
                  then Some (set_sync (next_frame_number fn) fs ps
                               (<[i := mkSem (signaled r) (signal_pending r) true]> rs) q DIdle)
                  else None
      | None => None
      end
  | GpuExec =>
      (** The oldest submission runs once its wait semaphore is signalled:
          the wait unsignals it, then the render semaphore and the fence
          are signalled. *)
      match q with
      | j :: q' =>
          match ps !! j, rs !! j with
          | Some p, Some r =>
              if signaled p
              then Some (set_sync fn (<[j := Signaled]> fs) (<[j := mkSem false (signal_pending p) false]> ps)
                           (<[j := mkSem true false (wait_pending r)]> rs) q' ph)
              else None
          | _, _ => None
          end
      | [] => None
      end
  | PeSignal j =>
      match ps !! j with
      | Some p => if signal_pending p then Some (set_sync fn fs (<[j := mkSem true false (wait_pending p)]> ps) rs q ph)
                  else None
      | None => None
      end
  | PeWait j =>
      match rs !! j with
      | Some r => if wait_pending r && signaled r
                  then Some (set_sync fn fs ps (<[j := mkSem false (signal_pending r) false]> rs) q ph)
                  else None
      | None => None
      end
  end.

Fixpoint run (evs : list Event) (s : SyncState) : option SyncState :=
  match evs with
  | [] => Some s
  | ev :: evs' => sync_step ev s ≫= run evs'
  end.

(** [VUID-vkAcquireNextImageKHR-semaphore-01286] and [-01779]: the
    semaphore of an acquire is unsignalled with no operation pending. *)
Definition acquire_valid (s : SyncState) : bool :=
  bool_decide (presentSems s !! sy_slot s = Some sem0).

(** ** The present semaphores are used validly *)

(** What [_presentSemaphore] of slot [i] holds: while its submission is
    queued, the acquire's signal (pending or done) and the submission's
    wait; between the acquire and the submission, the signal alone;
    otherwise nothing. *)
Definition p_ok (s : SyncState) (i : nat) (p : Sem) : Prop :=
  (i ∈ sy_queue s -> exists b, p = mkSem b (negb b) true) /\
  (i ∉ sy_queue s -> i = sy_slot s -> sy_phase s = DAcquired -> exists b, p = mkSem b (negb b) false) /\
  (i ∉ sy_queue s -> ~ (i = sy_slot s /\ sy_phase s = DAcquired) -> p = sem0).

Record sync_inv (s : SyncState) : Prop := {
  inv_len : length (sy_fences s) = 2%nat /\ length (presentSems s) = 2%nat /\ length (renderSems s) = 2%nat;
  inv_nodup : NoDup (sy_queue s);
  inv_slots : Forall (fun j => j < 2)%nat (sy_queue s);
  inv_fence : forall i, sy_fences s !! i = Some Signaled -> i ∉ sy_queue s;
  inv_cur : sy_phase s = DWaited \/ sy_phase s = DReset \/ sy_phase s = DAcquired -> sy_slot s ∉ sy_queue s;
  inv_reset : sy_phase s = DReset \/ sy_phase s = DAcquired -> sy_fences s !! sy_slot s = Some Unsignaled;
  inv_present : forall i p, presentSems s !! i = Some p -> p_ok s i p
}.

Lemma sync_inv_init : sync_inv sync0.
Proof.
  split; simpl; [done|constructor|constructor|set_solver|set_solver|intros [H|H]; discriminate|].
  intros i p Hp. unfold p_ok; simpl. split_and!; [set_solver|intros _ _ [=]|].
  intros _ _. apply list_elem_of_lookup_2 in Hp. set_solver.
Qed.

Ltac inv_destr s :=
  let Lf := fresh "Lf" in let Lp := fresh "Lp" in let Lr := fresh "Lr" in
  intros [[Lf [Lp Lr]] ?Hnd ?Hsl ?Hf ?Hcur ?Hres ?Hp];
  pose proof (frame_slot_lt (sy_frameNumber s)) as Hi;
  destruct s as [fn fs ps rs q ph];
  simpl in *; unfold sy_slot in *; simpl in *.

(** A step that changes neither the queue, the slot nor the present
    semaphores, between phases other than [DAcquired], keeps [p_ok]. *)
Lemma p_ok_phase fn fn' fs fs' ps rs rs' q ph ph' i p :
  ph <> DAcquired -> ph' <> DAcquired ->
  p_ok (mkSyncState fn fs ps rs q ph) i p -> p_ok (mkSyncState fn' fs' ps rs' q ph') i p.
Proof.
  intros H1 H2 (P1 & P2 & P3). unfold p_ok in *; simpl in *.
  split_and!; [done|by intros _ _ ->|]. intros Hq _. apply P3; [done|by intros [_ ?]].
Qed.

Lemma inv_wait s s' : sync_inv s -> sync_step WaitFence s = Some s' -> sync_inv s'.
Proof.
  inv_destr s. case_decide as Hc; [|discriminate]. intros [= <-]. destruct Hc as [-> Hfi].
  split; unfold sy_slot; simpl; try done.
  - intros _. by apply Hf.
  - intros [H|H]; discriminate.
  - intros j p Hj. eapply p_ok_phase, Hp; done.
Qed.

Lemma inv_reset_fence s s' : sync_inv s -> sync_step ResetFence s = Some s' -> sync_inv s'.
Proof.
  inv_destr s. case_decide as Hc; [|discriminate]. intros [= <-]. subst ph.
  split; unfold sy_slot; simpl; try done.
  - split_and!; [by rewrite length_insert|done|done].
  - intros j Hj. apply list_lookup_insert_Some in Hj as [(_ & [=] & _)|(_ & Hj)]. by apply Hf.
  - intros _. by apply Hcur; left.
  - intros _. apply list_lookup_insert_eq. lia.
  - intros j p Hj. eapply p_ok_phase, Hp; done.
Qed.

Lemma inv_acquire s s' : sync_inv s -> sync_step Acquire s = Some s' -> sync_inv s'.
Proof.
  inv_destr s. destruct (ps !! frame_slot fn) as [p|] eqn:Hpi; [|discriminate].
  case_decide; [|discriminate]. intros [= <-]. subst ph.
  assert (Hq : frame_slot fn ∉ q) by (apply Hcur; auto).
  destruct (Hp _ p Hpi) as (_ & _ & P3).
  assert (p = sem0) as -> by (apply P3; [exact Hq|intros [_ Hc]; discriminate Hc]). clear P3.
  split; unfold sy_slot; simpl; [split_and!; [done|by rewrite length_insert|done]|done|done|done
    |intros _; apply Hcur; auto|intros _; apply Hres; auto|].
  intros j p' Hj. apply list_lookup_insert_Some in Hj as [(<- & <- & _)|(Hne & Hj)].
  - unfold p_ok; simpl. split_and!; [done|by exists false|intros _ []; done].
  - destruct (Hp j p' Hj) as (P1 & _ & P3). unfold p_ok; simpl.
    split_and!; [done|intros _ ->; done|]. intros Hjq _. apply P3; [done|by intros [-> _]].
Qed.

Lemma inv_submit s s' : sync_inv s -> sync_step Submit s = Some s' -> sync_inv s'.
Proof.
  inv_destr s. destruct (ps !! frame_slot fn) as [p|] eqn:Hpi; [|discriminate].
  destruct (rs !! frame_slot fn) as [r|] eqn:Hri; [|discriminate].
  case_decide; [|discriminate]. intros [= <-]. subst ph.
  assert (Hq : frame_slot fn ∉ q) by (apply Hcur; auto).
  assert (Hu : fs !! frame_slot fn = Some Unsignaled) by (apply Hres; auto).
  destruct (Hp _ p Hpi) as (_ & P2 & _). destruct (P2 Hq eq_refl eq_refl) as [b ->]; clear P2.
  split; unfold sy_slot; simpl.
  - split_and!; [done|by rewrite length_insert..].
  - apply (proj2 (NoDup_app _ _)). split_and!; [done|set_solver|apply NoDup_singleton].
  - apply (proj2 (Forall_app _ _ _)). split; [done|by constructor].
  - intros j Hj. apply not_elem_of_app. split; [by apply Hf|].
    apply not_elem_of_cons. split; [|apply not_elem_of_nil]. intros ->. congruence.
  - intros [H|[H|H]]; discriminate.
  - intros [H|H]; discriminate.
  - intros j p' Hj. apply list_lookup_insert_Some in Hj as [(<- & <- & _)|(Hne & Hj)].
    + unfold p_ok; simpl. split_and!; [by exists b|set_solver..].
    + destruct (Hp j p' Hj) as (P1 & _ & P3). unfold p_ok; simpl. split_and!.
      * intros Hjq. apply P1. set_solver.
      * intros _ ->. done.
      * intros Hjq _. apply P3; [set_solver|by intros [-> _]].
Qed.

Lemma inv_present_step s s' : sync_inv s -> sync_step Present s = Some s' -> sync_inv s'.
Proof.
  inv_destr s. destruct (rs !! frame_slot fn) as [r|] eqn:Hri; [|discriminate].
  case_decide; [|discriminate]. intros [= <-]. subst ph.
  split; unfold sy_slot; simpl; try done.
  - split_and!; [done|done|by rewrite length_insert].
  - intros [H|[H|H]]; discriminate.
  - intros [H|H]; discriminate.
  - intros j p Hj. eapply p_ok_phase, Hp; done.
Qed.

Lemma inv_gpu_exec s s' : sync_inv s -> sync_step GpuExec s = Some s' -> sync_inv s'.
Proof.
  inv_destr s. destruct q as [|j q']; [discriminate|].
  destruct (ps !! j) as [p|] eqn:Hpj; [|discriminate].
  destruct (rs !! j) as [r|] eqn:Hrj; [|discriminate].
  destruct (signaled p) eqn:Hsig; [|discriminate]. intros [= <-].
  apply NoDup_cons in Hnd as [Hjq' Hnd]. apply Forall_cons in Hsl as [Hj2 Hsl].
  destruct (Hp j p Hpj) as (Pj & _ & _). destruct (Pj ltac:(set_solver)) as [b ->]. clear Pj.
  simpl in Hsig. subst b. simpl.
  assert (Hcur' : sy_phase (mkSyncState fn fs ps rs (j :: q') ph) = DWaited \/
                  sy_phase (mkSyncState fn fs ps rs (j :: q') ph) = DReset \/
                  sy_phase (mkSyncState fn fs ps rs (j :: q') ph) = DAcquired -> frame_slot fn <> j).
  { simpl. intros Hph <-. apply (Hcur Hph). set_solver. }
  simpl in Hcur'.
  split; unfold sy_slot; simpl.
  - split_and!; by rewrite length_insert.
  - done.
  - done.
  - intros k Hk. apply list_lookup_insert_Some in Hk as [(<- & _ & _)|(Hne & Hk)]; [done|].
    specialize (Hf k Hk). set_solver.
  - intros Hph. specialize (Hcur Hph). set_solver.
  - intros Hph. rewrite list_lookup_insert_ne by (apply not_eq_sym, Hcur'; tauto). by apply Hres.
  - intros k p' Hk. apply list_lookup_insert_Some in Hk as [(<- & <- & _)|(Hne & Hk)].
    + unfold p_ok; simpl. split_and!; [done| |done]. intros _ Hsl' Hph. exfalso.
      apply (Hcur' (or_intror (or_intror Hph))). done.
    + destruct (Hp k p' Hk) as (P1 & P2 & P3). unfold p_ok in *; simpl in *.
      split_and!; [intros Hkq; apply P1; set_solver|intros Hkq; apply P2; set_solver
                  |intros Hkq; apply P3; set_solver].
Qed.

Lemma inv_pe_signal k s s' : sync_inv s -> sync_step (PeSignal k) s = Some s' -> sync_inv s'.
Proof.
  inv_destr s. destruct (ps !! k) as [p|] eqn:Hpk; [|discriminate].
  destruct (signal_pending p) eqn:Hsp; [|discriminate]. intros [= <-].
  split; unfold sy_slot; simpl; [split_and!; [done|by rewrite length_insert|done]|done..|].
  intros m p' Hm. apply list_lookup_insert_Some in Hm as [(<- & <- & _)|(Hne & Hm)]; [|by apply Hp].
  destruct (Hp k p Hpk) as (P1 & P2 & P3). unfold p_ok in *; simpl in *.
  destruct (decide (k ∈ q)) as [Hq|Hq].
  - destruct (P1 Hq) as [b ->]. simpl in Hsp. destruct b; [discriminate|].
    split_and!; intros; try contradiction; by exists true.
  - destruct (decide (k = frame_slot fn /\ ph = DAcquired)) as [[Hk Hph]|Hn].
    + destruct (P2 Hq Hk Hph) as [b ->]. simpl in Hsp. destruct b; [discriminate|].
      split_and!; intros; try contradiction; [by exists true|naive_solver].
    + rewrite (P3 Hq Hn) in Hsp. discriminate.
Qed.

Lemma inv_pe_wait k s s' : sync_inv s -> sync_step (PeWait k) s = Some s' -> sync_inv s'.
Proof.
  inv_destr s. destruct (rs !! k) as [r|] eqn:Hrk; [|discriminate].
  destruct (wait_pending r && signaled r); [|discriminate]. intros [= <-].
  split; unfold sy_slot; simpl; [split_and!; [done|done|by rewrite length_insert]|done..].
Qed.

Lemma sync_step_inv ev s s' : sync_inv s -> sync_step ev s = Some s' -> sync_inv s'.
Proof.
  destruct ev; [apply inv_wait|apply inv_reset_fence|apply inv_acquire|apply inv_submit
               |apply inv_present_step|apply inv_gpu_exec|apply inv_pe_signal|apply inv_pe_wait].
Qed.

Lemma run_inv evs s s' : sync_inv s -> run evs s = Some s' -> sync_inv s'.
Proof.
  revert s. induction evs as [|ev evs IH]; intros s Hs Hrun; simpl in Hrun; [by injection Hrun as <-|].
  destruct (sync_step ev s) as [s1|] eqn:E; [|discriminate]. simpl in Hrun.
  exact (IH s1 (sync_step_inv ev s s1 Hs E) Hrun).
Qed.

(** C9. The present semaphores are used validly in every run: whenever
    [draw] calls [vkAcquireNextImageKHR], the slot's [_presentSemaphore] is
    unsignalled with no operation pending (the fence wait on the slot
    guarantees that the submission which waited on it has executed), and
    when it submits, the semaphore it waits on has a signal operation,
    pending or executed, and no other wait. *)
Theorem present_semaphores_valid evs s :
  run evs sync0 = Some s ->
  (sy_phase s = DReset -> acquire_valid s = true) /\
  (sy_phase s = DAcquired -> exists p, presentSems s !! sy_slot s = Some p /\
                                      signaled p || signal_pending p = true /\ wait_pending p = false).
Proof.
  intros Hrun. destruct (run_inv evs sync0 s sync_inv_init Hrun) as [[_ [Lp _]] _ _ _ Hcur _ Hp].
  pose proof (frame_slot_lt (sy_frameNumber s)) as Hi.
  destruct (lookup_lt_is_Some_2 (presentSems s) (sy_slot s)) as [p Hps]; [unfold sy_slot; lia|].
  destruct (Hp _ p Hps) as (_ & P2 & P3). split.
  - intros Hph. unfold acquire_valid. apply bool_decide_eq_true_2. rewrite Hps. f_equal.
    apply P3; [apply Hcur; auto|]. rewrite Hph. by intros [_ ?].
  - intros Hph. exists p. split; [done|].
    destruct (P2 (Hcur (or_intror (or_intror Hph))) eq_refl Hph) as [b ->]. by destruct b.
Qed.

(** Three frames, each presentation's wait left to the presentation
    engine: with FIFO presentation and a third swapchain image free for
    the third acquire, nothing in the code or in Vulkan orders that wait
    before the next use of the slot. *)
Definition reuse_trace : list Event :=
  [WaitFence; ResetFence; Acquire; PeSignal 0; Submit; Present; GpuExec;
   WaitFence; ResetFence; Acquire; PeSignal 1; Submit; Present; GpuExec;
   WaitFence; ResetFence; Acquire; PeSignal 0; Submit; Present].

(** ** Witnesses *)

(** The third frame of [reuse_trace] just after its fence reset. *)
Definition third_frame_reset : list Event := take 16 reuse_trace.

Definition third_frame_state : SyncState :=
  Eval vm_compute in default sync0 (run third_frame_reset sync0).

Lemma present_semaphores_valid_witness :
  (sy_phase third_frame_state = DReset -> acquire_valid third_frame_state = true) /\
  (sy_phase third_frame_state = DAcquired ->
   exists p, presentSems third_frame_state !! sy_slot third_frame_state = Some p /\
             signaled p || signal_pending p = true /\ wait_pending p = false).
Proof. apply (present_semaphores_valid third_frame_reset). vm_compute. reflexivity. Defined.

End Semaphores.
