(* ===== verification/Draw.v ===== *)
(** One call of [VulkanEngine::draw] ([vk_engine.cpp] 132-194) as an
    executable function, with its [VK_CHECK]s (19-29) on the [VkResult]s
    the driver returns, the recording of [record_cmdbuffers] into the
    frame's command buffer and its submission.

    The driver is the environment: a [Driver] gives the result of each of
    the five calls ([vkWaitForFences] may depend on the fence it waits
    on) and the image index [vkAcquireNextImageKHR] returns.  [driver_ok]
    is what the Vulkan specification promises of those answers.  The GPU
    finishing a submission is [gpu_finish]; [run_frames] interleaves calls
    of [draw] with completions in any order.

    [draw_eval], [draw_abort_path] and [run_frames_refines] show that the
    function is an implementation of the frame-loop relation
    [FrameRing.cpu_step] (each call is a path of six steps, or a path to an
    aborted state): every
    state it reaches is [FrameRing.reachable], so the theorems of
    [FrameRing.v] hold of it, and it never fails validation: its only
    error is the [abort()] of [VK_CHECK].  [draw_abort_codes] gives the
    result codes that abort. *)

From S2P Require Import Prelude GpuTypes Alignment FrameRing Registry DrawObjects CommandBuffer RenderPass.

Module Draw.
Import Alignment FrameRing Registry DrawObjects CommandBuffer RenderPass.

(** ** Result codes *)

(** [VkResult] of [vulkan_core.h]: [0] is success, the positive codes are
    successful completions with a status, the negative ones errors. *)
Definition VkResult := Z.
Definition VK_SUCCESS : VkResult := 0.
Definition VK_NOT_READY : VkResult := 1.
Definition VK_TIMEOUT : VkResult := 2.
Definition VK_SUBOPTIMAL_KHR : VkResult := 1000001003.
Definition VK_ERROR_DEVICE_LOST : VkResult := -4.
Definition VK_ERROR_OUT_OF_DATE_KHR : VkResult := -1000001004.

(** [#define VK_CHECK(x)]: [if (err)] aborts on every nonzero result. *)
Definition VK_CHECK (err : VkResult) : result unit :=
  if decide (err = VK_SUCCESS) then Ok tt else Err VkAbort.

(** ** The engine's frame data *)

(** [_frames[FRAME_OVERLAP]] and [_frameNumber] of [vk_engine.h]: the
    fences, the work in flight and the frame counter of [FrameRing.v],
    with the state of each frame's [_mainCommandBuffer]. *)
Record EngineFrames := mkEngineFrames {
  ring : FrameState;
  mainCommandBuffers : list CBState
}.

(** After [init_commands] and [init_sync_structures]: both command
    buffers allocated (initial), both fences signalled. *)
Definition frames0 : EngineFrames := mkEngineFrames init_frame_state [Initial; Initial].

(** The answers of the driver to the calls of one [draw]. *)
Record Driver := mkDriver {
  waitForFences : fence_state -> VkResult;
  resetFences : VkResult;
  acquireNextImage : VkResult * Z;   (** the result and [swapchainImageIndex] *)
  queueSubmit : VkResult;
  queuePresent : VkResult
}.

(** What the specification promises: a wait on an unsignalled fence does
    not succeed (it times out after the second or fails), and a
    successful acquisition names one of the [imageCount] images. *)
Definition driver_ok (imageCount : Z) (d : Driver) : Prop :=
  waitForFences d Unsignaled <> VK_SUCCESS /\
  ((acquireNextImage d).1 = VK_SUCCESS \/ (acquireNextImage d).1 = VK_SUBOPTIMAL_KHR ->
   0 <= (acquireNextImage d).2 < imageCount).

(** The fence of the current frame. *)
Definition current_fence (s : FrameState) : fence_state :=
  default Unsignaled (renderFences s !! cur_slot s).

(** [VulkanEngine::draw]: wait for and reset the frame's fence, acquire
    an image, [record_cmdbuffers] on the frame's command buffer, submit it
    (the command buffer becomes pending, the fence is signalled when it
    completes), present, [_frameNumber++]. *)
Definition draw (minUboAlignment : Z) (env : RecordEnv) (d : Driver) (e : EngineFrames)
  : result EngineFrames :=
  let s := ring e in
  let i := cur_slot s in
  let! _ := VK_CHECK (waitForFences d (current_fence s)) in
  let! _ := VK_CHECK (resetFences d) in
  let '(res, swapchainImageIndex) := acquireNextImage d in
  let! _ := VK_CHECK res in
  let! cmd := match mainCommandBuffers e !! i with Some c => Ok c | None => Err OutOfBounds end in
  let! '(cmd1, _, _) := record_cmdbuffers env swapchainImageIndex cmd in
  let! cmd2 := cb_submit cmd1 in
  let! _ := VK_CHECK (queueSubmit d) in
  let! _ := VK_CHECK (queuePresent d) in
  Ok (mkEngineFrames
        (mkFrameState (next_frame_number (frameNumber s)) (<[i := Unsignaled]> (renderFences s))
           (mkGpuWork i (uniform_offset minUboAlignment (Z.of_nat i)) :: pending s) Idle)
        (<[i := cmd2]> (mainCommandBuffers e))).

(** The GPU finishes the [j]-th submission in flight: its fence is
    signalled and its one-time-submit command buffer becomes invalid. *)
Definition gpu_finish (j : nat) (e : EngineFrames) : EngineFrames :=
  let s := ring e in
  match pending s !! j with
  | Some w =>
      mkEngineFrames
        (mkFrameState (frameNumber s) (<[work_slot w := Signaled]> (renderFences s))
           (delete j (pending s)) (phase s))
        (alter (cb_complete true) (work_slot w) (mainCommandBuffers e))
  | None => e
  end.

Inductive FrameEvent :=
| DrawCall (d : Driver)
| GpuDone (j : nat).

Fixpoint run_frames (minUboAlignment : Z) (env : RecordEnv) (evs : list FrameEvent)
  (e : EngineFrames) : result EngineFrames :=
  match evs with
  | [] => Ok e
  | DrawCall d :: evs' => let! e' := draw minUboAlignment env d e in run_frames minUboAlignment env evs' e'
  | GpuDone j :: evs' => run_frames minUboAlignment env evs' (gpu_finish j e)
  end.

(** What [draw] needs of the engine: one framebuffer per swapchain
    image, and renderables [draw_objects] can draw. *)
Definition env_ok (imageCount : Z) (env : RecordEnv) : Prop :=
  length (_framebuffers env) = Z.to_nat imageCount /\
  is_ok (draw_objects (draw_env env) (_renderables (env_sets (draw_env env)))) = true.

(** The results of the calls of one [draw], in order. *)
Definition call_results (d : Driver) (e : EngineFrames) : list VkResult :=
  [waitForFences d (current_fence (ring e)); resetFences d; (acquireNextImage d).1;
   queueSubmit d; queuePresent d].

(** Between two calls of [draw]: the frame state is reachable and idle,
    both command buffers are settled, and a pending one has its
    submission in flight. *)
Record frames_inv (A n : Z) (e : EngineFrames) : Prop := {
  fi_reachable : reachable A n (ring e);
  fi_idle : phase (ring e) = Idle;
  fi_len : length (mainCommandBuffers e) = 2%nat;
  fi_settled : forall i c, mainCommandBuffers e !! i = Some c -> cb_settled c;
  fi_pending : forall i, mainCommandBuffers e !! i = Some Pending ->
                 exists w, w ∈ pending (ring e) /\ work_slot w = i
}.

(** The state after a successful [draw]. *)
Definition draw_next (minUboAlignment : Z) (e : EngineFrames) : EngineFrames :=
  let s := ring e in
  let i := cur_slot s in
  mkEngineFrames
    (mkFrameState (next_frame_number (frameNumber s)) (<[i := Unsignaled]> (renderFences s))
       (mkGpuWork i (uniform_offset minUboAlignment (Z.of_nat i)) :: pending s) Idle)
    (<[i := Pending]> (mainCommandBuffers e)).

(** The states of the frame loop one [draw] passes through. *)
Definition st_waited (s : FrameState) : FrameState := set_phase Waited s.
Definition st_reset (s : FrameState) : FrameState :=
  set_phase FenceReset (set_fence (cur_slot s) Unsignaled (st_waited s)).
Definition st_acquired (img : Z) (s : FrameState) : FrameState := set_phase (Acquired img) (st_reset s).
Definition st_recorded (img : Z) (s : FrameState) : FrameState := set_phase (Recorded img) (st_acquired img s).
Definition st_submitted (A img : Z) (s : FrameState) : FrameState :=
  mkFrameState (frameNumber s) (<[cur_slot s := Unsignaled]> (renderFences s))
    (mkGpuWork (cur_slot s) (uniform_offset A (Z.of_nat (cur_slot s))) :: pending s) (Submitted img).

(** ** Lemmas *)

Lemma VK_CHECK_spec r : VK_CHECK r = if bool_decide (r = VK_SUCCESS) then Ok tt else Err VkAbort.
Proof. unfold VK_CHECK. by case_bool_decide; case_decide. Qed.

Section Refinement.
Context (A n : Z).

Lemma reach_cpu s s' : reachable A n s -> cpu_step A n s s' -> reachable A n s'.
Proof. intros Hr Hs. eapply reach_step; [done|by left]. Qed.

Lemma reach_abort s : reachable A n s -> phase s <> Idle -> phase s <> Aborted ->
  reachable A n (set_phase Aborted s).
Proof. intros Hr ? ?. apply (reach_cpu s); [done|by apply step_abort]. Qed.

#[local] Hint Resolve reach_cpu reach_abort : vk.

(** The path of a [draw] from an idle state whose fence is signalled. *)
Lemma draw_path s img :
  reachable A n s -> phase s = Idle -> renderFences s !! cur_slot s = Some Signaled ->
  reachable A n (st_waited s) /\ reachable A n (st_reset s) /\
  (0 <= img < n ->
   reachable A n (st_acquired img s) /\ reachable A n (st_recorded img s) /\
   reachable A n (st_submitted A img s) /\ reachable A n (ring (draw_next A (mkEngineFrames s []))) ).
Proof.
  intros Hr Hp Hf.
  assert (H1 : reachable A n (st_waited s)) by (apply (reach_cpu s); [done|by apply step_wait]).
  assert (H2 : reachable A n (st_reset s)) by (apply (reach_cpu _ _ H1); by apply step_reset).
  split_and!; [done|done|]. intros Himg.
  assert (H3 : reachable A n (st_acquired img s)) by (apply (reach_cpu _ _ H2); by apply step_acquire).
  assert (H4 : reachable A n (st_recorded img s)) by (apply (reach_cpu _ _ H3); by apply step_record).
  assert (H5 : reachable A n (st_submitted A img s)) by (apply (reach_cpu _ _ H4); exact (step_submit A n (st_recorded img s) img eq_refl)).
  split_and!; [done..|]. apply (reach_cpu _ _ H5). exact (step_present A n (st_submitted A img s) img eq_refl).
Qed.

Lemma current_fence_signaled s :
  current_fence s = Signaled -> renderFences s !! cur_slot s = Some Signaled.
Proof. unfold current_fence. by destruct (renderFences s !! cur_slot s) as [[]|]. Qed.

Lemma current_fence_lookup s :
  frame_inv A s -> renderFences s !! cur_slot s = Some (current_fence s).
Proof.
  intros Hinv. unfold current_fence.
  destruct (lookup_lt_is_Some_2 (renderFences s) (cur_slot s)) as [f ->]; [|done].
  rewrite (inv_fences_len _ _ Hinv). apply frame_slot_lt.
Qed.

(** A wait that succeeds was on a signalled fence, so the frame's command
    buffer is not pending. *)
Lemma wait_ok_not_pending d e :
  frames_inv A n e -> driver_ok n d -> waitForFences d (current_fence (ring e)) = VK_SUCCESS ->
  renderFences (ring e) !! cur_slot (ring e) = Some Signaled /\
  mainCommandBuffers e !! cur_slot (ring e) <> Some Pending.
Proof.
  intros [Hr Hidle Hlen Hset Hpend] [Hw _] Hok.
  assert (Hsig : current_fence (ring e) = Signaled) by (destruct (current_fence _); congruence).
  apply current_fence_signaled in Hsig. split; [done|]. intros Hc.
  destruct (Hpend _ Hc) as (w & Hin & Hslot).
  destruct (inv_pending_slot _ _ (reachable_inv A n _ Hr) w Hin) as (_ & Hu & _). congruence.
Qed.

Context (env : RecordEnv).

(** [draw] between frames: it aborts exactly when one of the calls it
    makes returns a nonzero [VkResult], and otherwise submits the frame. *)
Lemma draw_eval d e :
  frames_inv A n e -> env_ok n env -> driver_ok n d ->
  draw A env d e = if forallb (fun r => bool_decide (r = VK_SUCCESS)) (call_results d e)
                   then Ok (draw_next A e) else Err VkAbort.
Proof.
  intros Hinv [Hfbs Hdr] Hd.
  destruct (draw_objects _ _) as [out|] eqn:Hout; [|discriminate].
  unfold draw, call_results. destruct (acquireNextImage d) as [res img] eqn:Ha.
  rewrite !VK_CHECK_spec. cbn [fst forallb].
  case_bool_decide as Hw; [|done].
  destruct (wait_ok_not_pending d e Hinv Hd Hw) as [Hsig Hnp]. cbn [rbind andb].
  case_bool_decide; [|done]. cbn [rbind andb].
  case_bool_decide as Hres; [|done]. cbn [rbind andb].
  assert (Himg : 0 <= img < n) by (destruct Hd as [_ Hd]; rewrite Ha in Hd; apply Hd; by left).
  destruct (lookup_lt_is_Some_2 (mainCommandBuffers e) (cur_slot (ring e))) as [c Hc].
  { rewrite (fi_len _ _ _ Hinv). apply frame_slot_lt. }
  destruct (lookup_lt_is_Some_2 (_framebuffers env) (Z.to_nat img)) as [fb Hfb]; [lia|].
  rewrite Hc. cbn [rbind].
  rewrite (record_cmdbuffers_exec env img c out fb Hfb Hout (fi_settled _ _ _ Hinv _ _ Hc));
    [|by intros ->]. cbn [rbind cb_submit].
  case_bool_decide; [|done]. cbn [rbind andb]. by case_bool_decide.
Qed.

Lemma draw_next_inv e img :
  frames_inv A n e -> renderFences (ring e) !! cur_slot (ring e) = Some Signaled -> 0 <= img < n ->
  frames_inv A n (draw_next A e).
Proof.
  intros Hinv Hsig Himg. pose proof Hinv as [Hr Hidle Hlen Hset Hpend].
  destruct (draw_path (ring e) img Hr Hidle Hsig) as (_ & _ & Hpath).
  unfold draw_next. split; cbn [mainCommandBuffers ring pending phase];
    [exact (proj2 (proj2 (proj2 (Hpath Himg))))|done|by rewrite length_insert|..].
  - intros i c Hc. apply list_lookup_insert_Some in Hc as [(_ & <- & _)|[_ Hc]]; [done|by eapply Hset].
  - intros i Hc. apply list_lookup_insert_Some in Hc as [(<- & _ & _)|[Hne Hc]].
    + eexists. split; [apply list_elem_of_here|done].
    + destruct (Hpend i Hc) as (w & Hw & <-). exists w. split; [by apply list_elem_of_further|done].
Qed.

(** A [draw] that aborts stops in an aborted state of the frame loop. *)
Lemma draw_abort_path d e :
  frames_inv A n e -> driver_ok n d ->
  forallb (fun r => bool_decide (r = VK_SUCCESS)) (call_results d e) = false ->
  exists s', reachable A n s' /\ phase s' = Aborted.
Proof.
  intros Hinv Hd Hcall. pose proof Hinv as [Hr Hidle _ _ _].
  unfold call_results in Hcall. cbn [forallb] in Hcall.
  destruct (decide (waitForFences d (current_fence (ring e)) = VK_SUCCESS)) as [Hw|Hw].
  2:{ destruct (current_fence (ring e)) eqn:Hf.
      - exists (set_phase Aborted (st_waited (ring e))). split; [|done].
        apply reach_abort; [|by cbn..]. apply (draw_path _ 0 Hr Hidle). by apply current_fence_signaled.
      - exists (set_phase Aborted (ring e)). split; [|done]. apply (reach_cpu (ring e)); [done|].
        apply step_wait_timeout; [done|]. rewrite <- Hf. by apply current_fence_lookup, (reachable_inv A n). }
  destruct (wait_ok_not_pending d e Hinv Hd Hw) as [Hsig _].
  destruct (draw_path (ring e) (acquireNextImage d).2 Hr Hidle Hsig) as (H1 & H2 & Hrest).
  rewrite bool_decide_eq_true_2 in Hcall by done. cbn [andb] in Hcall.
  case_bool_decide as Hreset; cbn [andb] in Hcall.
  2:{ exists (set_phase Aborted (st_waited (ring e))). split; [|done]. by apply reach_abort. }
  case_bool_decide as Hacq; cbn [andb] in Hcall.
  2:{ exists (set_phase Aborted (st_reset (ring e))). split; [|done]. by apply reach_abort. }
  destruct (Hrest (proj2 Hd (or_introl Hacq))) as (_ & H4 & H5 & _).
  case_bool_decide as Hsub; cbn [andb] in Hcall.
  2:{ eexists. split; [by apply (reach_abort _ H4)|done]. }
  case_bool_decide as Hpres; cbn [andb] in Hcall; [done|].
  eexists. split; [by apply (reach_abort _ H5)|done].
Qed.

(** The GPU finishing a submission keeps the invariant. *)
Lemma gpu_finish_inv j e : frames_inv A n e -> frames_inv A n (gpu_finish j e).
Proof.
  intros Hinv. unfold gpu_finish.
  destruct (pending (ring e) !! j) as [w|] eqn:Hj; [|done].
  destruct Hinv as [Hr Hidle Hlen Hset Hpend].
  pose proof (take_drop_middle _ _ _ Hj) as Hmid.
  split; cbn [ring mainCommandBuffers phase pending]; [|done|by rewrite length_alter|..].
  - eapply reach_step; [done|]. right. rewrite delete_take_drop.
    exact (gpu_complete (ring e) w _ _ (eq_sym Hmid)).
  - intros i c Hc. destruct (decide (i = work_slot w)) as [->|Hne].
    + rewrite list_lookup_alter_eq in Hc. apply fmap_Some in Hc as (c0 & Hc0 & ->).
      destruct c0; cbn; try done. by apply (Hset _ _ Hc0).
    + rewrite list_lookup_alter_ne in Hc by (by apply not_eq_sym). by apply (Hset i).
  - intros i Hc. destruct (decide (i = work_slot w)) as [->|Hne].
    + rewrite list_lookup_alter_eq in Hc. apply fmap_Some in Hc as (c0 & _ & Hc0). by destruct c0.
    + rewrite list_lookup_alter_ne in Hc by (by apply not_eq_sym). destruct (Hpend i Hc) as (w' & Hw' & <-).
      exists w'. split; [|done]. rewrite delete_take_drop. rewrite <- Hmid in Hw'.
      apply elem_of_app in Hw' as [?|[->|?]%elem_of_cons]; [set_solver|done|set_solver].
Qed.

Lemma call_results_success d e :
  forallb (fun r => bool_decide (r = VK_SUCCESS)) (call_results d e) = true ->
  waitForFences d (current_fence (ring e)) = VK_SUCCESS /\ (acquireNextImage d).1 = VK_SUCCESS.
Proof.
  unfold call_results. cbn [forallb]. rewrite !andb_true_iff, !bool_decide_eq_true. tauto.
Qed.

Lemma frames0_inv : frames_inv A n frames0.
Proof.
  split; [apply reach_init|done|done|..].
  - intros [|[|i]] c Hc; simpl in Hc; simplify_eq; done.
  - intros [|[|i]] Hc; simpl in Hc; simplify_eq.
Qed.

(** What the driver promises of one event of a run. *)
Definition event_ok (ev : FrameEvent) : Prop :=
  match ev with DrawCall d => driver_ok n d | GpuDone _ => True end.

Lemma run_frames_sound evs e :
  frames_inv A n e -> env_ok n env -> Forall event_ok evs ->
  match run_frames A env evs e with
  | Ok e' => frames_inv A n e'
  | Err err => err = VkAbort /\ exists s, reachable A n s /\ phase s = Aborted
  end.
Proof.
  intros Hinv Henv Hevs. revert e Hinv.
  induction Hevs as [|[d|j] evs Hev _ IH]; intros e Hinv; simpl; [done| |by apply IH, gpu_finish_inv].
  rewrite (draw_eval d e Hinv Henv Hev).
  destruct (forallb _ _) eqn:Hcall; simpl.
  - destruct (call_results_success d e Hcall) as [Hw Hacq].
    apply IH. apply (draw_next_inv e (acquireNextImage d).2 Hinv).
    + by apply (wait_ok_not_pending d e Hinv Hev Hw).
    + apply (proj2 Hev). by left.
  - split; [done|]. by apply (draw_abort_path d e).
Qed.

End Refinement.

(** ** Properties *)

(** C4. [draw] implements the frame loop of [FrameRing.v] and never
    breaks the valid usage of the command buffers: from the state
    [init_commands] and [init_sync_structures] leave, any run of calls of
    [draw] (recording with [record_cmdbuffers] into the frame's command
    buffer and submitting it) interleaved with the GPU finishing
    submissions in any order, on a driver that keeps the specification's
    promises, either ends between frames in a reachable state of
    [FrameRing.cpu_step] with both command buffers settled and every
    pending one in flight, or stops with the [abort()] of [VK_CHECK] in a
    reachable aborted state: there is no validation error, no out-of-range
    framebuffer and no reset of a pending command buffer. *)
Theorem run_frames_refines A n env evs :
  env_ok n env -> Forall (event_ok n) evs ->
  match run_frames A env evs frames0 with
  | Ok e => frames_inv A n e
  | Err err => err = VkAbort /\ exists s, reachable A n s /\ phase s = Aborted
  end.
Proof. intros Henv Hevs. apply run_frames_sound; [apply frames0_inv|done..]. Qed.

(** C28. Which results abort: between frames, [draw] submits and presents
    the frame exactly when each of the five calls it makes returns
    [VK_SUCCESS], and otherwise aborts.  [VK_CHECK] tests [if (err)], so
    the positive status codes abort too: an acquisition or a presentation
    that returns [VK_SUBOPTIMAL_KHR] (the image was acquired or queued,
    the swapchain still works) ends the process, as do [VK_TIMEOUT] and
    [VK_ERROR_OUT_OF_DATE_KHR], for which the engine has no swapchain
    re-creation. *)
Theorem draw_abort_codes A n env d e :
  frames_inv A n e -> env_ok n env -> driver_ok n d ->
  draw A env d e = if forallb (fun r => bool_decide (r = VK_SUCCESS)) (call_results d e)
                   then Ok (draw_next A e) else Err VkAbort.
Proof. apply draw_eval. Qed.

(** ** Witnesses *)

(** A driver that answers every call with success (a wait on an
    unsignalled fence times out) and image 1. *)
Definition ok_driver : Driver :=
  mkDriver (fun f => match f with Signaled => VK_SUCCESS | Unsignaled => VK_TIMEOUT end)
    VK_SUCCESS (VK_SUCCESS, 1) VK_SUCCESS VK_SUCCESS.

(** The same driver with an acquisition that reports [VK_SUBOPTIMAL_KHR]. *)
Definition suboptimal_driver : Driver :=
  mkDriver (waitForFences ok_driver) VK_SUCCESS (VK_SUBOPTIMAL_KHR, 1) VK_SUCCESS VK_SUCCESS.

(** Two frames, the GPU finishing the first, a third frame. *)
Definition three_frames : list FrameEvent :=
  [DrawCall ok_driver; DrawCall ok_driver; GpuDone 1; DrawCall ok_driver].

Lemma example_record_env_ok : env_ok 3 example_record_env.
Proof. split; [reflexivity|vm_compute; reflexivity]. Qed.

Lemma driver_ok_3 d : waitForFences d Unsignaled = VK_TIMEOUT -> (acquireNextImage d).2 = 1 -> driver_ok 3 d.
Proof. intros Hw Hi. split; [by rewrite Hw|rewrite Hi; lia]. Qed.

Lemma three_frames_run : is_ok (run_frames 256 example_record_env three_frames frames0) = true.
Proof. vm_compute. reflexivity. Qed.

Lemma run_frames_refines_witness :
  match run_frames 256 example_record_env three_frames frames0 with
  | Ok e => frames_inv 256 3 e
  | Err err => err = VkAbort /\ exists s, reachable 256 3 s /\ phase s = Aborted
  end.
Proof.
  apply run_frames_refines; [apply example_record_env_ok|].
  repeat (constructor; [simpl; first [exact I | apply driver_ok_3; reflexivity] |]). constructor.
Defined.

Lemma draw_abort_codes_witness :
  draw 256 example_record_env suboptimal_driver frames0 = Err VkAbort.
Proof.
  rewrite (draw_abort_codes 256 3 example_record_env suboptimal_driver frames0);
    [vm_compute; reflexivity | apply frames0_inv | apply example_record_env_ok
    | apply driver_ok_3; reflexivity].
Defined.

End Draw.
