(* ===== verification/MainLoop.v ===== *)
(** The main loop [VulkanEngine::run] ([vk_engine.cpp] 195-233): each
    iteration drains the SDL event queue ([SDL_PollEvent]), sets [bQuit]
    on [SDL_QUIT], forwards every event to ImGui, starts the ImGui frame
    and calls [draw]; the loop condition is checked after [draw].

    The event source is a list of batches, the events [SDL_PollEvent]
    returns in one iteration; a finite list is a prefix of the user's
    input, and a loop that has used it up without seeing [SDL_QUIT] is
    still running.  [draw] is a parameter of the section: any function
    on the engine state that may abort, instantiated with the frame loop
    of [FrameRing.v] in the example. *)

From S2P Require Import Prelude FrameRing.

Module MainLoop.

(** [SDL_Event.type]: [SDL_QUIT] (0x100) or any other event. *)
Inductive SDL_EventType :=
| SDL_QUIT
| SDL_OTHER (type : Z).

Definition is_quit (e : SDL_EventType) : bool :=
  match e with SDL_QUIT => true | SDL_OTHER _ => false end.

(** The inner [while (SDL_PollEvent(&e) != 0)] over one batch: [bQuit]
    after it, and the events handed to [ImGui_ImplSDL2_ProcessEvent]. *)
Fixpoint poll_events (bQuit : bool) (batch : list SDL_EventType) : bool * list SDL_EventType :=
  match batch with
  | [] => (bQuit, [])
  | e :: rest =>
      let bQuit' := if is_quit e then true else bQuit in
      let '(q, forwarded) := poll_events bQuit' rest in (q, e :: forwarded)
  end.

(** How [run] ends: it returned after [frames] calls of [draw], [draw]
    aborted, or the input ran out while the window is still open. *)
Inductive outcome (S : Type) :=
| Returned (s : S) (frames : nat)
| Aborted (e : vk_error)
| StillRunning (s : S) (frames : nat).
Arguments Returned {S} s frames.
Arguments Aborted {S} e.
Arguments StillRunning {S} s frames.

Section Run.
Context {St : Type} (draw : St -> result St).

(** [while (!bQuit) { poll; ImGui new frame; draw(); }] over the batches,
    [frames] counting the calls of [draw]. *)
Fixpoint run_loop (batches : list (list SDL_EventType)) (frames : nat) (s : St) : outcome St :=
  match batches with
  | [] => StillRunning s frames
  | batch :: rest =>
      let '(bQuit, _) := poll_events false batch in
      match draw s with
      | Err e => Aborted e
      | Ok s' => if bQuit then Returned s' (S frames) else run_loop rest (S frames) s'
      end
  end.

Definition run (batches : list (list SDL_EventType)) (s : St) : outcome St := run_loop batches 0 s.

(** [k] calls of [draw] in a row. *)
Fixpoint draws (k : nat) (s : St) : result St :=
  match k with
  | O => Ok s
  | S k' => let! s' := draw s in draws k' s'
  end.

Lemma poll_events_quit batch q : (poll_events q batch).1 = q || existsb is_quit batch.
Proof.
  revert q. induction batch as [|e rest IH]; intros q; simpl; [by destruct q|].
  destruct (poll_events _ rest) as [q' fw] eqn:E. simpl.
  specialize (IH (if is_quit e then true else q)). rewrite E in IH. simpl in IH.
  rewrite IH. by destruct (is_quit e), q.
Qed.

Lemma run_loop_step batch rest frames s :
  run_loop (batch :: rest) frames s =
    match draw s with
    | Err e => Aborted e
    | Ok s' => if existsb is_quit batch then Returned s' (S frames) else run_loop rest (S frames) s'
    end.
Proof.
  simpl. pose proof (poll_events_quit batch false) as Hq.
  destruct (poll_events false batch) as [q fw]. simpl in Hq. by subst q.
Qed.

Lemma run_loop_first_quit before batch after frames s :
  Forall (fun b => existsb is_quit b = false) before -> existsb is_quit batch = true ->
  run_loop (before ++ batch :: after) frames s =
    match draws (S (length before)) s with
    | Ok s' => Returned s' (S (length before) + frames)
    | Err e => Aborted e
    end.
Proof.
  intros Hbefore Hq. revert frames s.
  induction Hbefore as [|b bs Hb _ IH]; intros frames s; simpl app; rewrite run_loop_step.
  - simpl. destruct (draw s); simpl; [by rewrite Hq|done].
  - rewrite Hb. simpl. destruct (draw s) as [s'|e]; simpl; [|done].
    rewrite IH. by replace (S (length bs) + S frames)%nat with (S (S (length bs) + frames)) by lia.
Qed.

Lemma run_loop_no_quit batches frames s :
  Forall (fun b => existsb is_quit b = false) batches ->
  run_loop batches frames s =
    match draws (length batches) s with
    | Ok s' => StillRunning s' (length batches + frames)
    | Err e => Aborted e
    end.
Proof.
  intros Hb. revert frames s. induction Hb as [|b bs Hb _ IH]; intros frames s; [done|].
  rewrite run_loop_step, Hb. simpl. destruct (draw s) as [s'|e]; simpl; [|done].
  rewrite IH. by replace (length bs + S frames)%nat with (S (length bs + frames)) by lia.
Qed.

End Run.

(** C18. [run] terminates exactly at the first [SDL_QUIT]: when the
    events of the iterations before carry none and those of iteration
    [length before] carry one, [run] returns after [length before + 1]
    calls of [draw] (the frame of the iteration that saw the event is
    still drawn), and the input after it is never read; if [draw] aborts
    first, so does [run].  Without any [SDL_QUIT] it never returns: after
    consuming all the input it is still running, having drawn one frame
    per batch. *)
Theorem run_returns_at_first_quit {St} (draw : St -> result St) before batch after s :
  Forall (fun b => existsb is_quit b = false) before -> existsb is_quit batch = true ->
  run draw (before ++ batch :: after) s =
    match draws draw (S (length before)) s with
    | Ok s' => Returned s' (S (length before))
    | Err e => Aborted e
    end /\
  run draw before s =
    match draws draw (length before) s with
    | Ok s' => StillRunning s' (length before)
    | Err e => Aborted e
    end.
Proof.
  intros Hbefore Hq. unfold run. rewrite run_loop_first_quit, run_loop_no_quit by done.
  by rewrite !Nat.add_0_r.
Qed.

(** One call of [VulkanEngine::draw] on the frame ring: the six CPU steps
    from the fence wait to [_frameNumber++], with the image index
    [vkAcquireNextImageKHR] returns; a fence wait that cannot succeed times
    out after one second and [VK_CHECK] aborts. *)
Definition frame_draw (minUboAlignment img : Z) (s : FrameRing.FrameState) : result FrameRing.FrameState :=
  match FrameRing.draw_steps minUboAlignment img 6 s with
  | Some s' => Ok s'
  | None => Err VkAbort
  end.

Lemma run_returns_at_first_quit_witness :
  run (frame_draw 256 0) ([[SDL_OTHER 1024]] ++ [SDL_OTHER 768; SDL_QUIT] :: [[SDL_QUIT]])
      FrameRing.init_frame_state =
    match draws (frame_draw 256 0) 2 FrameRing.init_frame_state with
    | Ok s' => Returned s' 2
    | Err e => Aborted e
    end /\
  run (frame_draw 256 0) [[SDL_OTHER 1024]] FrameRing.init_frame_state =
    match draws (frame_draw 256 0) 1 FrameRing.init_frame_state with
    | Ok s' => StillRunning s' 1
    | Err e => Aborted e
    end.
Proof. apply run_returns_at_first_quit; [repeat constructor | reflexivity]. Defined.

End MainLoop.
