(* ===== verification/ShaderModule.v ===== *)
(** Shader module loading, [VulkanEngine::load_shader_module]
    ([vk_engine.cpp] 738-775): the SPIR-V file is read whole into a
    [std::vector<uint32_t>] of [fileSize / sizeof(uint32_t)] words and
    handed to [vkCreateShaderModule].

    A file is its list of bytes ([None] when it does not open); words are
    read from the bytes little-endian (the x86 and ARM hosts the engine
    targets), with [le_combine] / [le_split] of coqutil.  Writing past the
    vector is [Err OutOfBounds]; a create info that breaks the valid usage
    of [VkShaderModuleCreateInfo] is [Err Validation]; the function's
    [false] is [Ok None] and its [true] is [Ok (Some code)], the words the
    module was created from. *)

From S2P Require Import Prelude.
From coqutil Require Import Word.LittleEndianList Byte.

Module ShaderModule.

(** [SpvMagicNumber], the first word of every SPIR-V module. *)
Definition SpvMagicNumber : Z := 119734787.

(** [file.read] of [fileSize] bytes into [buffer.data()], a buffer of [n]
    words: word [i] is made of bytes [4i .. 4i+3]. *)
Fixpoint words_of (n : nat) (bytes : list byte) : list Z :=
  match n with
  | O => []
  | S n' => le_combine (firstn 4 bytes) :: words_of n' (skipn 4 bytes)
  end.

(** The fields of [VkShaderModuleCreateInfo] [vkinit::shaderModule_create_info]
    sets. *)
Record ShaderModuleCreateInfo := mkShaderModuleCreateInfo {
  codeSize : Z;
  pCode : list Z
}.

(** [vkCreateShaderModule]: [codeSize] is positive, a multiple of 4 and
    the size of [pCode], whose first word is the SPIR-V magic number;
    [createOk] is the driver's answer. *)
Definition vkCreateShaderModule (createOk : bool) (ci : ShaderModuleCreateInfo)
  : result (option (list Z)) :=
  if (0 <? codeSize ci) && (codeSize ci mod 4 =? 0) &&
     (Z.of_nat (length (pCode ci)) * 4 =? codeSize ci) &&
     bool_decide (head (pCode ci) = Some SpvMagicNumber)
  then Ok (if createOk then Some (pCode ci) else None)
  else Err Validation.

(** [load_shader_module(filePath, &module)]. *)
Definition load_shader_module (file : option (list byte)) (createOk : bool)
  : result (option (list Z)) :=
  match file with
  | None => Ok None
  | Some bytes =>
      let fileSize := to_size_t (Z.of_nat (length bytes)) in
      let n := fileSize / 4 in
      if 4 * n <? fileSize then Err OutOfBounds else
      let buffer := words_of (Z.to_nat n) bytes in
      vkCreateShaderModule createOk
        (mkShaderModuleCreateInfo (to_size_t (Z.of_nat (length buffer) * 4)) buffer)
  end.

(** The bytes of a SPIR-V file holding the words [ws]. *)
Definition spirv_bytes (ws : list Z) : list byte := concat (map (le_split 4) ws).

(** ** Lemmas *)

Lemma length_spirv_bytes ws : length (spirv_bytes ws) = (4 * length ws)%nat.
Proof.
  induction ws as [|w ws IH]; [done|]. unfold spirv_bytes in *.
  rewrite map_cons, concat_cons, length_app, length_le_split, IH. simpl length. lia.
Qed.

Lemma words_of_spirv ws :
  Forall (fun w => 0 <= w < 2 ^ 32) ws -> words_of (length ws) (spirv_bytes ws) = ws.
Proof.
  induction 1 as [|w ws Hw _ IH]; [done|]. unfold spirv_bytes in *.
  rewrite map_cons, concat_cons. cbn [length words_of].
  assert (H4 : length (le_split 4 w) = 4%nat) by apply length_le_split.
  rewrite firstn_app, skipn_app, H4, Nat.sub_diag, firstn_O, skipn_O, app_nil_r.
  rewrite firstn_all2, skipn_all2, app_nil_l by lia. rewrite IH, le_combine_split, Z.mod_small by (simpl; lia).
  done.
Qed.

Lemma length_words_of n bytes : length (words_of n bytes) = n.
Proof. revert bytes. induction n as [|n IH]; intros bytes; simpl; [done|by rewrite IH]. Qed.

Lemma file_size_small (bytes : list byte) :
  Z.of_nat (length bytes) < 2 ^ 64 -> to_size_t (Z.of_nat (length bytes)) = Z.of_nat (length bytes).
Proof. intros. unfold to_size_t. apply wrap_small. lia. Qed.

(** C19. Loading a well-formed SPIR-V file gives back exactly its words:
    for a module of words below [2^32] whose first word is the magic
    number, stored little-endian, [load_shader_module] reads every word
    unchanged, passes a valid create info of [4 * length] bytes, and
    returns [true] with a module of that code, or [false] when the driver
    fails to create it. *)
Theorem load_shader_module_roundtrip ws :
  Forall (fun w => 0 <= w < 2 ^ 32) ws -> head ws = Some SpvMagicNumber ->
  Z.of_nat (length ws) < 2 ^ 60 ->
  load_shader_module (Some (spirv_bytes ws)) true = Ok (Some ws) /\
  load_shader_module (Some (spirv_bytes ws)) false = Ok None.
Proof.
  intros Hws Hhd Hlen.
  assert (Hpos : (0 < length ws)%nat) by (destruct ws; [discriminate|simpl; lia]).
  assert (Hsz : to_size_t (Z.of_nat (length (spirv_bytes ws))) = 4 * Z.of_nat (length ws)).
  { unfold to_size_t. rewrite length_spirv_bytes, wrap_small; lia. }
  assert (Hn : 4 * Z.of_nat (length ws) / 4 = Z.of_nat (length ws)).
  { rewrite Z.mul_comm, Z.div_mul; lia. }
  unfold load_shader_module. rewrite Hsz, Hn, Z.ltb_irrefl, Nat2Z.id, words_of_spirv by done.
  unfold vkCreateShaderModule. simpl.
  unfold to_size_t. rewrite wrap_small by lia. rewrite bool_decide_eq_true_2 by done.
  replace ((0 <? Z.of_nat (length ws) * 4) && ((Z.of_nat (length ws) * 4) mod 4 =? 0) &&
           (Z.of_nat (length ws) * 4 =? Z.of_nat (length ws) * 4)) with true; [done|].
  symmetry. rewrite Z.mod_mul by lia. rewrite !Z.eqb_refl. simpl. rewrite !andb_true_r. apply Z.ltb_lt. lia.
Qed.

(** C26. [load_shader_module] does not guard against malformed files: a
    file whose size is not a multiple of 4 makes [file.read] write up to 3
    bytes past the [std::vector<uint32_t>] (a heap overflow); an empty file
    yields a create info with [codeSize = 0], and a file that does not
    start with the SPIR-V magic number is passed to the driver as code;
    both break the valid usage of [VkShaderModuleCreateInfo] instead of
    returning [false]. *)
Theorem load_shader_module_errors bytes c :
  Z.of_nat (length bytes) < 2 ^ 64 ->
  (Z.of_nat (length bytes) mod 4 <> 0 -> load_shader_module (Some bytes) c = Err OutOfBounds) /\
  (bytes = [] -> load_shader_module (Some bytes) c = Err Validation) /\
  ((4 <= length bytes)%nat -> Z.of_nat (length bytes) mod 4 = 0 ->
   le_combine (firstn 4 bytes) <> SpvMagicNumber -> load_shader_module (Some bytes) c = Err Validation).
Proof.
  intros Hlen. unfold load_shader_module. rewrite file_size_small by done.
  pose proof (Z.mod_pos_bound (Z.of_nat (length bytes)) 4 ltac:(lia)) as Hb.
  pose proof (Z.div_mod (Z.of_nat (length bytes)) 4 ltac:(lia)) as Hd.
  split; [|split].
  - intros Hm. replace (4 * (Z.of_nat (length bytes) / 4) <? Z.of_nat (length bytes)) with true; [done|].
    symmetry. apply Z.ltb_lt. lia.
  - by intros ->.
  - intros H4 Hm Hmagic.
    replace (4 * (Z.of_nat (length bytes) / 4) <? Z.of_nat (length bytes)) with false
      by (symmetry; apply Z.ltb_ge; lia).
    destruct (Z.to_nat (Z.of_nat (length bytes) / 4)) as [|n] eqn:En.
    { exfalso. assert (Z.of_nat (length bytes) / 4 >= 1) by (apply Z.le_ge, Z.div_le_lower_bound; lia). lia. }
    unfold vkCreateShaderModule. simpl pCode. cbn [words_of head].
    rewrite bool_decide_eq_false_2 by congruence. by rewrite !andb_false_r.
Qed.

(** ** Witnesses *)

(** A minimal module: the magic number, the version word 1.0
    ([0x00010000]), a generator, the id bound and the schema. *)
Definition tiny_module : list Z := [SpvMagicNumber; 65536; 0; 1; 0].

Lemma load_shader_module_roundtrip_witness :
  load_shader_module (Some (spirv_bytes tiny_module)) true = Ok (Some tiny_module) /\
  load_shader_module (Some (spirv_bytes tiny_module)) false = Ok None.
Proof. apply load_shader_module_roundtrip; [repeat constructor; vm_compute; done | reflexivity | vm_compute; done]. Defined.

Lemma load_shader_module_errors_witness :
  let bytes := firstn 7 (spirv_bytes tiny_module) in
  (Z.of_nat (length bytes) mod 4 <> 0 -> load_shader_module (Some bytes) true = Err OutOfBounds) /\
  (bytes = [] -> load_shader_module (Some bytes) true = Err Validation) /\
  ((4 <= length bytes)%nat -> Z.of_nat (length bytes) mod 4 = 0 ->
   le_combine (firstn 4 bytes) <> SpvMagicNumber -> load_shader_module (Some bytes) true = Err Validation).
Proof. apply load_shader_module_errors. vm_compute. done. Defined.

End ShaderModule.
