(* ===== verification/Upload.v ===== *)
(** The bytes of the vertex upload of [VulkanEngine::upload_mesh]
    ([vk_engine.cpp] 1106-1140): [memcpy] of the mesh's vertices into the
    mapped staging buffer (1116-1120), the [vkCmdCopyBuffer] of
    [bufferSize] bytes into the vertex buffer recorded for
    [immediate_submit] (1129-1136), and the staging buffer destroyed
    (1139).  [Engine.v] models the same function at the level of the
    objects it creates and destroys; here the contents of the buffers are
    modelled.

    A buffer's memory is its list of bytes, a map from buffer handles to
    contents.  A [Vertex] is copied as the object representation of the
    C++ struct: its eleven [float]s as 32-bit little-endian words at the
    offsets of [GpuTypes.cxx_layout Vertex_fields], no padding.  Reading
    or writing outside an allocation with [memcpy] is [Err OutOfBounds]; a
    copy region outside either buffer breaks the valid usage of
    [vkCmdCopyBuffer] and is [Err Validation]. *)

From S2P Require Import Prelude GpuTypes ShaderModule.
From coqutil Require Import Word.LittleEndianList Byte.

Module Upload.
Import ShaderModule.

(** ** Buffer memory *)

Notation Mem := (gmap handle (list byte)).

(** [vmaCreateBuffer] of [size] bytes: fresh contents (VMA does not
    initialise them; the model starts from zeros, which no theorem
    reads). *)
Definition alloc_buffer (b : handle) (size : Z) (m : Mem) : Mem :=
  <[b := repeat Byte.x00 (Z.to_nat size)]> m.

(** [dst[off .. off+n) := src[0 .. n)] *)
Definition splice (dst : list byte) (off n : nat) (src : list byte) : list byte :=
  take off dst ++ take n src ++ drop (off + n) dst.

(** [memcpy(data + off, src, n)] on the mapped memory of buffer [b]. *)
Definition memcpy (m : Mem) (b : handle) (off : Z) (src : list byte) (n : Z) : result Mem :=
  match m !! b with
  | None => Err NullDeref
  | Some bytes =>
      if (0 <=? off) && (0 <=? n) && (off + n <=? Z.of_nat (length bytes)) &&
         (n <=? Z.of_nat (length src))
      then Ok (<[b := splice bytes (Z.to_nat off) (Z.to_nat n) src]> m)
      else Err OutOfBounds
  end.

(** [VkBufferCopy]. *)
Record BufferCopy := mkBufferCopy {
  srcOffset : Z;
  dstOffset : Z;
  size : Z
}.

(** [vkCmdCopyBuffer(cmd, src, dst, 1, &region)] as executed by the GPU:
    the region lies inside both buffers, its size is positive. *)
Definition vkCmdCopyBuffer (m : Mem) (src dst : handle) (r : BufferCopy) : result Mem :=
  match m !! src, m !! dst with
  | Some sb, Some db =>
      if (0 <? size r) && (0 <=? srcOffset r) && (0 <=? dstOffset r) &&
         (srcOffset r + size r <=? Z.of_nat (length sb)) &&
         (dstOffset r + size r <=? Z.of_nat (length db))
      then Ok (<[dst := splice db (Z.to_nat (dstOffset r)) (Z.to_nat (size r))
                              (drop (Z.to_nat (srcOffset r)) sb)]> m)
      else Err Validation
  | _, _ => Err Validation
  end.

(** ** The vertex encoding *)

(** Little-endian 32-bit words. *)
Definition le_words (ws : list Z) : list byte := concat (map (le_split 4) ws).

(** The eleven [float]s of a [Vertex] in member order. *)
Definition vertex_words (v : Vertex) : list Z :=
  let '(px, py, pz) := position v in
  let '(nx, ny, nz) := normal v in
  let '(cx, cy, cz) := color v in
  let '(tu, tv) := uv v in
  [px; py; pz; nx; ny; nz; cx; cy; cz; tu; tv].

(** The object representation of [mesh._vertices.data()]. *)
Definition vertices_bytes (vs : list Vertex) : list byte :=
  concat (map (fun v => le_words (vertex_words v)) vs).

(** The vertex input of the pipeline reads a [Vertex] back from the
    vertex buffer: eleven words from its first [sizeof_Vertex] bytes. *)
Definition vertex_of_words (ws : list Z) : Vertex :=
  match ws with
  | [px; py; pz; nx; ny; nz; cx; cy; cz; tu; tv] =>
      mkVertex (px, py, pz) (nx, ny, nz) (cx, cy, cz) (tu, tv)
  | _ => mkVertex (0, 0, 0) (0, 0, 0) (0, 0, 0) (0, 0)
  end.

Fixpoint read_vertices (n : nat) (bytes : list byte) : list Vertex :=
  match n with
  | O => []
  | S n' => vertex_of_words (words_of 11 (take (Z.to_nat sizeof_Vertex) bytes))
              :: read_vertices n' (drop (Z.to_nat sizeof_Vertex) bytes)
  end.

(** ** [upload_mesh] *)

(** The data path of [upload_mesh] on the staging buffer and the vertex
    buffer [create_buffer] returned: both of [bufferSize] bytes, the
    vertices copied into the staging buffer, the copy submitted and
    executed, the staging buffer destroyed. *)
Definition upload_mesh_data (vertices : list Vertex) (staging vertexBuffer : handle) (m : Mem)
  : result Mem :=
  let bufferSize := to_size_t (Z.of_nat (length vertices) * sizeof_Vertex) in
  let m := alloc_buffer staging bufferSize m in
  let! m := memcpy m staging 0 (vertices_bytes vertices) bufferSize in
  let m := alloc_buffer vertexBuffer bufferSize m in
  let! m := vkCmdCopyBuffer m staging vertexBuffer (mkBufferCopy 0 0 bufferSize) in
  Ok (delete staging m).

(** A vertex whose [float]s are 32-bit patterns. *)
Definition vertex_ok (v : Vertex) : Prop := Forall (fun w => 0 <= w < 2 ^ 32) (vertex_words v).

(** ** Lemmas *)

Lemma sizeof_Vertex_44 : sizeof_Vertex = 44.
Proof. reflexivity. Qed.

Lemma length_le_words ws : length (le_words ws) = (4 * length ws)%nat.
Proof. apply length_spirv_bytes. Qed.

Lemma words_of_le_words ws :
  Forall (fun w => 0 <= w < 2 ^ 32) ws -> words_of (length ws) (le_words ws) = ws.
Proof. apply words_of_spirv. Qed.

Lemma length_vertex_words v : length (vertex_words v) = 11%nat.
Proof. destruct v as [[[] ?] [[] ?] [[] ?] []]. reflexivity. Qed.

Lemma vertex_of_words_inv v : vertex_of_words (vertex_words v) = v.
Proof. destruct v as [[[] ?] [[] ?] [[] ?] []]. reflexivity. Qed.

Lemma length_vertices_bytes vs : length (vertices_bytes vs) = (44 * length vs)%nat.
Proof.
  induction vs as [|v vs IH]; [done|]. unfold vertices_bytes in *. cbn [map concat].
  rewrite length_app, IH, length_le_words, length_vertex_words. simpl length. lia.
Qed.

(** Reading the vertices back from their object representation. *)
Lemma read_vertices_bytes vs rest :
  Forall vertex_ok vs -> read_vertices (length vs) (vertices_bytes vs ++ rest) = vs.
Proof.
  induction 1 as [|v vs Hv _ IH]; [done|]. unfold vertices_bytes in *. cbn [map concat length read_vertices].
  rewrite sizeof_Vertex_44, <- app_assoc.
  assert (Hl : length (le_words (vertex_words v)) = Z.to_nat 44)
    by (rewrite length_le_words, length_vertex_words; reflexivity).
  rewrite take_app_length' by done. rewrite drop_app_length' by done.
  rewrite <- (length_vertex_words v) at 1. rewrite words_of_le_words, vertex_of_words_inv by done.
  f_equal. exact IH.
Qed.

(** Overwriting a whole buffer with a source of the same size. *)
Lemma splice_all (dst src : list byte) n :
  length dst = n -> length src = n -> splice dst 0 n src = src.
Proof.
  intros Hd Hs. unfold splice. rewrite take_0, take_ge, drop_ge by lia. by rewrite app_nil_r.
Qed.

Lemma length_repeat_x00 n : length (repeat Byte.x00 n) = n.
Proof. apply repeat_length. Qed.

(** C20. [upload_mesh] copies the mesh exactly: for a non-empty mesh whose
    size in bytes fits [size_t], the [memcpy] into the staging buffer and
    the [vkCmdCopyBuffer] of [bufferSize = size() * sizeof(Vertex)] bytes
    succeed, the staging buffer is gone afterwards, the vertex buffer
    read with the layout of [struct Vertex] gives back the mesh's
    vertices, and no other buffer changes. *)
Theorem upload_mesh_roundtrip vs staging vertexBuffer m :
  staging <> vertexBuffer -> vs <> [] -> Forall vertex_ok vs ->
  Z.of_nat (length vs) * 44 < 2 ^ 64 ->
  exists m', upload_mesh_data vs staging vertexBuffer m = Ok m' /\
    m' !! staging = None /\
    read_vertices (length vs) <$> m' !! vertexBuffer = Some vs /\
    (forall b, b <> staging -> b <> vertexBuffer -> m' !! b = m !! b).
Proof.
  intros Hne Hvs Hok Hsz.
  set (N := (44 * length vs)%nat).
  assert (HN : to_size_t (Z.of_nat (length vs) * sizeof_Vertex) = Z.of_nat N).
  { rewrite sizeof_Vertex_44. unfold to_size_t. rewrite wrap_small; subst N; lia. }
  assert (Hpos : (0 < N)%nat) by (destruct vs; [done|subst N; simpl; lia]).
  pose proof (length_vertices_bytes vs) as Hlen. fold N in Hlen.
  unfold upload_mesh_data. rewrite HN.
  unfold memcpy, alloc_buffer. cbv zeta. rewrite lookup_insert_eq, length_repeat_x00, Hlen, Nat2Z.id.
  replace ((0 <=? 0) && (0 <=? Z.of_nat N) && (0 + Z.of_nat N <=? Z.of_nat N) && (Z.of_nat N <=? Z.of_nat N))
    with true by (symmetry; rewrite !andb_true_iff, !Z.leb_le; lia).
  cbn [rbind]. rewrite splice_all by (by rewrite ?length_repeat_x00).
  unfold vkCmdCopyBuffer. cbn [srcOffset dstOffset size].
  rewrite lookup_insert_ne, insert_insert_eq, lookup_insert_eq, lookup_insert_eq by done.
  rewrite length_repeat_x00, Hlen.
  replace ((0 <? Z.of_nat N) && (0 <=? 0) && (0 <=? 0) && (0 + Z.of_nat N <=? Z.of_nat N) &&
           (0 + Z.of_nat N <=? Z.of_nat N)) with true by (symmetry; rewrite !andb_true_iff, Z.ltb_lt, !Z.leb_le; lia).
  cbn [rbind]. eexists. split; [reflexivity|]. split_and!.
  - by rewrite lookup_delete_eq.
  - rewrite lookup_delete_ne, lookup_insert_eq by done. cbn [fmap option_fmap option_map].
    change (Z.to_nat 0) with 0%nat. rewrite drop_0, Nat2Z.id, splice_all; [|by rewrite length_repeat_x00|done].
    f_equal.
    rewrite <- (app_nil_r (vertices_bytes vs)). by apply read_vertices_bytes.
  - intros b Hb1 Hb2. by rewrite lookup_delete_ne, !lookup_insert_ne by done.
Qed.

(** ** Witnesses *)

(** One vertex: position [(1, 0, 0)], normal [(0, 0, 1)], colour
    [(0, 1, 0)], uv [(0, 1)]; [0x3f800000] is [1.0f]. *)
Definition one_vertex : list Vertex :=
  [mkVertex (1065353216, 0, 0) (0, 0, 1065353216) (0, 1065353216, 0) (0, 1065353216)].

Lemma upload_mesh_roundtrip_witness :
  exists m', upload_mesh_data one_vertex 1 2 ∅ = Ok m' /\ m' !! 1 = None /\
    read_vertices (length one_vertex) <$> m' !! 2 = Some one_vertex /\
    (forall b, b <> 1 -> b <> 2 -> m' !! b = (∅ : Mem) !! b).
Proof.
  apply upload_mesh_roundtrip; [lia | discriminate | repeat constructor; lia | vm_compute; reflexivity].
Defined.

End Upload.
