(* ===== verification/Engine.v ===== *)
(** The life cycle of the GPU objects of [VulkanEngine]
    ([vk_engine.cpp]): [init] and its [init_*] steps, the uploads of
    [load_mipmap_texture] and [load_meshes], [init_scene], and [cleanup].
    The state is the part of [VulkanEngine] these functions write, plus
    the set [live] of the Vulkan objects in existence.  Creating an object
    requires the objects it is created from to be live; destroying one
    requires that no live object still depends on it (the rule of
    [DeletionQueue.destroy]).  Every [VK_CHECK]ed call and every call whose
    result the code ignores is modelled as succeeding, except where the
    platform decides (asset files, allocation sizes, the upload fence
    wait). *)

From S2P Require Import Prelude GpuTypes Alignment DeletionQueue Registry Texture.

Module Engine.
Import Alignment DeletionQueue Registry Texture.

(** The Vulkan, VMA and window-system objects the engine creates. *)
Inductive GpuObj :=
| Instance | DebugMessenger | Surface | Device | Allocator
| Swapchain | SwapchainImageView (i : nat) | DepthImage | DepthImageView
| UploadCommandPool | FrameCommandPool (i : nat) | RenderPass | Framebuffer (i : nat)
| UploadFence | RenderFence (i : nat) | PresentSemaphore (i : nat) | RenderSemaphore (i : nat)
| GlobalSetLayout | ObjectSetLayout | SingleTextureSetLayout | DescriptorPool
| Buffer (id : nat)
| TriangleVertexShader | TexturedMeshShader | MeshPipelineLayout | TexturePipelineLayout
| TexPipeline | TextureImage | TextureImageView | Sampler | ImguiPool.

#[global] Instance GpuObj_eq_dec : EqDecision GpuObj.
Proof. solve_decision. Defined.

(** A code for each object: its constructor number and index. *)
Definition obj_code (o : GpuObj) : nat * nat :=
  match o with
  | Instance => (0, 0) | DebugMessenger => (1, 0) | Surface => (2, 0) | Device => (3, 0)
  | Allocator => (4, 0) | Swapchain => (5, 0) | SwapchainImageView i => (6, i)
  | DepthImage => (7, 0) | DepthImageView => (8, 0) | UploadCommandPool => (9, 0)
  | FrameCommandPool i => (10, i) | RenderPass => (11, 0) | Framebuffer i => (12, i)
  | UploadFence => (13, 0) | RenderFence i => (14, i) | PresentSemaphore i => (15, i)
  | RenderSemaphore i => (16, i) | GlobalSetLayout => (17, 0) | ObjectSetLayout => (18, 0)
  | SingleTextureSetLayout => (19, 0) | DescriptorPool => (20, 0) | Buffer i => (21, i)
  | TriangleVertexShader => (22, 0) | TexturedMeshShader => (23, 0)
  | MeshPipelineLayout => (24, 0) | TexturePipelineLayout => (25, 0) | TexPipeline => (26, 0)
  | TextureImage => (27, 0) | TextureImageView => (28, 0) | Sampler => (29, 0)
  | ImguiPool => (30, 0)
  end%nat.

Definition obj_decode (c : nat * nat) : option GpuObj :=
  let '(t, i) := c in
  match t with
  | 0 => Some Instance | 1 => Some DebugMessenger | 2 => Some Surface | 3 => Some Device
  | 4 => Some Allocator | 5 => Some Swapchain | 6 => Some (SwapchainImageView i)
  | 7 => Some DepthImage | 8 => Some DepthImageView | 9 => Some UploadCommandPool
  | 10 => Some (FrameCommandPool i) | 11 => Some RenderPass | 12 => Some (Framebuffer i)
  | 13 => Some UploadFence | 14 => Some (RenderFence i) | 15 => Some (PresentSemaphore i)
  | 16 => Some (RenderSemaphore i) | 17 => Some GlobalSetLayout | 18 => Some ObjectSetLayout
  | 19 => Some SingleTextureSetLayout | 20 => Some DescriptorPool | 21 => Some (Buffer i)
  | 22 => Some TriangleVertexShader | 23 => Some TexturedMeshShader
  | 24 => Some MeshPipelineLayout | 25 => Some TexturePipelineLayout | 26 => Some TexPipeline
  | 27 => Some TextureImage | 28 => Some TextureImageView | 29 => Some Sampler
  | 30 => Some ImguiPool
  | _ => None
  end%nat.

#[global] Program Instance GpuObj_countable : Countable GpuObj :=
  inj_countable' obj_code (fun c => default Instance (obj_decode c)) _.
Next Obligation. by intros []. Qed.

(** Non-dispatchable handles: never [VK_NULL_HANDLE]. *)
Definition obj_handle (o : GpuObj) : handle := Zpos (encode o).

(** The objects an object is created from and which must outlive it:
    everything made from the device before the device, the instance's
    children before the instance, the swapchain before the surface
    (VUID-vkDestroySurfaceKHR-surface-01266), every VMA allocation before
    the allocator, an image view before its image, a framebuffer before
    its attachments and render pass. *)
Definition parents (o : GpuObj) : list GpuObj :=
  match o with
  | Instance => []
  | DebugMessenger | Surface | Device => [Instance]
  | Allocator => [Device]
  | Swapchain => [Device; Surface]
  | SwapchainImageView _ => [Device; Swapchain]
  | DepthImage | TextureImage | Buffer _ => [Device; Allocator]
  | DepthImageView => [Device; DepthImage]
  | TextureImageView => [Device; TextureImage]
  | Framebuffer i => [Device; RenderPass; SwapchainImageView i; DepthImageView]
  | _ => [Device]
  end.

(** What a creation call reads besides the parents: the set layouts of a
    pipeline layout, the shader modules, layout and render pass of the
    pipeline. *)
Definition requires (o : GpuObj) : list GpuObj :=
  parents o ++
  match o with
  | MeshPipelineLayout => [GlobalSetLayout; ObjectSetLayout]
  | TexturePipelineLayout => [GlobalSetLayout; ObjectSetLayout; SingleTextureSetLayout]
  | TexPipeline => [TriangleVertexShader; TexturedMeshShader; TexturePipelineLayout; RenderPass]
  | _ => []
  end.

(** [depends d r]: [d] must be destroyed before [r]. *)
Definition depends (d r : GpuObj) : bool := bool_decide (r ∈ parents d).

(** A deletor registered with [_mainDeletionQueue.push_function]: the
    objects its lambda destroys, in order. *)
Definition Deletor := list GpuObj.

(** The collaborators' answers: the number of swapchain images vk-bootstrap
    creates, whether each SPIR-V file loads, the result of [stbi_load]
    (width and height), the optimal-tiling features of
    [VK_FORMAT_R8G8B8A8_SRGB], the vertices [load_from_obj] reads, the
    largest buffer [vmaCreateBuffer] can allocate, whether the upload
    fence wait returns before its timeout, and
    [minUniformBufferOffsetAlignment]. *)
Record Platform := mkPlatform {
  swapchainImages : nat;
  vertShaderLoads : bool;
  fragShaderLoads : bool;
  textureFile : option (Z * Z);
  formatFeatures : Z;
  meshVertices : list Vertex;
  maxAllocation : Z;
  uploadWaitOk : bool;
  minUboAlignment : Z
}.

(** The fields of [VulkanEngine] written by [init] and [cleanup], and the
    set of live objects. *)
Record Engine := mkEngine {
  _isInitialized : bool;
  live : gset GpuObj;
  _mainDeletionQueue : DeletionQueue Deletor;
  next_id : nat;
  _swapchainImageCount : nat;
  _sceneParameterBuffer : AllocatedBuffer;
  _frameBuffers : list (AllocatedBuffer * AllocatedBuffer);
  _objectsSet : RenderObjectsSets;
  _loadedTextures : gmap string Texture;
  mipLevels : Z
}.

Definition null_buffer : AllocatedBuffer := mkAllocatedBuffer 0 0.

(** A default-constructed [VulkanEngine]. *)
Definition engine0 : Engine :=
  mkEngine false ∅ empty_queue 0 0 null_buffer [] empty_sets ∅ 0.

Definition set_live (l : gset GpuObj) (e : Engine) : Engine :=
  mkEngine (_isInitialized e) l (_mainDeletionQueue e) (next_id e) (_swapchainImageCount e)
    (_sceneParameterBuffer e) (_frameBuffers e) (_objectsSet e) (_loadedTextures e) (mipLevels e).

(** [_mainDeletionQueue.push_function([=]() { ... })] *)
Definition register (d : Deletor) (e : Engine) : Engine :=
  mkEngine (_isInitialized e) (live e) (push_function d (_mainDeletionQueue e)) (next_id e)
    (_swapchainImageCount e) (_sceneParameterBuffer e) (_frameBuffers e) (_objectsSet e)
    (_loadedTextures e) (mipLevels e).

Definition set_next (v : nat) (e : Engine) : Engine :=
  mkEngine (_isInitialized e) (live e) (_mainDeletionQueue e) v (_swapchainImageCount e) (_sceneParameterBuffer e) (_frameBuffers e) (_objectsSet e) (_loadedTextures e) (mipLevels e).

Definition set_imageCount (v : nat) (e : Engine) : Engine :=
  mkEngine (_isInitialized e) (live e) (_mainDeletionQueue e) (next_id e) v (_sceneParameterBuffer e) (_frameBuffers e) (_objectsSet e) (_loadedTextures e) (mipLevels e).

Definition set_sceneBuffer (v : AllocatedBuffer) (e : Engine) : Engine :=
  mkEngine (_isInitialized e) (live e) (_mainDeletionQueue e) (next_id e) (_swapchainImageCount e) v (_frameBuffers e) (_objectsSet e) (_loadedTextures e) (mipLevels e).

Definition set_frameBuffers (v : list (AllocatedBuffer * AllocatedBuffer)) (e : Engine) : Engine :=
  mkEngine (_isInitialized e) (live e) (_mainDeletionQueue e) (next_id e) (_swapchainImageCount e) (_sceneParameterBuffer e) v (_objectsSet e) (_loadedTextures e) (mipLevels e).

Definition set_objectsSet (v : RenderObjectsSets) (e : Engine) : Engine :=
  mkEngine (_isInitialized e) (live e) (_mainDeletionQueue e) (next_id e) (_swapchainImageCount e) (_sceneParameterBuffer e) (_frameBuffers e) v (_loadedTextures e) (mipLevels e).

Definition set_textures (v : gmap string Texture) (e : Engine) : Engine :=
  mkEngine (_isInitialized e) (live e) (_mainDeletionQueue e) (next_id e) (_swapchainImageCount e) (_sceneParameterBuffer e) (_frameBuffers e) (_objectsSet e) v (mipLevels e).

Definition set_mipLevels (v : Z) (e : Engine) : Engine :=
  mkEngine (_isInitialized e) (live e) (_mainDeletionQueue e) (next_id e) (_swapchainImageCount e) (_sceneParameterBuffer e) (_frameBuffers e) (_objectsSet e) (_loadedTextures e) v.

Definition set_initialized (v : bool) (e : Engine) : Engine :=
  mkEngine v (live e) (_mainDeletionQueue e) (next_id e) (_swapchainImageCount e) (_sceneParameterBuffer e) (_frameBuffers e) (_objectsSet e) (_loadedTextures e) (mipLevels e).

Definition set_queue (v : DeletionQueue Deletor) (e : Engine) : Engine :=
  mkEngine (_isInitialized e) (live e) v (next_id e) (_swapchainImageCount e) (_sceneParameterBuffer e) (_frameBuffers e) (_objectsSet e) (_loadedTextures e) (mipLevels e).

(** [vkCreate*] / [vmaCreate*] of [o]: every object it is made from must be
    live, and the new handle is fresh. *)
Definition create (o : GpuObj) (e : Engine) : result Engine :=
  if decide (o ∉ live e /\ Forall (fun p => p ∈ live e) (requires o))
  then Ok (set_live ({[o]} ∪ live e) e) else Err Validation.

(** [vkDestroy*] / [vmaDestroy*] of [o] outside the deletion queue. *)
Definition destroy_now (o : GpuObj) (e : Engine) : result Engine :=
  let! l := destroy depends o (live e) in Ok (set_live l e).

(** A [for] loop over [0 .. n-1] whose body may fail. *)
Fixpoint for_each {A} (l : list A) (body : A -> Engine -> result Engine) (e : Engine)
  : result Engine :=
  match l with
  | [] => Ok e
  | x :: l' => let! e' := body x e in for_each l' body e'
  end.

(** Create an object and register its destructor right away. *)
Definition create_registered (o : GpuObj) (e : Engine) : result Engine :=
  let! e' := create o e in Ok (register [o] e').

Definition frames : list nat := seq 0 (Z.to_nat FRAME_OVERLAP).

(** [init_vulkan] (235-295): the instance and its debug messenger
    (vk-bootstrap), the SDL surface, the logical device, and the VMA
    allocator, whose destructor is the first one registered. *)
Definition init_vulkan (e : Engine) : result Engine :=
  let! e := create Instance e in
  let! e := create DebugMessenger e in
  let! e := create Surface e in
  let! e := create Device e in
  create_registered Allocator e.

(** [init_swapchain] (363-438): the swapchain with one image view per
    image (vk-bootstrap), then the depth image and its view. *)
Definition init_swapchain (p : Platform) (e : Engine) : result Engine :=
  let! e := create Swapchain e in
  let! e := for_each (seq 0 (swapchainImages p)) (fun i => create (SwapchainImageView i)) e in
  let e := set_imageCount (swapchainImages p) (register [Swapchain] e) in
  let! e := create_registered DepthImage e in
  create_registered DepthImageView e.

(** [init_commands] (440-470): the upload pool (its command buffer is
    freed with it) and one pool per frame. *)
Definition init_commands (e : Engine) : result Engine :=
  let! e := create_registered UploadCommandPool e in
  for_each frames (fun i => create_registered (FrameCommandPool i)) e.

(** [init_default_renderpass] (472-590). *)
Definition init_default_renderpass (e : Engine) : result Engine :=
  create_registered RenderPass e.

(** [init_framebuffers] (592-628): one framebuffer per swapchain image; its
    deletor destroys the framebuffer and then the swapchain image view. *)
Definition init_framebuffers (e : Engine) : result Engine :=
  for_each (seq 0 (_swapchainImageCount e))
    (fun i e => let! e := create (Framebuffer i) e in
                Ok (register [Framebuffer i; SwapchainImageView i] e)) e.

(** [init_sync_structures] (630-664). *)
Definition init_sync_structures (e : Engine) : result Engine :=
  let! e := create_registered UploadFence e in
  for_each frames (fun i e =>
    let! e := create_registered (RenderFence i) e in
    let! e := create_registered (PresentSemaphore i) e in
    create_registered (RenderSemaphore i) e) e.

(** Buffer handles are their allocation number plus one. *)
Definition buffer_of (b : AllocatedBuffer) : GpuObj := Buffer (Z.to_nat (_buffer b - 1)).

(** [create_buffer] (1316-1347): [vmaCreateBuffer] under [VK_CHECK] (VMA
    refuses a size of zero and the device cannot hold more than
    [maxAllocation] bytes), and the destructor registered unless the
    buffer is destroyed by the caller. *)
Definition create_buffer (p : Platform) (immediate_destroy : bool) (allocSize : Z)
    (e : Engine) : result (Engine * AllocatedBuffer) :=
  if (0 <? allocSize) && (allocSize <=? maxAllocation p) then
    let id := next_id e in
    let! e := create (Buffer id) (set_next (S id) e) in
    let newBuffer := mkAllocatedBuffer (Z.of_nat id + 1) (Z.of_nat id + 1) in
    Ok (if immediate_destroy then e else register [Buffer id] e, newBuffer)
  else Err VkAbort.

(** [init_descriptors] (777-963): the three set layouts, the pool (its
    creation is not checked), the scene buffer and the two buffers of each
    frame; the descriptor sets live in the pool and need no destructor. *)
Definition init_descriptors (p : Platform) (e : Engine) : result Engine :=
  let! e := create_registered GlobalSetLayout e in
  let! e := create_registered ObjectSetLayout e in
  let! e := create_registered SingleTextureSetLayout e in
  let! e := create_registered DescriptorPool e in
  let! r := create_buffer p false (sceneParamBufferSize (minUboAlignment p)) e in
  let e := set_sceneBuffer r.2 r.1 in
  for_each frames (fun _ e =>
    let! r1 := create_buffer p false (sizeof_GPUObjectData * MAX_OBJECTS_NUM) e in
    let! r2 := create_buffer p false sizeof_GPUCameraData r1.1 in
    Ok (set_frameBuffers (_frameBuffers r2.1 ++ [(r1.2, r2.2)]) r2.1)) e.

(** [load_shader_module] (738-775) as seen by [init_pipelines]: a file
    that does not load leaves the handle uninitialised. *)
Definition load_shader_module (loads : bool) (o : GpuObj) (e : Engine) : result Engine :=
  if loads then create o e else Ok e.

(** [init_pipelines] (965-1092): the shader modules, the two pipeline
    layouts, the textured pipeline and its material; the modules are
    destroyed at the end. *)
Definition init_pipelines (p : Platform) (e : Engine) : result Engine :=
  let! e := load_shader_module (vertShaderLoads p) TriangleVertexShader e in
  let! e := load_shader_module (fragShaderLoads p) TexturedMeshShader e in
  let! e := create_registered MeshPipelineLayout e in
  let! e := create_registered TexturePipelineLayout e in
  let! e := create_registered TexPipeline e in
  let e := set_objectsSet (create_material (obj_handle TexPipeline)
             (obj_handle TexturePipelineLayout) "texturedmesh" (_objectsSet e)).1 e in
  let! e := destroy_now TriangleVertexShader e in
  destroy_now TexturedMeshShader e.

(** [immediate_submit] (1360-1378): record, submit with the upload fence,
    wait (the result is ignored), reset the fence and the pool.  After a
    timed-out wait the fence is still in use by the queue and resetting
    it breaks VUID-vkResetFences-pFences-01123. *)
Definition immediate_submit (p : Platform) (uses : list GpuObj) (e : Engine) : result Engine :=
  if decide (Forall (fun o => o ∈ live e) (UploadFence :: UploadCommandPool :: uses)) then
    if uploadWaitOk p then Ok e else Err Validation
  else Err Validation.

(** The mip-mapped [vkutil::load_image_from_file] ([vk_texture.cpp]
    320-396): [false] when [stbi_load] fails; otherwise the staging buffer,
    the image (its destructor registered), the two single-time command
    buffers of [load_image_cmds] replayed on the new image, and the staging
    buffer destroyed. *)
Definition load_image_from_file (p : Platform) (e : Engine) : result (Engine * bool) :=
  match textureFile p with
  | None => Ok (e, false)
  | Some (texWidth, texHeight) =>
      let miplevels := to_uint32 (mip_count texWidth texHeight) in
      let e := set_mipLevels miplevels e in
      let! r := create_buffer p true (image_size texWidth texHeight) e in
      let '(e, stagingBuffer) := r in
      let! e := create_registered TextureImage e in
      if decide (UploadCommandPool ∈ live e) then
        let! bufs := load_image_cmds (formatFeatures p) texWidth texHeight in
        let! _ := exec_tcmds (concat bufs)
                    (fresh_image (to_uint32 texWidth) (to_uint32 texHeight) (Z.to_nat miplevels)) in
        let! e := destroy_now (buffer_of stagingBuffer) e in
        Ok (e, true)
      else Err Validation
  end.

(** [load_mipmap_texture] (1400-1418): on success the image view and the
    texture entry ["empire_diffuse"]; on failure an early return. *)
Definition load_mipmap_texture (p : Platform) (e : Engine) : result Engine :=
  let! r := load_image_from_file p e in
  let '(e, ok) := r in
  if ok then
    let! e := create_registered TextureImageView e in
    let lostEmpire := mkTexture (mkAllocatedImage (obj_handle TextureImage) (obj_handle TextureImage))
                                (obj_handle TextureImageView) in
    Ok (set_textures (<["empire_diffuse" := lostEmpire]> (_loadedTextures e)) e)
  else Ok e.

(** The single-level [vkutil::load_image_from_file] ([vk_texture.cpp]
    218-318): [false] when [stbi_load] fails; otherwise the staging buffer,
    the one-level image (its destructor registered), one
    [immediate_submit] recording [load_image_cmds_single] on the new
    image, and the staging buffer destroyed. *)
Definition load_image_from_file_single (p : Platform) (e : Engine) : result (Engine * bool) :=
  match textureFile p with
  | None => Ok (e, false)
  | Some (texWidth, texHeight) =>
      let! r := create_buffer p true (image_size texWidth texHeight) e in
      let '(e, stagingBuffer) := r in
      let! e := create_registered TextureImage e in
      let! _ := exec_tcmds (load_image_cmds_single texWidth texHeight)
                  (fresh_image (to_uint32 texWidth) (to_uint32 texHeight) 1) in
      let! e := immediate_submit p [TextureImage; buffer_of stagingBuffer] e in
      let! e := destroy_now (buffer_of stagingBuffer) e in
      Ok (e, true)
  end.

(** [load_texture] (1380-1398), the single-level variant of
    [load_mipmap_texture]; [init] does not call it. *)
Definition load_texture (p : Platform) (e : Engine) : result Engine :=
  let! r := load_image_from_file_single p e in
  let '(e, ok) := r in
  if ok then
    let! e := create_registered TextureImageView e in
    let lostEmpire := mkTexture (mkAllocatedImage (obj_handle TextureImage) (obj_handle TextureImage))
                                (obj_handle TextureImageView) in
    Ok (set_textures (<["empire_diffuse" := lostEmpire]> (_loadedTextures e)) e)
  else Ok e.

(** [upload_mesh] (1106-1140): staging buffer, vertex buffer (its
    destructor registered), the copy through [immediate_submit], and the
    staging buffer destroyed. *)
Definition upload_mesh (p : Platform) (vertices : list Vertex) (e : Engine)
  : result (Engine * Mesh) :=
  let bufferSize := to_size_t (Z.of_nat (length vertices) * sizeof_Vertex) in
  let! r1 := create_buffer p true bufferSize e in
  let! r2 := create_buffer p false bufferSize r1.1 in
  let! e := immediate_submit p [buffer_of r1.2; buffer_of r2.2] r2.1 in
  let! e := destroy_now (buffer_of r1.2) e in
  Ok (e, mkMesh vertices r2.2).

(** [load_meshes] (1094-1104): the result of [load_from_obj] is not
    checked. *)
Definition load_meshes (p : Platform) (e : Engine) : result Engine :=
  let! r := upload_mesh p (meshVertices p) e in
  Ok (set_objectsSet (set_mesh "empire" r.2 (_objectsSet r.1)) r.1).

(** [Texture()]: all handles [VK_NULL_HANDLE]. *)
Definition default_texture : Texture := mkTexture (mkAllocatedImage 0 0) 0.

(** The transform [glm::translate(glm::vec3(1.0f))] (matrices are opaque). *)
Definition map_transform : mat4 := 1.

(** [init_scene] (1142-1195): the renderable, the sampler, the texture
    descriptor set of the material (allocated from the pool, call not
    checked) and its write.  [_loadedTextures["empire_diffuse"]] inserts an
    empty texture when the key is absent, and a descriptor write with a
    [VK_NULL_HANDLE] image view is invalid. *)
Definition init_scene (e : Engine) : result Engine :=
  let sets := _objectsSet e in
  let map := mkRenderObject (get_mesh "empire" sets) (get_material "texturedmesh" sets)
                            map_transform in
  let e := set_objectsSet (push_renderable map sets) e in
  let! e := create_registered Sampler e in
  let texturedMat := get_material "texturedmesh" (_objectsSet e) in
  let textureSet := Z.of_nat (next_id e) + 1 in
  let e := set_next (S (next_id e)) e in
  match set_texture texturedMat textureSet (_objectsSet e) with
  | None => Err NullDeref
  | Some sets' =>
      let e := set_objectsSet sets' e in
      let tex := default default_texture (_loadedTextures e !! "empire_diffuse") in
      let e := set_textures (<["empire_diffuse" := tex]> (_loadedTextures e)) e in
      if decide (DescriptorPool ∈ live e /\ SingleTextureSetLayout ∈ live e /\ imageView tex <> 0)
      then Ok e else Err Validation
  end.

(** [init_imgui] (297-361): the ImGui descriptor pool and the font upload
    through [immediate_submit]; ImGui's own Vulkan objects are not
    modelled. *)
Definition init_imgui (p : Platform) (e : Engine) : result Engine :=
  let! e := create ImguiPool e in
  let! e := immediate_submit p [] e in
  Ok (register [ImguiPool] e).

(** [VulkanEngine::init] (48-92). *)
Definition init (p : Platform) (e : Engine) : result Engine :=
  let! e := init_vulkan e in
  let! e := init_swapchain p e in
  let! e := init_commands e in
  let! e := init_default_renderpass e in
  let! e := init_framebuffers e in
  let! e := init_sync_structures e in
  let! e := init_descriptors p e in
  let! e := init_pipelines p e in
  let! e := load_mipmap_texture p e in
  let! e := load_meshes p e in
  let! e := init_scene e in
  let! e := init_imgui p e in
  Ok (set_initialized true e).

(** Running one deletor: its objects destroyed in order. *)
Definition run_deletor : Deletor -> result (gset GpuObj) -> result (gset GpuObj) :=
  destroy_group depends.

(** [VulkanEngine::cleanup] (94-128): after [vkDeviceWaitIdle], flush the
    deletion queue, then destroy the device, the surface, the debug
    messenger and the instance.  The result is the set of objects left. *)
Definition cleanup (e : Engine) : result (gset GpuObj) :=
  if _isInitialized e then
    let '(w, _) := flush run_deletor (_mainDeletionQueue e) (Ok (live e)) in
    let! l := w in
    destroy_all depends [Device; Surface; DebugMessenger; Instance] l
  else Ok (live e).

(** ** Symbolic execution of the steps *)

Definition dels (e : Engine) : list Deletor := deletors (_mainDeletionQueue e).

(** The order in which [cleanup] destroys the objects. *)
Definition cleanup_order (e : Engine) : list GpuObj :=
  concat (rev (dels e)) ++ [Device; Surface; DebugMessenger; Instance].

Ltac simpl_engine :=
  cbn [live _mainDeletionQueue next_id _swapchainImageCount _sceneParameterBuffer _frameBuffers
       _objectsSet _loadedTextures mipLevels _isInitialized set_live register set_next
       set_imageCount set_sceneBuffer set_frameBuffers set_objectsSet set_textures set_mipLevels
       set_initialized set_queue dels push_function deletors] in *.

Ltac req_solver := cbn [requires parents app]; repeat constructor; cbv beta; set_solver.

Lemma create_ok o e :
  o ∉ live e -> Forall (fun p => p ∈ live e) (requires o) ->
  create o e = Ok (set_live ({[o]} ∪ live e) e).
Proof. intros Ho Hr. unfold create. by rewrite decide_True. Qed.

Lemma create_registered_ok o e :
  o ∉ live e -> Forall (fun p => p ∈ live e) (requires o) ->
  create_registered o e = Ok (register [o] (set_live ({[o]} ∪ live e) e)).
Proof. intros Ho Hr. unfold create_registered. by rewrite create_ok. Qed.

Lemma destroy_now_ok o e :
  o ∈ live e -> (forall d, d ∈ live e -> o ∉ parents d) ->
  destroy_now o e = Ok (set_live (live e ∖ {[o]}) e).
Proof.
  intros Ho Hd. unfold destroy_now, destroy. rewrite decide_True; [done|].
  split; [done|]. intros d Hd'. unfold depends. apply bool_decide_eq_false_2. by apply Hd.
Qed.

(** One symbolic step: a creation whose side conditions [set_solver]
    discharges from the hypotheses on the live set. *)
Ltac step :=
  first [ rewrite create_registered_ok; [cbn [rbind] | simpl_engine; set_solver | simpl_engine; req_solver]
        | rewrite create_ok; [cbn [rbind] | simpl_engine; set_solver | simpl_engine; req_solver] ].

Definition views (n : nat) : gset GpuObj := list_to_set (SwapchainImageView <$> seq 0 n).
Definition fbs (n : nat) : gset GpuObj := list_to_set (Framebuffer <$> seq 0 n).
Definition fb_dels (s n : nat) : list Deletor :=
  (fun i => [Framebuffer i; SwapchainImageView i]) <$> seq s n.

Lemma set_live_idem L1 L2 e : set_live L1 (set_live L2 e) = set_live L1 e.
Proof. done. Qed.

Lemma for_each_views s n e :
  Device ∈ live e -> Swapchain ∈ live e -> (forall i, (s <= i)%nat -> SwapchainImageView i ∉ live e) ->
  for_each (seq s n) (fun i => create (SwapchainImageView i)) e
  = Ok (set_live (list_to_set (SwapchainImageView <$> seq s n) ∪ live e) e).
Proof.
  revert s e. induction n as [|n IH]; intros s e Hd Hs Hv; cbn [seq fmap list_fmap for_each].
  { f_equal. destruct e. unfold set_live. simpl. f_equal. set_solver. }
  rewrite create_ok; [cbn [rbind]| apply Hv; lia | req_solver].
  rewrite IH; simpl_engine; [|set_solver|set_solver|].
  - rewrite set_live_idem. do 2 f_equal. set_solver.
  - intros i Hi. rewrite elem_of_union, elem_of_singleton. intros [Hi'|Hi']; [injection Hi'; lia|].
    revert Hi'. apply Hv. lia.
Qed.

(** The data fields [init] threads besides the objects. *)
Definition same_data (e e' : Engine) : Prop :=
  next_id e' = next_id e /\ _objectsSet e' = _objectsSet e /\
  _loadedTextures e' = _loadedTextures e /\ _isInitialized e' = _isInitialized e.

(** Close a step lemma: the state reached, its live set by [set_solver],
    its deletors by associativity. *)
Ltac finish :=
  eexists; split; [reflexivity|]; unfold same_data; simpl_engine;
  rewrite <- ?app_assoc; split_and!; try done; unfold views, fbs; set_solver.

Lemma init_vulkan_spec :
  init_vulkan engine0 =
  Ok (register [Allocator]
        (set_live {[Allocator; Device; Surface; DebugMessenger; Instance]} engine0)).
Proof. vm_compute. reflexivity. Qed.

Lemma init_swapchain_spec p e :
  Device ∈ live e -> Surface ∈ live e -> Allocator ∈ live e ->
  Swapchain ∉ live e -> DepthImage ∉ live e -> DepthImageView ∉ live e ->
  (forall i, SwapchainImageView i ∉ live e) ->
  exists e', init_swapchain p e = Ok e' /\
    live e' = {[DepthImageView; DepthImage; Swapchain]} ∪ views (swapchainImages p) ∪ live e /\
    dels e' = dels e ++ [[Swapchain]; [DepthImage]; [DepthImageView]] /\
    _swapchainImageCount e' = swapchainImages p /\ same_data e e'.
Proof.
  intros. unfold init_swapchain. step.
  rewrite for_each_views; simpl_engine; [cbn [rbind]|set_solver|set_solver|set_solver].
  step. step. finish.
Qed.

Lemma frames_eq : frames = [0; 1]%nat.
Proof. reflexivity. Qed.

Lemma init_commands_spec e :
  Device ∈ live e -> UploadCommandPool ∉ live e ->
  FrameCommandPool 0 ∉ live e -> FrameCommandPool 1 ∉ live e ->
  exists e', init_commands e = Ok e' /\
    live e' = {[FrameCommandPool 1; FrameCommandPool 0; UploadCommandPool]} ∪ live e /\
    dels e' = dels e ++ [[UploadCommandPool]; [FrameCommandPool 0]; [FrameCommandPool 1]] /\
    _swapchainImageCount e' = _swapchainImageCount e /\ same_data e e'.
Proof.
  intros. unfold init_commands. step. rewrite frames_eq. cbn [for_each].
  step. cbn [rbind]. step. cbn [rbind]. finish.
Qed.

Lemma init_default_renderpass_spec e :
  Device ∈ live e -> RenderPass ∉ live e ->
  exists e', init_default_renderpass e = Ok e' /\
    live e' = {[RenderPass]} ∪ live e /\ dels e' = dels e ++ [[RenderPass]] /\
    _swapchainImageCount e' = _swapchainImageCount e /\ same_data e e'.
Proof. intros. unfold init_default_renderpass. step. finish. Qed.

Lemma for_each_fbs s n e :
  Device ∈ live e -> RenderPass ∈ live e -> DepthImageView ∈ live e ->
  (forall i, (s <= i < s + n)%nat -> SwapchainImageView i ∈ live e) ->
  (forall i, (s <= i)%nat -> Framebuffer i ∉ live e) ->
  exists e', for_each (seq s n) (fun i e => let! e := create (Framebuffer i) e in
                                            Ok (register [Framebuffer i; SwapchainImageView i] e)) e
             = Ok e' /\
    live e' = list_to_set (Framebuffer <$> seq s n) ∪ live e /\ dels e' = dels e ++ fb_dels s n /\
    _swapchainImageCount e' = _swapchainImageCount e /\ same_data e e'.
Proof.
  revert s e. induction n as [|n IH]; intros s e Hd Hr Hdv Hv Hf; cbn [seq fmap list_fmap for_each].
  { exists e. unfold same_data. rewrite app_nil_r. split_and!; try done. set_solver. }
  rewrite create_ok; [cbn [rbind] | apply Hf; lia | cbn [requires parents app]; repeat constructor;
                      cbv beta; try done; apply Hv; lia].
  set (e1 := register [Framebuffer s; SwapchainImageView s] (set_live ({[Framebuffer s]} ∪ live e) e)).
  assert (H1 : Device ∈ live e1 /\ RenderPass ∈ live e1 /\ DepthImageView ∈ live e1)
    by (subst e1; simpl_engine; set_solver).
  assert (H2 : forall i, (S s <= i < S s + n)%nat -> SwapchainImageView i ∈ live e1).
  { intros i Hi. subst e1; simpl_engine. apply elem_of_union_r, Hv. lia. }
  assert (H3 : forall i, (S s <= i)%nat -> Framebuffer i ∉ live e1).
  { intros i Hi. subst e1; simpl_engine. rewrite elem_of_union, elem_of_singleton.
    intros [Hi'|Hi']; [injection Hi'; lia|]. revert Hi'. apply Hf. lia. }
  destruct H1 as (? & ? & ?).
  destruct (IH (S s) e1) as (e' & He & Hl & Hds & Hc & Hsame); try done.
  exists e'. rewrite He, Hl, Hds, Hc. subst e1. simpl_engine. destruct Hsame as (? & ? & ? & ?).
  unfold same_data. unfold fb_dels. cbn [seq fmap list_fmap]. rewrite <- app_assoc.
  split_and!; try done. set_solver.
Qed.

Lemma init_framebuffers_spec e :
  Device ∈ live e -> RenderPass ∈ live e -> DepthImageView ∈ live e ->
  (forall i, (i < _swapchainImageCount e)%nat -> SwapchainImageView i ∈ live e) ->
  (forall i, Framebuffer i ∉ live e) ->
  exists e', init_framebuffers e = Ok e' /\
    live e' = fbs (_swapchainImageCount e) ∪ live e /\
    dels e' = dels e ++ fb_dels 0 (_swapchainImageCount e) /\
    _swapchainImageCount e' = _swapchainImageCount e /\ same_data e e'.
Proof.
  intros Hd Hr Hdv Hv Hf. unfold init_framebuffers.
  destruct (for_each_fbs 0 (_swapchainImageCount e) e) as (e' & He & ?);
    [done|done|done|intros i Hi; apply Hv; lia|intros i _; apply Hf|].
  exists e'. by rewrite He.
Qed.

Lemma init_sync_structures_spec e :
  Device ∈ live e ->
  Forall (fun o => o ∉ live e) [UploadFence; RenderFence 0; PresentSemaphore 0; RenderSemaphore 0;
                                RenderFence 1; PresentSemaphore 1; RenderSemaphore 1] ->
  exists e', init_sync_structures e = Ok e' /\
    live e' = {[UploadFence; RenderFence 0; PresentSemaphore 0; RenderSemaphore 0;
                RenderFence 1; PresentSemaphore 1; RenderSemaphore 1]} ∪ live e /\
    dels e' = dels e ++ [[UploadFence]; [RenderFence 0]; [PresentSemaphore 0]; [RenderSemaphore 0];
                         [RenderFence 1]; [PresentSemaphore 1]; [RenderSemaphore 1]] /\
    _swapchainImageCount e' = _swapchainImageCount e /\ same_data e e'.
Proof.
  intros Hd Hfresh. repeat (apply Forall_cons in Hfresh as [? Hfresh]).
  unfold init_sync_structures. step. rewrite frames_eq. cbn [for_each].
  step. step. step. cbn [rbind]. step. step. step. cbn [rbind]. finish.
Qed.

Lemma create_buffer_ok p b sz e :
  0 < sz <= maxAllocation p -> Buffer (next_id e) ∉ live e -> Device ∈ live e -> Allocator ∈ live e ->
  create_buffer p b sz e =
  Ok ((if b then fun x => x else register [Buffer (next_id e)])
        (set_live ({[Buffer (next_id e)]} ∪ live e) (set_next (S (next_id e)) e)),
      mkAllocatedBuffer (Z.of_nat (next_id e) + 1) (Z.of_nat (next_id e) + 1)).
Proof.
  intros Hsz Hb Hd Ha. unfold create_buffer.
  rewrite (proj2 (Z.ltb_lt 0 sz)), (proj2 (Z.leb_le sz (maxAllocation p))) by lia. cbn [andb].
  rewrite create_ok; simpl_engine; [by destruct b|done|req_solver].
Qed.

(** Buffers and shader modules are never the parent of another object. *)
Lemma leaf_no_children o d :
  (exists k, o = Buffer k) \/ o = TriangleVertexShader \/ o = TexturedMeshShader -> o ∉ parents d.
Proof. intros Ho. destruct d; simpl; set_solver. Qed.

Ltac step_buffer :=
  rewrite create_buffer_ok; [cbn [rbind fst snd]; simpl_engine | lia | simpl_engine; set_solver
                            | simpl_engine; set_solver | simpl_engine; set_solver].

Lemma init_descriptors_spec p e :
  next_id e = 0%nat -> Device ∈ live e -> Allocator ∈ live e ->
  Forall (fun o => o ∉ live e) [GlobalSetLayout; ObjectSetLayout; SingleTextureSetLayout;
                                DescriptorPool; Buffer 0; Buffer 1; Buffer 2; Buffer 3; Buffer 4] ->
  0 < sceneParamBufferSize (minUboAlignment p) <= maxAllocation p ->
  sizeof_GPUObjectData * MAX_OBJECTS_NUM <= maxAllocation p ->
  exists e', init_descriptors p e = Ok e' /\
    live e' = {[GlobalSetLayout; ObjectSetLayout; SingleTextureSetLayout; DescriptorPool;
                Buffer 0; Buffer 1; Buffer 2; Buffer 3; Buffer 4]} ∪ live e /\
    dels e' = dels e ++ [[GlobalSetLayout]; [ObjectSetLayout]; [SingleTextureSetLayout];
                         [DescriptorPool]; [Buffer 0]; [Buffer 1]; [Buffer 2]; [Buffer 3]; [Buffer 4]] /\
    next_id e' = 5%nat /\ _swapchainImageCount e' = _swapchainImageCount e /\
    _objectsSet e' = _objectsSet e /\ _loadedTextures e' = _loadedTextures e /\
    _isInitialized e' = _isInitialized e.
Proof.
  destruct e as [i0 l0 q0 n0 c0 sb0 fb0 os0 tx0 ml0]. simpl_engine.
  intros Hid Hd Ha Hfresh Hs Ho. subst n0. repeat (apply Forall_cons in Hfresh as [? Hfresh]).
  assert (0 < sizeof_GPUCameraData <= maxAllocation p) by (unfold sizeof_GPUCameraData,
    sizeof_GPUObjectData, MAX_OBJECTS_NUM in *; lia).
  assert (0 < sizeof_GPUObjectData * MAX_OBJECTS_NUM <= maxAllocation p)
    by (unfold sizeof_GPUObjectData, MAX_OBJECTS_NUM in *; lia).
  unfold init_descriptors. step. step. step. step.
  step_buffer. rewrite frames_eq. cbn [for_each].
  step_buffer. step_buffer. cbn [rbind]. step_buffer. step_buffer. cbn [rbind].
  eexists. split; [reflexivity|]. simpl_engine. rewrite <- ?app_assoc. split_and!; try done.
  set_solver.
Qed.

Lemma init_pipelines_spec p e :
  vertShaderLoads p = true -> fragShaderLoads p = true ->
  Forall (fun o => o ∈ live e) [Device; GlobalSetLayout; ObjectSetLayout; SingleTextureSetLayout;
                                RenderPass] ->
  Forall (fun o => o ∉ live e) [TriangleVertexShader; TexturedMeshShader; MeshPipelineLayout;
                                TexturePipelineLayout; TexPipeline] ->
  exists e', init_pipelines p e = Ok e' /\
    live e' = {[MeshPipelineLayout; TexturePipelineLayout; TexPipeline]} ∪ live e /\
    dels e' = dels e ++ [[MeshPipelineLayout]; [TexturePipelineLayout]; [TexPipeline]] /\
    next_id e' = next_id e /\ _swapchainImageCount e' = _swapchainImageCount e /\
    _objectsSet e' = (create_material (obj_handle TexPipeline) (obj_handle TexturePipelineLayout)
                        "texturedmesh" (_objectsSet e)).1 /\
    _loadedTextures e' = _loadedTextures e /\ _isInitialized e' = _isInitialized e.
Proof.
  intros Hv Hf Hlive Hfresh. repeat (apply Forall_cons in Hlive as [? Hlive]).
  repeat (apply Forall_cons in Hfresh as [? Hfresh]).
  unfold init_pipelines, load_shader_module. rewrite Hv, Hf. step. step. step. step. step.
  rewrite destroy_now_ok; simpl_engine; [cbn [rbind]|set_solver|intros; apply leaf_no_children; auto].
  rewrite destroy_now_ok; simpl_engine; [|set_solver|intros; apply leaf_no_children; auto].
  eexists. split; [reflexivity|]. simpl_engine. rewrite <- ?app_assoc. split_and!; try done.
  set_solver.
Qed.

(** The texture file decodes to a [w] x [h] image whose pixel data fits
    in an [int] and in one allocation, in a format that supports linear
    blits. *)
Definition texture_ok (p : Platform) (w h : Z) : Prop :=
  textureFile p = Some (w, h) /\ 1 <= w < 2 ^ 31 /\ 1 <= h < 2 ^ 31 /\
  w * h * 4 < 2 ^ 31 /\ w * h * 4 <= maxAllocation p /\ Z.testbit (formatFeatures p) 12 = true.

Lemma load_mipmap_texture_steps p e w h :
  texture_ok p w h -> next_id e = 5%nat ->
  Forall (fun o => o ∈ live e) [Device; Allocator; UploadCommandPool] ->
  Forall (fun o => o ∉ live e) [Buffer 5; TextureImage; TextureImageView] ->
  exists e', load_mipmap_texture p e = Ok e' /\
    live e' = {[TextureImage; TextureImageView]} ∪ live e /\
    dels e' = dels e ++ [[TextureImage]; [TextureImageView]] /\
    next_id e' = 6%nat /\ _swapchainImageCount e' = _swapchainImageCount e /\
    _objectsSet e' = _objectsSet e /\
    _loadedTextures e' !! "empire_diffuse" =
      Some (mkTexture (mkAllocatedImage (obj_handle TextureImage) (obj_handle TextureImage))
                      (obj_handle TextureImageView)) /\
    _isInitialized e' = _isInitialized e.
Proof.
  intros (Hf & Hw & Hh & Hs & Hmax & Hfeat).
  destruct e as [i0 l0 q0 n0 c0 sb0 fb0 os0 tx0 ml0]. simpl_engine.
  intros Hid Hlive Hfresh. subst n0.
  repeat (apply Forall_cons in Hlive as [? Hlive]). repeat (apply Forall_cons in Hfresh as [? Hfresh]).
  destruct (load_image_exec (formatFeatures p) w h Hfeat Hw Hh) as (bufs & Hb & Hx).
  pose proof (mip_count_range w h Hw Hh).
  unfold load_mipmap_texture, load_image_from_file. rewrite Hf. cbn [rbind].
  rewrite create_buffer_ok; simpl_engine;
    [cbn [rbind] | rewrite (proj2 (image_size_value w h ltac:(lia) ltac:(lia)) Hs); nia
    | set_solver | set_solver | set_solver].
  step. rewrite decide_True by (simpl_engine; set_solver).
  rewrite Hb. cbn [rbind]. unfold to_uint32. rewrite !wrap_small by lia. rewrite Hx. cbn [rbind].
  rewrite destroy_now_ok; simpl_engine;
    [cbn [rbind] | set_solver | intros; apply leaf_no_children; left; eexists; reflexivity].
  step. eexists. split; [reflexivity|]. simpl_engine. rewrite <- ?app_assoc.
  split_and!; try done; [|by rewrite lookup_insert].
  unfold buffer_of. cbn [_buffer]. replace (Z.to_nat (Z.of_nat 5 + 1 - 1)) with 5%nat by lia.
  set_solver.
Qed.

(** C21. Texture upload protocol of [load_mipmap_texture]: on a texture
    that loads, it creates the image and its view, registers exactly their
    two destructors, destroys the staging buffer before returning (it is
    never registered), and stores the texture under ["empire_diffuse"]. *)
Lemma load_mipmap_texture_spec p e w h :
  texture_ok p w h -> next_id e = 5%nat ->
  Forall (fun o => o ∈ live e) [Device; Allocator; UploadCommandPool] ->
  Forall (fun o => o ∉ live e) [Buffer 5; TextureImage; TextureImageView] ->
  exists e', load_mipmap_texture p e = Ok e' /\
    live e' = {[TextureImage; TextureImageView]} ∪ live e /\
    dels e' = dels e ++ [[TextureImage]; [TextureImageView]] /\
    next_id e' = 6%nat /\ _swapchainImageCount e' = _swapchainImageCount e /\
    _objectsSet e' = _objectsSet e /\
    _loadedTextures e' !! "empire_diffuse" =
      Some (mkTexture (mkAllocatedImage (obj_handle TextureImage) (obj_handle TextureImage))
                      (obj_handle TextureImageView)) /\
    _isInitialized e' = _isInitialized e.
Proof. apply load_mipmap_texture_steps. Qed.


(** The mesh file yields at least one vertex and the vertex data fits in
    one allocation; the upload fence wait does not time out. *)
Definition mesh_ok (p : Platform) : Prop :=
  0 < Z.of_nat (length (meshVertices p)) * sizeof_Vertex <= maxAllocation p /\
  Z.of_nat (length (meshVertices p)) * sizeof_Vertex < 2 ^ 64 /\ uploadWaitOk p = true.

Lemma buffer_of_id (k : nat) : buffer_of (mkAllocatedBuffer (Z.of_nat k + 1) (Z.of_nat k + 1)) = Buffer k.
Proof. unfold buffer_of. cbn [_buffer]. f_equal. lia. Qed.

(** [load_texture] has the upload protocol of [load_mipmap_texture]: the
    same objects, deletors and texture entry, through [immediate_submit]
    instead of single-time command buffers. *)
Lemma load_texture_steps p e w h :
  texture_ok p w h -> uploadWaitOk p = true -> next_id e = 5%nat ->
  Forall (fun o => o ∈ live e) [Device; Allocator; UploadFence; UploadCommandPool] ->
  Forall (fun o => o ∉ live e) [Buffer 5; TextureImage; TextureImageView] ->
  exists e', load_texture p e = Ok e' /\
    live e' = {[TextureImage; TextureImageView]} ∪ live e /\
    dels e' = dels e ++ [[TextureImage]; [TextureImageView]] /\
    next_id e' = 6%nat /\ _swapchainImageCount e' = _swapchainImageCount e /\
    _objectsSet e' = _objectsSet e /\
    _loadedTextures e' !! "empire_diffuse" =
      Some (mkTexture (mkAllocatedImage (obj_handle TextureImage) (obj_handle TextureImage))
                      (obj_handle TextureImageView)) /\
    _isInitialized e' = _isInitialized e.
Proof.
  intros (Hf & Hw & Hh & Hs & Hmax & Hfeat) Hwait.
  destruct e as [i0 l0 q0 n0 c0 sb0 fb0 os0 tx0 ml0]. simpl_engine.
  intros Hid Hlive Hfresh. subst n0.
  repeat (apply Forall_cons in Hlive as [? Hlive]). repeat (apply Forall_cons in Hfresh as [? Hfresh]).
  unfold load_texture, load_image_from_file_single. rewrite Hf. cbn [rbind].
  rewrite create_buffer_ok; simpl_engine;
    [cbn [rbind] | rewrite (proj2 (image_size_value w h ltac:(lia) ltac:(lia)) Hs); nia
    | set_solver | set_solver | set_solver].
  step. unfold to_uint32. rewrite !wrap_small by lia.
  rewrite load_image_single_layouts by lia. cbn [rbind].
  unfold immediate_submit. rewrite buffer_of_id.
  rewrite decide_True by (simpl_engine; repeat constructor; cbv beta; set_solver).
  rewrite Hwait. cbn [rbind].
  rewrite destroy_now_ok; simpl_engine;
    [cbn [rbind] | set_solver | intros; apply leaf_no_children; left; eexists; reflexivity].
  step. eexists. split; [reflexivity|]. simpl_engine. rewrite <- ?app_assoc.
  split_and!; try done; [|by rewrite lookup_insert].
  unfold buffer_of. cbn [_buffer]. replace (Z.to_nat (Z.of_nat 5 + 1 - 1)) with 5%nat by lia.
  set_solver.
Qed.

Lemma load_meshes_steps p e :
  mesh_ok p -> next_id e = 6%nat ->
  Forall (fun o => o ∈ live e) [Device; Allocator; UploadFence; UploadCommandPool] ->
  Forall (fun o => o ∉ live e) [Buffer 6; Buffer 7] ->
  exists e', load_meshes p e = Ok e' /\
    live e' = {[Buffer 7]} ∪ live e /\ dels e' = dels e ++ [[Buffer 7]] /\
    next_id e' = 8%nat /\ _swapchainImageCount e' = _swapchainImageCount e /\
    _objectsSet e' = set_mesh "empire" (mkMesh (meshVertices p) (mkAllocatedBuffer 8 8)) (_objectsSet e) /\
    _loadedTextures e' = _loadedTextures e /\ _isInitialized e' = _isInitialized e.
Proof.
  intros (Hsz & Hsz64 & Hwait).
  destruct e as [i0 l0 q0 n0 c0 sb0 fb0 os0 tx0 ml0]. simpl_engine.
  intros Hid Hlive Hfresh. subst n0.
  repeat (apply Forall_cons in Hlive as [? Hlive]). repeat (apply Forall_cons in Hfresh as [? Hfresh]).
  unfold load_meshes, upload_mesh, to_size_t. rewrite wrap_small by lia.
  step_buffer. step_buffer. unfold immediate_submit. rewrite !buffer_of_id.
  rewrite decide_True by (simpl_engine; repeat constructor; cbv beta; set_solver).
  rewrite Hwait. cbn [rbind].
  rewrite destroy_now_ok; simpl_engine;
    [cbn [rbind] | set_solver | intros; apply leaf_no_children; left; eexists; reflexivity].
  eexists. split; [reflexivity|]. simpl_engine. rewrite <- ?app_assoc. split_and!; try done.
  set_solver.
Qed.

(** C22. Mesh upload protocol of [load_meshes]: the only object left is
    the vertex buffer, whose destructor is the only one registered; the
    staging buffer is destroyed right after the one-shot copy; the mesh is
    stored under ["empire"] with that vertex buffer. *)
Lemma load_meshes_spec p e :
  mesh_ok p -> next_id e = 6%nat ->
  Forall (fun o => o ∈ live e) [Device; Allocator; UploadFence; UploadCommandPool] ->
  Forall (fun o => o ∉ live e) [Buffer 6; Buffer 7] ->
  exists e', load_meshes p e = Ok e' /\
    live e' = {[Buffer 7]} ∪ live e /\ dels e' = dels e ++ [[Buffer 7]] /\
    next_id e' = 8%nat /\ _swapchainImageCount e' = _swapchainImageCount e /\
    _objectsSet e' = set_mesh "empire" (mkMesh (meshVertices p) (mkAllocatedBuffer 8 8)) (_objectsSet e) /\
    _loadedTextures e' = _loadedTextures e /\ _isInitialized e' = _isInitialized e.
Proof. apply load_meshes_steps. Qed.

Lemma init_scene_spec e m t :
  _materials (_objectsSet e) !! "texturedmesh" = Some m ->
  _loadedTextures e !! "empire_diffuse" = Some t -> imageView t <> 0 ->
  Forall (fun o => o ∈ live e) [Device; DescriptorPool; SingleTextureSetLayout] -> Sampler ∉ live e ->
  exists e', init_scene e = Ok e' /\
    live e' = {[Sampler]} ∪ live e /\ dels e' = dels e ++ [[Sampler]] /\
    _swapchainImageCount e' = _swapchainImageCount e /\ _isInitialized e' = _isInitialized e.
Proof.
  intros Hm Ht Hv Hlive Hs. repeat (apply Forall_cons in Hlive as [? Hlive]).
  unfold init_scene. step. simpl_engine.
  unfold get_material, set_texture. cbn [push_renderable _materials]. rewrite !Hm. rewrite Ht.
  cbn [default]. rewrite decide_True by (split_and!; set_solver || done).
  eexists. split; [reflexivity|]. simpl_engine. split_and!; try done.
Qed.

Lemma init_imgui_spec p e :
  uploadWaitOk p = true ->
  Forall (fun o => o ∈ live e) [Device; UploadFence; UploadCommandPool] -> ImguiPool ∉ live e ->
  exists e', init_imgui p e = Ok e' /\
    live e' = {[ImguiPool]} ∪ live e /\ dels e' = dels e ++ [[ImguiPool]] /\
    _isInitialized e' = _isInitialized e.
Proof.
  intros Hwait Hlive Hi. repeat (apply Forall_cons in Hlive as [? Hlive]).
  unfold init_imgui. step. unfold immediate_submit.
  rewrite decide_True by (simpl_engine; repeat constructor; cbv beta; set_solver).
  rewrite Hwait. cbn [rbind]. eexists. split; [reflexivity|]. simpl_engine. split_and!; try done.
Qed.

(** ** The whole of [init] *)

(** The platform answers under which [init] completes: the shaders, the
    texture and the mesh load, and every buffer fits in one allocation. *)
Definition platform_ok (p : Platform) (w h : Z) : Prop :=
  vertShaderLoads p = true /\ fragShaderLoads p = true /\ texture_ok p w h /\ mesh_ok p /\
  0 < sceneParamBufferSize (minUboAlignment p) <= maxAllocation p /\
  sizeof_GPUObjectData * MAX_OBJECTS_NUM <= maxAllocation p.

(** The deletors registered before and after the framebuffers. *)
Definition dels_before : list Deletor :=
  [[Allocator]; [Swapchain]; [DepthImage]; [DepthImageView]; [UploadCommandPool];
   [FrameCommandPool 0]; [FrameCommandPool 1]; [RenderPass]].

Definition dels_after : list Deletor :=
  [[UploadFence]; [RenderFence 0]; [PresentSemaphore 0]; [RenderSemaphore 0];
   [RenderFence 1]; [PresentSemaphore 1]; [RenderSemaphore 1];
   [GlobalSetLayout]; [ObjectSetLayout]; [SingleTextureSetLayout]; [DescriptorPool];
   [Buffer 0]; [Buffer 1]; [Buffer 2]; [Buffer 3]; [Buffer 4];
   [MeshPipelineLayout]; [TexturePipelineLayout]; [TexPipeline];
   [TextureImage]; [TextureImageView]; [Buffer 7]; [Sampler]; [ImguiPool]].

Lemma elem_of_views n i : (i < n)%nat -> SwapchainImageView i ∈ views n.
Proof. intros Hi. unfold views. apply elem_of_list_to_set, list_elem_of_fmap_2, elem_of_seq. lia. Qed.

Ltac rewrite_live :=
  repeat match goal with H : live ?e = _ |- context [live ?e] => rewrite H end.

Ltac clear_props :=
  repeat match goal with H : ?T |- _ => match type of T with Prop => clear H end end.

Ltac live_solver :=
  rewrite_live; clear_props; unfold views, fbs;
  repeat match goal with |- Forall _ _ => constructor end; cbv beta; set_solver.

Lemma init_result p w h :
  platform_ok p w h ->
  exists e, init p engine0 = Ok e /\ _isInitialized e = true /\
    dels e = dels_before ++ fb_dels 0 (swapchainImages p) ++ dels_after /\
    live e = list_to_set (concat dels_before) ∪ views (swapchainImages p)
             ∪ fbs (swapchainImages p) ∪ list_to_set (concat dels_after)
             ∪ {[Device; Surface; DebugMessenger; Instance]}.
Proof.
  intros (Hvs & Hfs & Htex & Hmesh & Hscene & Hobj).
  set (e1 := register [Allocator] (set_live {[Allocator; Device; Surface; DebugMessenger; Instance]} engine0)).
  assert (Hl1 : live e1 = {[Allocator; Device; Surface; DebugMessenger; Instance]}) by reflexivity.
  destruct (init_swapchain_spec p e1) as (e2 & He2 & Hl2 & Hd2 & Hc2 & Hn2 & Ho2 & Ht2 & Hi2);
    [live_solver..|].
  destruct (init_commands_spec e2) as (e3 & He3 & Hl3 & Hd3 & Hc3 & Hn3 & Ho3 & Ht3 & Hi3);
    [live_solver..|].
  destruct (init_default_renderpass_spec e3) as (e4 & He4 & Hl4 & Hd4 & Hc4 & Hn4 & Ho4 & Ht4 & Hi4);
    [live_solver..|].
  destruct (init_framebuffers_spec e4) as (e5 & He5 & Hl5 & Hd5 & Hc5 & Hn5 & Ho5 & Ht5 & Hi5);
    [live_solver|live_solver|live_solver| |live_solver|].
  { intros i Hi. rewrite Hc4, Hc3, Hc2 in Hi. apply elem_of_views in Hi. rewrite_live. revert Hi.
    clear_props. set_solver. }
  destruct (init_sync_structures_spec e5) as (e6 & He6 & Hl6 & Hd6 & Hc6 & Hn6 & Ho6 & Ht6 & Hi6);
    [live_solver..|].
  destruct (init_descriptors_spec p e6) as (e7 & He7 & Hl7 & Hd7 & Hn7 & Hc7 & Ho7 & Ht7 & Hi7);
    [by rewrite Hn6, Hn5, Hn4, Hn3, Hn2|live_solver|live_solver|live_solver|done|done|].
  destruct (init_pipelines_spec p e7) as (e8 & He8 & Hl8 & Hd8 & Hn8 & Hc8 & Ho8 & Ht8 & Hi8);
    [done|done|live_solver|live_solver|].
  destruct (load_mipmap_texture_steps p e8 w h) as (e9 & He9 & Hl9 & Hd9 & Hn9 & Hc9 & Ho9 & Ht9 & Hi9);
    [done|by rewrite Hn8, Hn7|live_solver|live_solver|].
  destruct (load_meshes_steps p e9) as (e10 & He10 & Hl10 & Hd10 & Hn10 & Hc10 & Ho10 & Ht10 & Hi10);
    [done|done|live_solver|live_solver|].
  destruct (init_scene_spec e10 (mkMaterial None (obj_handle TexPipeline) (obj_handle TexturePipelineLayout))
              (mkTexture (mkAllocatedImage (obj_handle TextureImage) (obj_handle TextureImage))
                         (obj_handle TextureImageView)))
    as (e11 & He11 & Hl11 & Hd11 & Hc11 & Hi11); [| |unfold obj_handle; cbn [imageView]; lia
                                                   |live_solver|live_solver|].
  { rewrite Ho10, Ho9, Ho8. unfold set_mesh, create_material. cbn [_materials fst]. by rewrite lookup_insert. }
  { by rewrite Ht10. }
  destruct (init_imgui_spec p e11) as (e12 & He12 & Hl12 & Hd12 & Hi12);
    [by destruct Hmesh as (_ & _ & ?)|live_solver|live_solver|].
  exists (set_initialized true e12). unfold init.
  rewrite init_vulkan_spec. cbn [rbind]. fold e1.
  rewrite He2. cbn [rbind]. rewrite He3. cbn [rbind]. rewrite He4. cbn [rbind]. rewrite He5. cbn [rbind].
  rewrite He6. cbn [rbind]. rewrite He7. cbn [rbind]. rewrite He8. cbn [rbind]. rewrite He9. cbn [rbind].
  rewrite He10. cbn [rbind]. rewrite He11. cbn [rbind]. rewrite He12. cbn [rbind].
  split_and!; [done|done| |].
  - unfold dels in *. simpl_engine. rewrite Hd12, Hd11, Hd10, Hd9, Hd8, Hd7, Hd6, Hd5, Hd4, Hd3, Hd2.
    rewrite Hc4, Hc3, Hc2. rewrite <- !app_assoc. reflexivity.
  - simpl_engine. rewrite_live. rewrite Hc4, Hc3, Hc2. clear_props.
    unfold dels_before, dels_after. cbn [concat app list_to_set]. set_solver.
Qed.

(** ** [cleanup] after [init] *)

Lemma cleanup_spec e :
  _isInitialized e = true -> cleanup e = destroy_all depends (cleanup_order e) (live e).
Proof.
  intros Hi. unfold cleanup, cleanup_order. rewrite Hi. unfold flush. cbv beta iota.
  assert (HF : fold_left (fun w f => run_deletor f w) (rev (dels e)) (Ok (live e))
               = destroy_all depends (concat (rev (dels e))) (live e)) by apply fold_destroy_group.
  unfold dels in HF. rewrite HF, destroy_all_app. reflexivity.
Qed.

(** [cleanup] destroys every live object, breaking no dependency, as soon
    as its order is a teardown order of the live set. *)
Lemma cleanup_ok e :
  _isInitialized e = true -> teardown_order depends (cleanup_order e) ->
  live e = list_to_set (cleanup_order e) -> cleanup e = Ok ∅.
Proof. intros Hi Ht Hl. rewrite cleanup_spec, Hl by done. by apply destroy_all_teardown. Qed.

Definition fb_order (n : nat) : list GpuObj := concat (rev (fb_dels 0 n)).

Lemma fb_order_S n : fb_order (S n) = [Framebuffer n; SwapchainImageView n] ++ fb_order n.
Proof. unfold fb_order, fb_dels. rewrite seq_S, fmap_app, rev_app_distr. reflexivity. Qed.

Definition is_sc (o : GpuObj) : bool :=
  match o with SwapchainImageView _ | Framebuffer _ => true | _ => false end.

(** The objects a framebuffer or a swapchain image view depends on. *)
Definition sc_parent (o : GpuObj) : bool :=
  match o with
  | Device | RenderPass | DepthImageView | Swapchain | SwapchainImageView _ => true
  | _ => false
  end.

Lemma elem_of_fb_order x n :
  x ∈ fb_order n -> exists i, (i < n)%nat /\ (x = Framebuffer i \/ x = SwapchainImageView i).
Proof.
  induction n as [|n IH]; [by intros ?%not_elem_of_nil|].
  rewrite fb_order_S. intros [Hx|Hx]%elem_of_app.
  - exists n. split; [lia|]. set_solver.
  - destruct (IH Hx) as (i & ? & ?). exists i. split; [lia|done].
Qed.

Lemma fb_order_set n : list_to_set (fb_order n) = views n ∪ fbs n.
Proof.
  induction n as [|n IH]; [done|]. rewrite fb_order_S, list_to_set_app_L, IH.
  unfold views, fbs. rewrite seq_S, !fmap_app, !list_to_set_app_L. set_solver.
Qed.

Lemma depends_sc d x : is_sc d = true -> depends d x = true -> sc_parent x = true.
Proof.
  unfold depends. intros Hd Hx%bool_decide_eq_true.
  destruct d; try discriminate; simpl in Hx; set_unfold; naive_solver.
Qed.

Lemma depends_on_sc d x : is_sc x = true -> depends d x = true -> is_sc d = true.
Proof.
  unfold depends. intros Hx Hd%bool_decide_eq_true.
  destruct d; simpl in Hd; set_unfold; destruct x; naive_solver.
Qed.

Lemma teardown_fb_order n : teardown_order depends (fb_order n).
Proof.
  induction n as [|n IH]; [by apply teardown_orderb_sound|].
  rewrite fb_order_S. apply teardown_order_app; [|done| |].
  - unfold depends. apply teardown_order_cons; [set_solver| |apply teardown_order_cons;
      [set_solver| |by apply teardown_orderb_sound]];
      intros d Hd; apply bool_decide_eq_false_2; set_unfold; destruct_or!; subst; simpl;
      set_unfold; naive_solver.
  - intros x Hx Hin. apply elem_of_fb_order in Hin as (i & Hi & Hxi).
    set_unfold. destruct_or!; subst; simplify_eq; lia.
  - intros x d Hx Hd. apply elem_of_fb_order in Hd as (i & Hi & [-> | ->]);
      unfold depends; apply bool_decide_eq_false_2; simpl; set_unfold;
      destruct_or!; subst; intros ?; destruct_or!; simplify_eq; lia.
Qed.

Lemma forallb_elem {A} (f : A -> bool) l x : forallb f l = true -> x ∈ l -> f x = true.
Proof. rewrite forallb_forall. intros H Hx. apply H. by apply list_elem_of_In. Qed.

Definition order_after : list GpuObj := concat (rev dels_after).
Definition order_before : list GpuObj :=
  concat (rev dels_before) ++ [Device; Surface; DebugMessenger; Instance].

Lemma cleanup_order_split e n :
  dels e = dels_before ++ fb_dels 0 n ++ dels_after ->
  cleanup_order e = order_after ++ fb_order n ++ order_before.
Proof.
  intros Hd. unfold cleanup_order, order_after, order_before, fb_order. rewrite Hd.
  rewrite !rev_app_distr, !concat_app, <- !app_assoc. reflexivity.
Qed.

Lemma list_to_set_concat_rev (Ds : list (list GpuObj)) :
  list_to_set (concat (rev Ds)) = (list_to_set (concat Ds) : gset GpuObj).
Proof.
  induction Ds as [|d Ds IH]; [done|]. cbn [rev concat].
  rewrite concat_app, !list_to_set_app_L, IH. cbn [concat]. rewrite app_nil_r. set_solver.
Qed.

Lemma after_before_disjoint :
  forallb (fun o => negb (bool_decide (o ∈ order_before))) order_after = true.
Proof. vm_compute. reflexivity. Qed.

Lemma after_before_independent :
  forallb (fun o => forallb (fun d => negb (depends d o)) order_before) order_after = true.
Proof. vm_compute. reflexivity. Qed.

Lemma teardown_engine n : teardown_order depends (order_after ++ fb_order n ++ order_before).
Proof.
  assert (Hsc_b : forall x, x ∈ order_before -> is_sc x = false).
  { intros x Hx. apply negb_true_iff, (forallb_elem (fun o => negb (is_sc o)) order_before x ltac:(vm_compute; reflexivity) Hx). }
  assert (Hsc_a : forall x, x ∈ order_after -> is_sc x = false).
  { intros x Hx. apply negb_true_iff, (forallb_elem (fun o => negb (is_sc o)) order_after x ltac:(vm_compute; reflexivity) Hx). }
  assert (Hpar_a : forall x, x ∈ order_after -> sc_parent x = false).
  { intros x Hx.
    apply negb_true_iff, (forallb_elem (fun o => negb (sc_parent o)) order_after x ltac:(vm_compute; reflexivity) Hx). }
  assert (Hfb : forall x, x ∈ fb_order n -> is_sc x = true).
  { intros x Hx. apply elem_of_fb_order in Hx as (i & _ & [-> | ->]); done. }
  apply teardown_order_app; [by apply teardown_orderb_sound| |..].
  - apply teardown_order_app; [apply teardown_fb_order|by apply teardown_orderb_sound| |].
    + intros x Hx Hb. apply Hfb in Hx. apply Hsc_b in Hb. congruence.
    + intros x d Hx Hd. destruct (depends d x) eqn:E; [|done].
      apply depends_on_sc in E; [|by apply Hfb]. apply Hsc_b in Hd. congruence.
  - intros x Hx [Hm|Hb]%elem_of_app.
    + apply Hfb in Hm. apply Hsc_a in Hx. congruence.
    + pose proof (forallb_elem _ order_after x after_before_disjoint Hx) as H. cbv beta in H.
      apply negb_true_iff, bool_decide_eq_false in H. done.
  - intros x d Hx [Hm|Hb]%elem_of_app.
    + destruct (depends d x) eqn:E; [|done].
      apply depends_sc in E; [|by apply Hfb]. apply Hpar_a in Hx. congruence.
    + pose proof (forallb_elem _ order_after x after_before_independent Hx) as H. cbv beta in H.
      by apply negb_true_iff, (forallb_elem _ order_before d H).
Qed.

(** [load_mipmap_texture] returns early when [stbi_load] fails. *)
Lemma load_mipmap_texture_missing p e : textureFile p = None -> load_mipmap_texture p e = Ok e.
Proof. intros Hf. unfold load_mipmap_texture, load_image_from_file. by rewrite Hf. Qed.

(** C24. A texture file that fails to load is not a non-fatal skip: the
    early return of [load_mipmap_texture] leaves no ["empire_diffuse"]
    entry, [init_scene]'s [_loadedTextures["empire_diffuse"]] inserts an
    empty [Texture], and the descriptor write then names a
    [VK_NULL_HANDLE] image view. *)
Theorem missing_texture_breaks_scene p e m :
  textureFile p = None -> _materials (_objectsSet e) !! "texturedmesh" = Some m ->
  _loadedTextures e !! "empire_diffuse" = None -> Device ∈ live e -> Sampler ∉ live e ->
  exists e1, load_mipmap_texture p e = Ok e1 /\ init_scene e1 = Err Validation.
Proof.
  intros Hf Hm Ht Hd Hs. exists e. split; [by apply load_mipmap_texture_missing|].
  unfold init_scene. step. simpl_engine. unfold get_material, set_texture.
  cbn [push_renderable _materials]. rewrite !Hm. rewrite Ht. cbn [default default_texture imageView].
  rewrite decide_False; [done|]. intros (_ & _ & H). by apply H.
Qed.

(** C25. An empty mesh is fatal: [load_meshes] does not check
    [load_from_obj], and [upload_mesh] then asks VMA for a buffer of size
    zero, which [VK_CHECK] turns into [abort()]. *)
Theorem empty_mesh_aborts p e : meshVertices p = [] -> load_meshes p e = Err VkAbort.
Proof. intros Hv. unfold load_meshes, upload_mesh. rewrite Hv. reflexivity. Qed.

(** C1. Engine teardown is complete and safe: for every number of
    swapchain images and every platform on which [init] completes (the
    assets load, the buffers fit), [cleanup] after [init] destroys every
    Vulkan, VMA and window-system object the engine created, each exactly
    once and never while an object created from it is still alive: the
    flush of [_mainDeletionQueue] followed by the device, the surface, the
    debug messenger and the instance. *)
Theorem init_cleanup_ok p w h :
  platform_ok p w h -> exists e, init p engine0 = Ok e /\ cleanup e = Ok ∅.
Proof.
  intros Hp. destruct (init_result p w h Hp) as (e & He & Hi & Hd & Hl).
  exists e. split; [done|]. apply cleanup_ok; [done|..]; rewrite (cleanup_order_split e _ Hd).
  - apply teardown_engine.
  - rewrite Hl, !list_to_set_app_L, fb_order_set. unfold order_after, order_before.
    rewrite !list_to_set_app_L, !list_to_set_concat_rev. clear. set_solver.
Qed.

(** ** Witnesses: a platform with three swapchain images, a 1024 x 512
    texture and a three-vertex mesh *)

Definition v0 : Vertex := mkVertex (0, 0, 0) (0, 0, 0) (0, 0, 0) (0, 0).

Definition demo_platform : Platform :=
  mkPlatform 3 true true (Some (1024, 512)) VK_FORMAT_FEATURE_SAMPLED_IMAGE_FILTER_LINEAR_BIT
             [v0; v0; v0] (2 ^ 32) true 256.

Lemma demo_platform_ok : platform_ok demo_platform 1024 512.
Proof.
  unfold platform_ok, texture_ok, mesh_ok. vm_compute.
  split_and!; try reflexivity; intros; discriminate.
Qed.

Lemma init_cleanup_ok_witness :
  exists e, init demo_platform engine0 = Ok e /\ cleanup e = Ok ∅.
Proof. apply (init_cleanup_ok demo_platform 1024 512). exact demo_platform_ok. Defined.

(** The engine just before [load_mipmap_texture] / [load_meshes] / [init_scene]. *)
Definition demo_before_texture : Engine :=
  Eval vm_compute in
  default engine0 (match (let! e := init_vulkan engine0 in let! e := init_swapchain demo_platform e in
                          let! e := init_commands e in let! e := init_default_renderpass e in
                          let! e := init_framebuffers e in let! e := init_sync_structures e in
                          let! e := init_descriptors demo_platform e in init_pipelines demo_platform e)
                   with Ok e => Some e | Err _ => None end).

Ltac by_compute := match goal with |- ?P => apply (bool_decide_eq_true_1 P); vm_compute; reflexivity end.

Lemma missing_texture_breaks_scene_witness :
  exists e1, load_mipmap_texture (mkPlatform 3 true true None 4096 [v0] (2 ^ 32) true 256)
               demo_before_texture = Ok e1 /\ init_scene e1 = Err Validation.
Proof.
  apply (missing_texture_breaks_scene _ demo_before_texture
           (mkMaterial None (obj_handle TexPipeline) (obj_handle TexturePipelineLayout)));
    [reflexivity|reflexivity|reflexivity|by_compute|by_compute].
Defined.

Lemma empty_mesh_aborts_witness :
  load_meshes (mkPlatform 3 true true (Some (4, 4)) 4096 [] (2 ^ 32) true 256) demo_before_texture
  = Err VkAbort.
Proof. apply empty_mesh_aborts. reflexivity. Defined.

Lemma load_mipmap_texture_spec_witness :
  exists e', load_mipmap_texture demo_platform demo_before_texture = Ok e' /\
    live e' = {[TextureImage; TextureImageView]} ∪ live demo_before_texture /\
    dels e' = dels demo_before_texture ++ [[TextureImage]; [TextureImageView]] /\
    next_id e' = 6%nat /\ _swapchainImageCount e' = _swapchainImageCount demo_before_texture /\
    _objectsSet e' = _objectsSet demo_before_texture /\
    _loadedTextures e' !! "empire_diffuse" =
      Some (mkTexture (mkAllocatedImage (obj_handle TextureImage) (obj_handle TextureImage))
                      (obj_handle TextureImageView)) /\
    _isInitialized e' = _isInitialized demo_before_texture.
Proof.
  apply (load_mipmap_texture_spec demo_platform demo_before_texture 1024 512);
    [apply demo_platform_ok|reflexivity|by_compute|by_compute].
Defined.

Definition demo_before_meshes : Engine :=
  Eval vm_compute in
  default engine0 (match load_mipmap_texture demo_platform demo_before_texture with
                   | Ok e => Some e | Err _ => None end).

Lemma load_meshes_spec_witness :
  exists e', load_meshes demo_platform demo_before_meshes = Ok e' /\
    live e' = {[Buffer 7]} ∪ live demo_before_meshes /\ dels e' = dels demo_before_meshes ++ [[Buffer 7]] /\
    next_id e' = 8%nat /\ _swapchainImageCount e' = _swapchainImageCount demo_before_meshes /\
    _objectsSet e' = set_mesh "empire" (mkMesh (meshVertices demo_platform) (mkAllocatedBuffer 8 8))
                       (_objectsSet demo_before_meshes) /\
    _loadedTextures e' = _loadedTextures demo_before_meshes /\
    _isInitialized e' = _isInitialized demo_before_meshes.
Proof.
  apply (load_meshes_spec demo_platform demo_before_meshes);
    [apply demo_platform_ok|reflexivity|by_compute|by_compute].
Defined.

End Engine.
